(* ===== verification/_CoqProject ===== *)
-Q . S2P
Prelude.v
JsString.v
Validation.v
KVStore.v
Clock.v
DateParse.v
NumberFormat.v
Vite.v
Supabase.v
Json.v
Geocoding.v
Model.v
Accounts.v
Reports.v
Notifications.v
Migration.v
Weekly.v
Export.v
MockData.v
HeatMap.v
Session.v
Header.v
System.v
Bell.v
Pages.v
