(* ===== verification/Prelude.v ===== *)
(** * Smart Rubbish Detection: a verification development of its data layer

    The repository is a React web application in which citizens report
    litter on a map, earn eco-points for their reports, and administrators
    move reports through a review workflow.  Most of the logic lives in two
    files, around which the components, pages, the build configuration
    ([src/vite.config.ts]) and the Supabase module ([utils/supabase.ts])
    are arranged:

    - [src/src/app/utils/storage.ts]: the data-access layer over the
      browser's [localStorage]; it holds the account directory (register,
      login, admin login, user lookup, credit synchronisation), the report
      ledger (submission with validation, sanitisation, duplicate
      suppression and the eco-point award; status updates; statistics), the
      notification outbox, and the versioned initialisation and migration of
      the store;
    - [src/src/app/utils/reportGenerator.ts]: the weekly report, a read-only
      aggregation of the ledger and the directory, and its CSV and JSON
      downloads.

    The components interact only through the key-value store: every
    operation reads a JSON array from a key, changes it in memory and writes
    it back, and a report submission writes two keys in sequence (the
    reports, then the users for the point award).

    ** Layout of the development

    - [Prelude] (this file): the library imports, the [srd] hint database,
      the tactics and the generic lemmas on lists and options that the
      components share.
    - [JsString]: the JavaScript string primitives the code calls
      ([String.prototype.trim], [toLowerCase], [replace] with the tag
      pattern of [sanitizeString], the [<] order on strings), over strings of
      8-bit code units.
    - [Validation]: [isValidEmail] (with the proof that the executable
      checker decides the language of the regular expression of the source),
      [sanitizeString], [isValidPassword], [isValidName] and
      [isValidCoordinates] over IEEE doubles.
    - [Model]: the records of [storage.ts] ([User], the stored user with its
      password, [Report], [Notification]), the documents a key of the store
      can hold, and the error values of [createError].
    - [KVStore]: the browser store and the adapter [safeGetItem],
      [safeSetItem], [safeRemoveItem]; failures of the browser are an explicit
      part of the state (a denied store, and a sequence of quota outcomes for
      the writes), and [logError] appends to a log.
    - [Accounts]: [registerUser], [loginUser], [loginAdmin], [getAllUsers],
      [getCurrentUser], [updateCurrentUser].
    - [Reports]: [saveReport] with its duplicate check and point award,
      [getReports], [updateReportStatus], [getUserStats].

    - [Clock]: [new Date(t).toISOString()] (Hinnant's [civil_from_days]
      and the zero-padded fields), and the theorem that the string order on
      the timestamps it prints is the order of the instants.
    - [DateParse]: [Date.parse] on the full ISO format the code writes,
      with [days_from_civil], and the round trip with [toISOString].
    - [NumberFormat]: [Number.prototype.toFixed] as ECMA-262 defines it,
      on the exact value [m * 2 ^ e] of a double: the rounding to the
      nearest integer (the larger of two), the digit loop, the zero padding
      and the point.
    - [Vite]: [vite.config.ts], [defineConfig]'s function of the mode and
      of [VITE_BASE], with Node's [path.resolve] for the [@] alias.
    - [Supabase]: [utils/supabase.ts], the arguments of [createClient] and
      the [Row], [Insert] ([Omit]) and [Update] ([Partial]) types of the
      three tables, with the update they define.
    - [Json]: [JSON.stringify(v, null, 2)] after ECMA-262 on the values the
      report holds, a reader of the JSON grammar restricted to the numbers
      it prints, and the theorem that the reader reads every printed value
      back.
    - [Geocoding]: [utils/geocoding.ts]: [reverseGeocode] (the address
      parts, the [display_name] fallback and the [catch] block that prints
      the coordinates with [toFixed(4)]) and [getCurrentLocation], with the
      outcomes of the network and of the browser's geolocation as inputs.
    - [Notifications]: the outbox ([initializeNotifications],
      [createNotification], [getUserNotifications],
      [getUnreadNotificationCount], [markNotificationAsRead],
      [markAllNotificationsAsRead]), and a transition system [outbox_reach]
      whose steps are these operations in any interleaving;
      [sendEmailNotification] as the console lines it writes.
    - [Migration]: [migrateStorage], [initializeStorage] and the version
      stamp under [STORAGE_KEYS.VERSION].
    - [Weekly]: [reportGenerator.ts]: [getStartOfWeek], [getEndOfWeek],
      [generateWeeklyReport] with its counts kept in JavaScript plain
      objects (modelled with the prototype chain of [Object.prototype] and
      the [__proto__] setter), [Object.entries] order, the CSV text and
      [getNextSundayDate].
    - [Export]: [downloadWeeklyReportAsJSON] and [downloadWeeklyReportAsCSV]
      as the file the browser receives (name, type, text), the report
      object as [JSON.stringify] walks it, and a reader of the file by
      field name.
    - [System]: every exported operation of [storage.ts] that touches the
      store as one step [run_op] of a transition system [sys_reach]; the
      abstract report ledger [LedgerSpec] and its refinement, and the type
      of the document under each key ([store_typed]).
    - [MockData] and [HeatMap]: the demo locations and rubbish types of
      [utils/mockData.ts], and the render decision of
      [components/HeatMap.tsx] ([getRadius], [getColor], the popups with
      [toFixed(0)], the legend) with [Math.min] and [Math.max] on doubles;
      and the mounted Leaflet map ([map_step]): its creation, the effect of
      [RecenterMap] under React's dependency check on the [center] array,
      the user's moves and [MapClickHandler].
    - [Session]: [context/AuthContext.tsx] as a machine whose state records
      the promise continuations still pending ([initAuth], the [SIGNED_IN]
      handler, [logout], [refreshUser]), so that any interleaving of their
      settling is a run; the context value and [useAuth]; and
      [components/ProtectedRoute.tsx].
    - [Header]: [components/Header.tsx], its two variants, the desktop and
      mobile bars and the dropdown with their administrator guards, and the
      handlers of its menu state.
    - [Bell]: [components/NotificationBell.tsx], its state, its effect and
      five-second poll, its handlers over the outbox operations, and what
      it renders.
    - [Pages]: [pages/Landing.tsx] ([getUserStats] during the render, the
      counts printed by [toLocaleString], the landing header, every text
      and link of the page) and [pages/AboutUs.tsx] (its sections, the team
      cards with their keys and initials, the contact link).

    The components that use the store are written against the class
    [StoreAdapter] of [KVStore] (get, set, remove and log with their laws in
    [StoreAdapterLaws]) inside Sections, and instantiated once with the
    concrete browser store.

    ** What the theorems show

    - Report ledger ([Reports]): a second report of the same user within
      five minutes and 10 metres is refused; the window test on ISO strings
      is the test on instants; a saved report adds exactly 10 points to its
      author, recomputes the author's credits and leaves every other
      account alone; [getReports] returns what was saved.  On every store,
      the report is written before the users entry is read, so a users
      entry that does not parse leaves the report stored under an error
      answer, and a refused second write succeeds without the award.
    - Accounts: registering twice is refused, registration then login
      succeeds, and the read operations leave the store unchanged; every
      name that is one tag passes [isValidName] and is stored empty.
    - Validation: the e-mail checker decides the language of the source's
      regular expression; [sanitizeString] is idempotent and removes tags;
      a refused write is reported and leaves the store as it was.
    - Time ([Clock], [DateParse]): [toISOString] is strictly monotone as a
      string for years 0 to 9999, and [Date.parse] inverts it on every
      time value of the JavaScript range.
    - Outbox: creation notifies the target user, the listing is newest
      first (stably), marking one or all as read has the expected effect,
      and by rule induction over [outbox_reach] a notification once read
      stays read in every interleaving of the operations; a refused outbox
      write still returns the notification and leaves the unread count
      unchanged.
    - Migration: after [initializeStorage] the store is initialised and
      stamped, a second call changes nothing, and legacy documents are
      migrated; a migration that fails on the users entry stamps the
      version anyway and is never retried.
    - Weekly report: the week is the interval [startOfWeek, endOfWeek]; the
      type and status counts are the counts over the week's reports, and
      the top contributors are at most ten users with their week's counts,
      in decreasing order, each once, outranking every user left out; a
      type named after a property of [Object.prototype] gets the inherited
      text followed by one [1] per report, or no entry for [__proto__];
      the next Sunday is the first Sunday strictly after today.
    - The whole program ([System]): by induction over any run of the
      operations from a readable store, credits stay derived from
      eco-points, eco-points never decrease and no account is lost, and
      the reports array refines the abstract ledger (entries are only
      appended as pending or have their status set), and each of the four
      JSON keys keeps a document of its declared type, so every
      [JSON.parse] cast of the code is right; the theorems rest on one
      lemma per operation saying how it may write the store.  A store that denies access refuses every write, so
      the readable stores are the ones that change.
    - The interface: the radius of a heat-map circle is clamped to
      [10, 30] (or is [NaN] with its input); the session's loading screen
      always ends and never returns; an administrator's header offers no
      member page and no points; the notification badge always counts
      exactly the unread items the panel lists, and "Mark all read" clears
      it when its write succeeds.
    - Number formatting and geocoding: [toFixed] prints the integer the
      standard asks for and its text reads back as the sign of [x < 0] and
      that integer; and
      [reverseGeocode] never rejects, resolving to [undefined] exactly when
      a successful answer has no usable address part and no
      [display_name]; [toLocaleString] reads back as its integer once its
      separators are removed; and the landing page throws when the users
      entry is not JSON.
    - Exports and configuration: the JSON reader reads back every value
      [JSON.stringify(v, null, 2)] prints ([JSON_parse_stringify]), so the
      JSON download of the weekly report parses and gives back every field
      of the report; a parent of the heat map that omits [center] loses
      the user's pan at each re-render while one passing a stable array
      keeps it; the landing page's links lead to five paths; the build's
      [base] is never empty, it never has both source maps and
      minification, and its manual chunks are disjoint; Supabase updates
      compose column by column.
    - Findings: theorems, general where the behaviour is and concrete
      runs otherwise, that exhibit what the code does and its comments do
      not promise (a report stored while its point award is lost on a quota
      failure, notifications returned although their write was refused, an
      unknown version stamped without migration, a partial migration never
      retried, the types named like [Object.prototype]'s properties, the CSV written on one line with a literal
      backslash-n, a resolved report set back to pending, a user signed
      back in by a [refreshUser] that settles after the logout, an address
      lookup typed [Promise<string>] that resolves to [undefined], a heat
      map whose default centre is a new array at each render).

    ** Bounds

    The string order of timestamps is proved for the instants whose year is
    between 0 and 9999 ([iso_min] to [iso_max]): outside them
    [toISOString] prints a sign and six digits, and the order of the
    strings is no longer the order of time.  The round trip is proved for
    every time value ([|t| <= 8.64e15], the range of a JavaScript [Date]).
    Local time is UTC shifted by a fixed offset in milliseconds; daylight
    saving changes are not modelled.  One definition uses fuel: the digit
    loop of [toFixed] ([NumberFormat.digits_loop]) divides by ten until
    nothing is left and is given [log2 n + 1] iterations, at least the
    number of decimal digits of [n]; the lemma [decimal_digits_pad]
    shows the bound is enough.  The JSON reader ([Json.value] and its two
    mutual companions) spends one unit of fuel per value read and is given
    the length of its input plus one; [json_size_length] shows that every
    printed value has no more values than characters, so the fuel is
    enough.  [toFixed] is modelled below [10 ^ 21]:
    larger values print in the exponent notation of [Number::toString],
    which is not modelled and is [None] (the program prints coordinates
    and percentages).  [toLocaleString] depends on the browser's locale;
    it is modelled for the English locales of the application's users (a
    comma every three digits).  [number_text] prints integers in decimal,
    which is [Number::toString] below [10 ^ 21], beyond every count of the
    program.  Every other recursion is structural on a list, a string or a
    digit count.

    ** How the code is modelled

    Every operation is a Rocq function of the store: it takes the explicit
    inputs of the TypeScript function, the environment's nondeterministic
    inputs ([Date.now()] as milliseconds, the random suffix of generated
    identifiers, the ISO string of the current time), and the store, and
    returns the new store with the result.  The [{ user, error }] objects of
    the source are the sum [result]; the [try]/[catch] blocks become the
    branch taken when a stored document does not have the expected shape
    (what [JSON.parse] or a property access would throw on).  JavaScript
    numbers that hold coordinates are IEEE doubles ([PrimFloat.float]), so
    the duplicate check computes the same distance as the browser; integer
    counters (eco-points, credits) are [Z], exact because the code only adds
    10 and divides by 100 well below 2^53.

    ** What is not modelled

    The class names, icons, images and animation props of the pages and
    of [Header] (presentation); Leaflet's drawing and the plugins and
    bundler of the build (libraries); the request URL and console errors
    of the geocoding helpers; [createClient] and the remote database of
    Supabase, and the [cloudStorage] module the session calls (a library,
    an external service, and a module that is not in the repository: what
    its promises settle with is an input of [Session]); the unsubscribe of
    the provider's cleanup (an unmounted provider renders nothing); the
    relative times of the bell ([formatDistanceToNow], text only); the
    object URL and link click of the downloads (browser I/O); and, in the
    store, the text layer of [JSON.stringify]/[JSON.parse]: the store holds
    the parsed documents, and text that does not parse is a distinguished
    document ([Json] models the text layer for the JSON download).  Strings are
    sequences of code units below 256, so [toLowerCase] and the whitespace
    class of the regular expressions are those of Latin-1. *)

From Stdlib Require Export ZArith Floats Sorting.Sorted.
From stdpp Require Export base strings list gmap pretty.

(** The hint database of the development: the lemmas of this file and the
    components' rewriting facts about their own operations. *)
Create HintDb srd.
Create Rewrite HintDb srd.

Declare Scope srd_scope.
Delimit Scope srd_scope with srd.

(** ** Results of the data-access layer *)

(** [result A] is the pair [{ value, error }] of the source in which exactly
    one side is non-null. *)
Inductive result (E A : Type) : Type :=
| Ok (a : A)
| Err (e : E).
Arguments Ok {E A} a.
Arguments Err {E A} e.

Definition is_ok {E A} (r : result E A) : bool :=
  match r with Ok _ => true | Err _ => false end.

Definition err_of {E A} (r : result E A) : option E :=
  match r with Ok _ => None | Err e => Some e end.

(** A function without a [try] block either returns or lets an exception
    of [JSON.parse] or of a property access escape to its caller. *)
Inductive outcome (A : Type) : Type :=
| Return (a : A)
| Throw.
Arguments Return {A} a.
Arguments Throw {A}.

(** ** Tactics *)

(** Invert a hypothesis and clean up. *)
Ltac invc H := inversion H; subst; clear H.

(** Split the innermost [if] or [match] of the goal, keeping the equation,
    and discharge what the equation makes impossible. *)
Ltac split_branch :=
  match goal with
  | |- context [if ?b then _ else _] =>
      let E := fresh "E" in destruct b eqn:E
  | |- context [match ?x with _ => _ end] =>
      let E := fresh "E" in destruct x eqn:E
  end; simplify_eq/=; try done.

(** Run [split_branch] until the goal has no case left to split. *)
Ltac split_all := repeat split_branch.

(** ** Generic lemmas on lists *)

Section lists.
Context {A : Type}.

(** [Array.prototype.some] is [existsb]. *)
Lemma existsb_exists_iff (p : A → bool) (l : list A) :
  existsb p l = true ↔ ∃ x, x ∈ l ∧ p x = true.
Proof.
  rewrite existsb_exists. setoid_rewrite list_elem_of_In. done.
Qed.

Lemma existsb_false_iff (p : A → bool) (l : list A) :
  existsb p l = false ↔ ∀ x, x ∈ l → p x = false.
Proof.
  split.
  - intros H x Hx. destruct (p x) eqn:Hp; [|done].
    assert (existsb p l = true) as Ht by (apply existsb_exists_iff; eauto).
    congruence.
  - intros H. destruct (existsb p l) eqn:Ht; [|done].
    apply existsb_exists_iff in Ht as (x & Hx & Hp). rewrite H in Hp; done.
Qed.

(** [Array.prototype.find] with a boolean predicate. *)
Lemma find_Some_elem (p : A → bool) (l : list A) x :
  List.find p l = Some x → x ∈ l ∧ p x = true.
Proof.
  intros H. apply find_some in H as [H1 H2]. by rewrite list_elem_of_In.
Qed.

Lemma find_None_all (p : A → bool) (l : list A) :
  List.find p l = None → ∀ x, x ∈ l → p x = false.
Proof. intros H x Hx. apply list_elem_of_In in Hx. by eapply find_none. Qed.

Lemma find_app (p : A → bool) (l1 l2 : list A) :
  List.find p (l1 ++ l2) = match List.find p l1 with Some x => Some x | None => List.find p l2 end.
Proof. induction l1 as [|x l1 IH]; simpl; [done|]. by destruct (p x). Qed.

Lemma find_None_intro (p : A → bool) (l : list A) :
  (∀ x, x ∈ l → p x = false) → List.find p l = None.
Proof.
  induction l as [|x l IH]; simpl; [done|]. intros H.
  rewrite H by constructor. apply IH. intros y Hy. apply H. by constructor.
Qed.

(** A predicate that implies one no element satisfies finds nothing. *)
Lemma find_None_weaken (p q : A → bool) (l : list A) :
  (∀ x, q x = true → p x = true) → List.find p l = None → List.find q l = None.
Proof.
  intros Hpq Hp. induction l as [|x l IH]; simpl in *; [done|].
  destruct (p x) eqn:E; [done|]. destruct (q x) eqn:E'; [|auto].
  apply Hpq in E'. congruence.
Qed.

(** [slice(0, n)] of a sorted array is sorted. *)
Lemma Sorted_take (R : A → A → Prop) (l : list A) n : Sorted R l → Sorted R (take n l).
Proof.
  intros Hs. revert n. induction Hs as [|x l Hs IH Hhd]; intros [|n]; simpl; try constructor.
  - apply IH.
  - destruct Hhd as [|y l Hxy]; [by rewrite take_nil|]. destruct n; simpl; by constructor.
Qed.

(** Pushing onto an array: the new element is the last one. *)
Lemma lookup_push (l : list A) x : (l ++ [x]) !! length l = Some x.
Proof. rewrite lookup_app_r; [|lia]. by rewrite Nat.sub_diag. Qed.

(** A filter that no element passes is empty. *)
Lemma filter_nil_intro (P : A → Prop) `{!∀ x, Decision (P x)} (l : list A) :
  (∀ x, x ∈ l → ¬ P x) → filter P l = [].
Proof.
  induction l as [|x l IH]; intros Hn; [done|].
  rewrite filter_cons_False by (apply Hn; constructor). apply IH. intros y Hy. apply Hn. by constructor.
Qed.

End lists.

#[export] Hint Resolve lookup_push : srd.
#[export] Hint Rewrite @length_app @length_insert : srd.

(** ** Options *)

Lemma option_bind_Some {A B} (f : A → option B) (o : option A) b :
  o ≫= f = Some b ↔ ∃ a, o = Some a ∧ f a = Some b.
Proof. destruct o; naive_solver. Qed.

(** ** Stable sorting ([Array.prototype.sort] with a comparator) *)

(** [Array.prototype.sort] is stable: an element moves before an earlier
    one only when the comparator says it must ([cmp e x > 0]).  The
    insertion sort below computes the stable sort; for a comparator that
    is a total preorder on the elements that sort is unique, so it is the
    browser's result whatever its algorithm. *)
Section sort.
Context {A : Type} (cmp : A → A → Z).

Fixpoint insert_by (x : A) (l : list A) : list A :=
  match l with
  | [] => [x]
  | e :: l' => if (0 <? cmp e x)%Z then x :: l else e :: insert_by x l'
  end.

Definition sort_by (l : list A) : list A := fold_left (λ acc x, insert_by x acc) l [].

Lemma insert_by_perm x l : insert_by x l ≡ₚ x :: l.
Proof.
  induction l as [|e l IH]; simpl; [done|].
  destruct (0 <? cmp e x)%Z; [done|]. rewrite IH. constructor.
Qed.

Lemma sort_by_perm_acc l acc : fold_left (λ acc x, insert_by x acc) l acc ≡ₚ l ++ acc.
Proof.
  revert acc. induction l as [|x l IH]; intros acc; simpl; [done|].
  rewrite IH, insert_by_perm. by rewrite Permutation_middle.
Qed.

Lemma sort_by_perm l : sort_by l ≡ₚ l.
Proof. unfold sort_by. by rewrite sort_by_perm_acc, app_nil_r. Qed.

(** On elements where the comparator is the difference of a key, newest
    (largest key) first, the sort orders by the key and keeps the order of
    elements with equal keys. *)
Section keyed.
Context (P : A → Prop) (k : A → Z).
Hypothesis cmp_key : ∀ a b, P a → P b → cmp a b = (k b - k a)%Z.

Definition key_desc (a b : A) : Prop := (k b <= k a)%Z.

Lemma key_desc_sorted_le x l : Sorted key_desc (x :: l) → ∀ y, y ∈ x :: l → (k y <= k x)%Z.
Proof.
  intros Hs. assert (Relations_1.Transitive key_desc) as Ht by (intros a b c; unfold key_desc; lia).
  apply (Sorted_StronglySorted Ht) in Hs.
  intros y Hy. inversion Hs as [|? ? _ Hall]; subst. apply elem_of_cons in Hy as [->|Hy]; [lia|].
  rewrite Forall_forall in Hall. specialize (Hall y Hy). unfold key_desc in Hall. lia.
Qed.

Lemma insert_by_sorted x l : P x → Forall P l → Sorted key_desc l → Sorted key_desc (insert_by x l).
Proof.
  intros Hx Hl Hs. induction l as [|e l IH]; simpl; [by repeat constructor|].
  inversion Hl as [|? ? He Hl']; subst. rewrite cmp_key by done.
  destruct (Z.ltb_spec 0 (k x - k e)).
  - constructor; [done|]. constructor. unfold key_desc. lia.
  - inversion Hs as [|? ? Hs' Hhd]; subst. constructor; [by apply IH|].
    destruct l as [|f l]; simpl.
    + constructor. unfold key_desc. lia.
    + inversion Hl' as [|? ? Hf _]; subst. rewrite cmp_key by done.
      inversion Hhd; subst. destruct (Z.ltb_spec 0 (k x - k f)); constructor; unfold key_desc in *; lia.
Qed.

(** Stability: the elements of one key keep their relative order. *)
Lemma insert_by_filter x l v : P x → Forall P l → Sorted key_desc l →
  filter (λ y, k y = v) (insert_by x l) = filter (λ y, k y = v) l ++ filter (λ y, k y = v) [x].
Proof.
  intros Hx Hl Hs. induction l as [|e l IH]; simpl; [done|].
  inversion Hl as [|? ? He Hl']; subst. rewrite cmp_key by done.
  destruct (Z.ltb_spec 0 (k x - k e)).
  - rewrite (filter_cons _ x). case_decide as Hv.
    + assert (filter (λ y, k y = v) (e :: l) = []) as ->; [|by rewrite filter_cons_True].
      apply filter_nil_intro. intros y Hy.
      pose proof (key_desc_sorted_le e l Hs y Hy). lia.
    + rewrite (filter_cons_False _ x) by done. by rewrite app_nil_r.
  - inversion Hs; subst. rewrite !filter_cons. case_decide; rewrite IH by done; done.
Qed.
Lemma sort_by_acc l acc : Forall P l → Forall P acc → Sorted key_desc acc →
  Sorted key_desc (fold_left (λ acc x, insert_by x acc) l acc) ∧
  ∀ v, filter (λ y, k y = v) (fold_left (λ acc x, insert_by x acc) l acc) =
       filter (λ y, k y = v) acc ++ filter (λ y, k y = v) l.
Proof.
  revert acc. induction l as [|x l IH]; intros acc Hl Hacc Hs; simpl.
  - split; [done|]. intros v. by rewrite app_nil_r.
  - inversion Hl as [|? ? Hx Hl']; subst.
    assert (Forall P (insert_by x acc)) as Hins.
    { rewrite insert_by_perm. by constructor. }
    destruct (IH (insert_by x acc) Hl' Hins (insert_by_sorted x acc Hx Hacc Hs)) as [IH1 IH2].
    split; [done|]. intros v. rewrite IH2, insert_by_filter by done.
    rewrite <- app_assoc. f_equal. change (x :: l) with ([x] ++ l). by rewrite filter_app.
Qed.

(** The sort orders by the key, newest first. *)
Lemma sort_by_sorted l : Forall P l → Sorted key_desc (sort_by l).
Proof. intros Hl. by apply (sort_by_acc l []). Qed.

(** The sort is stable: for each key, its elements are in input order. *)
Lemma sort_by_stable l v : Forall P l →
  filter (λ y, k y = v) (sort_by l) = filter (λ y, k y = v) l.
Proof. intros Hl. by apply (sort_by_acc l []). Qed.
End keyed.
End sort.

(** ** Comparisons of doubles

    The comparisons of [PrimFloat] are those of IEEE 754 ([FloatAxioms]):
    a strict or an equal comparison that holds gives the non-strict one. *)

(** Swapping the arguments of a comparison reverses its answer. *)
Lemma SFcompare_swap a b : SFcompare b a = option_map CompOpp (SFcompare a b).
Proof.
  destruct a as [sa|sa| |sa ma ea], b as [sb|sb| |sb mb eb]; simpl; try done;
    try (destruct sa; done); try (destruct sb; done); try (destruct sa, sb; done).
  destruct sa, sb; try done; rewrite (Z.compare_antisym ea eb); destruct (ea ?= eb)%Z; try done; simpl;
    pose proof (Pos.compare_cont_antisym ma mb Eq) as A; simpl in A; by rewrite <-A, ?CompOpp_involutive.
Qed.

Lemma SFcompare_Eq_sym a b : SFcompare a b = Some Eq → SFcompare b a = Some Eq.
Proof. rewrite (SFcompare_swap a b). by intros ->. Qed.

(** A double that is not [NaN] is comparable with every other one. *)
Lemma SFcompare_not_nan x y : is_nan x = false → is_nan y = false →
  ∃ c, SFcompare (Prim2SF x) (Prim2SF y) = Some c.
Proof.
  unfold is_nan. rewrite !FloatAxioms.eqb_spec. unfold SFeqb.
  destruct (Prim2SF x), (Prim2SF y); simpl; try done; eauto.
Qed.

Lemma float_cmp_total x y : is_nan x = false → is_nan y = false →
  (x <? y)%float = true ∨ (y <? x)%float = true ∨ (x =? y)%float = true.
Proof.
  intros Hx Hy. rewrite !FloatAxioms.ltb_spec, FloatAxioms.eqb_spec. unfold SFltb, SFeqb.
  rewrite (SFcompare_swap (Prim2SF x) (Prim2SF y)).
  destruct (SFcompare_not_nan x y Hx Hy) as [[] ->]; simpl; auto.
Qed.

Lemma float_leb_refl x : is_nan x = false → (x <=? x)%float = true.
Proof.
  unfold is_nan. rewrite FloatAxioms.eqb_spec, FloatAxioms.leb_spec. unfold SFeqb, SFleb.
  by destruct (SFcompare _ _) as [[]|].
Qed.

Lemma float_ltb_leb x y : (x <? y)%float = true → (x <=? y)%float = true.
Proof.
  rewrite FloatAxioms.ltb_spec, FloatAxioms.leb_spec. unfold SFltb, SFleb.
  by destruct (SFcompare _ _) as [[]|].
Qed.

Lemma float_eqb_leb x y : (x =? y)%float = true → (x <=? y)%float = true.
Proof.
  rewrite FloatAxioms.eqb_spec, FloatAxioms.leb_spec. unfold SFeqb, SFleb.
  by destruct (SFcompare _ _) as [[]|].
Qed.

Lemma float_eqb_leb_r x y : (x =? y)%float = true → (y <=? x)%float = true.
Proof.
  rewrite FloatAxioms.eqb_spec, FloatAxioms.leb_spec. unfold SFeqb, SFleb.
  destruct (SFcompare (Prim2SF x) (Prim2SF y)) as [[]|] eqn:E; try done.
  by rewrite (SFcompare_Eq_sym _ _ E).
Qed.
