(* ===== verification/JsString.v ===== *)
(** * JavaScript string primitives used by [storage.ts]

    [String.prototype.trim], [toLowerCase], the global [replace] with the
    pattern [/<[^>]*>/g] of [sanitizeString], and the [<] order on strings.
    Strings are sequences of code units below 256; the whitespace class
    ([\s] in a pattern, and what [trim] removes) and the case mapping are
    those of that Latin-1 range.  The functions work on [list ascii] and are
    lifted to [string]. *)

From S2P Require Import Prelude.
From Stdlib Require Import Ascii.

(** ** Whitespace, case *)

(** The WhiteSpace and LineTerminator code points below 256: TAB, LF, VT,
    FF, CR, SPACE and NO-BREAK SPACE. *)
Definition is_space (c : ascii) : bool :=
  let n := nat_of_ascii c in
  ((9 <=? n) && (n <=? 13)) || (n =? 32) || (n =? 160).

(** [toLowerCase] on one code unit: A-Z and the Latin-1 capitals
    U+00C0..U+00DE except the multiplication sign U+00D7. *)
Definition to_lower_char (c : ascii) : ascii :=
  let n := nat_of_ascii c in
  if ((65 <=? n) && (n <=? 90)) || ((192 <=? n) && (n <=? 222) && negb (n =? 215))
  then ascii_of_nat (n + 32) else c.

(** ** trim *)

Fixpoint trim_start (l : list ascii) : list ascii :=
  match l with
  | [] => []
  | c :: l' => if is_space c then trim_start l' else l
  end.

Definition trim_end (l : list ascii) : list ascii := rev (trim_start (rev l)).

Definition trim_list (l : list ascii) : list ascii := trim_end (trim_start l).

(** ** The tag pattern [/<[^>]*>/g] *)

(** The global replacement scans left to right.  At a ['<'] the pattern
    matches exactly when a ['>'] follows somewhere; the match is then the
    text up to the first ['>'] (the class [[^>]] cannot cross it), and the
    scan resumes after it.  When no ['>'] follows, no later ['<'] can match
    either, so the rest of the input is kept.  [pending] holds the text
    read since an opening ['<'] whose ['>'] has not been seen yet. *)
Fixpoint strip_tags_from (pending : option (list ascii)) (l : list ascii) : list ascii :=
  match l, pending with
  | [], None => []
  | [], Some p => p
  | c :: l', None =>
      if Ascii.eqb c "<"%char then strip_tags_from (Some ["<"%char]) l' else c :: strip_tags_from None l'
  | c :: l', Some p =>
      if Ascii.eqb c ">"%char then strip_tags_from None l' else strip_tags_from (Some (p ++ [c])) l'
  end.

Definition strip_tags_list (l : list ascii) : list ascii := strip_tags_from None l.

Definition is_close (d : ascii) : bool := Ascii.eqb d ">"%char.

(** A string is tag-free when no ['<'] is followed, later, by a ['>']:
    the pattern has no match in it. *)
Fixpoint tag_free (l : list ascii) : bool :=
  match l with
  | [] => true
  | c :: l' => (if Ascii.eqb c "<"%char then negb (existsb is_close l') else true) && tag_free l'
  end.

(** ** Lifted to strings *)

Definition trim (s : string) : string := String.string_of_list_ascii (trim_list (String.list_ascii_of_string s)).

Definition toLowerCase (s : string) : string :=
  String.string_of_list_ascii (map to_lower_char (String.list_ascii_of_string s)).

Definition strip_tags (s : string) : string :=
  String.string_of_list_ascii (strip_tags_list (String.list_ascii_of_string s)).

(** [a < b] on strings compares code units lexicographically. *)
Definition js_lt (a b : string) : bool :=
  match String.compare a b with Lt => true | _ => false end.

Infix "<js" := js_lt (at level 70, no associativity) : srd_scope.

(** JavaScript's [||] used as "or default" on a string: the empty string is
    falsy. *)
Definition str_or (a b : string) : string := if String.eqb a "" then b else a.

Infix "||js" := str_or (at level 50, left associativity) : srd_scope.

(** ** Lemmas *)

Lemma string_of_list_ascii_inj (a b : list ascii) :
  String.string_of_list_ascii a = String.string_of_list_ascii b → a = b.
Proof.
  intros H. rewrite <- (String.list_ascii_of_string_of_list_ascii a), H.
  apply String.list_ascii_of_string_of_list_ascii.
Qed.

Lemma list_ascii_of_string_inj (a b : string) :
  String.list_ascii_of_string a = String.list_ascii_of_string b → a = b.
Proof.
  intros H. rewrite <- (String.string_of_list_ascii_of_string a), H.
  apply String.string_of_list_ascii_of_string.
Qed.

Lemma trim_start_idem l : trim_start (trim_start l) = trim_start l.
Proof. induction l as [|c l IH]; simpl; [done|]. destruct (is_space c) eqn:E; simpl; rewrite ?E; done. Qed.

(** After [trim_start] the list is empty or starts with a non-space. *)
Lemma trim_start_head l : match trim_start l with [] => True | c :: _ => is_space c = false end.
Proof. induction l as [|c l IH]; simpl; [done|]. by destruct (is_space c) eqn:E. Qed.

Lemma trim_start_nospace l :
  match l with [] => True | c :: _ => is_space c = false end → trim_start l = l.
Proof. destruct l as [|c l]; simpl; [done|]. by intros ->. Qed.

Lemma trim_end_idem l : trim_end (trim_end l) = trim_end l.
Proof. unfold trim_end. by rewrite rev_involutive, trim_start_idem. Qed.

Lemma trim_start_of_trim_end l :
  trim_start (trim_end (trim_start l)) = trim_end (trim_start l).
Proof.
  unfold trim_end. pose proof (trim_start_head l) as Hh.
  remember (trim_start l) as m eqn:Hm. clear Hm l.
  destruct m as [|c m]; [done|].
  (* the trimmed-from-the-end list keeps its first code unit unless it is empty *)
  assert (∀ k, rev (trim_start (rev (c :: k))) = [] ∨
          ∃ r, rev (trim_start (rev (c :: k))) = c :: r) as Hk.
  { intros k. induction k as [|d k IHk] using rev_ind; simpl.
    - destruct (is_space c); [by left | right; by exists []].
    - rewrite rev_app_distr. simpl. destruct (is_space d) eqn:E.
      + exact IHk.
      + right. exists (k ++ [d]). simpl. rewrite rev_app_distr, rev_involutive. done. }
  destruct (Hk m) as [-> | [r ->]]; [done|]. simpl. by rewrite Hh.
Qed.

(** [trim] is idempotent. *)
Lemma trim_list_idem l : trim_list (trim_list l) = trim_list l.
Proof. unfold trim_list. by rewrite trim_start_of_trim_end, trim_end_idem. Qed.

(** The trimmed list is an infix of the original. *)
Lemma trim_start_suffix l : ∃ p, l = p ++ trim_start l.
Proof.
  induction l as [|c l [p Hp]]; simpl; [by exists []|].
  destruct (is_space c); [exists (c :: p); simpl; congruence | by exists []].
Qed.

Lemma trim_list_infix l : ∃ p q, l = p ++ trim_list l ++ q.
Proof.
  destruct (trim_start_suffix l) as [p Hp].
  destruct (trim_start_suffix (rev (trim_start l))) as [q Hq].
  exists p, (rev q). unfold trim_list, trim_end.
  assert (trim_start l = rev (trim_start (rev (trim_start l))) ++ rev q) as E.
  { rewrite <- rev_app_distr, <- Hq, rev_involutive. done. }
  rewrite Hp at 1. rewrite E at 1. done.
Qed.

(** Inside an open tag the scan either reaches the end, keeping the pending
    text and the rest, or stops at the first ['>'] and resumes outside. *)
Lemma strip_tags_pending p l :
  strip_tags_from (Some p) l =
    match list_find (λ d, is_close d = true) l with
    | None => p ++ l
    | Some (i, _) => strip_tags_from None (drop (S i) l)
    end.
Proof.
  revert p. induction l as [|c l IH]; intros p; simpl; [by rewrite app_nil_r|].
  case_decide as Hc; unfold is_close in Hc.
  - by rewrite Hc.
  - apply not_true_is_false in Hc. rewrite Hc, IH.
    destruct (list_find _ l) as [[i x]|]; simpl; [done|].
    by rewrite <- app_assoc.
Qed.

Lemma tag_free_no_close l : existsb is_close l = false → tag_free l = true.
Proof.
  induction l as [|c l IH]; simpl; [done|].
  intros [Hc Hl]%orb_false_iff. rewrite IH by done.
  destruct (Ascii.eqb c "<"%char); [|done]. by rewrite Hl.
Qed.

Lemma list_find_close_None l :
  list_find (λ d, is_close d = true) l = None ↔ existsb is_close l = false.
Proof.
  rewrite list_find_None, existsb_false_iff, Forall_forall.
  split; intros H x Hx; specialize (H x Hx); destruct (is_close x); naive_solver.
Qed.

(** The replacement leaves no match of the pattern behind. *)
Lemma strip_tags_free l : tag_free (strip_tags_list l) = true.
Proof.
  unfold strip_tags_list. remember (length l) as n eqn:Hn. revert l Hn.
  induction n as [n IH] using lt_wf_ind. intros [|c l] ->; simpl; [done|].
  destruct (Ascii.eqb c "<"%char) eqn:Ec.
  - rewrite strip_tags_pending.
    destruct (list_find _ l) as [[i x]|] eqn:Hf.
    + eapply IH; [|reflexivity]. rewrite length_drop.
      apply list_find_Some in Hf as (Hi & _). apply lookup_lt_Some in Hi. simpl. lia.
    + apply list_find_close_None in Hf. simpl.
      rewrite Hf. simpl. by apply tag_free_no_close.
  - simpl. rewrite Ec. eapply IH; [|reflexivity]. simpl. lia.
Qed.

(** On a tag-free text the replacement is the identity. *)
Lemma strip_tags_id l : tag_free l = true → strip_tags_list l = l.
Proof.
  unfold strip_tags_list. induction l as [|c l IH]; simpl; [done|].
  intros [Hc Hl]%andb_prop. destruct (Ascii.eqb c "<"%char) eqn:Ec.
  - apply negb_true_iff in Hc. rewrite strip_tags_pending.
    assert (list_find (λ d, is_close d = true) l = None) as ->
      by (by apply list_find_close_None). simpl.
    apply Ascii.eqb_eq in Ec as ->. done.
  - by rewrite IH.
Qed.

Lemma tag_free_app_r a b : tag_free (a ++ b) = true → tag_free b = true.
Proof. induction a as [|c a IH]; simpl; [done|]. intros [_ H]%andb_prop. auto. Qed.

Lemma tag_free_app_l a b : tag_free (a ++ b) = true → tag_free a = true.
Proof.
  induction a as [|c a IH]; simpl; [done|]. intros [Hc H]%andb_prop.
  rewrite IH by done. destruct (Ascii.eqb c "<"%char); [|done].
  rewrite existsb_app in Hc. apply negb_true_iff, orb_false_iff in Hc as [-> _]. done.
Qed.

(** Trimming keeps a text tag-free. *)
Lemma tag_free_trim l : tag_free l = true → tag_free (trim_list l) = true.
Proof.
  destruct (trim_list_infix l) as (p & q & Hl). intros H. rewrite Hl in H.
  apply tag_free_app_r in H. by eapply tag_free_app_l.
Qed.
