(* ===== verification/Validation.v ===== *)
(** * Input validation and sanitisation ([storage.ts], lines 54-76)

    [isValidEmail] decides the regular expression [/^[^\s@]+@[^\s@]+\.[^\s@]+$/]:
    the executable checker below is proved to accept exactly the strings of
    that language.  [sanitizeString] removes the matches of [/<[^>]*>/g]
    and trims; it is idempotent and its result has no tag left.
    [isValidCoordinates] compares IEEE doubles, so [NaN] is rejected as in
    the browser. *)

From S2P Require Import Prelude JsString.
From Stdlib Require Import Ascii.

(** ** [isValidEmail] *)

(** The class [[^\s@]]. *)
Definition email_char (c : ascii) : bool := negb (is_space c) && negb (Ascii.eqb c "@"%char).

(** The language of the pattern, as a proposition. *)
Definition email_regex (l : list ascii) : Prop :=
  ∃ a b c, l = a ++ "@"%char :: b ++ "."%char :: c ∧
    a ≠ [] ∧ b ≠ [] ∧ c ≠ [] ∧
    forallb email_char a = true ∧ forallb email_char b = true ∧ forallb email_char c = true.

(** Split at the first occurrence of a code unit. *)
Fixpoint split_at_char (x : ascii) (l : list ascii) : option (list ascii * list ascii) :=
  match l with
  | [] => None
  | c :: l' =>
      if Ascii.eqb c x then Some ([], l')
      else match split_at_char x l' with
           | Some (a, d) => Some (c :: a, d)
           | None => None
           end
  end.

(** A ['.'] with at least one code unit after it. *)
Fixpoint dot_before_end (t : list ascii) : bool :=
  match t with
  | [] => false
  | c :: t' => (Ascii.eqb c "."%char && negb (bool_decide (t' = []))) || dot_before_end t'
  end.

(** The domain part [[^\s@]+\.[^\s@]+]: a ['.'] that is neither first nor last. *)
Definition inner_dot (d : list ascii) : bool :=
  match d with [] => false | _ :: t => dot_before_end t end.

Definition isValidEmail_list (l : list ascii) : bool :=
  match split_at_char "@"%char l with
  | Some (a, d) =>
      negb (bool_decide (a = [])) && forallb email_char a && forallb email_char d && inner_dot d
  | None => false
  end.

Definition isValidEmail (email : string) : bool :=
  isValidEmail_list (String.list_ascii_of_string email).

(** ** [sanitizeString], [isValidPassword], [isValidName], [isValidCoordinates] *)

Definition sanitizeString (input : string) : string := trim (strip_tags input).

Definition isValidPassword (password : string) : bool := 6 <=? String.length password.

Definition isValidName (name : string) : bool :=
  (2 <=? String.length (trim name)) && (String.length (trim name) <=? 100).

Definition isValidCoordinates (lat lng : float) : bool :=
  ((-90) <=? lat)%float && (lat <=? 90)%float && ((-180) <=? lng)%float && (lng <=? 180)%float.

(** ** The email checker decides the pattern *)

Lemma split_at_char_Some x l a d :
  split_at_char x l = Some (a, d) →
  l = a ++ x :: d ∧ forallb (λ c, negb (Ascii.eqb c x)) a = true.
Proof.
  revert a. induction l as [|c l IH]; intros a; simpl; [done|].
  destruct (Ascii.eqb_spec c x) as [->|Hne].
  - intros [= <- <-]. done.
  - destruct (split_at_char x l) as [[a' d']|] eqn:E; [|done]. intros [= <- <-].
    destruct (IH a' eq_refl) as [-> Ha]. simpl. split; [done|].
    apply andb_true_intro. split; [|done]. by apply negb_true_iff, Ascii.eqb_neq.
Qed.

Lemma split_at_char_app x a d :
  forallb (λ c, negb (Ascii.eqb c x)) a = true → split_at_char x (a ++ x :: d) = Some (a, d).
Proof.
  induction a as [|c a IH]; simpl; [by rewrite Ascii.eqb_refl|].
  intros [Hc Ha]%andb_prop. apply negb_true_iff in Hc. by rewrite Hc, IH.
Qed.

Lemma dot_before_end_iff t :
  dot_before_end t = true ↔ ∃ b c, t = b ++ "."%char :: c ∧ c ≠ [].
Proof.
  induction t as [|x t IH]; simpl.
  - split; [done|]. intros (b & c & H & _). by destruct b.
  - rewrite orb_true_iff, andb_true_iff, negb_true_iff, bool_decide_eq_false, IH.
    split.
    + intros [[Hx%Ascii.eqb_eq Ht] | (b & c & -> & Hc)].
      * subst. by exists [], t.
      * by exists (x :: b), c.
    + intros ([|y b] & c & Heq & Hc); simpl in Heq; simplify_eq.
      * left. by rewrite Ascii.eqb_refl.
      * right. eauto.
Qed.

Lemma inner_dot_iff d :
  inner_dot d = true ↔ ∃ b c, d = b ++ "."%char :: c ∧ b ≠ [] ∧ c ≠ [].
Proof.
  destruct d as [|x t]; simpl.
  - split; [done|]. intros (b & c & H & Hb & _). by destruct b.
  - rewrite dot_before_end_iff. split.
    + intros (b & c & -> & Hc). by exists (x :: b), c.
    + intros ([|y b] & c & Heq & Hb & Hc); [done|]. simpl in Heq.
      injection Heq as -> ->. by exists b, c.
Qed.

Lemma email_chars_no_at a :
  forallb email_char a = true → forallb (λ c, negb (Ascii.eqb c "@"%char)) a = true.
Proof.
  induction a as [|c a IH]; simpl; [done|].
  intros [[_ Hc]%andb_prop Ha]%andb_prop. by rewrite Hc, IH.
Qed.

(** C20. [isValidEmail] accepts exactly the strings of the pattern
    [/^[^\s@]+@[^\s@]+\.[^\s@]+$/]. *)
Theorem isValidEmail_regex (s : string) :
  isValidEmail s = true ↔ email_regex (String.list_ascii_of_string s).
Proof.
  unfold isValidEmail, isValidEmail_list, email_regex.
  generalize (String.list_ascii_of_string s) as l. intros l. split.
  - destruct (split_at_char _ l) as [[a d]|] eqn:E; [|done].
    apply split_at_char_Some in E as [-> _].
    intros [[[Ha Hfa]%andb_prop Hfd]%andb_prop (b & c & -> & Hb & Hc)%inner_dot_iff]%andb_prop.
    rewrite forallb_app in Hfd. simpl in Hfd.
    apply andb_prop in Hfd as [Hfb Hfc].
    exists a, b, c. apply negb_true_iff, bool_decide_eq_false in Ha. done.
  - intros (a & b & c & -> & Ha & Hb & Hc & Hfa & Hfb & Hfc).
    rewrite split_at_char_app by (by apply email_chars_no_at).
    rewrite forallb_app. simpl. rewrite Hfa, Hfb, Hfc.
    rewrite bool_decide_eq_false_2 by done. simpl.
    apply inner_dot_iff. eauto.
Qed.

(** ** [sanitizeString] *)

Lemma sanitizeString_list s :
  String.list_ascii_of_string (sanitizeString s) =
    trim_list (strip_tags_list (String.list_ascii_of_string s)).
Proof.
  unfold sanitizeString, trim, strip_tags.
  by rewrite !String.list_ascii_of_string_of_list_ascii.
Qed.

(** C21. A sanitised string contains no match of the tag pattern. *)
Theorem sanitizeString_tag_free s : tag_free (String.list_ascii_of_string (sanitizeString s)) = true.
Proof. rewrite sanitizeString_list. apply tag_free_trim, strip_tags_free. Qed.

(** Sanitising twice is sanitising once. *)
Theorem sanitizeString_idem s : sanitizeString (sanitizeString s) = sanitizeString s.
Proof.
  apply list_ascii_of_string_inj. rewrite !sanitizeString_list.
  rewrite (strip_tags_id (trim_list _)) by apply tag_free_trim, strip_tags_free.
  apply trim_list_idem.
Qed.
