(* ===== verification/KVStore.v ===== *)
(** * The persistent key-value store adapter ([storage.ts], lines 41-119)

    The browser's [localStorage] is a finite map from keys to stored
    documents together with the two ways it can fail: access can be denied
    altogether (every call throws a [SecurityError]), and a write can throw
    [QuotaExceededError].  The outcome of each write is drawn from [quota],
    a sequence chosen by the environment, so that two writes of one
    operation may have different outcomes.  [logError] appends to [log].

    [StoreAdapter] is the contract the adapter gives its clients (the
    account directory, the report ledger, the outbox): reads never change
    the stored data, a write either stores its value and answers [true] or
    changes nothing and answers [false], and logging changes nothing but the
    log.  The clients' theorems are proved against this class; [Store] is
    its instance and discharges the laws. *)

From S2P Require Import Prelude.

(** ** Errors ([createError], [logError]) *)

Record StorageError := createError { code : string; message : string }.

(** ** The contract of the adapter *)

Class StoreAdapter (V S : Type) := {
  sa_get : string → S → S * option V;
  sa_set : string → V → S → S * bool;
  sa_remove : string → S → S * bool;
  sa_log : StorageError → S → S;
  sa_view : S → gmap string V;
  (** the store answers reads with its contents *)
  sa_readable : S → Prop;
}.

Class StoreAdapterLaws V S `{!StoreAdapter V S} := {
  sa_get_view k s : sa_view (sa_get k s).1 = sa_view s;
  sa_get_readable k s : sa_readable s → sa_get k s = (s, sa_view s !! k);
  (** a read answers with the stored document or with nothing *)
  sa_get_some k s d : (sa_get k s).2 = Some d → sa_view s !! k = Some d;
  sa_set_view k v s :
    sa_view (sa_set k v s).1 = if (sa_set k v s).2 then <[k:=v]> (sa_view s) else sa_view s;
  sa_set_readable k v s : sa_readable s → sa_readable (sa_set k v s).1;
  sa_remove_view k s :
    sa_view (sa_remove k s).1 = if (sa_remove k s).2 then delete k (sa_view s) else sa_view s;
  sa_log_view e s : sa_view (sa_log e s) = sa_view s;
  sa_log_readable e s : sa_readable s → sa_readable (sa_log e s);
}.

(** ** The browser's store *)

Record Store (V : Type) := mkStore {
  items : gmap string V;
  denied : bool;
  quota : list bool;
  log : list StorageError;
}.
Arguments mkStore {V}.
Arguments items {V}.
Arguments denied {V}.
Arguments quota {V}.
Arguments log {V}.

Section Store.
Context {V : Type}.
Implicit Types (st : Store V) (key : string) (value : V).

(** [console.error] of a structured error. *)
Definition logError (e : StorageError) st : Store V :=
  mkStore (items st) (denied st) (quota st) (log st ++ [e]).

Definition safeGetItem key st : Store V * option V :=
  if denied st then (logError (createError "STORAGE_READ_ERROR" ("Failed to read " +:+ key)) st, None)
  else (st, items st !! key).

Definition safeSetItem key value st : Store V * bool :=
  if denied st then
    (logError (createError "STORAGE_WRITE_ERROR" ("Failed to write " +:+ key)) st, false)
  else match quota st with
  | true :: q =>
      (logError (createError "QUOTA_EXCEEDED" "Storage quota exceeded")
         (mkStore (items st) (denied st) q (log st)), false)
  | false :: q => (mkStore (<[key:=value]> (items st)) (denied st) q (log st), true)
  | [] => (mkStore (<[key:=value]> (items st)) (denied st) [] (log st), true)
  end.

Definition safeRemoveItem key st : Store V * bool :=
  if denied st then
    (logError (createError "STORAGE_DELETE_ERROR" ("Failed to delete " +:+ key)) st, false)
  else (mkStore (delete key (items st)) (denied st) (quota st) (log st), true).

(** A failed write leaves the contents untouched and logs exactly one
    error: [QUOTA_EXCEEDED] when the quota refused it, and
    [STORAGE_WRITE_ERROR] when the store is denied. *)
Lemma safeSetItem_fail key value st st' :
  safeSetItem key value st = (st', false) →
  items st' = items st ∧
  ∃ e, log st' = log st ++ [e] ∧
    code e = (if denied st then "STORAGE_WRITE_ERROR" else "QUOTA_EXCEEDED").
Proof.
  unfold safeSetItem. destruct (denied st) eqn:Hd.
  - intros [= <-]. simpl. split; [done|]. eexists; split; [done|]. done.
  - destruct (quota st) as [|[] q]; intros [= <-]; simpl; split; try done.
    eexists; split; [done|]. done.
Qed.

(** A write to a store that is not denied and whose next quota outcome
    is not a refusal succeeds and stores the value. *)
Lemma safeSetItem_ok key value st :
  denied st = false → head (quota st) ≠ Some true →
  safeSetItem key value st =
    (mkStore (<[key:=value]> (items st)) false (tail (quota st)) (log st), true).
Proof.
  unfold safeSetItem. intros -> Hq. destruct (quota st) as [|[] q]; simpl in *; done.
Qed.
End Store.

#[export] Instance Store_adapter {V} : StoreAdapter V (Store V) := {
  sa_get := safeGetItem;
  sa_set := safeSetItem;
  sa_remove := safeRemoveItem;
  sa_log := logError;
  sa_view := items;
  sa_readable st := denied st = false;
}.

#[export] Instance Store_adapter_laws {V} : StoreAdapterLaws V (Store V).
Proof.
  split; simpl.
  - intros k s. unfold safeGetItem. by destruct (denied s).
  - intros k s Hd. unfold safeGetItem. by rewrite Hd.
  - intros k s d. unfold safeGetItem. by destruct (denied s).
  - intros k v s. unfold safeSetItem. by destruct (denied s), (quota s) as [|[] q].
  - intros k v s Hd. unfold safeSetItem. rewrite Hd. by destruct (quota s) as [|[] q].
  - intros k s. unfold safeRemoveItem. by destruct (denied s).
  - done.
  - done.
Qed.

Lemma safeSetItem_fail_witness :
  items (safeSetItem "k" 1%nat (mkStore ∅ false [true] [])).1 = items (mkStore (V:=nat) ∅ false [true] []) ∧
  ∃ e, log (safeSetItem "k" 1%nat (mkStore ∅ false [true] [])).1 = log (mkStore (V:=nat) ∅ false [true] []) ++ [e] ∧
    code e = (if denied (mkStore (V:=nat) ∅ false [true] []) then "STORAGE_WRITE_ERROR" else "QUOTA_EXCEEDED").
Proof.
  apply (safeSetItem_fail "k" 1%nat (mkStore ∅ false [true] [])).
  vm_compute. reflexivity.
Defined.
