(* ===== verification/Clock.v ===== *)
(** * The clock: [Date.now()] and [Date.prototype.toISOString]

    Time values are milliseconds since 1970-01-01T00:00:00Z, as [Z].
    [toISOString] formats a time value as [YYYY-MM-DDTHH:mm:ss.sssZ] for the
    years 0 to 9999 and with a signed six-digit year outside them, the
    format of ECMAScript's Date Time String Format.  The calendar date of a
    day number is computed by the days-to-civil algorithm over the 400-year
    cycle of the Gregorian calendar. *)

From S2P Require Import Prelude JsString.
From Stdlib Require Import Ascii.

Local Open Scope Z_scope.

Definition ms_per_day : Z := 86400000.

(** The year of the 400-year era (0-399) of a day of the era (0-146096). *)
Definition yoe_of (doe : Z) : Z :=
  (doe - doe `div` 1460 + doe `div` 36524 - doe `div` 146096) `div` 365.

(** The proleptic Gregorian date (year, month 1-12, day 1-31) of a day
    number counted from 1970-01-01. *)
Definition civil_from_days (days : Z) : Z * Z * Z :=
  let z := days + 719468 in
  let era := z `div` 146097 in
  let doe := z - era * 146097 in
  let yoe := yoe_of doe in
  let doy := doe - (365 * yoe + yoe `div` 4 - yoe `div` 100) in
  let mp := (5 * doy + 2) `div` 153 in
  let d := doy - (153 * mp + 2) `div` 5 + 1 in
  let m := if mp <? 10 then mp + 3 else mp - 9 in
  let y := yoe + era * 400 + (if m <=? 2 then 1 else 0) in
  (y, m, d).

(** The decimal digit [n] (0-9). *)
Definition digit (n : Z) : ascii := ascii_of_nat (48 + Z.to_nat n).

(** The [width] low decimal digits of [n], most significant first: the
    zero-padded decimal of [n] when [0 <= n < 10 ^ width]. *)
Fixpoint pad (width : nat) (n : Z) : string :=
  match width with
  | O => EmptyString
  | S w => String (digit (n `div` 10 ^ Z.of_nat w)) (pad w (n `mod` 10 ^ Z.of_nat w))
  end.

Definition year_string (y : Z) : string :=
  if (0 <=? y) && (y <=? 9999) then pad 4 y
  else if y <? 0 then "-" +:+ pad 6 (- y) else "+" +:+ pad 6 y.

Definition toISOString (t : Z) : string :=
  let days := t `div` ms_per_day in
  let msInDay := t `mod` ms_per_day in
  let '(y, m, d) := civil_from_days days in
  year_string y +:+ "-" +:+ pad 2 m +:+ "-" +:+ pad 2 d +:+ "T" +:+
  pad 2 (msInDay `div` 3600000) +:+ ":" +:+ pad 2 ((msInDay `div` 60000) `mod` 60) +:+ ":" +:+
  pad 2 ((msInDay `div` 1000) `mod` 60) +:+ "." +:+ pad 3 (msInDay `mod` 1000) +:+ "Z".

(** The first and last instants whose ISO string has a four-digit year:
    0000-01-01T00:00:00.000Z and 9999-12-31T23:59:59.999Z. *)
Definition iso_min : Z := -62167219200000.
Definition iso_max : Z := 253402300799999.

(** ** The calendar decomposition *)

(** The first day of the (shifted, March-based) year [y], counted from
    0000-03-01: [365 y] plus the leap days before it. *)
Definition ys (y : Z) : Z := 365 * y + y `div` 4 - y `div` 100 + y `div` 400.

(** The March-based year and its day (0-365) that [civil_from_days]
    computes on the way to the date. *)
Definition shifted_year (days : Z) : Z :=
  let z := days + 719468 in
  let era := z `div` 146097 in
  yoe_of (z - era * 146097) + era * 400.

Definition day_of_year (days : Z) : Z :=
  let z := days + 719468 in
  let era := z `div` 146097 in
  let doe := z - era * 146097 in
  let yoe := yoe_of doe in
  doe - (365 * yoe + yoe `div` 4 - yoe `div` 100).

(** The month and day of a day of the March-based year as one number
    [100 * month + day], with January and February counted after December. *)
Definition phi (doy : Z) : Z :=
  let mp := (5 * doy + 2) `div` 153 in
  let d := doy - (153 * mp + 2) `div` 5 + 1 in
  (if mp <? 10 then (mp + 3) * 100 else (mp + 91) * 100) + d.

(** A date as the number [YYYYMMDD]. *)
Definition date_key (ymd : Z * Z * Z) : Z :=
  let '(y, m, d) := ymd in (y * 100 + m) * 100 + d.

(** Lexicographic combination of two comparisons. *)
Definition lex (o1 o2 : comparison) : comparison :=
  match o1 with Eq => o2 | _ => o1 end.

(** ** Lemmas on the calendar *)

(** A function that grows at each step grows on an interval. *)
Lemma Z_mono_step (f : Z → Z) (lo hi : Z) :
  (∀ x, lo <= x → x + 1 <= hi → f x < f (x + 1)) →
  ∀ x y, lo <= x → x < y → y <= hi → f x < f y.
Proof.
  intros Hs x y Hx Hxy Hy.
  assert (∀ n : nat, x + 1 + Z.of_nat n <= hi → f x < f (x + 1 + Z.of_nat n)) as H.
  { induction n as [|n IH]; intros Hn.
    - rewrite Z.add_0_r. apply Hs; lia.
    - pose proof (Hs (x + 1 + Z.of_nat n) ltac:(lia) ltac:(lia)).
      replace (x + 1 + Z.of_nat (S n)) with (x + 1 + Z.of_nat n + 1) by lia.
      specialize (IH ltac:(lia)). lia. }
  replace y with (x + 1 + Z.of_nat (Z.to_nat (y - x - 1))) by lia. apply H. lia.
Qed.

(** [yoe_of] on a day of the era written as centuries [c], four-year
    cycles [q], years [u] and days [v]. *)
Lemma yoe_value c q u v :
  0 <= c <= 3 → 0 <= q <= 24 → 0 <= u <= 4 → 0 <= v < 365 → (u = 4 → v = 0) →
  1461 * q + 365 * u + v < 36524 →
  yoe_of (36524 * c + 1461 * q + 365 * u + v) = 100 * c + 4 * q + Z.min u 3.
Proof.
  intros Hc Hq Hu Hv H4 Hr. unfold yoe_of.
  assert (c = 0 ∨ c = 1 ∨ c = 2 ∨ c = 3) as Hc' by lia.
  assert (u = 0 ∨ u = 1 ∨ u = 2 ∨ u = 3 ∨ u = 4) as Hu' by lia.
  destruct Hc' as [E|[E|[E|E]]]; subst c; destruct Hu' as [F|[F|[F|[F|F]]]]; subst u;
    try (rewrite H4 in * by reflexivity); simpl Z.min; Z.to_euclidean_division_equations; lia.
Qed.

Lemma ys_value c q w : 0 <= c <= 3 → 0 <= q <= 24 → 0 <= w <= 3 →
  ys (100 * c + 4 * q + w) = 36524 * c + 1461 * q + 365 * w.
Proof. intros. unfold ys. Z.to_euclidean_division_equations. lia. Qed.

(** The year of the era brackets the day of the era. *)
Lemma yoe_spec doe : 0 <= doe <= 146096 →
  0 <= yoe_of doe <= 399 ∧ ys (yoe_of doe) <= doe < ys (yoe_of doe + 1).
Proof.
  intros H.
  assert (doe = 146096 ∨ doe < 146096) as [->|Hlt] by lia.
  { vm_compute. repeat split; discriminate. }
  set (c := doe `div` 36524). set (r := doe `mod` 36524).
  assert (doe = 36524 * c + r) by (apply Z.div_mod; lia).
  assert (0 <= r < 36524) by (apply Z.mod_pos_bound; lia).
  set (q := r `div` 1461). set (s := r `mod` 1461).
  assert (r = 1461 * q + s) by (apply Z.div_mod; lia).
  assert (0 <= s < 1461) by (apply Z.mod_pos_bound; lia).
  set (u := s `div` 365). set (v := s `mod` 365).
  assert (s = 365 * u + v) by (apply Z.div_mod; lia).
  assert (0 <= v < 365) by (apply Z.mod_pos_bound; lia).
  assert (0 <= c <= 3 ∧ 0 <= q <= 24 ∧ 0 <= u <= 4) as (? & ? & ?) by lia.
  clearbody c r q s u v. subst doe r s.
  replace (36524 * c + (1461 * q + (365 * u + v))) with (36524 * c + 1461 * q + 365 * u + v) by lia.
  rewrite yoe_value, ys_value by lia.
  split; [lia|]. split; [lia|].
  destruct (Z.eq_dec (Z.min u 3) 3) as [E|E].
  - rewrite E. destruct (Z.eq_dec q 24) as [->|Hq].
    + replace (100 * c + 4 * 24 + 3 + 1) with (100 * (c + 1) + 4 * 0 + 0) by lia.
      destruct (Z.eq_dec c 3) as [->|Hc].
      * change (ys (100 * (3 + 1) + 4 * 0 + 0)) with 146097. lia.
      * rewrite ys_value by lia. lia.
    + replace (100 * c + 4 * q + 3 + 1) with (100 * c + 4 * (q + 1) + 0) by lia.
      rewrite ys_value by lia. lia.
  - replace (100 * c + 4 * q + Z.min u 3 + 1) with (100 * c + 4 * q + (Z.min u 3 + 1)) by lia.
    rewrite ys_value by lia. lia.
Qed.

Lemma ys_shift k e : ys (k + e * 400) = ys k + e * 146097.
Proof.
  unfold ys.
  replace (k + e * 400) with (k + (e * 100) * 4) at 2 by lia. rewrite Z.div_add by lia.
  replace (k + e * 400) with (k + (e * 4) * 100) at 2 by lia. rewrite Z.div_add by lia.
  rewrite (Z.div_add k e 400) by lia. lia.
Qed.

Lemma ys_step y : ys y + 365 <= ys (y + 1) <= ys y + 366.
Proof. unfold ys. Z.to_euclidean_division_equations. lia. Qed.

Lemma ys_lt a b : a < b → ys (a + 1) <= ys b.
Proof.
  intros H. destruct (Z.eq_dec b (a + 1)) as [->|Hb]; [lia|].
  enough (ys (a + 1) < ys b) by lia.
  apply (Z_mono_step ys (a + 1) b); [|lia..]. intros x _ _. pose proof (ys_step x). lia.
Qed.

(** Every day number is [ys] of its shifted year plus its day of the year,
    and that day lies before the next year. *)
Lemma days_bracket days :
  days + 719468 = ys (shifted_year days) + day_of_year days ∧
  0 <= day_of_year days ∧ ys (shifted_year days) + day_of_year days < ys (shifted_year days + 1).
Proof.
  unfold shifted_year, day_of_year.
  set (z := days + 719468). set (era := z `div` 146097).
  assert (0 <= z - era * 146097 <= 146096) as Hd.
  { subst era. Z.to_euclidean_division_equations. lia. }
  set (doe := z - era * 146097) in *.
  destruct (yoe_spec doe Hd) as [Hy [H1 H2]].
  set (yoe := yoe_of doe) in *.
  replace (yoe + era * 400 + 1) with ((yoe + 1) + era * 400) by lia.
  rewrite !ys_shift.
  assert (ys yoe = 365 * yoe + yoe `div` 4 - yoe `div` 100) as Hys.
  { unfold ys. rewrite (Z.div_small yoe 400) by lia. lia. }
  lia.
Qed.

Lemma day_of_year_range d : 0 <= day_of_year d <= 365.
Proof. pose proof (days_bracket d). pose proof (ys_step (shifted_year d)). lia. Qed.

(** Later days have a later shifted year, or the same one and a later day. *)
Lemma days_lex d1 d2 : d1 < d2 →
  shifted_year d1 < shifted_year d2 ∨
  (shifted_year d1 = shifted_year d2 ∧ day_of_year d1 < day_of_year d2).
Proof.
  intros H. pose proof (days_bracket d1). pose proof (days_bracket d2).
  destruct (Z.lt_trichotomy (shifted_year d1) (shifted_year d2)) as [E|[E|E]].
  - by left.
  - right. rewrite E in *. lia.
  - pose proof (ys_lt _ _ E). lia.
Qed.

Lemma phi_step x : 0 <= x < 365 → phi x < phi (x + 1).
Proof.
  intros H. unfold phi.
  destruct (Z.ltb_spec ((5 * x + 2) `div` 153) 10), (Z.ltb_spec ((5 * (x + 1) + 2) `div` 153) 10);
    Z.to_euclidean_division_equations; lia.
Qed.

Lemma phi_lt x y : 0 <= x → x < y → y <= 365 → phi x < phi y.
Proof. apply Z_mono_step. intros z Hz Hz'. apply phi_step. lia. Qed.

Lemma phi_range x : 0 <= x <= 365 → 301 <= phi x <= 10229.
Proof.
  intros H. unfold phi. destruct (Z.ltb_spec ((5 * x + 2) `div` 153) 10);
    Z.to_euclidean_division_equations; lia.
Qed.

(** The date of a day number is [YYYYMMDD] = shifted year, then month and
    day in March-based order; its month is 1-12 and its day 1-31. *)
Lemma civil_from_days_key days y m d :
  civil_from_days days = (y, m, d) →
  (y * 100 + m) * 100 + d = shifted_year days * 10000 + phi (day_of_year days) ∧
  1 <= m <= 12 ∧ 1 <= d <= 31.
Proof.
  pose proof (day_of_year_range days) as Hr.
  unfold civil_from_days, phi, shifted_year, day_of_year in *.
  set (z := days + 719468) in *. set (era := z `div` 146097) in *.
  set (yoe := yoe_of (z - era * 146097)) in *.
  set (doy := z - era * 146097 - (365 * yoe + yoe `div` 4 - yoe `div` 100)) in *.
  set (mp := (5 * doy + 2) `div` 153).
  assert (0 <= mp <= 11) by (subst mp; Z.to_euclidean_division_equations; lia).
  assert (doy - (153 * mp + 2) `div` 5 + 1 <= 31 ∧ 1 <= doy - (153 * mp + 2) `div` 5 + 1)
    by (subst mp; Z.to_euclidean_division_equations; lia).
  intros E; injection E; intros <- <- <-.
  destruct (Z.ltb_spec mp 10); [destruct (Z.leb_spec (mp + 3) 2) | destruct (Z.leb_spec (mp - 9) 2)];
    lia.
Qed.

Lemma date_key_value days :
  date_key (civil_from_days days) = shifted_year days * 10000 + phi (day_of_year days).
Proof.
  destruct (civil_from_days days) as [[y m] d] eqn:E. apply (civil_from_days_key days y m d E).
Qed.

(** [civil_from_days] is strictly increasing for the order of dates. *)
Lemma date_key_lt d1 d2 : d1 < d2 → date_key (civil_from_days d1) < date_key (civil_from_days d2).
Proof.
  intros H. rewrite !date_key_value.
  pose proof (day_of_year_range d1). pose proof (day_of_year_range d2).
  pose proof (phi_range (day_of_year d1)). pose proof (phi_range (day_of_year d2)).
  destruct (days_lex d1 d2 H) as [E|[E1 E2]].
  - lia.
  - rewrite E1. pose proof (phi_lt (day_of_year d1) (day_of_year d2) ltac:(lia) E2 ltac:(lia)). lia.
Qed.

Lemma date_key_compare d1 d2 :
  Z.compare (date_key (civil_from_days d1)) (date_key (civil_from_days d2)) = Z.compare d1 d2.
Proof.
  destruct (Z.compare_spec d1 d2) as [->|H|H].
  - apply Z.compare_refl.
  - apply Z.compare_lt_iff, date_key_lt, H.
  - apply Z.compare_gt_iff, date_key_lt, H.
Qed.

(** ** Lemmas on fixed-width numbers and their digits *)

Lemma lex_assoc a b c : lex (lex a b) c = lex a (lex b c).
Proof. by destruct a. Qed.

Lemma lex_Eq_r a : lex a Eq = a.
Proof. by destruct a. Qed.

(** Comparing two numbers in a mixed radix is comparing their digits
    lexicographically. *)
Lemma radix_compare x y a b B :
  0 <= a < B → 0 <= b < B → Z.compare (x * B + a) (y * B + b) = lex (Z.compare x y) (Z.compare a b).
Proof.
  intros Ha Hb. destruct (Z.compare_spec x y) as [->|H|H]; simpl.
  - destruct (Z.compare_spec a b); [subst; apply Z.compare_refl|apply Z.compare_lt_iff; lia|apply Z.compare_gt_iff; lia].
  - apply Z.compare_lt_iff. nia.
  - apply Z.compare_gt_iff. nia.
Qed.

Lemma digit_compare a b : 0 <= a <= 9 → 0 <= b <= 9 → Ascii.compare (digit a) (digit b) = Z.compare a b.
Proof.
  intros Ha Hb.
  assert (a = 0 ∨ a = 1 ∨ a = 2 ∨ a = 3 ∨ a = 4 ∨ a = 5 ∨ a = 6 ∨ a = 7 ∨ a = 8 ∨ a = 9) as Ea by lia.
  assert (b = 0 ∨ b = 1 ∨ b = 2 ∨ b = 3 ∨ b = 4 ∨ b = 5 ∨ b = 6 ∨ b = 7 ∨ b = 8 ∨ b = 9) as Eb by lia.
  repeat destruct Ea as [->|Ea]; repeat destruct Eb as [->|Eb]; subst; reflexivity.
Qed.

Lemma append_cons c s r : String c s +:+ r = String c (s +:+ r).
Proof. reflexivity. Qed.

Lemma string_compare_cons c d s1 s2 :
  String.compare (String c s1) (String d s2) = lex (Ascii.compare c d) (String.compare s1 s2).
Proof. simpl. by destruct (Ascii.compare c d). Qed.

(** Two strings that start with [w]-digit numbers compare as the numbers,
    then as the rest. *)
Lemma pad_compare w a b r1 r2 :
  0 <= a < 10 ^ Z.of_nat w → 0 <= b < 10 ^ Z.of_nat w →
  String.compare (pad w a +:+ r1) (pad w b +:+ r2) = lex (Z.compare a b) (String.compare r1 r2).
Proof.
  revert a b. induction w as [|w IH]; intros a b Ha Hb.
  - simpl in *. by replace a with 0 by lia; replace b with 0 by lia.
  - rewrite Nat2Z.inj_succ, Z.pow_succ_r in Ha, Hb by lia.
    assert (0 < 10 ^ Z.of_nat w) by (apply Z.pow_pos_nonneg; lia).
    cbn [pad]. rewrite !append_cons, string_compare_cons, digit_compare by (split; [apply Z.div_pos | apply Z.lt_succ_r, Z.div_lt_upper_bound]; lia).
    rewrite (Z.div_mod a (10 ^ Z.of_nat w)) at 3 by lia.
    rewrite (Z.div_mod b (10 ^ Z.of_nat w)) at 3 by lia.
    rewrite !(Z.mul_comm (10 ^ Z.of_nat w)), radix_compare by (apply Z.mod_pos_bound; lia).
    rewrite IH by (apply Z.mod_pos_bound; lia).
    symmetry. apply lex_assoc.
Qed.

Lemma sep_compare c r1 r2 : String.compare (String c EmptyString +:+ r1) (String c EmptyString +:+ r2) = String.compare r1 r2.
Proof. rewrite !append_cons, string_compare_cons. unfold Ascii.compare. by rewrite N.compare_refl. Qed.

(** ** Lemmas on time values *)

(** The time of day in milliseconds is the mixed-radix number of its hours,
    minutes, seconds and milliseconds. *)
Lemma ms_in_day_digits r : 0 <= r < ms_per_day →
  r = ((r `div` 3600000 * 60 + (r `div` 60000) `mod` 60) * 60 + (r `div` 1000) `mod` 60) * 1000 + r `mod` 1000 ∧
  0 <= r `div` 3600000 < 24.
Proof. unfold ms_per_day. intros. Z.to_euclidean_division_equations. lia. Qed.

Lemma date_key_le d1 d2 : d1 <= d2 → date_key (civil_from_days d1) <= date_key (civil_from_days d2).
Proof. intros H. destruct (Z.eq_dec d1 d2) as [->|]; [lia|]. pose proof (date_key_lt d1 d2). lia. Qed.

(** The days of the instants from [iso_min] to [iso_max] have the years 0
    to 9999. *)
Lemma civil_year_range days y m d : -719528 <= days <= 2932896 →
  civil_from_days days = (y, m, d) → 0 <= y <= 9999 ∧ 1 <= m <= 12 ∧ 1 <= d <= 31.
Proof.
  intros H E. pose proof (date_key_le (-719528) days ltac:(lia)) as Hlo.
  pose proof (date_key_le days 2932896 ltac:(lia)) as Hhi.
  change (date_key (civil_from_days (-719528))) with 101 in Hlo.
  change (date_key (civil_from_days 2932896)) with 99991231 in Hhi.
  pose proof (civil_from_days_key days y m d E). rewrite E in Hlo, Hhi. simpl in *. lia.
Qed.

Lemma iso_days_range t : iso_min <= t <= iso_max → -719528 <= t `div` ms_per_day <= 2932896.
Proof. unfold iso_min, iso_max, ms_per_day. intros. Z.to_euclidean_division_equations. lia. Qed.

(** Comparing two time values is comparing their days, then their times
    of day. *)
Lemma time_compare t1 t2 :
  Z.compare t1 t2 = lex (Z.compare (t1 `div` ms_per_day) (t2 `div` ms_per_day))
                        (Z.compare (t1 `mod` ms_per_day) (t2 `mod` ms_per_day)).
Proof.
  rewrite (Z.div_mod t1 ms_per_day) at 1 by done. rewrite (Z.div_mod t2 ms_per_day) at 1 by done.
  rewrite !(Z.mul_comm ms_per_day). apply radix_compare; apply Z.mod_pos_bound; done.
Qed.

Lemma time_of_day_compare r1 r2 : 0 <= r1 < ms_per_day → 0 <= r2 < ms_per_day →
  Z.compare r1 r2 =
  lex (Z.compare (r1 `div` 3600000) (r2 `div` 3600000))
    (lex (Z.compare ((r1 `div` 60000) `mod` 60) ((r2 `div` 60000) `mod` 60))
       (lex (Z.compare ((r1 `div` 1000) `mod` 60) ((r2 `div` 1000) `mod` 60))
          (Z.compare (r1 `mod` 1000) (r2 `mod` 1000)))).
Proof.
  intros H1 H2.
  rewrite (proj1 (ms_in_day_digits r1 H1)) at 1. rewrite (proj1 (ms_in_day_digits r2 H2)) at 1.
  rewrite !radix_compare by (apply Z.mod_pos_bound; lia). by rewrite !lex_assoc.
Qed.

(** The ISO string of a time value whose year has four digits. *)
Lemma year_string_4 y : 0 <= y <= 9999 → year_string y = pad 4 y.
Proof. intros H. unfold year_string. by rewrite (proj2 (Z.leb_le 0 y)), (proj2 (Z.leb_le y 9999)) by lia. Qed.

(** The ISO strings of instants with four-digit years compare as the
    instants. *)
Lemma toISOString_compare t1 t2 :
  iso_min <= t1 <= iso_max → iso_min <= t2 <= iso_max →
  String.compare (toISOString t1) (toISOString t2) = Z.compare t1 t2.
Proof.
  intros H1 H2. pose proof (iso_days_range t1 H1). pose proof (iso_days_range t2 H2).
  assert (0 <= t1 `mod` ms_per_day < ms_per_day) as R1 by (apply Z.mod_pos_bound; done).
  assert (0 <= t2 `mod` ms_per_day < ms_per_day) as R2 by (apply Z.mod_pos_bound; done).
  rewrite time_compare, <- date_key_compare. rewrite (time_of_day_compare _ _ R1 R2).
  unfold toISOString.
  destruct (civil_from_days (t1 `div` ms_per_day)) as [[y1 m1] d1] eqn:E1.
  destruct (civil_from_days (t2 `div` ms_per_day)) as [[y2 m2] d2] eqn:E2.
  destruct (civil_year_range _ _ _ _ H E1) as (? & ? & ?).
  destruct (civil_year_range _ _ _ _ H0 E2) as (? & ? & ?).
  rewrite !year_string_4 by done. cbn [date_key]. rewrite !radix_compare by lia.
  pose proof (ms_in_day_digits _ R1) as [_ ?]. pose proof (ms_in_day_digits _ R2) as [_ ?].
  set (r1 := t1 `mod` ms_per_day) in *. set (r2 := t2 `mod` ms_per_day) in *.
  assert (∀ r k, 0 <= (r `div` k) `mod` 60 < 60) as Hm by (intros; apply Z.mod_pos_bound; lia).
  assert (∀ r, 0 <= r `mod` 1000 < 1000) as Hms by (intros; apply Z.mod_pos_bound; lia).
  pose proof (Hm r1 60000). pose proof (Hm r1 1000). pose proof (Hm r2 60000). pose proof (Hm r2 1000).
  pose proof (Hms r1). pose proof (Hms r2).
  repeat first [ rewrite pad_compare by (cbn; lia) | rewrite sep_compare ].
  change (String.compare "Z" "Z") with Eq. by rewrite !lex_assoc, lex_Eq_r.
Qed.

(** C9. The JavaScript comparison [a < b] of two timestamps produced by
    [toISOString], for instants from year 0 to year 9999, is the comparison
    of the instants. *)
Theorem toISOString_lt t1 t2 :
  iso_min <= t1 <= iso_max → iso_min <= t2 <= iso_max →
  js_lt (toISOString t1) (toISOString t2) = (t1 <? t2).
Proof.
  intros H1 H2. unfold js_lt. rewrite toISOString_compare by done.
  destruct (Z.compare_spec t1 t2); symmetry; [apply Z.ltb_ge | apply Z.ltb_lt | apply Z.ltb_ge]; lia.
Qed.

(** The ISO strings of the epoch, of a leap day, of the last millisecond
    before the epoch and of the first instant with a six-digit year are
    those of [Date.prototype.toISOString]. *)
Example toISOString_samples :
  toISOString 0 = "1970-01-01T00:00:00.000Z" ∧
  toISOString 951782400000 = "2000-02-29T00:00:00.000Z" ∧
  toISOString (-1) = "1969-12-31T23:59:59.999Z" ∧
  toISOString (iso_max + 1) = "+010000-01-01T00:00:00.000Z".
Proof. vm_compute. auto. Qed.

(** Witness: a report filed at 2025-11-09T10:01:00Z is later than the start
    of the five-minute window ending then. *)
Lemma toISOString_lt_witness :
  (iso_min <= 1762682160000 <= iso_max ∧ iso_min <= 1762682460000 <= iso_max) ∧
  js_lt (toISOString 1762682160000) (toISOString 1762682460000) = true.
Proof.
  split; [unfold iso_min, iso_max; lia|].
  rewrite (toISOString_lt 1762682160000 1762682460000) by (unfold iso_min, iso_max; lia). reflexivity.
Defined.
