(* ===== verification/DateParse.v ===== *)
(** * [Date.parse] on the Date Time String Format

    [new Date(s).getTime()] on a string of the full form of the Date Time
    String Format, the form [toISOString] produces:
    [YYYY-MM-DDTHH:mm:ss.sssZ] with a four-digit year or a signed six-digit
    one.  The fields are read digit by digit, checked against their ranges
    (day 1-31, as the engines check it), and combined by [MakeDay] and
    [MakeTime]; a time value beyond [8.64e15] milliseconds is [NaN]
    ([None]).  The shorter forms of the format (a date alone, no seconds,
    a time-zone offset) and the engines' fallback formats are not modelled:
    they give [None] here.  Every timestamp the store holds is written by
    [toISOString], so the model covers the strings the code parses.  The day
    of a date is the days-from-civil algorithm, the inverse of
    [civil_from_days]. *)

From S2P Require Import Prelude JsString Clock.
From Stdlib Require Import Ascii.

Local Open Scope Z_scope.

(** [MakeDay(year, month - 1, day)]: the day number of a date, counted from
    1970-01-01; a day past the end of its month runs into the next one. *)
Definition days_from_civil (y m d : Z) : Z :=
  let y := if m <=? 2 then y - 1 else y in
  let era := y `div` 400 in
  let yoe := y - era * 400 in
  let mp := if 2 <? m then m - 3 else m + 9 in
  let doy := (153 * mp + 2) `div` 5 + d - 1 in
  let doe := yoe * 365 + yoe `div` 4 - yoe `div` 100 + doy in
  era * 146097 + doe - 719468.

(** The value of a decimal digit. *)
Definition digit_value (c : ascii) : option Z :=
  let n := nat_of_ascii c in
  if (48 <=? n)%nat && (n <=? 57)%nat then Some (Z.of_nat n - 48) else None.

(** [w] decimal digits, accumulated onto [acc]. *)
Fixpoint parse_digits (w : nat) (acc : Z) (s : string) : option (Z * string) :=
  match w, s with
  | O, _ => Some (acc, s)
  | S w', String c s' => v ← digit_value c; parse_digits w' (acc * 10 + v) s'
  | S _, EmptyString => None
  end.

(** One literal code unit of the format. *)
Definition expect (c : ascii) (s : string) : option string :=
  match s with
  | String c' s' => if Ascii.eqb c c' then Some s' else None
  | EmptyString => None
  end.

(** The year: four digits, or a sign and six digits ([-000000] is not a
    year). *)
Definition parse_year (s : string) : option (Z * string) :=
  match s with
  | String c s' =>
      if Ascii.eqb c "+"%char then parse_digits 6 0 s'
      else if Ascii.eqb c "-"%char then
        '(y, r) ← parse_digits 6 0 s'; if y =? 0 then None else Some (- y, r)
      else parse_digits 4 0 s
  | EmptyString => None
  end.

(** [TimeClip]: the time values are those of at most [8.64e15] ms. *)
Definition max_time : Z := 8640000000000000.

Definition parse_iso (s : string) : option Z :=
  '(y, s) ← parse_year s; s ← expect "-" s; '(m, s) ← parse_digits 2 0 s; s ← expect "-" s;
  '(d, s) ← parse_digits 2 0 s; s ← expect "T" s;
  '(h, s) ← parse_digits 2 0 s; s ← expect ":" s; '(mi, s) ← parse_digits 2 0 s; s ← expect ":" s;
  '(sec, s) ← parse_digits 2 0 s; s ← expect "." s; '(ms, s) ← parse_digits 3 0 s; s ← expect "Z" s;
  let t := days_from_civil y m d * ms_per_day + ((h * 60 + mi) * 60 + sec) * 1000 + ms in
  if String.eqb s "" && (1 <=? m) && (m <=? 12) && (1 <=? d) && (d <=? 31) &&
     (h <=? 23) && (mi <=? 59) && (sec <=? 59) && (Z.abs t <=? max_time)
  then Some t else None.

(** ** Lemmas *)

Lemma digit_value_digit k : 0 <= k <= 9 → digit_value (digit k) = Some k.
Proof.
  intros Hk.
  assert (k = 0 ∨ k = 1 ∨ k = 2 ∨ k = 3 ∨ k = 4 ∨ k = 5 ∨ k = 6 ∨ k = 7 ∨ k = 8 ∨ k = 9) as E by lia.
  repeat destruct E as [->|E]; subst; reflexivity.
Qed.

(** Reading back [w] padded digits gives the number. *)
Lemma parse_digits_pad w acc a r :
  0 <= a < 10 ^ Z.of_nat w → parse_digits w acc (pad w a +:+ r) = Some (acc * 10 ^ Z.of_nat w + a, r).
Proof.
  revert acc a. induction w as [|w IH]; intros acc a Ha.
  - simpl in *. f_equal. f_equal. lia.
  - rewrite Nat2Z.inj_succ, Z.pow_succ_r in * by lia.
    assert (0 < 10 ^ Z.of_nat w) by (apply Z.pow_pos_nonneg; lia).
    cbn [pad]. rewrite append_cons. cbn [parse_digits].
    rewrite digit_value_digit by (split; [apply Z.div_pos | apply Z.lt_succ_r, Z.div_lt_upper_bound]; lia).
    simpl. rewrite IH by (apply Z.mod_pos_bound; lia). do 2 f_equal.
    rewrite (Z.div_mod a (10 ^ Z.of_nat w)) at 3 by lia. lia.
Qed.

Lemma parse_digits_pad0 w a r :
  0 <= a < 10 ^ Z.of_nat w → parse_digits w 0 (pad w a +:+ r) = Some (a, r).
Proof. intros H. rewrite parse_digits_pad by done. by rewrite Z.mul_0_l, Z.add_0_l. Qed.

(** [MakeDay] undoes [civil_from_days]. *)
Lemma days_from_civil_of_civil days y m d :
  civil_from_days days = (y, m, d) → days_from_civil y m d = days.
Proof.
  pose proof (day_of_year_range days) as Hr.
  pose proof (days_bracket days) as Hb.
  unfold civil_from_days, days_from_civil, shifted_year, day_of_year in *.
  set (z := days + 719468) in *. set (era := z `div` 146097) in *.
  assert (0 <= z - era * 146097 <= 146096) as Hd by (subst era; Z.to_euclidean_division_equations; lia).
  pose proof (yoe_spec _ Hd) as [Hy _].
  set (yoe := yoe_of (z - era * 146097)) in *.
  set (doy := z - era * 146097 - (365 * yoe + yoe `div` 4 - yoe `div` 100)) in *.
  set (mp := (5 * doy + 2) `div` 153).
  assert (0 <= mp <= 11) by (subst mp; Z.to_euclidean_division_equations; lia).
  assert ((153 * mp + 2) `div` 5 <= doy) by (subst mp; Z.to_euclidean_division_equations; lia).
  intros E; injection E; intros <- <- <-.
  assert ((yoe + era * 400) `div` 400 = era) as Hdiv.
  { rewrite Z.div_add, Z.div_small by lia. lia. }
  destruct (Z.ltb_spec mp 10).
  - rewrite (proj2 (Z.leb_gt (mp + 3) 2)), (proj2 (Z.ltb_lt 2 (mp + 3))) by lia.
    rewrite Z.add_0_r, Hdiv. replace (mp + 3 - 3) with mp by lia.
    replace (yoe + era * 400 - era * 400) with yoe by lia. subst z doy. lia.
  - rewrite (proj2 (Z.leb_le (mp - 9) 2)), (proj2 (Z.ltb_ge 2 (mp - 9))) by lia.
    replace (yoe + era * 400 + 1 - 1) with (yoe + era * 400) by lia. rewrite Hdiv.
    replace (mp - 9 + 9) with mp by lia.
    replace (yoe + era * 400 - era * 400) with yoe by lia. subst z doy. lia.
Qed.

(** The days of the time values have years of at most six digits. *)
Lemma civil_year_wide days y m d : -100000000 <= days <= 100000000 →
  civil_from_days days = (y, m, d) → -1000000 < y < 1000000 ∧ 1 <= m <= 12 ∧ 1 <= d <= 31.
Proof.
  intros H E. pose proof (date_key_le (-100000000) days ltac:(lia)) as Hlo.
  pose proof (date_key_le days 100000000 ltac:(lia)) as Hhi.
  change (date_key (civil_from_days (-100000000))) with (-2718209580) in Hlo.
  change (date_key (civil_from_days 100000000)) with 2757600913 in Hhi.
  pose proof (civil_from_days_key days y m d E). rewrite E in Hlo, Hhi. simpl in *. lia.
Qed.

Lemma expect_sep c r : expect c (String c EmptyString +:+ r) = Some r.
Proof. simpl. by rewrite Ascii.eqb_refl. Qed.

Lemma digit_not_sign k : 0 <= k <= 9 → Ascii.eqb (digit k) "+" = false ∧ Ascii.eqb (digit k) "-" = false.
Proof.
  intros Hk.
  assert (k = 0 ∨ k = 1 ∨ k = 2 ∨ k = 3 ∨ k = 4 ∨ k = 5 ∨ k = 6 ∨ k = 7 ∨ k = 8 ∨ k = 9) as E by lia.
  repeat destruct E as [->|E]; subst; split; reflexivity.
Qed.

(** The three forms of [year_string] read back as the year. *)
Lemma parse_year_string y r : -1000000 < y < 1000000 →
  parse_year (year_string y +:+ r) = Some (y, r).
Proof.
  intros Hy. unfold year_string.
  destruct (decide (0 <= y <= 9999)) as [H|H].
  - rewrite (proj2 (Z.leb_le 0 y)), (proj2 (Z.leb_le y 9999)) by lia. simpl andb. cbv iota.
    change (pad 4 y +:+ r) with (String (digit (y `div` 10 ^ Z.of_nat 3)) (pad 3 (y `mod` 10 ^ Z.of_nat 3) +:+ r)).
    unfold parse_year. destruct (digit_not_sign (y `div` 10 ^ Z.of_nat 3)) as [-> ->].
    { split; [apply Z.div_pos | apply Z.lt_succ_r, Z.div_lt_upper_bound]; simpl; lia. }
    change (String (digit (y `div` 10 ^ Z.of_nat 3)) (pad 3 (y `mod` 10 ^ Z.of_nat 3) +:+ r)) with (pad 4 y +:+ r).
    rewrite parse_digits_pad by (simpl; lia). do 2 f_equal.
  - replace ((0 <=? y) && (y <=? 9999)) with false by (symmetry; apply andb_false_iff; lia).
    destruct (Z.ltb_spec y 0).
    + change ((String "-" EmptyString +:+ pad 6 (- y)) +:+ r) with (String "-" (pad 6 (- y) +:+ r)).
      unfold parse_year. cbv iota. rewrite parse_digits_pad by (simpl; lia).
      simpl. rewrite (proj2 (Z.eqb_neq _ 0)) by lia. do 2 f_equal. lia.
    + change ((String "+" EmptyString +:+ pad 6 y) +:+ r) with (String "+" (pad 6 y +:+ r)).
      unfold parse_year. cbv iota. rewrite parse_digits_pad by (simpl; lia). simpl. do 2 f_equal.
Qed.

(** [Date.parse] reads back every time value [toISOString] prints: the
    round trip of the clock's two directions. *)
Theorem parse_iso_toISOString t : Z.abs t <= max_time → parse_iso (toISOString t) = Some t.
Proof.
  intros Ht.
  assert (-100000000 <= t `div` ms_per_day <= 100000000) as Hdays
    by (unfold max_time, ms_per_day in *; Z.to_euclidean_division_equations; lia).
  assert (0 <= t `mod` ms_per_day < ms_per_day) as R by (apply Z.mod_pos_bound; done).
  pose proof (ms_in_day_digits _ R) as [Hr Hh].
  unfold toISOString.
  destruct (civil_from_days (t `div` ms_per_day)) as [[y m] d] eqn:E.
  destruct (civil_year_wide _ _ _ _ Hdays E) as (Hy & Hm & Hd).
  pose proof (days_from_civil_of_civil _ _ _ _ E) as Hdfc.
  set (r := t `mod` ms_per_day) in *.
  assert (0 <= (r `div` 60000) `mod` 60 < 60) by (apply Z.mod_pos_bound; lia).
  assert (0 <= (r `div` 1000) `mod` 60 < 60) by (apply Z.mod_pos_bound; lia).
  assert (0 <= r `mod` 1000 < 1000) by (apply Z.mod_pos_bound; lia).
  unfold parse_iso. rewrite parse_year_string by lia. cbn [mbind option_bind].
  repeat (first [rewrite expect_sep | rewrite parse_digits_pad0 by (simpl; lia)]; cbn [mbind option_bind]).
  change (expect "Z" "Z") with (Some ""). cbn [mbind option_bind]. rewrite Hdfc.
  match goal with |- (if ?b then _ else _) = _ => replace b with true end.
  - f_equal. pose proof (Z.div_mod t ms_per_day ltac:(done)). subst r. unfold ms_per_day in *. lia.
  - symmetry. repeat rewrite andb_true_iff. rewrite !Z.leb_le. split_and!; try reflexivity; try lia.
    unfold max_time in *. rewrite (Z.div_mod t ms_per_day) in Ht by done. fold r in Ht. lia.
Qed.

(** C10. The round trip of the clock's two directions: [Date.parse] reads
    back every time value [toISOString] prints, so two time values with the
    same ISO string are equal. *)
Theorem toISOString_parse_inverse t :
  Z.abs t <= max_time →
  parse_iso (toISOString t) = Some t ∧
  ∀ t', Z.abs t' <= max_time → toISOString t' = toISOString t → t' = t.
Proof.
  intros Ht. split; [by apply parse_iso_toISOString|].
  intros t' Ht' E. apply (f_equal parse_iso) in E.
  rewrite !parse_iso_toISOString in E by done. congruence.
Qed.

(** Witness: the instant of the first report of the concrete runs. *)
Lemma toISOString_parse_inverse_witness :
  parse_iso (toISOString 1762682460000) = Some 1762682460000 ∧
  ∀ t', Z.abs t' <= max_time → toISOString t' = toISOString 1762682460000 → t' = 1762682460000.
Proof. apply toISOString_parse_inverse. unfold max_time. simpl. lia. Defined.

(** [Date.parse] of texts of the full format that are not time values. *)
Example parse_iso_rejects :
  parse_iso "2025-13-01T00:00:00.000Z" = None ∧
  parse_iso "-000000-01-01T00:00:00.000Z" = None ∧ parse_iso "+275761-01-01T00:00:00.000Z" = None.
Proof. vm_compute. auto. Qed.
