(* ===== verification/NumberFormat.v ===== *)
(** * [Number.prototype.toFixed] (ECMA-262, 21.1.3.3)

    Two places of the program print a double with a fixed number of
    decimals: the fallback address of [reverseGeocode]
    ([utils/geocoding.ts], [lat.toFixed(4)]) and the intensity of a heat-map
    popup ([components/HeatMap.tsx], [(intensity * 100).toFixed(0)]).  The
    operation is written out as the standard defines it, on the exact value
    [m * 2 ^ e] of the double ([Prim2SF]):
    - [fractionDigits] above 100 throws a [RangeError] ([None]);
    - [NaN] and the infinities print as [Number::toString] does;
    - otherwise [x < 0] gives a ["-"] and [x] becomes [-x]; [n] is the
      integer for which [n / 10 ^ f - x] is as close to zero as possible,
      the larger of two; its decimal digits [m] ([digits_loop], which
      divides by ten until nothing is left) are padded with zeros to
      [f + 1] digits and a point is put before the last [f].
    A value of magnitude [10 ^ 21] or more prints as [Number::toString]
    prints it, in exponent notation, which the program never reaches (its
    values are coordinates and percentages); that branch is [None] too.

    The digit loop runs on fuel: one more than [log2 n] iterations, which
    is at least the number of decimal digits of [n].  The theorems show that
    this fuel suffices, that [n] is the integer the standard asks for, and
    that the printed text reads back as the sign of [x] and [n]. *)

From S2P Require Import Prelude JsString Clock DateParse.
From Stdlib Require Import Ascii.

Local Open Scope Z_scope.
#[local] Set Warnings "-inexact-float".

(** ** The digits of an integer *)

(** The decimal digits of [n], least significant first, pushed onto
    [acc]; [None] when the fuel runs out before [n] is exhausted. *)
Fixpoint digits_loop (fuel : nat) (n : Z) (acc : string) : option string :=
  if n <=? 0 then Some acc
  else match fuel with
       | O => None
       | S fuel => digits_loop fuel (n `div` 10) (String (digit (n `mod` 10)) acc)
       end.

(** The fuel given to the loop: the bit length of [n]. *)
Definition digits_fuel (n : Z) : nat := S (Z.to_nat (Z.log2 n)).

(** "the String value consisting of the digits of the decimal
    representation of n (in order, with no leading zeroes)", ["0"] for 0. *)
Definition decimal_digits (n : Z) : option string :=
  if n =? 0 then Some "0" else digits_loop (digits_fuel n) n "".

(** [f] zeros. *)
Fixpoint zeros (f : nat) : string :=
  match f with O => "" | S f => String "0" (zeros f) end.

(** Steps 10.b-d: pad [m] to [f + 1] digits and put the point before the
    last [f]. *)
Definition point_layout (f : nat) (m : string) : string :=
  if decide (f = 0%nat) then m
  else
    (let k := String.length m in
    let '(m, k) := if (k <=? f)%nat then (zeros (f + 1 - k) +:+ m, (f + 1)%nat) else (m, k) in
    String.substring 0 (k - f) m +:+ "." +:+ String.substring (k - f) f m)%nat.

(** ** The rounding *)

(** The magnitude of the finite double [m * 2 ^ e], scaled by [10 ^ f],
    as the fraction [M / D]. *)
Definition scaled (f : nat) (m : positive) (e : Z) : Z * Z :=
  if 0 <=? e then (Z.pos m * 2 ^ e * 10 ^ Z.of_nat f, 1)
  else (Z.pos m * 10 ^ Z.of_nat f, 2 ^ (- e)).

(** The integer nearest to [M / D], the larger of two: [floor (M / D + 1/2)]. *)
Definition nearest_int (M D : Z) : Z := (2 * M + D) `div` (2 * D).

(** [n] is as close as an integer can be to [M / D], and the larger of
    two equally close ones. *)
Definition nearest (M D n : Z) : Prop :=
  ∀ n', Z.abs (n * D - M) <= Z.abs (n' * D - M) ∧
        (Z.abs (n * D - M) = Z.abs (n' * D - M) → n' <= n).

(** ** The operation *)

Definition toFixed (f : nat) (x : float) : option string :=
  if (100 <? f)%nat then None
  else match Prim2SF x with
  | S754_nan => Some "NaN"
  | S754_infinity false => Some "Infinity"
  | S754_infinity true => Some "-Infinity"
  | S754_zero _ => Some (point_layout f "0")
  | S754_finite s m e =>
      let '(M0, D0) := scaled 0 m e in
      if 10 ^ 21 * D0 <=? M0 then None
      else
        let '(M, D) := scaled f m e in
        m ← decimal_digits (nearest_int M D);
        Some ((if s then "-" else "") +:+ point_layout f m)
  end.

(** ** Reading a fixed-point numeral back *)

(** A run of decimal digits accumulated onto [acc], up to the first code
    unit that is not a digit. *)
Fixpoint parse_run (acc : Z) (s : string) : Z * string :=
  match s with
  | String c s' => match digit_value c with Some v => parse_run (acc * 10 + v) s' | None => (acc, s) end
  | EmptyString => (acc, s)
  end.

(** An optional ["-"]. *)
Definition parse_sign (s : string) : bool * string :=
  match s with
  | String c s' => if Ascii.eqb c "-"%char then (true, s') else (false, s)
  | EmptyString => (false, s)
  end.

(** An optional ["-"], digits, and when [f > 0] a point and [f] digits:
    the sign and the numeral's value times [10 ^ f]. *)
Definition parse_fixed (f : nat) (s : string) : option (bool * Z) :=
  let '(neg, s) := parse_sign s in
  let '(i, s) := parse_run 0 s in
  if decide (f = 0%nat) then (if String.eqb s "" then Some (neg, i) else None)
  else s ← expect "." s; '(fr, s) ← parse_digits f 0 s;
       if String.eqb s "" then Some (neg, i * 10 ^ Z.of_nat f + fr) else None.

(** The exact value of a zero or finite double, scaled by [10 ^ f]. *)
Definition abs_scaled (f : nat) (x : float) : option (Z * Z) :=
  match Prim2SF x with
  | S754_zero _ => Some (0, 1)
  | S754_finite _ m e => Some (scaled f m e)
  | _ => None
  end.

(** The doubles [toFixed] prints without [Number::toString]'s exponent
    notation: all but the finite ones of magnitude [10 ^ 21] or more. *)
Definition below_1e21 (x : float) : bool :=
  match Prim2SF x with
  | S754_finite _ m e => let '(M, D) := scaled 0 m e in M <? 10 ^ 21 * D
  | _ => true
  end.

(** ** Strings of digits *)

Lemma pad_length k n : String.length (pad k n) = k.
Proof. revert n. induction k; intros n; simpl; auto. Qed.

Lemma length_app a b : String.length (a +:+ b) = (String.length a + String.length b)%nat.
Proof. induction a; simpl; auto. Qed.

Lemma substring_all s : String.substring 0 (String.length s) s = s.
Proof. induction s; simpl; f_equal; auto. Qed.

Lemma substring_app_l a b : String.substring 0 (String.length a) (a +:+ b) = a.
Proof. induction a; simpl; [by destruct b|]. f_equal; auto. Qed.

Lemma substring_app_r a b : String.substring (String.length a) (String.length b) (a +:+ b) = b.
Proof. induction a as [|c a IH]; [apply substring_all | exact IH]. Qed.

Lemma pow10_pos (k : nat) : 0 < 10 ^ Z.of_nat k.
Proof. apply Z.pow_pos_nonneg; lia. Qed.

(** [pad (a + b)] splits into the high [a] and the low [b] digits. *)
Lemma pad_add a b n : 0 <= n < 10 ^ Z.of_nat (a + b) →
  pad (a + b) n = pad a (n `div` 10 ^ Z.of_nat b) +:+ pad b (n `mod` 10 ^ Z.of_nat b).
Proof.
  revert n. induction a as [|a IH]; intros n Hn.
  - simpl in *. by rewrite Z.mod_small by lia.
  - pose proof (pow10_pos a). pose proof (pow10_pos b).
    rewrite Nat2Z.inj_add in Hn. rewrite Z.pow_add_r in Hn by lia.
    change (S a + b)%nat with (S (a + b)). cbn [pad]. rewrite append_cons. f_equal.
    + f_equal. rewrite Nat2Z.inj_add, Z.pow_add_r, Z.div_div by lia. f_equal. lia.
    + rewrite IH by (apply Z.mod_pos_bound; lia).
      rewrite Nat2Z.inj_add, Z.pow_add_r by lia.
      rewrite (Z.mul_comm (10 ^ Z.of_nat a)), Z.rem_mul_r by lia. f_equal; f_equal.
      * rewrite Z.mul_comm, Z.div_add by lia. rewrite Z.div_small by (apply Z.mod_pos_bound; lia). lia.
      * rewrite Z.mul_comm, Z.mod_add by lia. apply Z.mod_mod. lia.
Qed.

Lemma zeros_pad j k n : 0 <= n < 10 ^ Z.of_nat k → zeros j +:+ pad k n = pad (j + k) n.
Proof.
  intros Hn. induction j as [|j IH]; [done|]. pose proof (pow10_pos k).
  assert (10 ^ Z.of_nat k <= 10 ^ Z.of_nat (j + k)) by (apply Z.pow_le_mono_r; lia).
  change (S j + k)%nat with (S (j + k)). cbn [pad zeros]. rewrite append_cons, IH.
  rewrite Z.div_small, Z.mod_small by lia. done.
Qed.

Lemma digit_value_none_point : digit_value "."%char = None.
Proof. reflexivity. Qed.

Lemma parse_run_pad k acc a r : 0 <= a < 10 ^ Z.of_nat k →
  parse_run acc (pad k a +:+ r) = parse_run (acc * 10 ^ Z.of_nat k + a) r.
Proof.
  revert acc a. induction k as [|k IH]; intros acc a Ha.
  - simpl in *. f_equal. lia.
  - rewrite Nat2Z.inj_succ, Z.pow_succ_r in * by lia. pose proof (pow10_pos k).
    cbn [pad]. rewrite append_cons. cbn [parse_run].
    rewrite digit_value_digit by (split; [apply Z.div_pos | apply Z.lt_succ_r, Z.div_lt_upper_bound]; lia).
    rewrite IH by (apply Z.mod_pos_bound; lia). f_equal.
    rewrite (Z.div_mod a (10 ^ Z.of_nat k)) at 3 by lia. lia.
Qed.

Lemma string_app_assoc' a b c : (a +:+ b) +:+ c = a +:+ (b +:+ c).
Proof. induction a as [|x a IH]; [done|]. by rewrite !append_cons, IH. Qed.

Lemma list_ascii_of_string_app a b :
  String.list_ascii_of_string (a +:+ b) = String.list_ascii_of_string a ++ String.list_ascii_of_string b.
Proof. induction a as [|c a IH]; [done|]. rewrite append_cons. simpl. by rewrite IH. Qed.

Lemma string_app_nil_l a : "" +:+ a = a.
Proof. reflexivity. Qed.

Lemma string_app_nil_r' a : a +:+ "" = a.
Proof. induction a as [|x a IH]; [done|]. by rewrite append_cons, IH. Qed.

Lemma pad_one_low k n : 0 <= n < 10 ^ Z.of_nat (S k) →
  pad (S k) n = pad k (n `div` 10) +:+ String (digit (n `mod` 10)) "".
Proof. intros Hn. rewrite <-Nat.add_1_r, pad_add by (by rewrite Nat.add_1_r). simpl. by rewrite Z.div_1_r. Qed.

(** The digit loop pushes the digits of [n], with no leading zero. *)
Lemma digits_loop_pad fuel n acc r : 0 <= n → digits_loop fuel n acc = Some r →
  ∃ k, r = pad k n +:+ acc ∧ n < 10 ^ Z.of_nat k ∧ (k = 0%nat ∧ n = 0 ∨ 10 ^ Z.of_nat k <= 10 * n).
Proof.
  revert n acc. induction fuel as [|fuel IH]; intros n acc Hn Hr; simpl in Hr;
    (destruct (Z.leb_spec n 0); [simplify_eq; exists 0%nat; simpl; split_and!; [done|lia|left; lia] |]);
    [done|].
  destruct (IH _ _ (Z.div_pos n 10 Hn ltac:(lia)) Hr) as (k & -> & Hk & Hlead).
  pose proof (Z.div_mod n 10 ltac:(lia)). pose proof (Z.mod_pos_bound n 10 ltac:(lia)).
  assert (n < 10 ^ Z.of_nat (S k)) by (rewrite Nat2Z.inj_succ, Z.pow_succ_r; lia).
  exists (S k). rewrite pad_one_low by lia. split_and!; [by rewrite string_app_assoc' | done |].
  right. rewrite Nat2Z.inj_succ, Z.pow_succ_r by lia. destruct Hlead as [[-> _]|]; simpl; lia.
Qed.

Lemma log2_div10 n : 0 < n `div` 10 → Z.log2 (n `div` 10) < Z.log2 n.
Proof.
  intros H. apply Z.le_succ_l. rewrite <-Z.log2_double by done.
  apply Z.log2_le_mono. pose proof (Z.mul_div_le n 10). lia.
Qed.

(** Fuel above [log2 n] is enough for the digit loop. *)
Lemma digits_loop_enough fuel n acc : (Z.to_nat (Z.log2 n) < fuel)%nat → ∃ r, digits_loop fuel n acc = Some r.
Proof.
  revert n acc. induction fuel as [|fuel IH]; intros n acc Hf; [lia|]. simpl.
  destruct (Z.leb_spec n 0); [by eexists|].
  destruct (Z.leb_spec (n `div` 10) 0) as [Hq|Hq].
  - destruct fuel; simpl; destruct (Z.leb_spec (n `div` 10) 0); try lia; by eexists.
  - apply IH. pose proof (log2_div10 n Hq). pose proof (Z.log2_nonneg (n `div` 10)). lia.
Qed.

(** The digits of [n >= 0]: its [k]-digit numeral, with no leading zero. *)
Lemma decimal_digits_pad n : 0 <= n →
  ∃ k, decimal_digits n = Some (pad k n) ∧ (0 < k)%nat ∧ n < 10 ^ Z.of_nat k ∧
       (n = 0 ∨ 10 ^ Z.of_nat k <= 10 * n).
Proof.
  intros Hn. unfold decimal_digits. destruct (Z.eqb_spec n 0) as [->|Hne].
  { exists 1%nat. split_and!; [done | lia | simpl; lia | by left]. }
  destruct (digits_loop_enough (digits_fuel n) n "") as [r Hr]; [unfold digits_fuel; lia|].
  destruct (digits_loop_pad _ _ _ _ Hn Hr) as (k & -> & Hk & [[-> ?]|Hlead]); [lia|].
  exists k. rewrite Hr, string_app_nil_r'. split_and!; auto. destruct k; [lia|]. simpl. lia.
Qed.

(** [floor (M / D + 1/2)] is the nearest integer to [M / D], the larger of two. *)
Lemma nearest_int_nearest M D : 0 < D → nearest M D (nearest_int M D).
Proof.
  intros HD n'. unfold nearest_int. set (n := (2 * M + D) `div` (2 * D)).
  pose proof (Z.div_mod (2 * M + D) (2 * D) ltac:(lia)) as Hdm.
  pose proof (Z.mod_pos_bound (2 * M + D) (2 * D) ltac:(lia)). fold n in Hdm.
  destruct (Z.lt_trichotomy n' n) as [Hlt|[->|Hgt]].
  - assert (n' * D <= n * D - D) by nia. split; intros; lia.
  - lia.
  - assert (n * D + D <= n' * D) by nia. split; intros; lia.
Qed.

Lemma nearest_int_nonneg M D : 0 <= M → 0 < D → 0 <= nearest_int M D.
Proof. intros. apply Z.div_pos; lia. Qed.

Lemma pad_head a q : (0 < a)%nat → 0 <= q < 10 ^ Z.of_nat a →
  ∃ d rest, pad a q = String (digit d) rest ∧ 0 <= d <= 9.
Proof.
  intros Ha Hq. destruct a as [|a]; [lia|]. pose proof (pow10_pos a).
  rewrite Nat2Z.inj_succ, Z.pow_succ_r in Hq by lia.
  eexists _, _. split; [reflexivity|]. split; [apply Z.div_pos; lia|].
  apply Z.lt_succ_r, Z.div_lt_upper_bound; lia.
Qed.

Lemma parse_sign_pad (neg : bool) a q r : (0 < a)%nat → 0 <= q < 10 ^ Z.of_nat a →
  parse_sign ((if neg then "-" else "") +:+ pad a q +:+ r) = (neg, pad a q +:+ r).
Proof.
  intros Ha Hq. destruct neg; [reflexivity|].
  destruct (pad_head a q Ha Hq) as (d & rest & E & Hd).
  rewrite E, append_cons, (string_app_nil_l (String _ _)). unfold parse_sign. by rewrite (proj2 (digit_not_sign d Hd)).
Qed.

Lemma split_pad a f n : 0 <= n < 10 ^ Z.of_nat (a + f) →
  n `div` 10 ^ Z.of_nat f < 10 ^ Z.of_nat a ∧
  String.substring 0 a (pad (a + f) n) +:+ "." +:+ String.substring a f (pad (a + f) n) =
    pad a (n `div` 10 ^ Z.of_nat f) +:+ "." +:+ pad f (n `mod` 10 ^ Z.of_nat f).
Proof.
  intros Hn. pose proof (pow10_pos f). pose proof (pow10_pos a).
  rewrite pad_add by done. rewrite Nat2Z.inj_add, Z.pow_add_r in Hn by lia.
  split; [apply Z.div_lt_upper_bound; lia |].
  pose proof (substring_app_l (pad a (n `div` 10 ^ Z.of_nat f)) (pad f (n `mod` 10 ^ Z.of_nat f))) as Hl.
  pose proof (substring_app_r (pad a (n `div` 10 ^ Z.of_nat f)) (pad f (n `mod` 10 ^ Z.of_nat f))) as Hr.
  rewrite !pad_length in Hl. rewrite !pad_length in Hr. by rewrite Hl, Hr.
Qed.

(** The layout of a [k]-digit numeral: its digits above [10 ^ f], a
    point, and the [f] digits below. *)
Lemma point_layout_pad f k n : f ≠ 0%nat → (0 < k)%nat → 0 <= n < 10 ^ Z.of_nat k →
  ∃ a, (0 < a)%nat ∧ n `div` 10 ^ Z.of_nat f < 10 ^ Z.of_nat a ∧
    point_layout f (pad k n) = pad a (n `div` 10 ^ Z.of_nat f) +:+ "." +:+ pad f (n `mod` 10 ^ Z.of_nat f).
Proof.
  intros Hf Hk Hn. unfold point_layout. destruct (decide (f = 0%nat)); [done|]. rewrite pad_length.
  destruct (Nat.leb_spec k f); cbv beta iota zeta.
  - rewrite zeros_pad by done. replace (f + 1 - k + k)%nat with (1 + f)%nat by lia.
    replace (f + 1 - f)%nat with 1%nat by lia. exists 1%nat.
    assert (n < 10 ^ Z.of_nat (1 + f)) by (eapply Z.lt_le_trans; [apply Hn | apply Z.pow_le_mono_r; lia]).
    destruct (split_pad 1 f n) as [? ->]; [lia|]. split_and!; [lia | done | done].
  - destruct (Nat.le_exists_sub f k) as (a & -> & _); [lia|].
    replace (a + f - f)%nat with a by lia. exists a.
    destruct (split_pad a f n) as [? ->]; [done|]. split_and!; [lia | done | done].
Qed.

(** The text [toFixed] lays out reads back as its sign and numeral. *)
Lemma parse_fixed_layout f (neg : bool) k n : (0 < k)%nat → 0 <= n < 10 ^ Z.of_nat k →
  parse_fixed f ((if neg then "-" else "") +:+ point_layout f (pad k n)) = Some (neg, n).
Proof.
  intros Hk Hn. unfold parse_fixed. destruct (decide (f = 0%nat)) as [->|Hf].
  - unfold point_layout. rewrite decide_True by done.
    rewrite <-(string_app_nil_r' (pad k n)), parse_sign_pad, parse_run_pad by done. simpl. do 2 f_equal; lia.
  - destruct (point_layout_pad f k n Hf Hk Hn) as (a & Ha & Hq & ->). pose proof (pow10_pos f).
    assert (0 <= n `div` 10 ^ Z.of_nat f) by (apply Z.div_pos; lia).
    rewrite parse_sign_pad, parse_run_pad by lia.
    rewrite <-(string_app_nil_r' (pad f _)). simpl.
    rewrite string_app_nil_l, parse_digits_pad0 by (apply Z.mod_pos_bound; lia). simpl. do 2 f_equal.
    rewrite (Z.div_mod n (10 ^ Z.of_nat f)) at 3 by lia. lia.
Qed.

Lemma scaled_split f m e : scaled f m e = ((scaled 0 m e).1 * 10 ^ Z.of_nat f, (scaled 0 m e).2).
Proof. unfold scaled. destruct (0 <=? e); simpl; f_equal; lia. Qed.

Lemma scaled_pos f m e : 0 <= (scaled f m e).1 ∧ 0 < (scaled f m e).2.
Proof.
  pose proof (pow10_pos f). unfold scaled. destruct (Z.leb_spec 0 e); simpl.
  - pose proof (Z.pow_pos_nonneg 2 e ltac:(lia) ltac:(lia)). split; nia.
  - pose proof (Z.pow_pos_nonneg 2 (- e) ltac:(lia) ltac:(lia)). split; lia.
Qed.

(** The source's test [x < 0] reads the sign of a non-zero double; a zero
    of either sign is not below 0. *)
Lemma ltb_0_finite x s m e : Prim2SF x = S754_finite s m e → (x <? 0)%float = s.
Proof. intros E. rewrite ltb_spec, E. by destruct s. Qed.

Lemma ltb_0_zero x s : Prim2SF x = S754_zero s → (x <? 0)%float = false.
Proof. intros E. rewrite ltb_spec, E. by destruct s. Qed.

(** What [toFixed] prints below [10 ^ 21]: the sign of [x < 0] and the
    layout of the digits of the rounded [|x| * 10 ^ f]. *)
Lemma toFixed_shape f x M D : (f <= 100)%nat → abs_scaled f x = Some (M, D) →
  M < 10 ^ (21 + Z.of_nat f) * D →
  0 <= M ∧ 0 < D ∧ ∃ k, (0 < k)%nat ∧ 0 <= nearest_int M D < 10 ^ Z.of_nat k ∧
    toFixed f x = Some ((if (x <? 0)%float then "-" else "") +:+ point_layout f (pad k (nearest_int M D))).
Proof.
  intros Hf Hx HM. unfold toFixed, abs_scaled in *.
  destruct (Nat.ltb_spec 100 f); [lia|]. destruct (Prim2SF x) as [s|s| |s m e] eqn:E; simplify_eq.
  - rewrite (ltb_0_zero x s E). split_and!; [lia | lia |]. exists 1%nat. split_and!; [lia | done | done | done].
  - rewrite (ltb_0_finite x s m e E).
    pose proof (scaled_pos 0 m e) as HP0. pose proof (scaled_split f m e) as Hs.
    destruct (scaled 0 m e) as [M0 D0]. cbn [fst snd] in *. destruct HP0.
    rewrite Hs in Hx |- *. simplify_eq. cbv beta iota zeta.
    rewrite Z.pow_add_r in HM by lia. pose proof (pow10_pos f).
    destruct (Z.leb_spec (10 ^ 21 * D) M0); [nia|].
    assert (0 <= nearest_int (M0 * 10 ^ Z.of_nat f) D) by (apply nearest_int_nonneg; lia).
    destruct (decimal_digits_pad (nearest_int (M0 * 10 ^ Z.of_nat f) D)) as (k & -> & Hk & Hlt & _); [done|].
    split_and!; [lia | lia |]. by exists k.
Qed.

(** Below [10 ^ 21] and with at most 100 digits, [toFixed] answers. *)
Lemma toFixed_some f x : (f <= 100)%nat → below_1e21 x = true → ∃ s, toFixed f x = Some s.
Proof.
  intros Hf Hb. destruct (abs_scaled f x) as [[M D]|] eqn:Hx.
  - destruct (toFixed_shape f x M D Hf Hx) as (_ & _ & k & _ & _ & ->); [|by eexists].
    unfold abs_scaled, below_1e21 in *. destruct (Prim2SF x) as [| | |s m e]; simplify_eq; [lia|].
    pose proof (scaled_split f m e) as Hs. pose proof (scaled_pos 0 m e) as [? ?].
    destruct (scaled 0 m e) as [M0 D0]. rewrite Hs in Hx. simplify_eq/=. apply Z.ltb_lt in Hb.
    pose proof (pow10_pos f). rewrite Z.pow_add_r by lia. nia.
  - unfold toFixed, abs_scaled in *. destruct (Nat.ltb_spec 100 f); [lia|].
    destruct (Prim2SF x) as [| [] | |]; simplify_eq; by eexists.
Qed.

(** C34. [toFixed] on a double of magnitude below [10 ^ 21], with
    [fractionDigits] at most 100, prints a numeral that reads back as the
    sign of the source's test [x < 0] and the integer [n] the standard
    asks for: the closest to [|x| * 10 ^ f], the larger of two. *)
Theorem toFixed_correct f x M D : (f <= 100)%nat → abs_scaled f x = Some (M, D) →
  M < 10 ^ (21 + Z.of_nat f) * D →
  ∃ s n, toFixed f x = Some s ∧ parse_fixed f s = Some ((x <? 0)%float, n) ∧ nearest M D n.
Proof.
  intros Hf Hx HM. destruct (toFixed_shape f x M D Hf Hx HM) as (_ & HD & k & Hk & Hn & ->).
  eexists _, _. split_and!; [reflexivity | by apply parse_fixed_layout | by apply nearest_int_nearest].
Qed.

Lemma toFixed_correct_witness :
  ∃ M D, abs_scaled 4 (-33.8599)%float = Some (M, D) ∧
    ∃ s n, toFixed 4 (-33.8599)%float = Some s ∧ parse_fixed 4 s = Some (true, n) ∧ nearest M D n.
Proof.
  eexists _, _. split; [vm_compute; reflexivity|].
  apply (toFixed_correct 4 (-33.8599)%float); [lia | vm_compute; reflexivity | vm_compute; reflexivity].
Defined.

(** The values the standard's examples and the program's inputs give:
    ties go up ([2.5], [0.125]), the double nearest [1.005] is below it,
    and a negative value that rounds to zero keeps its sign. *)
Example toFixed_values :
  map (toFixed 4) [151.2111; (-33.8599); (-0.00001); 0]%float =
    [Some "151.2111"; Some "-33.8599"; Some "-0.0000"; Some "0.0000"] ∧
  map (toFixed 0) [2.5; 0.55 * 100]%float = [Some "3"; Some "55"] ∧
  map (toFixed 2) [1.005; 0.125]%float = [Some "1.00"; Some "0.13"] ∧
  toFixed 4 1e21%float = None ∧ toFixed 101 1%float = None.
Proof. vm_compute. split_and!; reflexivity. Qed.
