(* ===== verification/Vite.v ===== *)
(** * The build configuration ([vite.config.ts])

    [defineConfig(({ mode }) => ...)] is a function of the build mode and
    of the environment variable [VITE_BASE]; [__dirname] is the absolute
    directory of the configuration file.  The model is that function: the
    public [base] ([VITE_BASE || '/']), the plugins in their order, the
    [@] alias resolved by [path.resolve], the asset patterns, and the
    build options, with source maps only in development, minification
    only in production, and three manual chunks.  The plugins themselves
    and the bundler are libraries and are not modelled; a plugin is its
    name.

    [path.resolve(dir, rel)] is written out as Node's POSIX
    implementation does it for an absolute [dir]: the segments of
    [dir/rel] with empty and [.] segments dropped and [..] removing the
    segment before it.

    The theorems: [base] is never empty, so every asset URL is rooted; a
    build has source maps or minification, never both; the chunk lists
    are disjoint, so [manualChunks] puts each package in one chunk; and
    the alias of a directory written without [.], [..] or empty segments
    is that directory followed by [/src]. *)

From S2P Require Import Prelude JsString Clock NumberFormat.
From Stdlib Require Import Ascii.

(** [s.split('/')] *)
Fixpoint split_slash (s : string) : list string :=
  match s with
  | EmptyString => [""]
  | String c s' =>
      if Ascii.eqb c "/"%char then "" :: split_slash s'
      else match split_slash s' with p :: ps => String c p :: ps | [] => [String c ""] end
  end.

(** [normalizeString] of Node's [path]: the segments kept, in reverse. *)
Fixpoint normalize_rev (acc : list string) (segs : list string) : list string :=
  match segs with
  | [] => acc
  | s :: segs =>
      if String.eqb s "" || String.eqb s "." then normalize_rev acc segs
      else if String.eqb s ".." then normalize_rev (tail acc) segs
      else normalize_rev (s :: acc) segs
  end.

(** [path.resolve(dir, rel)] for an absolute [dir] and a relative [rel]. *)
Definition path_resolve (dir rel : string) : string :=
  "/" +:+ String.concat "/" (rev (normalize_rev [] (split_slash dir ++ split_slash rel))).

Record BuildOptions := mkBuildOptions {
  outDir : string;
  sourcemap : bool;
  minify : bool;
  manualChunks : list (string * list string);
}.

Record ViteConfig := mkViteConfig {
  base : string;
  plugins : list string;
  alias : list (string * string);
  assetsInclude : list string;
  build : BuildOptions;
}.

Definition chunks : list (string * list string) := [
  ("vendor", ["react"; "react-dom"; "react-router"]);
  ("maps", ["leaflet"; "react-leaflet"]);
  ("ui", ["@radix-ui/react-dialog"; "@radix-ui/react-dropdown-menu"; "@radix-ui/react-select"])
].

(** The configuration [defineConfig] returns for [mode], with
    [process.env.VITE_BASE] ([None] when unset). *)
Definition vite_config (dirname : string) (VITE_BASE : option string) (mode : string) : ViteConfig :=
  let base := str_or (default "" VITE_BASE) "/" in
  mkViteConfig base ["react"; "tailwindcss"] [("@", path_resolve dirname "./src")] ["**/*.svg"; "**/*.csv"]
    (mkBuildOptions "dist" (String.eqb mode "development") (String.eqb mode "production") chunks).

(** The chunk [manualChunks] puts one of its listed packages in: the list
    naming it. *)
Definition chunk_of (pkg : string) : option string :=
  (λ ic, ic.2.1) <$> list_find (λ c, pkg ∈ c.2) chunks.

(** ** Properties *)

(** A segment Node keeps as it is, without a slash. *)
Definition plain_segment (s : string) : bool :=
  negb (String.eqb s "" || String.eqb s "." || String.eqb s "..") &&
  forallb (λ c, negb (Ascii.eqb c "/"%char)) (String.list_ascii_of_string s).

Lemma normalize_rev_app acc l1 l2 : normalize_rev acc (l1 ++ l2) = normalize_rev (normalize_rev acc l1) l2.
Proof.
  revert acc. induction l1 as [|s l1 IH]; intros acc; [done|]. simpl.
  destruct (String.eqb s "" || String.eqb s "."); [|destruct (String.eqb s "..")]; apply IH.
Qed.

Lemma normalize_rev_plain acc segs :
  forallb plain_segment segs = true → normalize_rev acc segs = rev segs ++ acc.
Proof.
  revert acc. induction segs as [|s segs IH]; intros acc; [done|].
  cbn [forallb]. intros [Hs Hr]%andb_prop. unfold plain_segment in Hs.
  apply andb_prop in Hs as [Hs _]. apply negb_true_iff, orb_false_iff in Hs as [[H1 H2]%orb_false_iff H3].
  cbn [normalize_rev]. rewrite H1, H2, H3. simpl. rewrite IH by done. by rewrite <-app_assoc.
Qed.

Lemma split_slash_ne r : split_slash r ≠ [].
Proof. destruct r as [|c r]; simpl; [done|]. destruct (Ascii.eqb c "/"%char), (split_slash r); done. Qed.

Lemma split_slash_slash r : split_slash ("/" +:+ r) = "" :: split_slash r.
Proof. reflexivity. Qed.

Lemma split_slash_plain s r : forallb (λ c, negb (Ascii.eqb c "/"%char)) (String.list_ascii_of_string s) = true →
  split_slash (s +:+ r) = match split_slash r with p :: ps => (s +:+ p) :: ps | [] => [s] end.
Proof.
  pose proof (split_slash_ne r) as Hne. induction s as [|c s IH]; simpl.
  - intros _. change ("" +:+ r) with r. destruct (split_slash r); [contradiction | reflexivity].
  - intros [Hc Hs]%andb_prop. apply negb_true_iff in Hc. rewrite Hc, IH by done.
    destruct (split_slash r); [contradiction | reflexivity].
Qed.

Lemma split_slash_concat s segs : forallb plain_segment (s :: segs) = true →
  split_slash (String.concat "/" (s :: segs)) = s :: segs.
Proof.
  revert s. induction segs as [|t segs IH]; intros s Hp; cbn [forallb] in Hp;
    apply andb_prop in Hp as [[_ Hs]%andb_prop Hp].
  - simpl. rewrite <-(string_app_nil_r' s) at 1. rewrite split_slash_plain by done. simpl. by rewrite string_app_nil_r'.
  - change (String.concat "/" (s :: t :: segs)) with (s +:+ "/" +:+ String.concat "/" (t :: segs)).
    rewrite split_slash_plain by done. rewrite split_slash_slash, IH by exact Hp.
    by rewrite string_app_nil_r'.
Qed.

(** [base] is [VITE_BASE] when it is set and not empty, and [/]
    otherwise: never empty. *)
Theorem vite_base dirname env mode :
  base (vite_config dirname env mode) =
    match env with Some b => if String.eqb b "" then "/" else b | None => "/" end ∧
  base (vite_config dirname env mode) ≠ "".
Proof.
  unfold vite_config, str_or. simpl.
  destruct env as [b|]; simpl; [|done]. destruct (String.eqb_spec b ""); split; done.
Qed.

(** Source maps exactly in development, minification exactly in
    production: never both. *)
Theorem vite_build_modes dirname env mode :
  sourcemap (build (vite_config dirname env mode)) = String.eqb mode "development" ∧
  minify (build (vite_config dirname env mode)) = String.eqb mode "production" ∧
  (sourcemap (build (vite_config dirname env mode)) && minify (build (vite_config dirname env mode))) = false.
Proof.
  split_and!; [done | done|]. simpl.
  destruct (String.eqb_spec mode "development") as [->|]; done.
Qed.

(** No package is listed in two chunks, so the chunk of a listed package
    is the one list that names it. *)
Theorem chunk_of_spec pkg n :
  NoDup (concat (map snd chunks)) ∧ (chunk_of pkg = Some n ↔ ∃ l, (n, l) ∈ chunks ∧ pkg ∈ l).
Proof.
  split; [apply (bool_decide_unpack _); vm_compute; reflexivity|].
  unfold chunk_of, chunks. split.
  - intros ([i [m l]] & Hf & ->)%fmap_Some. apply list_find_Some in Hf as (Hl & Hin & _).
    exists l. split; [by eapply list_elem_of_lookup_2 | done].
  - intros (l & Hnl & Hp).
    repeat (apply elem_of_cons in Hnl as [Hnl|Hnl];
      [injection Hnl as -> ->; repeat (apply elem_of_cons in Hp as [->|Hp]; [vm_compute; reflexivity|]);
       by apply elem_of_nil in Hp|]).
    by apply elem_of_nil in Hnl.
Qed.

(** The [@] alias of a configuration in a directory written with plain
    segments is that directory followed by [/src]. *)
Theorem vite_alias segs env mode : forallb plain_segment segs = true →
  alias (vite_config ("/" +:+ String.concat "/" segs) env mode) = [("@", "/" +:+ String.concat "/" (segs ++ ["src"]))].
Proof.
  intros Hp. unfold vite_config, path_resolve. cbn [alias]. do 3 f_equal.
  rewrite split_slash_slash. destruct segs as [|s segs]; [reflexivity|].
  rewrite split_slash_concat by done. rewrite (normalize_rev_app [] ("" :: s :: segs)).
  change (normalize_rev [] ("" :: s :: segs)) with (normalize_rev [] (s :: segs)).
  rewrite (normalize_rev_plain [] (s :: segs)), app_nil_r by done.
  change (normalize_rev (rev (s :: segs)) (split_slash "./src")) with ("src" :: rev (s :: segs)).
  change (rev ("src" :: rev (s :: segs))) with (rev (rev (s :: segs)) ++ ["src"]).
  by rewrite rev_involutive.
Qed.

(** The production build of a deployment under [/repo-name/], and the
    development build without [VITE_BASE]. *)
Example vite_config_demo :
  vite_config "/home/ci/app" (Some "/repo-name/") "production" =
    mkViteConfig "/repo-name/" ["react"; "tailwindcss"] [("@", "/home/ci/app/src")] ["**/*.svg"; "**/*.csv"]
      (mkBuildOptions "dist" false true chunks) ∧
  base (vite_config "/home/ci/app/" None "development") = "/" ∧
  alias (vite_config "/home/ci/app/" None "development") = [("@", "/home/ci/app/src")] ∧
  chunk_of "react-leaflet" = Some "maps" ∧ chunk_of "zod" = None.
Proof. split_and!; reflexivity. Qed.
