(* ===== verification/Supabase.v ===== *)
(** * The Supabase client module ([utils/supabase.ts])

    The module builds one client from the project's identifier and public
    key, [createClient(`https://${projectId}.supabase.co`, publicAnonKey)],
    and declares the rows of the three tables of the remote database.
    [createClient] belongs to the Supabase library and the identifier and
    key to a module that is not in the repository, so the client is
    modelled as the two arguments it is created with.

    Each table has its [Row], its [Insert] ([Row] without the columns the
    database fills: [id], [created_at] and, for users and reports,
    [updated_at]) and its [Update] ([Partial<Insert>], every column
    optional).  A row is a [Record]; an [Insert] is obtained from a row by
    [*_insert_of] (the [Omit]) and an [Update] applies to an [Insert] by
    [*_patch], which keeps the columns the update leaves out.  The
    theorems: the empty update changes nothing, the update of every column
    of an [Insert] gives that [Insert], and two updates in sequence are the
    later one's columns over the earlier one's. *)

From S2P Require Import Prelude JsString.

Local Open Scope Z_scope.

(** [`https://${projectId}.supabase.co`] *)
Definition supabaseUrl (projectId : string) : string := "https://" +:+ projectId +:+ ".supabase.co".

(** The arguments of [createClient]. *)
Record SupabaseClient := mkSupabaseClient { client_url : string; client_key : string }.

Definition supabase (projectId publicAnonKey : string) : SupabaseClient :=
  mkSupabaseClient (supabaseUrl projectId) publicAnonKey.

(** A column of an [Update]: the new value, or [None] to keep the old one. *)
Definition patch {A} (o : option A) (x : A) : A := default x o.

(** The later update's column over the earlier one's. *)
Definition after {A} (later earlier : option A) : option A :=
  match later with Some x => Some x | None => earlier end.

(** ** [users] *)

Inductive Role := role_user | role_admin.

Record UserRow := mkUserRow {
  user_id_col : string; user_email : string; user_name : string; user_role : Role;
  eco_points : Z; credits : Z; user_created_at : string; user_updated_at : string;
}.

Record UserInsert := mkUserInsert {
  ui_email : string; ui_name : string; ui_role : Role; ui_eco_points : Z; ui_credits : Z;
}.

Record UserUpdate := mkUserUpdate {
  uu_email : option string; uu_name : option string; uu_role : option Role;
  uu_eco_points : option Z; uu_credits : option Z;
}.

Definition user_insert_of (r : UserRow) : UserInsert :=
  mkUserInsert (user_email r) (user_name r) (user_role r) (eco_points r) (credits r).

Definition user_patch (u : UserUpdate) (i : UserInsert) : UserInsert :=
  mkUserInsert (patch (uu_email u) (ui_email i)) (patch (uu_name u) (ui_name i)) (patch (uu_role u) (ui_role i))
    (patch (uu_eco_points u) (ui_eco_points i)) (patch (uu_credits u) (ui_credits i)).

Definition user_update_all (i : UserInsert) : UserUpdate :=
  mkUserUpdate (Some (ui_email i)) (Some (ui_name i)) (Some (ui_role i)) (Some (ui_eco_points i)) (Some (ui_credits i)).

Definition user_update_none : UserUpdate := mkUserUpdate None None None None None.

Definition user_update_then (u1 u2 : UserUpdate) : UserUpdate :=
  mkUserUpdate (after (uu_email u2) (uu_email u1)) (after (uu_name u2) (uu_name u1)) (after (uu_role u2) (uu_role u1))
    (after (uu_eco_points u2) (uu_eco_points u1)) (after (uu_credits u2) (uu_credits u1)).

(** ** [reports] *)

Inductive ReportStatus := status_pending | status_reviewed | status_resolved.

Record ReportRow := mkReportRow {
  report_id_col : string; report_user_id : string; report_type : string; report_description : string;
  report_photo : option string; location_lat : float; location_lng : float; location_address : string;
  report_status : ReportStatus; report_created_at : string; report_updated_at : string;
}.

Record ReportInsert := mkReportInsert {
  ri_user_id : string; ri_type : string; ri_description : string; ri_photo : option string;
  ri_lat : float; ri_lng : float; ri_address : string; ri_status : ReportStatus;
}.

Record ReportUpdate := mkReportUpdate {
  ru_user_id : option string; ru_type : option string; ru_description : option string;
  ru_photo : option (option string); ru_lat : option float; ru_lng : option float; ru_address : option string;
  ru_status : option ReportStatus;
}.

Definition report_insert_of (r : ReportRow) : ReportInsert :=
  mkReportInsert (report_user_id r) (report_type r) (report_description r) (report_photo r)
    (location_lat r) (location_lng r) (location_address r) (report_status r).

Definition report_patch (u : ReportUpdate) (i : ReportInsert) : ReportInsert :=
  mkReportInsert (patch (ru_user_id u) (ri_user_id i)) (patch (ru_type u) (ri_type i))
    (patch (ru_description u) (ri_description i)) (patch (ru_photo u) (ri_photo i))
    (patch (ru_lat u) (ri_lat i)) (patch (ru_lng u) (ri_lng i)) (patch (ru_address u) (ri_address i))
    (patch (ru_status u) (ri_status i)).

(** ** [notifications] *)

Inductive NotificationType := report_reviewed | report_resolved.

Record NotificationRow := mkNotificationRow {
  notification_id_col : string; notification_user_id : string; notification_type : NotificationType;
  title : string; message : string; notification_report_id : string; read : bool;
  notification_created_at : string;
}.

Record NotificationInsert := mkNotificationInsert {
  ni_user_id : string; ni_type : NotificationType; ni_title : string; ni_message : string;
  ni_report_id : string; ni_read : bool;
}.

Record NotificationUpdate := mkNotificationUpdate {
  nu_user_id : option string; nu_type : option NotificationType; nu_title : option string;
  nu_message : option string; nu_report_id : option string; nu_read : option bool;
}.

Definition notification_insert_of (r : NotificationRow) : NotificationInsert :=
  mkNotificationInsert (notification_user_id r) (notification_type r) (title r) (message r)
    (notification_report_id r) (read r).

Definition notification_patch (u : NotificationUpdate) (i : NotificationInsert) : NotificationInsert :=
  mkNotificationInsert (patch (nu_user_id u) (ni_user_id i)) (patch (nu_type u) (ni_type i))
    (patch (nu_title u) (ni_title i)) (patch (nu_message u) (ni_message i))
    (patch (nu_report_id u) (ni_report_id i)) (patch (nu_read u) (ni_read i)).

(** ** Updates *)

Lemma patch_after {A} (o1 o2 : option A) x : patch o2 (patch o1 x) = patch (after o2 o1) x.
Proof. by destruct o1, o2. Qed.

(** The empty update keeps every column, the update of every column gives
    its values, and two updates in sequence are one. *)
Theorem user_patch_laws i i' u1 u2 :
  user_patch user_update_none i = i ∧ user_patch (user_update_all i') i = i' ∧
  user_patch u2 (user_patch u1 i) = user_patch (user_update_then u1 u2) i.
Proof.
  destruct i, i'. split_and!; [done | done|].
  unfold user_patch, user_update_then. simpl. by rewrite !patch_after.
Qed.

Example supabase_demo :
  client_url (supabase "abcdefgh" "key") = "https://abcdefgh.supabase.co" ∧
  user_insert_of (mkUserRow "u1" "jo@b.com" "Jo" role_user 120 1 "2025-11-01" "2025-11-02") =
    mkUserInsert "jo@b.com" "Jo" role_user 120 1.
Proof. split; reflexivity. Qed.
