(* ===== verification/Json.v ===== *)
(** * [JSON.stringify] and a reader of its output

    The weekly report is exported as the text of
    [JSON.stringify(report, null, 2)] ([utils/reportGenerator.ts],
    [downloadWeeklyReportAsJSON]).  This file writes out the serialisation
    of ECMA-262 (25.5.2, [SerializeJSONProperty]) for the values the report
    holds: [null], booleans, numbers that are integers, strings, arrays and
    objects with their keys in order.  Strings are sequences of 8-bit code
    units and are quoted by [QuoteJSONString]: the two-character escapes
    for backspace, tab, line feed, form feed, carriage return, the quote
    and the backslash, and [\u00XX] with lower-case hexadecimal for the
    other code units below [0x20].  A gap of two spaces puts every member
    and element on a line of its own, indented by two more spaces than its
    container, and an empty container prints as [[]] or [{}].

    The reader [JSON_parse] reads the JSON grammar (RFC 8259) restricted to
    the numbers the printer writes: an optional minus, then [0] or a digit
    string without leading zero; a number followed by a fraction or an
    exponent is refused, and so is a [\u] escape above [0xFF], which an
    8-bit string cannot hold.  It runs on fuel, the length of its input,
    which bounds the number of values in it.  The theorem
    [JSON_parse_stringify] reads back every printed value. *)

From S2P Require Import Prelude JsString Clock DateParse NumberFormat.
From Stdlib Require Import Ascii.

Local Open Scope Z_scope.

#[local] Set Warnings "-register-all".

(** The values [JSON.stringify] is given. *)
Inductive json :=
| JSNull
| JSBool (b : bool)
| JSNum (n : Z)
| JSStr (s : string)
| JSArr (l : list json)
| JSObj (l : list (string * json)).

(** The characters of the format that a Rocq string literal cannot write. *)
Definition dq : ascii := ascii_of_nat 34.
Definition bs : ascii := ascii_of_nat 92.
Definition LF : ascii := ascii_of_nat 10.

(** A lower-case hexadecimal digit. *)
Definition hex_digit (n : Z) : ascii := if n <? 10 then digit n else ascii_of_nat (87 + Z.to_nat n).

(** One code unit in [QuoteJSONString]. *)
Definition quote_char (c : ascii) : string :=
  let n := nat_of_ascii c in
  if (n =? 8)%nat then String bs "b"
  else if (n =? 9)%nat then String bs "t"
  else if (n =? 10)%nat then String bs "n"
  else if (n =? 12)%nat then String bs "f"
  else if (n =? 13)%nat then String bs "r"
  else if (n =? 34)%nat then String bs (String dq "")
  else if (n =? 92)%nat then String bs (String bs "")
  else if (n <? 32)%nat then
    String bs ("u00" +:+ String (hex_digit (Z.of_nat n `div` 16)) (String (hex_digit (Z.of_nat n `mod` 16)) ""))
  else String c "".

Fixpoint quote_body (s : string) : string :=
  match s with EmptyString => "" | String c s => quote_char c +:+ quote_body s end.

(** [QuoteJSONString] *)
Definition quote (s : string) : string := String dq (quote_body s +:+ String dq "").

(** [Number::toString] of an integer (below [10 ^ 21] in magnitude, which
    the counts of the program are). *)
Definition number_text (n : Z) : string :=
  (if n <? 0 then "-" else "") +:+ default "" (decimal_digits (Z.abs n)).

(** [list.join(sep)] *)
Fixpoint join (sep : string) (l : list string) : string :=
  match l with
  | [] => ""
  | [x] => x
  | x :: l => x +:+ sep +:+ join sep l
  end.

(** [SerializeJSONProperty] with a gap of two spaces, at indentation
    [ind]: [SerializeJSONArray] and [SerializeJSONObject] print the
    elements one per line, indented by [ind] and two spaces, and close on a
    line indented by [ind]. *)
Fixpoint stringify_at (ind : string) (v : json) : string :=
  match v with
  | JSNull => "null"
  | JSBool b => if b then "true" else "false"
  | JSNum n => number_text n
  | JSStr s => quote s
  | JSArr [] => "[]"
  | JSArr l =>
      let ind' := ind +:+ "  " in
      "[" +:+ String LF (ind' +:+ join ("," +:+ String LF ind') (map (stringify_at ind') l) +:+
        String LF (ind +:+ "]"))
  | JSObj [] => "{}"
  | JSObj l =>
      let ind' := ind +:+ "  " in
      "{" +:+ String LF (ind' +:+
        join ("," +:+ String LF ind') (map (λ kv, match kv with (k, x) => quote k +:+ ": " +:+ stringify_at ind' x end) l) +:+
        String LF (ind +:+ "}"))
  end.

(** [JSON.stringify(v, null, 2)] *)
Definition stringify (v : json) : string := stringify_at "" v.

(** ** The reader *)

(** JSON whitespace: space, tab, line feed, carriage return. *)
Definition is_ws (c : ascii) : bool :=
  let n := nat_of_ascii c in (n =? 32)%nat || (n =? 9)%nat || (n =? 10)%nat || (n =? 13)%nat.

Fixpoint skip_ws (s : string) : string :=
  match s with String c s' => if is_ws c then skip_ws s' else s | EmptyString => s end.

Definition hex_value (c : ascii) : option Z :=
  let n := nat_of_ascii c in
  if (48 <=? n)%nat && (n <=? 57)%nat then Some (Z.of_nat n - 48)
  else if (97 <=? n)%nat && (n <=? 102)%nat then Some (Z.of_nat n - 87)
  else if (65 <=? n)%nat && (n <=? 70)%nat then Some (Z.of_nat n - 55)
  else None.

(** The escape after a backslash, other than [\u]. *)
Definition simple_escape (e : ascii) : option ascii :=
  let n := nat_of_ascii e in
  if (n =? 98)%nat then Some (ascii_of_nat 8)
  else if (n =? 116)%nat then Some (ascii_of_nat 9)
  else if (n =? 110)%nat then Some (ascii_of_nat 10)
  else if (n =? 102)%nat then Some (ascii_of_nat 12)
  else if (n =? 114)%nat then Some (ascii_of_nat 13)
  else if (n =? 34)%nat then Some dq
  else if (n =? 92)%nat then Some bs
  else if (n =? 47)%nat then Some "/"%char
  else None.

(** The characters of a string up to its closing quote, and the rest. *)
Fixpoint string_body (s : string) : option (string * string) :=
  match s with
  | EmptyString => None
  | String c s' =>
      if Ascii.eqb c dq then Some ("", s')
      else if Ascii.eqb c bs then
        match s' with
        | String e s'' =>
            if Ascii.eqb e "u"%char then
              match s'' with
              | String h1 (String h2 (String h3 (String h4 t))) =>
                  a ← hex_value h1; b ← hex_value h2; x ← hex_value h3; y ← hex_value h4;
                  let code := ((a * 16 + b) * 16 + x) * 16 + y in
                  if code <? 256 then '(r, rest) ← string_body t; Some (String (ascii_of_nat (Z.to_nat code)) r, rest)
                  else None
              | _ => None
              end
            else
              ch ← simple_escape e; '(r, rest) ← string_body s''; Some (String ch r, rest)
        | EmptyString => None
        end
      else if (nat_of_ascii c <? 32)%nat then None
      else '(r, rest) ← string_body s'; Some (String c r, rest)
  end.

(** A number: an optional minus and [0] or a digit string without leading
    zero, not followed by a fraction or an exponent. *)
Definition number_end (s : string) : option string :=
  match s with
  | String c _ => if Ascii.eqb c "."%char || Ascii.eqb c "e"%char || Ascii.eqb c "E"%char then None else Some s
  | EmptyString => Some s
  end.

Definition unsigned_number (s : string) : option (Z * string) :=
  match s with
  | String c s' =>
      if Ascii.eqb c "0"%char then r ← number_end s'; Some (0, r)
      else match digit_value c with
           | Some d => let '(n, r) := parse_run d s' in r ← number_end r; Some (n, r)
           | None => None
           end
  | EmptyString => None
  end.

Definition number (s : string) : option (Z * string) :=
  match s with
  | String c s' => if Ascii.eqb c "-"%char then '(n, r) ← unsigned_number s'; Some (- n, r) else unsigned_number s
  | EmptyString => None
  end.

(** [w] itself at the head of [s]. *)
Fixpoint word (w s : string) : option string :=
  match w, s with
  | EmptyString, _ => Some s
  | String a w', String b s' => if Ascii.eqb a b then word w' s' else None
  | String _ _, EmptyString => None
  end.

(** A value, the elements of an array after its first one, and the
    members of an object; each value read spends one unit of fuel. *)
Fixpoint value (fuel : nat) (s : string) {struct fuel} : option (json * string) :=
  match fuel with
  | O => None
  | S f =>
      match skip_ws s with
      | String c s' =>
          if Ascii.eqb c "n"%char then r ← word "ull" s'; Some (JSNull, r)
          else if Ascii.eqb c "t"%char then r ← word "rue" s'; Some (JSBool true, r)
          else if Ascii.eqb c "f"%char then r ← word "alse" s'; Some (JSBool false, r)
          else if Ascii.eqb c dq then '(x, r) ← string_body s'; Some (JSStr x, r)
          else if Ascii.eqb c "["%char then
            match skip_ws s' with
            | String "]"%char r => Some (JSArr [], r)
            | r => '(l, r) ← elements f r; Some (JSArr l, r)
            end
          else if Ascii.eqb c "{"%char then
            match skip_ws s' with
            | String "}"%char r => Some (JSObj [], r)
            | r => '(l, r) ← members f r; Some (JSObj l, r)
            end
          else '(n, r) ← number (String c s'); Some (JSNum n, r)
      | EmptyString => None
      end
  end
with elements (fuel : nat) (s : string) {struct fuel} : option (list json * string) :=
  match fuel with
  | O => None
  | S f =>
      '(x, r) ← value f s;
      match skip_ws r with
      | String ","%char r => '(l, r) ← elements f r; Some (x :: l, r)
      | String "]"%char r => Some ([x], r)
      | _ => None
      end
  end
with members (fuel : nat) (s : string) {struct fuel} : option (list (string * json) * string) :=
  match fuel with
  | O => None
  | S f =>
      match skip_ws s with
      | String c s' =>
          if Ascii.eqb c dq then
            '(k, r) ← string_body s';
            match skip_ws r with
            | String ":"%char r =>
                '(x, r) ← value f r;
                match skip_ws r with
                | String ","%char r => '(l, r) ← members f r; Some ((k, x) :: l, r)
                | String "}"%char r => Some ([(k, x)], r)
                | _ => None
                end
            | _ => None
            end
          else None
      | EmptyString => None
      end
  end.

(** [JSON.parse] on the grammar above: one value and nothing but
    whitespace after it. *)
Definition JSON_parse (s : string) : option json :=
  '(v, r) ← value (S (String.length s)) s; if String.eqb (skip_ws r) "" then Some v else None.

(** ** Reading back the printed text *)

(** A string of JSON whitespace only, such as an indentation. *)
Definition all_ws (s : string) : bool := forallb is_ws (String.list_ascii_of_string s).

(** The character after a value does not continue it. *)
Definition value_end (rest : string) : bool :=
  match rest with
  | String c _ => bool_decide (digit_value c = None) && negb (Ascii.eqb c "."%char || Ascii.eqb c "e"%char || Ascii.eqb c "E"%char)
  | EmptyString => true
  end.

(** The characters a printed value starts with. *)
Definition digit_chars : list ascii := ["0"; "1"; "2"; "3"; "4"; "5"; "6"; "7"; "8"; "9"]%char.
Definition number_heads : list ascii := "-"%char :: digit_chars.
Definition value_heads : list ascii := ["n"; "t"; "f"; dq; "["; "{"]%char ++ number_heads.

(** Split a hypothesis [c ∈ l] on a list of characters into one goal per
    character. *)
Ltac head_cases H :=
  apply list_elem_of_In in H; cbn in H; repeat destruct H as [<-|H]; try contradiction.

(** The number of values in a value: the fuel the reader spends on it. *)
Fixpoint json_size (v : json) : nat :=
  match v with
  | JSArr l => S (list_sum (map (λ x, S (json_size x)) l))
  | JSObj l => S (list_sum (map (λ kv, S (json_size kv.2)) l))
  | _ => 1
  end.

(** A member ["k": v] of an object printed at indentation [ind]. *)
Definition member_at (ind : string) (kv : string * json) : string :=
  let '(k, x) := kv in quote k +:+ ": " +:+ stringify_at ind x.

(** The separator between two items at indentation [ind]. *)
Definition item_sep (ind : string) : string := "," +:+ String LF ind.

(** What the reader does with fuel [f] on printed text: a value, the
    items of an array, the members of an object, each followed by any
    text the value does not continue. *)
Definition reads_value (f : nat) : Prop := ∀ ind v rest,
  all_ws ind = true → value_end rest = true → (json_size v ≤ f)%nat →
  value f (stringify_at ind v +:+ rest) = Some (v, rest).

Definition reads_elements (f : nat) : Prop := ∀ ind p l rest,
  all_ws ind = true → all_ws p = true → l ≠ [] → (list_sum (map (λ x, S (json_size x)) l) ≤ f)%nat →
  elements f (p +:+ join (item_sep (ind +:+ "  ")) (map (stringify_at (ind +:+ "  ")) l) +:+
    String LF (ind +:+ "]" +:+ rest)) = Some (l, rest).

Definition reads_members (f : nat) : Prop := ∀ ind p l rest,
  all_ws ind = true → all_ws p = true → l ≠ [] → (list_sum (map (λ kv, S (json_size kv.2)) l) ≤ f)%nat →
  members f (p +:+ join (item_sep (ind +:+ "  ")) (map (member_at (ind +:+ "  ")) l) +:+
    String LF (ind +:+ "}" +:+ rest)) = Some (l, rest).

Lemma string_body_char c t :
  string_body (quote_char c +:+ t) = '(r, rest) ← string_body t; Some (String c r, rest).
Proof. destruct c as [[] [] [] [] [] [] [] []]; reflexivity. Qed.

(** The body of a quoted string reads back as the string. *)
Lemma string_body_quote s rest : string_body (quote_body s +:+ String dq rest) = Some (s, rest).
Proof.
  induction s as [|c s IH]; [reflexivity|]. cbn [quote_body].
  rewrite string_app_assoc', string_body_char, IH. reflexivity.
Qed.

Lemma skip_ws_app a s : all_ws a = true → skip_ws (a +:+ s) = skip_ws s.
Proof.
  induction a as [|c a IH]; [done|]. rewrite append_cons. cbn [all_ws String.list_ascii_of_string forallb].
  intros [Hc Ha]%andb_prop. cbn [skip_ws]. rewrite Hc. auto.
Qed.

Lemma all_ws_indent ind : all_ws ind = true → all_ws (ind +:+ "  ") = true.
Proof.
  unfold all_ws. rewrite list_ascii_of_string_app, forallb_app. by intros ->.
Qed.

Lemma parse_run_end acc rest : value_end rest = true → parse_run acc rest = (acc, rest).
Proof.
  destruct rest as [|c r]; [done|]. simpl. intros [H _]%andb_prop.
  apply bool_decide_eq_true in H. by rewrite H.
Qed.

Lemma number_end_ok rest : value_end rest = true → number_end rest = Some rest.
Proof.
  destruct rest as [|c r]; [done|]. simpl. intros [_ H]%andb_prop.
  apply negb_true_iff in H. by rewrite H.
Qed.

Lemma unsigned_number_pad k m rest : (0 < k)%nat → 0 <= m < 10 ^ Z.of_nat k →
  (k = 1%nat ∧ m = 0 ∨ 10 ^ Z.of_nat k <= 10 * m) → value_end rest = true →
  unsigned_number (pad k m +:+ rest) = Some (m, rest).
Proof.
  intros Hk Hm Hlead Hr. destruct Hlead as [[-> ->]|Hlead]; [simpl; by rewrite number_end_ok|].
  destruct k as [|k]; [lia|].
  pose proof (pow10_pos k). rewrite Nat2Z.inj_succ, Z.pow_succ_r in * by lia.
  {
    assert (1 <= m `div` 10 ^ Z.of_nat k <= 9) as Hd.
    { split; [apply Z.div_le_lower_bound | apply Z.lt_succ_r, Z.div_lt_upper_bound]; lia. }
    cbn [pad]. rewrite append_cons. cbn [unsigned_number].
    rewrite digit_value_digit by lia.
    assert (Ascii.eqb (digit (m `div` 10 ^ Z.of_nat k)) "0"%char = false) as ->.
    { destruct (Ascii.eqb_spec (digit (m `div` 10 ^ Z.of_nat k)) "0"%char) as [E|]; [|done].
      pose proof (digit_value_digit (m `div` 10 ^ Z.of_nat k) ltac:(lia)) as Hv. rewrite E in Hv.
      simpl in Hv. injection Hv as Hv. change (Z.of_nat (nat_of_ascii "0") - 48) with 0 in Hv. exfalso. lia. }
    rewrite parse_run_pad by (apply Z.mod_pos_bound; lia). rewrite parse_run_end by done.
    rewrite number_end_ok by done. simpl. do 2 f_equal.
    rewrite (Z.div_mod m (10 ^ Z.of_nat k)) at 3 by lia. lia. }
Qed.

(** A printed integer reads back as itself. *)
Lemma number_text_read n rest : value_end rest = true → number (number_text n +:+ rest) = Some (n, rest).
Proof.
  intros Hr. destruct (decimal_digits_pad (Z.abs n)) as (k & Hd & Hk & Hlt & Hlead); [lia|].
  assert (k = 1%nat ∧ Z.abs n = 0 ∨ 10 ^ Z.of_nat k <= 10 * Z.abs n) as Hlead'.
  { destruct Hlead as [H0|]; [|by right]. left. split; [|done].
    unfold decimal_digits in Hd. rewrite H0 in Hd. simpl in Hd. injection Hd as Hd.
    apply (f_equal String.length) in Hd. rewrite pad_length in Hd. done. }
  unfold number_text. rewrite Hd. simpl default.
  destruct (Z.ltb_spec n 0).
  - cbv iota. rewrite !append_cons, string_app_nil_l. unfold number. rewrite Ascii.eqb_refl.
    rewrite unsigned_number_pad by (done || lia). simpl. do 2 f_equal. lia.
  - destruct k as [|k]; [lia|]. rewrite string_app_nil_l.
    destruct (pad_head (S k) (Z.abs n)) as (d & rs & E & Hdd); [lia | lia |].
    unfold number. rewrite E, append_cons.
    rewrite (proj2 (digit_not_sign d Hdd)). rewrite <-append_cons, <-E.
    rewrite unsigned_number_pad by (done || lia). do 2 f_equal. lia.
Qed.

Lemma digit_in_chars d : 0 <= d <= 9 → digit d ∈ digit_chars.
Proof.
  intros Hd.
  assert (d = 0 ∨ d = 1 ∨ d = 2 ∨ d = 3 ∨ d = 4 ∨ d = 5 ∨ d = 6 ∨ d = 7 ∨ d = 8 ∨ d = 9) as E by lia.
  repeat destruct E as [->|E]; subst; apply (bool_decide_unpack _); vm_compute; reflexivity.
Qed.

Lemma number_text_head n : ∃ c t, number_text n = String c t ∧ c ∈ number_heads.
Proof.
  destruct (decimal_digits_pad (Z.abs n)) as (k & Hd & Hk & Hlt & _); [lia|].
  unfold number_text. rewrite Hd. simpl default. destruct (n <? 0).
  - eexists _, _. split; [reflexivity|]. apply (bool_decide_unpack _); vm_compute; reflexivity.
  - destruct (pad_head k (Z.abs n)) as (d & t & -> & Hdd); [done | lia |].
    exists (digit d), t. split; [done|]. right. by apply digit_in_chars.
Qed.

Lemma value_number_head f c t : c ∈ number_heads →
  value (S f) (String c t) = '(n, r) ← number (String c t); Some (JSNum n, r).
Proof. intros Hc. head_cases Hc; reflexivity. Qed.

Lemma dq_head : dq ∈ value_heads.
Proof. apply (bool_decide_unpack _). vm_compute. reflexivity. Qed.

Lemma skip_ws_head c t : c ∈ value_heads → skip_ws (String c t) = String c t.
Proof. intros Hc. head_cases Hc; reflexivity. Qed.

Lemma open_array f c t : c ∈ value_heads →
  match String c t with String "]"%char r => Some (JSArr [], r) | r => '(l, r) ← elements f r; Some (JSArr l, r) end =
  '(l, r) ← elements f (String c t); Some (JSArr l, r).
Proof. intros Hc. head_cases Hc; reflexivity. Qed.

Lemma stringify_head ind v : ∃ c t, stringify_at ind v = String c t ∧ c ∈ value_heads.
Proof.
  destruct v as [| [] | n | s | [|x l] | [|kv l]];
    try (eexists _, _; split; [reflexivity | apply (bool_decide_unpack _); vm_compute; reflexivity]).
  destruct (number_text_head n) as (c & t & E & Hc). exists c, t. split; [done|].
  by apply elem_of_app; right.
Qed.

Lemma stringify_arr ind x l :
  stringify_at ind (JSArr (x :: l)) =
    String "[" (String LF ((ind +:+ "  ") +:+ join (item_sep (ind +:+ "  ")) (map (stringify_at (ind +:+ "  ")) (x :: l)) +:+
      String LF (ind +:+ "]"))).
Proof. reflexivity. Qed.

Lemma stringify_obj ind kv l :
  stringify_at ind (JSObj (kv :: l)) =
    String "{" (String LF ((ind +:+ "  ") +:+ join (item_sep (ind +:+ "  ")) (map (member_at (ind +:+ "  ")) (kv :: l)) +:+
      String LF (ind +:+ "}"))).
Proof. reflexivity. Qed.

Lemma join_cons2 sep x y l : join sep (x :: y :: l) = x +:+ sep +:+ join sep (y :: l).
Proof. reflexivity. Qed.

Lemma value_skip f p s : all_ws p = true → value f (p +:+ s) = value f s.
Proof. intros Hp. destruct f; [done|]. cbn [value]. by rewrite skip_ws_app. Qed.

Lemma members_skip f p s : all_ws p = true → members f (p +:+ s) = members f s.
Proof. intros Hp. destruct f; [done|]. cbn [members]. by rewrite skip_ws_app. Qed.

Lemma all_ws_LF ind : all_ws ind = true → all_ws (String LF ind) = true.
Proof. done. Qed.

Lemma skip_ws_LF ind s : all_ws ind = true → skip_ws (String LF (ind +:+ s)) = skip_ws s.
Proof. intros. by apply (skip_ws_app (String LF ind)). Qed.

(** One step of the reader on a known head. *)
Lemma value_dq f t : value (S f) (String dq t) = '(x, r) ← string_body t; Some (JSStr x, r).
Proof. reflexivity. Qed.

Lemma value_lbracket f t : value (S f) (String "[" t) =
  match skip_ws t with String "]"%char r => Some (JSArr [], r) | r => '(l, r) ← elements f r; Some (JSArr l, r) end.
Proof. reflexivity. Qed.

Lemma value_lbrace f t : value (S f) (String "{" t) =
  match skip_ws t with String "}"%char r => Some (JSObj [], r) | r => '(l, r) ← members f r; Some (JSObj l, r) end.
Proof. reflexivity. Qed.

Lemma open_object_dq f t :
  match String dq t with String "}"%char r => Some (JSObj [], r) | r => '(l, r) ← members f r; Some (JSObj l, r) end =
  '(l, r) ← members f (String dq t); Some (JSObj l, r).
Proof. reflexivity. Qed.

Lemma join_app_head sep x l z : ∃ u, join sep (x :: l) +:+ z = x +:+ u.
Proof. destruct l; [by exists z|]. rewrite join_cons2, string_app_assoc'. by eexists. Qed.

Lemma member_at_app ind k x z : member_at ind (k, x) +:+ z =
  String dq (quote_body k +:+ String dq (String ":" (String " " (stringify_at ind x +:+ z)))).
Proof. unfold member_at, quote. rewrite !append_cons, !string_app_assoc'. reflexivity. Qed.

Lemma reads_value_S f : reads_elements f → reads_members f → reads_value (S f).
Proof.
  intros He Hm ind v rest Hind Hrest Hsz.
  destruct v as [| [] | n | s | [|x l] | [|[k x] l]]; try reflexivity.
  - destruct (number_text_head n) as (c & t & E & Hc). cbn [stringify_at].
    rewrite E, append_cons, value_number_head by done. rewrite <-append_cons, <-E, number_text_read by done.
    reflexivity.
  - cbn [stringify_at]. unfold quote. rewrite append_cons, value_dq, string_app_assoc', append_cons.
    rewrite string_body_quote. reflexivity.
  - cbn [json_size] in Hsz. rewrite stringify_arr, !append_cons, value_lbracket, !string_app_assoc', skip_ws_LF, (skip_ws_app "  ")
      by auto using all_ws_indent.
    destruct (stringify_head (ind +:+ "  ") x) as (c & t & E & Hc).
    destruct (join_app_head (item_sep (ind +:+ "  ")) (stringify_at (ind +:+ "  ") x) (map (stringify_at (ind +:+ "  ")) l)
      (String LF (ind +:+ "]") +:+ rest)) as [u Hu].
    cbn [map] in *. rewrite Hu, E, append_cons, skip_ws_head, open_array, <-append_cons, <-E, <-Hu by done.
    pose proof (He ind "" (x :: l) rest Hind eq_refl ltac:(discriminate) ltac:(unfold list_sum in *; simpl in *; lia)) as H.
    rewrite string_app_nil_l in H. cbn [map] in H. rewrite append_cons, string_app_assoc', H. reflexivity.
  - cbn [json_size] in Hsz. rewrite stringify_obj, !append_cons, value_lbrace, !string_app_assoc', skip_ws_LF, (skip_ws_app "  ")
      by auto using all_ws_indent.
    destruct (join_app_head (item_sep (ind +:+ "  ")) (member_at (ind +:+ "  ") (k, x)) (map (member_at (ind +:+ "  ")) l)
      (String LF (ind +:+ "}") +:+ rest)) as [u Hu].
    cbn [map] in *. rewrite Hu, member_at_app, skip_ws_head, open_object_dq by exact dq_head.
    rewrite <-member_at_app, <-Hu.
    pose proof (Hm ind "" ((k, x) :: l) rest Hind eq_refl ltac:(discriminate) ltac:(unfold list_sum in *; simpl in *; lia)) as H.
    rewrite string_app_nil_l in H. cbn [map] in H. rewrite append_cons, string_app_assoc', H. reflexivity.
Qed.

Lemma elements_S f s : elements (S f) s =
  '(x, r) ← value f s;
  match skip_ws r with
  | String ","%char r => '(l, r) ← elements f r; Some (x :: l, r)
  | String "]"%char r => Some ([x], r)
  | _ => None
  end.
Proof. reflexivity. Qed.

Lemma members_dq f t : members (S f) (String dq t) =
  '(k, r) ← string_body t;
  match skip_ws r with
  | String ":"%char r =>
      '(x, r) ← value f r;
      match skip_ws r with
      | String ","%char r => '(l, r) ← members f r; Some ((k, x) :: l, r)
      | String "}"%char r => Some ([(k, x)], r)
      | _ => None
      end
  | _ => None
  end.
Proof. reflexivity. Qed.

Lemma skip_ws_colon s : skip_ws (String ":" s) = String ":" s.
Proof. reflexivity. Qed.

Lemma value_space f s : value f (String " " s) = value f s.
Proof. exact (value_skip f " " s eq_refl). Qed.

Lemma skip_ws_sep ind z : skip_ws (item_sep ind +:+ z) = String "," (String LF (ind +:+ z)).
Proof. reflexivity. Qed.

Lemma skip_ws_close ind c rest : all_ws ind = true → is_ws c = false →
  skip_ws (String LF (ind +:+ String c rest)) = String c rest.
Proof. intros Hi Hc. rewrite skip_ws_LF by done. cbn. by rewrite Hc. Qed.

Lemma reads_elements_S f : reads_value f → reads_elements f → reads_elements (S f).
Proof.
  intros Hv He ind p l rest Hind Hp Hl Hsz.
  destruct l as [|x [|y l]]; [done| |]; cbn [map] in *; unfold list_sum in Hsz; simpl in Hsz.
  - cbn [join]. rewrite elements_S, value_skip, Hv by (done || auto using all_ws_indent || lia).
    cbn [mbind option_bind]. rewrite append_cons, skip_ws_close by done. reflexivity.
  - rewrite join_cons2, !string_app_assoc', elements_S, value_skip, Hv by (done || auto using all_ws_indent || lia).
    cbn [mbind option_bind]. rewrite skip_ws_sep. cbn beta iota.
    pose proof (He ind (String LF (ind +:+ "  ")) (y :: l) rest Hind (all_ws_LF _ (all_ws_indent _ Hind))
      ltac:(discriminate) ltac:(unfold list_sum in *; simpl in *; lia)) as H.
    cbn [map] in H. rewrite append_cons in H. rewrite H. reflexivity.
Qed.

Lemma reads_members_S f : reads_value f → reads_members f → reads_members (S f).
Proof.
  intros Hv Hm ind p l rest Hind Hp Hl Hsz.
  destruct l as [|[k x] [|[k' y] l]]; [done| |]; cbn [map] in *; unfold list_sum in Hsz; simpl in Hsz.
  - cbn [join]. rewrite members_skip, member_at_app, members_dq, string_body_quote by done.
    cbn [mbind option_bind]. rewrite skip_ws_colon. cbn beta iota. rewrite value_space, Hv by (done || auto using all_ws_indent || lia).
    cbn [mbind option_bind]. rewrite append_cons, skip_ws_close by done. reflexivity.
  - rewrite join_cons2, !string_app_assoc', members_skip, member_at_app, members_dq, string_body_quote by done.
    cbn [mbind option_bind]. rewrite skip_ws_colon. cbn beta iota. rewrite value_space, Hv by (done || auto using all_ws_indent || lia).
    cbn [mbind option_bind]. rewrite skip_ws_sep. cbn beta iota.
    pose proof (Hm ind (String LF (ind +:+ "  ")) ((k', y) :: l) rest Hind (all_ws_LF _ (all_ws_indent _ Hind))
      ltac:(discriminate) ltac:(unfold list_sum in *; simpl in *; lia)) as H.
    cbn [map] in H. rewrite append_cons in H. rewrite H. reflexivity.
Qed.

(** The reader reads back every printed value, array and object whose
    values the fuel covers. *)
Lemma reads_all f : reads_value f ∧ reads_elements f ∧ reads_members f.
Proof.
  induction f as [|f (Hv & He & Hm)].
  - split_and!.
    + intros ind v rest _ _ Hsz. destruct v; simpl in Hsz; lia.
    + intros ind p l rest _ _ Hl Hsz. destruct l; [done|]. unfold list_sum in Hsz. simpl in Hsz. lia.
    + intros ind p l rest _ _ Hl Hsz. destruct l; [done|]. unfold list_sum in Hsz. simpl in Hsz. lia.
  - split_and!; [apply reads_value_S | apply reads_elements_S | apply reads_members_S]; done.
Qed.

Lemma list_sum_map_le {A} (g h : A → nat) l : (∀ y, y ∈ l → (g y ≤ h y)%nat) →
  (list_sum (map g l) ≤ list_sum (map h l))%nat.
Proof.
  unfold list_sum. induction l as [|a l IH]; intros H; simpl; [lia|].
  pose proof (H a ltac:(left)). pose proof (IH (λ y Hy, H y ltac:(by right))). lia.
Qed.

Lemma list_sum_map_elem {A} (g : A → nat) l y : y ∈ l → (g y ≤ list_sum (map g l))%nat.
Proof.
  unfold list_sum. induction 1 as [|? ? ? ? IH]; simpl; [lia|]. unfold list_sum in IH. lia.
Qed.

(** Joining with a separator of at least one character: every piece and one
    more character per piece fit in the result and one more. *)
Lemma join_length sep l : (1 ≤ String.length sep)%nat →
  (list_sum (map (λ x, S (String.length x)) l) ≤ S (String.length (join sep l)))%nat.
Proof.
  intros Hs. unfold list_sum. induction l as [|x [|y l] IH]; [simpl; lia | simpl; lia |].
  cbn [map fold_right] in *. rewrite join_cons2, !length_app. lia.
Qed.

(** The printed text is at least as long as the value has values, so the
    fuel [JSON_parse] gives is enough. *)
Lemma json_size_length n ind v : (json_size v ≤ n)%nat → (json_size v ≤ String.length (stringify_at ind v))%nat.
Proof.
  revert ind v. induction n as [|n IH]; intros ind v Hn.
  { destruct v; simpl in Hn; lia. }
  destruct v as [| [] | k | s | [|x l] | [|[k x] l]]; cbn [json_size] in *;
    try (simpl; lia).
  - destruct (number_text_head k) as (c & t & E & _). cbn [stringify_at]. rewrite E. simpl. lia.
  - rewrite stringify_arr. cbn [String.length]. rewrite !length_app.
    pose proof (join_length (item_sep (ind +:+ "  ")) (map (stringify_at (ind +:+ "  ")) (x :: l)) ltac:(simpl; lia)).
    rewrite map_map in H.
    assert (list_sum (map (λ y, S (json_size y)) (x :: l)) ≤ list_sum (map (λ y, S (String.length (stringify_at (ind +:+ "  ") y))) (x :: l)))%nat.
    { apply list_sum_map_le. intros y Hy. apply le_n_S, IH.
      pose proof (list_sum_map_elem (λ y, S (json_size y)) _ y Hy). simpl in *. lia. }
    lia.
  - rewrite stringify_obj. cbn [String.length]. rewrite !length_app.
    pose proof (join_length (item_sep (ind +:+ "  ")) (map (member_at (ind +:+ "  ")) ((k, x) :: l)) ltac:(simpl; lia)).
    rewrite map_map in H.
    assert (list_sum (map (λ kv, S (json_size kv.2)) ((k, x) :: l)) ≤
      list_sum (map (λ kv, S (String.length (member_at (ind +:+ "  ") kv))) ((k, x) :: l)))%nat.
    { apply list_sum_map_le. intros [k' y] Hy. apply le_n_S. unfold member_at. rewrite !length_app.
      enough (json_size y ≤ String.length (stringify_at (ind +:+ "  ") y))%nat by (simpl; lia).
      apply IH. pose proof (list_sum_map_elem (λ kv : string * json, S (json_size kv.2)) _ (k', y) Hy). simpl in *. lia. }
    lia.
Qed.

(** [JSON.parse(JSON.stringify(v, null, 2))] gives [v] back. *)
Theorem JSON_parse_stringify v : JSON_parse (stringify v) = Some v.
Proof.
  pose proof (json_size_length _ "" v (le_n _)).
  destruct (reads_all (S (String.length (stringify v)))) as [Hv _].
  pose proof (Hv "" v "" eq_refl eq_refl ltac:(unfold stringify in *; lia)) as E.
  rewrite string_app_nil_r' in E. unfold JSON_parse. fold (stringify v) in E. rewrite E. reflexivity.
Qed.
