(* ===== verification/Geocoding.v ===== *)
(** * Address lookups ([utils/geocoding.ts])

    [reverseGeocode(lat, lng)] asks Nominatim for the address of a point
    and formats it; [getCurrentLocation()] wraps the browser's geolocation
    API in a promise.  The network and the browser are inputs of the model:
    the outcome of [fetch] and of [response.json()] for the first, the
    outcome of [getCurrentPosition] for the second.  An exception anywhere
    in the [try] block of [reverseGeocode], [data.address.road] on a
    response without [address] included, is caught, and the promise then
    resolves to the coordinates printed by [toFixed(4)].

    The theorems: [reverseGeocode] never rejects; it resolves to a string
    except when a successful response has an [address] with no usable part
    and no [display_name], where it resolves to [undefined] although its
    type is [Promise<string>]; every failure resolves to the two
    coordinates, each read back as its nearest four-decimal value. *)

From S2P Require Import Prelude JsString NumberFormat.

Local Open Scope Z_scope.

(** The fields of [data.address] the code reads; a missing field is [None]. *)
Record Address := mkAddress {
  road : option string;
  suburb : option string;
  city : option string;
  town : option string;
  state : option string;
  postcode : option string;
}.

(** The parsed body: [address] is missing in Nominatim's error answers. *)
Record GeoData := mkGeoData {
  address : option Address;
  display_name : option string;
}.

(** What [fetch] and [response.json()] give: a rejected request, or a
    response with its [ok] flag and its body, [None] when it is not JSON. *)
Inductive FetchOutcome :=
| FetchRejected
| FetchResponse (ok : bool) (body : option GeoData).

(** The value the promise resolves to. *)
Inductive Answer :=
| AnswerString (s : string)
| AnswerUndefined.

(** A string field in a condition: [undefined] and [""] are falsy. *)
Definition truthy (o : option string) : bool :=
  match o with Some s => negb (String.eqb s "") | None => false end.

(** [a || b] on two optional strings. *)
Definition js_or (a b : option string) : option string := if truthy a then a else b.

(** [if (x) parts.push(x)] *)
Definition push_if (o : option string) (parts : list string) : list string :=
  match o with Some s => if truthy o then parts ++ [s] else parts | None => parts end.

(** The five pushes, in the order of the source. *)
Definition address_parts (a : Address) : list string :=
  push_if (postcode a) (push_if (state a) (push_if (js_or (city a) (town a))
    (push_if (suburb a) (push_if (road a) [])))).

(** The [catch] block: [`${lat.toFixed(4)}, ${lng.toFixed(4)}`]. *)
Definition coordinates_text (lat lng : float) : option string :=
  a ← toFixed 4 lat; b ← toFixed 4 lng; Some (a +:+ ", " +:+ b).

(** [reverseGeocode]: [None] only where [toFixed] leaves the model
    (a coordinate of magnitude [10 ^ 21] or more). *)
Definition reverseGeocode (lat lng : float) (r : FetchOutcome) : option Answer :=
  let fallback := AnswerString <$> coordinates_text lat lng in
  match r with
  | FetchRejected => fallback
  | FetchResponse false _ => fallback
  | FetchResponse true None => fallback
  | FetchResponse true (Some data) =>
      match address data with
      | None => fallback
      | Some a =>
          let parts := address_parts a in
          if (0 <? length parts)%nat then Some (AnswerString (String.concat ", " parts))
          else Some (match display_name data with Some s => AnswerString s | None => AnswerUndefined end)
      end
  end.

(** ** [getCurrentLocation] *)

(** [GeolocationPositionError.code]: 1, 2 and 3 are [PERMISSION_DENIED],
    [POSITION_UNAVAILABLE] and [TIMEOUT]. *)
Inductive PositionOutcome :=
| Position (latitude longitude : float)
| PositionError (code : Z).

(** The options passed to [getCurrentPosition]. *)
Record PositionOptions := mkPositionOptions {
  enableHighAccuracy : bool;
  pos_timeout : Z;
  maximumAge : Z;
}.

Definition position_options : PositionOptions := mkPositionOptions true 10000 0.

Definition position_error_message (code : Z) : string :=
  if code =? 1 then "Location permission denied. Please enable location access in your browser settings."
  else if code =? 2 then "Location information is unavailable."
  else if code =? 3 then "Location request timed out."
  else "An unknown error occurred.".

(** The promise's outcome: [Err] is a rejection with that message.  When
    [navigator.geolocation] is missing the position is never asked for. *)
Definition getCurrentLocation (supported : bool) (o : PositionOutcome) : result string (float * float) :=
  if negb supported then Err "Geolocation is not supported by your browser"
  else match o with
       | Position lat lng => Ok (lat, lng)
       | PositionError code => Err (position_error_message code)
       end.

(** A successful response whose address has no usable part and no
    [display_name]: the case where the promise resolves to [undefined]. *)
Definition answers_undefined (r : FetchOutcome) : Prop :=
  ∃ data a, r = FetchResponse true (Some data) ∧ address data = Some a ∧
    address_parts a = [] ∧ display_name data = None.

(** ** The answers of [reverseGeocode] *)

Lemma push_if_nil o parts : push_if o parts = [] ↔ parts = [] ∧ truthy o = false.
Proof.
  unfold push_if, truthy. destruct o as [s|]; [|naive_solver].
  destruct (String.eqb s ""); simpl; split; intros H; try naive_solver.
  destruct parts; simpl in H; discriminate.
Qed.

(** No part is pushed exactly when no field the code tests is truthy. *)
Lemma address_parts_nil a : address_parts a = [] ↔
  truthy (road a) = false ∧ truthy (suburb a) = false ∧ truthy (js_or (city a) (town a)) = false ∧
  truthy (state a) = false ∧ truthy (postcode a) = false.
Proof. unfold address_parts. rewrite !push_if_nil. naive_solver. Qed.

Lemma coordinates_text_some lat lng : below_1e21 lat = true → below_1e21 lng = true →
  ∃ s, coordinates_text lat lng = Some s.
Proof.
  intros Hlat Hlng. destruct (toFixed_some 4 lat) as [a Ha]; [lia | done |].
  destruct (toFixed_some 4 lng) as [b Hb]; [lia | done |].
  unfold coordinates_text. rewrite Ha, Hb. by eexists.
Qed.

(** C35. [reverseGeocode] never rejects: whatever the network answers, for
    coordinates [toFixed] prints in decimal, it resolves, and it resolves
    to [undefined], not a string, exactly when the response is a success
    whose address has none of the five parts the code tests and no
    [display_name]. *)
Theorem reverseGeocode_resolves lat lng r : below_1e21 lat = true → below_1e21 lng = true →
  ∃ ans, reverseGeocode lat lng r = Some ans ∧ (ans = AnswerUndefined ↔ answers_undefined r).
Proof.
  intros Hlat Hlng. destruct (coordinates_text_some lat lng Hlat Hlng) as [s Hs].
  unfold reverseGeocode, answers_undefined. rewrite Hs. simpl.
  destruct r as [|[] [data|]]; try (eexists; split; [reflexivity | naive_solver]).
  destruct (address data) as [a|] eqn:Ha; [|eexists; split; [reflexivity | naive_solver]].
  destruct (Nat.ltb_spec 0 (length (address_parts a))) as [Hl|Hl].
  - eexists; split; [reflexivity|]. split; [done|]. intros (? & ? & ? & ? & Hp & _). simplify_eq.
    rewrite Hp in Hl. simpl in Hl. lia.
  - destruct (address_parts a) eqn:Hp; [|simpl in Hl; lia].
    destruct (display_name data) eqn:Hd; (eexists; split; [reflexivity|]); naive_solver.
Qed.

(** The failures the [catch] block handles: a rejected request, an error
    status, a body that is not JSON, and a body without [address]. *)
Definition request_failed (r : FetchOutcome) : bool :=
  match r with
  | FetchResponse true (Some data) => bool_decide (address data = None)
  | _ => true
  end.

(** On every failure the answer is the two coordinates, each read back as
    the sign of the coordinate and its nearest four-decimal value. *)
Lemma reverseGeocode_fallback lat lng r M1 D1 M2 D2 : request_failed r = true →
  abs_scaled 4 lat = Some (M1, D1) → M1 < 10 ^ 25 * D1 →
  abs_scaled 4 lng = Some (M2, D2) → M2 < 10 ^ 25 * D2 →
  ∃ a b n1 n2, reverseGeocode lat lng r = Some (AnswerString (a +:+ ", " +:+ b)) ∧
    parse_fixed 4 a = Some ((lat <? 0)%float, n1) ∧ nearest M1 D1 n1 ∧
    parse_fixed 4 b = Some ((lng <? 0)%float, n2) ∧ nearest M2 D2 n2.
Proof.
  intros Hr H1 B1 H2 B2.
  destruct (toFixed_shape 4 lat M1 D1 ltac:(lia) H1 B1) as (_ & ? & k1 & ? & ? & E1).
  destruct (toFixed_shape 4 lng M2 D2 ltac:(lia) H2 B2) as (_ & ? & k2 & ? & ? & E2).
  assert (reverseGeocode lat lng r = AnswerString <$> coordinates_text lat lng) as ->.
  { unfold reverseGeocode. destruct r as [|[] [data|]]; try done. simpl in Hr.
    apply bool_decide_eq_true in Hr. by rewrite Hr. }
  unfold coordinates_text. rewrite E1, E2. do 4 eexists. split_and!;
    [reflexivity | by apply parse_fixed_layout | by apply nearest_int_nearest
    | by apply parse_fixed_layout | by apply nearest_int_nearest].
Qed.

(** ** Examples *)

#[local] Set Warnings "-inexact-float".

(** An address of the source's shape, a town without a city. *)
Definition circular_quay : Address :=
  mkAddress (Some "Alfred Street") (Some "Sydney") None (Some "Sydney") (Some "New South Wales") (Some "2000").

(** A response whose address has only fields the code does not read. *)
Definition bare_response : FetchOutcome :=
  FetchResponse true (Some (mkGeoData (Some (mkAddress None (Some "") None None None None)) None)).

Lemma reverseGeocode_resolves_witness :
  ∃ ans, reverseGeocode (-33.8599) 151.2111 bare_response = Some ans ∧
    (ans = AnswerUndefined ↔ answers_undefined bare_response).
Proof. apply reverseGeocode_resolves; reflexivity. Defined.

Example reverseGeocode_values :
  reverseGeocode (-33.8599) 151.2111 (FetchResponse true (Some (mkGeoData (Some circular_quay) None))) =
    Some (AnswerString "Alfred Street, Sydney, Sydney, New South Wales, 2000") ∧
  reverseGeocode (-33.8599) 151.2111 (FetchResponse false None) = Some (AnswerString "-33.8599, 151.2111") ∧
  reverseGeocode (-33.8599) 151.2111 bare_response = Some AnswerUndefined.
Proof. vm_compute. split_and!; reflexivity. Qed.
