(* ===== verification/Model.v ===== *)
(** * The records of [storage.ts] and the documents of the store

    [User] (lines 13-22), the stored user with its password (the
    [User & { password: string }] of the source), [Report] (lines 24-39),
    [Notification] (lines 502-511), the keys of [STORAGE_KEYS]
    (lines 4-11), and [Doc], what a key of the store holds: one of the
    arrays the code writes, the session copy of a user, or raw text (the
    version marker, or text that does not parse to the expected array). *)

From S2P Require Import Prelude JsString KVStore Clock.

Module User.
(** ['user' | 'admin'] *)
Inductive Role := role_user | role_admin.

Record t := mk {
  id : string;
  email : string;
  name : string;
  role : Role;
  ecoPoints : Z;
  credits : Z;
  createdAt : string;
  updatedAt : string;
}.
End User.

Module StoredUser.
(** The record kept in the users array: a user and its password.
    [const { password: _, ...userWithoutPassword } = u] is [user]. *)
Record t := mk { user : User.t; password : string }.
End StoredUser.

Module Report.
Inductive Status := pending | reviewed | resolved.

Record Location := mkLocation { lat : float; lng : float; address : string }.

Record t := mk {
  id : string;
  userId : string;
  type : string;
  description : string;
  photo : option string;
  location : Location;
  timestamp : string;
  status : Status;
  createdAt : string;
  updatedAt : string;
}.

(** The argument of [saveReport]:
    [Omit<Report, 'id' | 'timestamp' | 'status' | 'createdAt' | 'updatedAt'>]. *)
Record Input := mkInput {
  in_userId : string;
  in_type : string;
  in_description : string;
  in_photo : option string;
  in_location : Location;
}.
End Report.

Module Notification.
(** ['report_reviewed' | 'report_resolved'] *)
Inductive Kind := report_reviewed | report_resolved.

Record t := mk {
  id : string;
  userId : string;
  type : Kind;
  title : string;
  message : string;
  reportId : string;
  read : bool;
  createdAt : string;
}.
End Notification.

(** ** The documents of the store *)

Inductive Doc :=
| DUsers (us : list StoredUser.t)
| DReports (rs : list Report.t)
| DNotifications (ns : list Notification.t)
| DUser (u : User.t)
| DText (s : string).

(** [STORAGE_VERSION] and [STORAGE_KEYS] *)
Definition STORAGE_VERSION : string := "1.0.0".
Definition USERS : string := "smart_rubbish_users".
Definition REPORTS : string := "smart_rubbish_reports".
Definition CURRENT_USER : string := "smart_rubbish_current_user".
Definition NOTIFICATIONS : string := "smart_rubbish_notifications".
Definition VERSION : string := "smart_rubbish_version".

(** [!data] on the text [safeGetItem] returned: absent, or the empty text.
    Every document the code writes is non-empty JSON. *)
Definition falsy (d : option Doc) : bool :=
  match d with
  | None => true
  | Some (DText s) => bool_decide (s = "")
  | Some _ => false
  end.

(** [JSON.parse] followed by the array methods the code calls: any other
    document makes them throw. *)
Definition as_users (d : Doc) : option (list StoredUser.t) :=
  match d with DUsers us => Some us | _ => None end.
Definition as_reports (d : Doc) : option (list Report.t) :=
  match d with DReports rs => Some rs | _ => None end.
Definition as_notifications (d : Doc) : option (list Notification.t) :=
  match d with DNotifications ns => Some ns | _ => None end.
Definition as_user (d : Doc) : option User.t :=
  match d with DUser u => Some u | _ => None end.

(** The environment's inputs to one operation: the milliseconds of
    [Date.now()] and the nine base-36 digits of
    [Math.random().toString(36).substr(2, 9)].  One synchronous call reads
    the clock a few times; the model gives all reads of one call the same
    instant. *)
Record Ctx := mkCtx { now_ms : Z; random36 : string }.

(** [new Date().toISOString()] *)
Definition now_iso (c : Ctx) : string := toISOString (now_ms c).

(** [`${prefix}_${Date.now()}_${random}`] *)
Definition fresh_id (prefix : string) (c : Ctx) : string :=
  prefix +:+ "_" +:+ pretty (now_ms c) +:+ "_" +:+ random36 c.

(** [Math.floor(ecoPoints / 100)]: one credit per hundred eco-points. *)
Definition credits_of (ecoPoints : Z) : Z := ecoPoints `div` 100.
