(* ===== verification/Accounts.v ===== *)
(** * The account directory ([storage.ts], lines 46-52, 177-295, 438-499)

    [registerUser], [loginUser], [loginAdmin], [getAllUsers],
    [getCurrentUser] and [updateCurrentUser], each a function of the
    environment's inputs and of a store that implements [StoreAdapter].
    The administrator accounts are the constant [ADMIN_ACCOUNTS]; they never
    enter the store. *)

From S2P Require Import Prelude JsString Validation KVStore Model.
From Stdlib Require Import Ascii.

Definition strip_password (u : StoredUser.t) : User.t := StoredUser.user u.

Record AdminAccount := mkAdmin { a_email : string; a_password : string; a_name : string }.

Definition ADMIN_ACCOUNTS : list AdminAccount := [
  mkAdmin "admin1@sydney.gov.au" "admin1pass" "Admin One";
  mkAdmin "admin2@sydney.gov.au" "admin2pass" "Admin Two";
  mkAdmin "admin3@sydney.gov.au" "admin3pass" "Admin Three";
  mkAdmin "admin4@sydney.gov.au" "admin4pass" "Admin Four"
].

Section Accounts.
Context {S : Type} `{!StoreAdapter Doc S}.

(** The normalised form under which [registerUser] and [loginUser]
    compare e-mail addresses. *)
Definition normalize_email (email : string) : string := sanitizeString (toLowerCase email).

Definition email_is (e : string) (u : StoredUser.t) : bool :=
  bool_decide (User.email (StoredUser.user u) = e).

Definition credentials_are (e pw : string) (u : StoredUser.t) : bool :=
  bool_decide (User.email (StoredUser.user u) = e) && bool_decide (StoredUser.password u = pw).

Definition id_is (uid : string) (u : StoredUser.t) : Prop := User.id (StoredUser.user u) = uid.
#[global] Instance id_is_dec uid u : Decision (id_is uid u).
Proof. unfold id_is. apply _. Defined.

(** The record [registerUser] appends. *)
Definition new_user (c : Ctx) (email password name : string) : StoredUser.t :=
  StoredUser.mk
    (User.mk (fresh_id "user" c) email name User.role_user 0 0 (now_iso c) (now_iso c))
    password.

Definition registerUser (email password name : string) (c : Ctx) (st : S)
    : S * result StorageError User.t :=
  if negb (isValidEmail email) then
    (st, Err (createError "INVALID_EMAIL" "Please enter a valid email address")) else
  if negb (isValidPassword password) then
    (st, Err (createError "INVALID_PASSWORD" "Password must be at least 6 characters")) else
  if negb (isValidName name) then
    (st, Err (createError "INVALID_NAME" "Name must be between 2 and 100 characters")) else
  let sanitizedEmail := normalize_email email in
  let sanitizedName := sanitizeString name in
  let '(st, usersData) := sa_get USERS st in
  if falsy usersData then
    (st, Err (createError "STORAGE_ERROR" "Unable to access storage")) else
  match usersData ≫= as_users with
  | None =>
      (sa_log (createError "REGISTER_ERROR" "Registration failed") st,
       Err (createError "REGISTER_ERROR" "An unexpected error occurred during registration"))
  | Some users =>
      match List.find (email_is sanitizedEmail) users with
      | Some _ =>
          (st, Err (createError "USER_EXISTS" "An account with this email already exists"))
      | None =>
          let newUser := new_user c sanitizedEmail password sanitizedName in
          let '(st, saved) := sa_set USERS (DUsers (users ++ [newUser])) st in
          if negb saved then (st, Err (createError "SAVE_ERROR" "Failed to save user data"))
          else (st, Ok (strip_password newUser))
      end
  end.

Definition loginUser (email password : string) (st : S) : S * result StorageError User.t :=
  if negb (isValidEmail email) then
    (st, Err (createError "INVALID_CREDENTIALS" "Invalid email or password")) else
  let sanitizedEmail := normalize_email email in
  let '(st, usersData) := sa_get USERS st in
  if falsy usersData then
    (st, Err (createError "STORAGE_ERROR" "Unable to access storage")) else
  match usersData ≫= as_users with
  | None =>
      (sa_log (createError "LOGIN_ERROR" "Login failed") st,
       Err (createError "LOGIN_ERROR" "An unexpected error occurred during login"))
  | Some users =>
      match List.find (credentials_are sanitizedEmail password) users with
      | None => (st, Err (createError "INVALID_CREDENTIALS" "Invalid email or password"))
      | Some user => (st, Ok (strip_password user))
      end
  end.

(** [getAllUsers]: no [try] block, so text that does not parse escapes. *)
Definition getAllUsers (st : S) : S * outcome (list User.t) :=
  let '(st, usersData) := sa_get USERS st in
  if falsy usersData then (st, Return []) else
  match usersData ≫= as_users with
  | None => (st, Throw)
  | Some users => (st, Return (map strip_password users))
  end.

(** [user.credits = Math.floor(user.ecoPoints / 100)] *)
Definition recompute_credits (u : User.t) : User.t :=
  User.mk (User.id u) (User.email u) (User.name u) (User.role u) (User.ecoPoints u)
    (credits_of (User.ecoPoints u)) (User.createdAt u) (User.updatedAt u).

(** [getCurrentUser]: the credits of the returned copy are recomputed from
    its eco-points; the store is not written. *)
Definition getCurrentUser (userId : string) (st : S) : S * outcome (option User.t) :=
  let '(st, usersData) := sa_get USERS st in
  if falsy usersData then (st, Return None) else
  match usersData ≫= as_users with
  | None => (st, Throw)
  | Some users =>
      match List.find (λ u, bool_decide (id_is userId u)) users with
      | Some user => (st, Return (Some (recompute_credits (strip_password user))))
      | None => (st, Return None)
      end
  end.

(** The record [updateCurrentUser] writes back: credits recomputed and
    [updatedAt] stamped. *)
Definition sync_credits (now : string) (su : StoredUser.t) : StoredUser.t :=
  let u := StoredUser.user su in
  StoredUser.mk
    (User.mk (User.id u) (User.email u) (User.name u) (User.role u) (User.ecoPoints u)
       (credits_of (User.ecoPoints u)) (User.createdAt u) now)
    (StoredUser.password su).

Definition updateCurrentUser (userId : string) (c : Ctx) (st : S) : S * outcome (option User.t) :=
  let '(st, usersData) := sa_get USERS st in
  if falsy usersData then (st, Return None) else
  match usersData ≫= as_users with
  | None => (st, Throw)
  | Some users =>
      match list_find (id_is userId) users with
      | None => (st, Return None)
      | Some (userIndex, su) =>
          let su' := sync_credits (now_iso c) su in
          let users := <[userIndex := su']> users in
          let '(st, _) := sa_set USERS (DUsers users) st in
          let '(st, currentUserData) := sa_get CURRENT_USER st in
          if falsy currentUserData then (st, Return None) else
          match currentUserData ≫= as_user with
          | None => (st, Throw)
          | Some parsedUser =>
              if bool_decide (User.id parsedUser = userId) then
                let '(st, _) := sa_set CURRENT_USER (DUser (strip_password su')) st in
                (st, Return (Some (strip_password su')))
              else (st, Return None)
          end
      end
  end.
End Accounts.

(** [loginAdmin] reads only the constant list; its [catch] is unreachable. *)
Definition loginAdmin (email password : string) (c : Ctx) : result StorageError User.t :=
  let sanitizedEmail := normalize_email email in
  match List.find (λ a, bool_decide (a_email a = sanitizedEmail) && bool_decide (a_password a = password))
          ADMIN_ACCOUNTS with
  | None => Err (createError "INVALID_CREDENTIALS" "Invalid admin credentials")
  | Some admin =>
      Ok (User.mk ("admin_" +:+ a_email admin) (a_email admin) (a_name admin) User.role_admin 0 0
            (now_iso c) (now_iso c))
  end.

(** ** Properties, against the laws of the adapter *)

Section AccountsProofs.
Context {S : Type} `{!StoreAdapter Doc S} `{!StoreAdapterLaws Doc S}.
Implicit Types (st : S) (users : list StoredUser.t).

(** On a readable store holding a users array, valid inputs get past the
    validation and the read, to the duplicate check. *)
Lemma registerUser_readable email password name c st users :
  sa_readable st → sa_view st !! USERS = Some (DUsers users) →
  isValidEmail email = true → isValidPassword password = true → isValidName name = true →
  registerUser email password name c st =
    match List.find (email_is (normalize_email email)) users with
    | Some _ => (st, Err (createError "USER_EXISTS" "An account with this email already exists"))
    | None =>
        let newUser := new_user c (normalize_email email) password (sanitizeString name) in
        let '(st', saved) := sa_set USERS (DUsers (users ++ [newUser])) st in
        if negb saved then (st', Err (createError "SAVE_ERROR" "Failed to save user data"))
        else (st', Ok (strip_password newUser))
    end.
Proof.
  intros Hr Hv He Hp Hn. unfold registerUser.
  rewrite He, Hp, Hn, sa_get_readable, Hv by done. done.
Qed.

Lemma loginUser_readable email password st users :
  sa_readable st → sa_view st !! USERS = Some (DUsers users) → isValidEmail email = true →
  loginUser email password st =
    (st, match List.find (credentials_are (normalize_email email) password) users with
         | None => Err (createError "INVALID_CREDENTIALS" "Invalid email or password")
         | Some user => Ok (strip_password user)
         end).
Proof.
  intros Hr Hv He. unfold loginUser. rewrite He, sa_get_readable, Hv by done. simpl.
  by destruct (List.find _ users).
Qed.

Lemma credentials_email e pw u : credentials_are e pw u = true → email_is e u = true.
Proof. unfold credentials_are, email_is. by intros [? _]%andb_prop. Qed.

(** Registering an address whose normalised form is already in the
    directory is refused with [USER_EXISTS], and nothing is written. *)
Theorem registerUser_existing_email email password name c st users u :
  sa_readable st → sa_view st !! USERS = Some (DUsers users) →
  isValidEmail email = true → isValidPassword password = true → isValidName name = true →
  u ∈ users → User.email (StoredUser.user u) = normalize_email email →
  registerUser email password name c st =
    (st, Err (createError "USER_EXISTS" "An account with this email already exists")).
Proof.
  intros Hr Hv He Hp Hn Hu Hemail. rewrite (registerUser_readable _ _ _ _ _ users) by done.
  destruct (List.find _ users) eqn:Hf; [done|].
  pose proof (find_None_all _ _ Hf u Hu) as Hno. unfold email_is in Hno.
  rewrite bool_decide_eq_true_2 in Hno by done. done.
Qed.

(** C14. A successful registration appends the new account to the users
    array; a refused write changes nothing. *)
Theorem registerUser_new_account email password name c st users :
  sa_readable st → sa_view st !! USERS = Some (DUsers users) →
  isValidEmail email = true → isValidPassword password = true → isValidName name = true →
  (∀ u, u ∈ users → User.email (StoredUser.user u) ≠ normalize_email email) →
  let newUser := new_user c (normalize_email email) password (sanitizeString name) in
  let '(st', r) := registerUser email password name c st in
  (r = Ok (strip_password newUser) ∧
     sa_view st' = <[USERS := DUsers (users ++ [newUser])]> (sa_view st) ∧ sa_readable st')
  ∨ (r = Err (createError "SAVE_ERROR" "Failed to save user data") ∧ sa_view st' = sa_view st).
Proof.
  intros Hr Hv He Hp Hn Hfresh.
  rewrite (registerUser_readable _ _ _ _ _ users) by done.
  assert (List.find (email_is (normalize_email email)) users = None) as ->.
  { apply find_None_intro. intros u Hu. apply bool_decide_eq_false_2. by apply Hfresh. }
  cbv zeta. set (nu := new_user c (normalize_email email) password (sanitizeString name)).
  pose proof (sa_set_view USERS (DUsers (users ++ [nu])) st) as Hs.
  pose proof (sa_set_readable USERS (DUsers (users ++ [nu])) st Hr) as Hr'.
  destruct (sa_set USERS (DUsers (users ++ [nu])) st) as [st1 []]; simpl in *;
    [left | right]; done.
Qed.

(** What a successful registration tells about its inputs and its effect. *)
Lemma registerUser_Ok email password name c st users st1 u :
  sa_readable st → sa_view st !! USERS = Some (DUsers users) →
  registerUser email password name c st = (st1, Ok u) →
  let newUser := new_user c (normalize_email email) password (sanitizeString name) in
  isValidEmail email = true ∧ isValidPassword password = true ∧ isValidName name = true ∧
  List.find (email_is (normalize_email email)) users = None ∧
  u = strip_password newUser ∧
  sa_view st1 = <[USERS := DUsers (users ++ [newUser])]> (sa_view st) ∧ sa_readable st1.
Proof.
  intros Hr Hv. unfold registerUser.
  destruct (isValidEmail email) eqn:He; [|done].
  destruct (isValidPassword password) eqn:Hp; [|done].
  destruct (isValidName name) eqn:Hn; [|done].
  simpl. rewrite sa_get_readable, Hv by done. simpl.
  destruct (List.find _ users) eqn:Hf; [done|].
  set (nu := new_user c (normalize_email email) password (sanitizeString name)).
  pose proof (sa_set_view USERS (DUsers (users ++ [nu])) st) as Hs.
  pose proof (sa_set_readable USERS (DUsers (users ++ [nu])) st Hr) as Hr'.
  destruct (sa_set USERS (DUsers (users ++ [nu])) st) as [st2 []]; simpl in *; [|done].
  intros [= <- <-]. done.
Qed.

(** C4. Spec, testable property 2 and example 8: a second registration
    whose address normalises to the one just registered is refused with
    [USER_EXISTS], and the store is left as the first registration made
    it. *)
Theorem registerUser_twice e1 pw1 n1 c1 e2 pw2 n2 c2 st users st1 u1 :
  sa_readable st → sa_view st !! USERS = Some (DUsers users) →
  registerUser e1 pw1 n1 c1 st = (st1, Ok u1) →
  isValidEmail e2 = true → isValidPassword pw2 = true → isValidName n2 = true →
  normalize_email e2 = normalize_email e1 →
  registerUser e2 pw2 n2 c2 st1 =
    (st1, Err (createError "USER_EXISTS" "An account with this email already exists")).
Proof.
  intros Hr Hv Hreg He Hp Hn Hnorm.
  destruct (registerUser_Ok _ _ _ _ _ _ _ _ Hr Hv Hreg) as (_ & _ & _ & _ & _ & Hv1 & Hr1).
  eapply (registerUser_existing_email _ _ _ _ _ _
            (new_user c1 (normalize_email e1) pw1 (sanitizeString n1))); try done.
  - by rewrite Hv1, lookup_insert_eq.
  - apply elem_of_app. right. by constructor.
Qed.

(** C13. Register, then log in with the same address and password: the login
    returns the account that was just created. *)
Theorem register_then_login email password name c st users st1 u :
  sa_readable st → sa_view st !! USERS = Some (DUsers users) →
  registerUser email password name c st = (st1, Ok u) →
  loginUser email password st1 = (st1, Ok u).
Proof.
  intros Hr Hv Hreg.
  destruct (registerUser_Ok _ _ _ _ _ _ _ _ Hr Hv Hreg) as (He & _ & _ & Hf & -> & Hv1 & Hr1).
  rewrite (loginUser_readable _ _ _ (users ++ [new_user c (normalize_email email) password
                                                 (sanitizeString name)]))
    by (done || by rewrite Hv1, lookup_insert_eq).
  rewrite find_app, (find_None_weaken _ _ _ (credentials_email _ _) Hf). simpl.
  unfold credentials_are. by rewrite !bool_decide_eq_true_2.
Qed.

(** The operations that only read the directory never change the stored
    data, whatever the store and the inputs. *)
Theorem account_reads_preserve_store email password userId st :
  sa_view (loginUser email password st).1 = sa_view st ∧
  sa_view (getAllUsers st).1 = sa_view st ∧
  sa_view (getCurrentUser userId st).1 = sa_view st.
Proof.
  pose proof (sa_get_view USERS st) as Hg.
  unfold loginUser, getAllUsers, getCurrentUser.
  destruct (sa_get USERS st) as [st1 d]; simpl in *.
  split_and!; [destruct (isValidEmail email); simpl; [|done] | |];
    destruct (falsy d); simpl; try done;
    destruct (d ≫= as_users); simpl; rewrite ?sa_log_view; try done;
    by destruct (List.find _ _).
Qed.

(** [getCurrentUser] returns the first account with that id, without its
    password and with its credits recomputed from its eco-points. *)
Theorem getCurrentUser_readable userId st users :
  sa_readable st → sa_view st !! USERS = Some (DUsers users) →
  getCurrentUser userId st =
    (st, Return (recompute_credits ∘ strip_password <$>
                 List.find (λ u, bool_decide (id_is userId u)) users)).
Proof.
  intros Hr Hv. unfold getCurrentUser. rewrite sa_get_readable, Hv by done. simpl.
  by destruct (List.find _ users).
Qed.
End AccountsProofs.

(** ** Concrete runs on the browser's store *)

(** A fresh browser store after [initializeStorage]: empty users and
    reports arrays, nothing denied, no write refused. *)
Definition store_fresh : Store Doc :=
  mkStore (<[USERS := DUsers []]> (<[REPORTS := DReports []]> ∅)) false [] [].

Definition ctx_register : Ctx := mkCtx 1762682400000 "k3j9x0a1b".
Definition ctx_later : Ctx := mkCtx 1762682460000 "p0q1r2s3t".

(** The store after [a@b.com] registered. *)
Definition store_one_user : Store Doc :=
  (registerUser "a@b.com" "secret1" "Jo Lee" ctx_register store_fresh).1.

(** The spec's example: [register("a@b.com","secret1","Jo Lee")] then
    [register("A@B.com","other1!","Someone")]. *)
Lemma registerUser_twice_witness :
  registerUser "A@B.com" "other1!" "Someone" ctx_later
    (registerUser "a@b.com" "secret1" "Jo Lee" ctx_register store_fresh).1 =
  ((registerUser "a@b.com" "secret1" "Jo Lee" ctx_register store_fresh).1,
   Err (createError "USER_EXISTS" "An account with this email already exists")).
Proof.
  eapply (registerUser_twice "a@b.com" "secret1" "Jo Lee" ctx_register _ _ _ _ store_fresh []
            _ (strip_password (new_user ctx_register "a@b.com" "secret1" "Jo Lee")));
    vm_compute; reflexivity.
Defined.

Lemma register_then_login_witness :
  loginUser "a@b.com" "secret1" (registerUser "a@b.com" "secret1" "Jo Lee" ctx_register store_fresh).1 =
  ((registerUser "a@b.com" "secret1" "Jo Lee" ctx_register store_fresh).1,
   Ok (strip_password (new_user ctx_register "a@b.com" "secret1" "Jo Lee"))).
Proof.
  eapply (register_then_login "a@b.com" "secret1" "Jo Lee" ctx_register store_fresh []);
    vm_compute; reflexivity.
Defined.

(** A name that is one tag, ['<'] [t] ['>'], with no ['>'] in [t]. *)
Definition tag_name (t : list ascii) : string := String.string_of_list_ascii ("<"%char :: t ++ [">"%char]).

Lemma strip_tags_tag t : existsb is_close t = false → strip_tags_list ("<"%char :: t ++ [">"%char]) = [].
Proof.
  intros Ht. unfold strip_tags_list. cbn [strip_tags_from Ascii.eqb]. simpl. rewrite strip_tags_pending.
  rewrite list_find_app_r by (by apply list_find_close_None). simpl.
  rewrite drop_app_ge by lia. replace (S (length t) - length t)%nat with 1%nat by lia. done.
Qed.

Lemma trim_tag t : trim_list ("<"%char :: t ++ [">"%char]) = "<"%char :: t ++ [">"%char].
Proof.
  unfold trim_list, trim_end. rewrite (trim_start_nospace ("<"%char :: _)) by reflexivity.
  rewrite app_comm_cons, rev_app_distr. simpl. by rewrite rev_app_distr, rev_involutive.
Qed.

Lemma length_string_of_list_ascii l : String.length (String.string_of_list_ascii l) = length l.
Proof. induction l as [|c l IH]; simpl; [done|]. by rewrite IH. Qed.

Lemma tag_name_valid t : existsb is_close t = false → (length t <= 98)%nat →
  isValidName (tag_name t) = true ∧ sanitizeString (tag_name t) = "".
Proof.
  intros Ht Hl. unfold isValidName, sanitizeString, trim, strip_tags, tag_name.
  rewrite !String.list_ascii_of_string_of_list_ascii, strip_tags_tag by done. split; [|done].
  rewrite trim_tag, length_string_of_list_ascii. cbn [length]. rewrite length_app. cbn [length].
  apply andb_true_intro; split; apply Nat.leb_le; lia.
Qed.

(** C23. [registerUser] validates the raw name but stores its sanitised
    form: for every name that is one tag ['<'] [t] ['>'] (no ['>'] in [t],
    at most 100 characters), on a readable store with a fresh valid
    address, the name passes [isValidName], and the registration either
    stores and returns an account whose name is empty, which
    [isValidName] refuses, or fails to save and changes nothing. *)
Theorem registerUser_stores_unvalidated_fields email password t c st users :
  sa_readable st → sa_view st !! USERS = Some (DUsers users) →
  isValidEmail email = true → isValidPassword password = true →
  (∀ u, u ∈ users → User.email (StoredUser.user u) ≠ normalize_email email) →
  existsb is_close t = false → (length t <= 98)%nat →
  isValidName (tag_name t) = true ∧
  let newUser := new_user c (normalize_email email) password "" in
  let '(st', r) := registerUser email password (tag_name t) c st in
  (r = Ok (strip_password newUser) ∧ isValidName (User.name (strip_password newUser)) = false ∧
     sa_view st' = <[USERS := DUsers (users ++ [newUser])]> (sa_view st))
  ∨ (r = Err (createError "SAVE_ERROR" "Failed to save user data") ∧ sa_view st' = sa_view st).
Proof.
  intros Hr Hv He Hp Hfresh Ht Hl. destruct (tag_name_valid t Ht Hl) as [Hn Hs].
  split; [done|]. cbv zeta.
  pose proof (registerUser_new_account email password (tag_name t) c st users Hr Hv He Hp Hn Hfresh) as H.
  cbv zeta in H. rewrite Hs in H.
  destruct (registerUser email password (tag_name t) c st) as [st' r].
  destruct H as [(? & ? & _)|]; [left|right]; done.
Qed.

Lemma registerUser_stores_unvalidated_fields_witness :
  isValidName (tag_name ["b"%char]) = true ∧
  let newUser := new_user ctx_register (normalize_email "a@b.com") "secret1" "" in
  let '(st', r) := registerUser "a@b.com" "secret1" (tag_name ["b"%char]) ctx_register store_fresh in
  (r = Ok (strip_password newUser) ∧ isValidName (User.name (strip_password newUser)) = false ∧
     sa_view st' = <[USERS := DUsers ([] ++ [newUser])]> (sa_view store_fresh))
  ∨ (r = Err (createError "SAVE_ERROR" "Failed to save user data") ∧ sa_view st' = sa_view store_fresh).
Proof.
  apply (registerUser_stores_unvalidated_fields "a@b.com" "secret1" ["b"%char] ctx_register store_fresh []);
    try (vm_compute; reflexivity).
  - intros u Hu. by apply elem_of_nil in Hu.
  - simpl. lia.
Defined.

(** The address is sanitised after validation too: ["a@<x>.co"] passes
    the pattern, and the account is created with the address ["a@.co"],
    which does not. *)
Example registerUser_sanitised_email_demo :
  ∃ u, (registerUser "a@<x>.co" "secret1" "<b></b>" ctx_register store_fresh).2 = Ok u ∧
       isValidEmail "a@<x>.co" = true ∧ isValidEmail (User.email u) = false ∧
       isValidName "<b></b>" = true ∧ User.name u = "".
Proof. eexists. vm_compute. split_and!; reflexivity. Qed.

Lemma registerUser_new_account_witness :
  let newUser := new_user ctx_register (normalize_email "a@b.com") "secret1" (sanitizeString "Jo Lee") in
  let '(st', r) := registerUser "a@b.com" "secret1" "Jo Lee" ctx_register store_fresh in
  (r = Ok (strip_password newUser) ∧
     sa_view st' = <[USERS := DUsers ([] ++ [newUser])]> (sa_view store_fresh) ∧ sa_readable st')
  ∨ (r = Err (createError "SAVE_ERROR" "Failed to save user data") ∧ sa_view st' = sa_view store_fresh).
Proof.
  apply (registerUser_new_account "a@b.com" "secret1" "Jo Lee" ctx_register store_fresh []);
    try (vm_compute; reflexivity).
  intros u Hu. by apply elem_of_nil in Hu.
Defined.

Lemma getCurrentUser_readable_witness :
  getCurrentUser (fresh_id "user" ctx_register) store_one_user =
    (store_one_user, Return (recompute_credits ∘ strip_password <$>
       List.find (λ u, bool_decide (id_is (fresh_id "user" ctx_register) u))
         [new_user ctx_register "a@b.com" "secret1" "Jo Lee"])).
Proof.
  apply getCurrentUser_readable; vm_compute; reflexivity.
Defined.

Lemma account_reads_preserve_store_witness :
  sa_view (loginUser "a@b.com" "secret1" store_one_user).1 = sa_view store_one_user ∧
  sa_view (getAllUsers store_one_user).1 = sa_view store_one_user ∧
  sa_view (getCurrentUser (fresh_id "user" ctx_register) store_one_user).1 = sa_view store_one_user.
Proof. apply account_reads_preserve_store. Defined.
