(* ===== verification/Reports.v ===== *)
(** * The report ledger ([storage.ts], lines 297-436)

    [saveReport] validates its input in the order of the source, sanitises
    the free-text fields, rejects a report of the same user made within the
    last five minutes less than ten metres away (a planar distance computed
    in IEEE doubles, exactly as the browser computes it), appends the
    report, and then awards ten eco-points to its owner in a second,
    best-effort write.  [getReports], [updateReportStatus] and
    [getUserStats] have no [try] block. *)

From S2P Require Import Prelude JsString Validation KVStore Clock Model Accounts.

Section Ledger.
Context {S : Type} `{!StoreAdapter Doc S}.

(** [Math.sqrt(latDiff * latDiff + lngDiff * lngDiff) * 111000], with
    [latDiff = Math.abs(r.location.lat - report.location.lat)]. *)
Definition distance (a b : Report.Location) : float :=
  let latDiff := PrimFloat.abs (Report.lat a - Report.lat b)%float in
  let lngDiff := PrimFloat.abs (Report.lng a - Report.lng b)%float in
  (PrimFloat.sqrt (latDiff * latDiff + lngDiff * lngDiff) * 111000)%float.

(** The callback of [reports.some]. *)
Definition is_duplicate (report : Report.Input) (fiveMinutesAgo : string) (r : Report.t) : bool :=
  if negb (bool_decide (Report.userId r = Report.in_userId report))
     || (Report.timestamp r <js fiveMinutesAgo)%srd then false
  else (distance (Report.location r) (Report.in_location report) <? 10)%float.

(** The eco-point award to the owner of a new report. *)
Definition award_points (now : string) (su : StoredUser.t) : StoredUser.t :=
  let u := StoredUser.user su in
  StoredUser.mk
    (User.mk (User.id u) (User.email u) (User.name u) (User.role u) (User.ecoPoints u + 10)
       (credits_of (User.ecoPoints u + 10)) (User.createdAt u) now)
    (StoredUser.password su).

(** The report [saveReport] appends. *)
Definition new_report (c : Ctx) (report : Report.Input) : Report.t :=
  Report.mk (fresh_id "report" c) (Report.in_userId report)
    (sanitizeString (Report.in_type report)) (sanitizeString (Report.in_description report))
    (Report.in_photo report)
    (Report.mkLocation (Report.lat (Report.in_location report)) (Report.lng (Report.in_location report))
       (sanitizeString (Report.address (Report.in_location report))))
    (now_iso c) Report.pending (now_iso c) (now_iso c).

Definition save_report_error : StorageError :=
  createError "SAVE_REPORT_ERROR" "An unexpected error occurred while saving the report".

(** The end of [saveReport], once the report is written: the second,
    unchecked write of the eco-point award. *)
Definition award_owner (report : Report.Input) (c : Ctx) (newReport : Report.t) (st : S)
    : S * result StorageError Report.t :=
  let '(st, usersData) := sa_get USERS st in
  if falsy usersData then (st, Ok newReport) else
  match usersData ≫= as_users with
  | None => (sa_log (createError "SAVE_REPORT_ERROR" "Failed to save report") st, Err save_report_error)
  | Some users =>
      match list_find (id_is (Report.in_userId report)) users with
      | None => (st, Ok newReport)
      | Some (userIndex, su) =>
          let '(st, _) := sa_set USERS (DUsers (<[userIndex := award_points (now_iso c) su]> users)) st in
          (st, Ok newReport)
      end
  end.

Definition saveReport (report : Report.Input) (c : Ctx) (st : S) : S * result StorageError Report.t :=
  if bool_decide (Report.in_userId report = "") then
    (st, Err (createError "INVALID_USER" "Invalid user ID")) else
  if bool_decide (String.length (trim (Report.in_type report)) = 0) then
    (st, Err (createError "INVALID_TYPE" "Report type is required")) else
  if (String.length (trim (Report.in_description report)) <? 10)%nat then
    (st, Err (createError "INVALID_DESCRIPTION" "Description must be at least 10 characters")) else
  if negb (isValidCoordinates (Report.lat (Report.in_location report))
                              (Report.lng (Report.in_location report))) then
    (st, Err (createError "INVALID_LOCATION" "Invalid location coordinates")) else
  let '(st, reportsData) := sa_get REPORTS st in
  if falsy reportsData then
    (st, Err (createError "STORAGE_ERROR" "Unable to access storage")) else
  match reportsData ≫= as_reports with
  | None => (sa_log (createError "SAVE_REPORT_ERROR" "Failed to save report") st, Err save_report_error)
  | Some reports =>
      let fiveMinutesAgo := toISOString (now_ms c - 5 * 60 * 1000) in
      if existsb (is_duplicate report fiveMinutesAgo) reports then
        (st, Err (createError "DUPLICATE_REPORT" "You recently submitted a report for this location"))
      else
        let newReport := new_report c report in
        let '(st, saved) := sa_set REPORTS (DReports (reports ++ [newReport])) st in
        if negb saved then (st, Err (createError "SAVE_ERROR" "Failed to save report"))
        else award_owner report c newReport st
  end.

Definition getReports (st : S) : S * outcome (list Report.t) :=
  let '(st, reportsData) := sa_get REPORTS st in
  if falsy reportsData then (st, Return []) else
  match reportsData ≫= as_reports with
  | None => (st, Throw)
  | Some reports => (st, Return reports)
  end.

Definition set_status (status : Report.Status) (now : string) (r : Report.t) : Report.t :=
  Report.mk (Report.id r) (Report.userId r) (Report.type r) (Report.description r) (Report.photo r)
    (Report.location r) (Report.timestamp r) status (Report.createdAt r) now.

Definition report_id_is (rid : string) (r : Report.t) : Prop := Report.id r = rid.
#[global] Instance report_id_is_dec rid r : Decision (report_id_is rid r).
Proof. unfold report_id_is. apply _. Defined.

(** [updateReportStatus]: no answer, no check of the transition. *)
Definition updateReportStatus (reportId : string) (status : Report.Status) (c : Ctx) (st : S)
    : S * outcome unit :=
  let '(st, reportsData) := sa_get REPORTS st in
  if falsy reportsData then (st, Return tt) else
  match reportsData ≫= as_reports with
  | None => (st, Throw)
  | Some reports =>
      match list_find (report_id_is reportId) reports with
      | None => (st, Return tt)
      | Some (reportIndex, r) =>
          let '(st, _) := sa_set REPORTS
                            (DReports (<[reportIndex := set_status status (now_iso c) r]> reports)) st in
          (st, Return tt)
      end
  end.

Record UserStats := mkStats { totalMembers : Z; totalReports : Z; satisfaction : Z }.

Definition getUserStats (st : S) : S * outcome UserStats :=
  let '(st, usersData) := sa_get USERS st in
  let '(st, reportsData) := sa_get REPORTS st in
  if falsy usersData || falsy reportsData then (st, Return (mkStats 5000 25000 90)) else
  match usersData ≫= as_users, reportsData ≫= as_reports with
  | Some users, Some reports =>
      (st, Return (mkStats (Z.of_nat (length users) + 5000) (Z.of_nat (length reports) + 25000) 90))
  | _, _ => (st, Throw)
  end.
End Ledger.

(** ** Properties, against the laws of the adapter *)

Section LedgerProofs.
Context {S : Type} `{!StoreAdapter Doc S} `{!StoreAdapterLaws Doc S}.
Implicit Types (st : S) (reports : list Report.t) (users : list StoredUser.t).

(** The four input checks of [saveReport], in the order of the source. *)
Definition input_valid (report : Report.Input) : bool :=
  negb (bool_decide (Report.in_userId report = "")) &&
  negb (bool_decide (String.length (trim (Report.in_type report)) = 0%nat)) &&
  negb (String.length (trim (Report.in_description report)) <? 10)%nat &&
  isValidCoordinates (Report.lat (Report.in_location report)) (Report.lng (Report.in_location report)).

(** [fiveMinutesAgo] *)
Definition window_start (c : Ctx) : string := toISOString (now_ms c - 5 * 60 * 1000).

Lemma saveReport_readable report c st reports :
  sa_readable st → sa_view st !! REPORTS = Some (DReports reports) → input_valid report = true →
  saveReport report c st =
    if existsb (is_duplicate report (window_start c)) reports then
      (st, Err (createError "DUPLICATE_REPORT" "You recently submitted a report for this location"))
    else
      let '(st, saved) := sa_set REPORTS (DReports (reports ++ [new_report c report])) st in
      if negb saved then (st, Err (createError "SAVE_ERROR" "Failed to save report"))
      else award_owner report c (new_report c report) st.
Proof.
  intros Hr Hv Hin. unfold input_valid in Hin. apply andb_prop in Hin as [Hin Hco].
  apply andb_prop in Hin as [Hin Hde]. apply andb_prop in Hin as [Hu Hty].
  apply negb_true_iff in Hu, Hty, Hde. unfold saveReport.
  rewrite Hu, Hty, Hde, Hco, sa_get_readable, Hv by done. done.
Qed.

(** An input that fails a check is refused before the store is read. *)
Lemma saveReport_invalid report c st :
  input_valid report = false → ∃ e, saveReport report c st = (st, Err e).
Proof.
  unfold input_valid, saveReport.
  destruct (bool_decide (Report.in_userId report = "")); simpl; [eauto|].
  destruct (bool_decide (String.length (trim (Report.in_type report)) = 0%nat)); simpl; [eauto|].
  destruct (String.length (trim (Report.in_description report)) <? 10)%nat; simpl; [eauto|].
  destruct (isValidCoordinates _ _); simpl; [done|eauto].
Qed.

Lemma award_owner_readable report c nr st users :
  sa_readable st → sa_view st !! USERS = Some (DUsers users) →
  award_owner report c nr st =
    match list_find (id_is (Report.in_userId report)) users with
    | None => (st, Ok nr)
    | Some (i, su) =>
        ((sa_set USERS (DUsers (<[i := award_points (now_iso c) su]> users)) st).1, Ok nr)
    end.
Proof.
  intros Hr Hv. unfold award_owner. rewrite sa_get_readable, Hv by done. simpl.
  destruct (list_find _ users) as [[i su]|]; [|done].
  by destruct (sa_set _ _ st).
Qed.

(** C1. Duplicate suppression: when the same user has a report whose
    timestamp is not before [fiveMinutesAgo] and whose planar distance to
    the new location is below ten metres, the submission is refused with
    [DUPLICATE_REPORT] and the store is untouched. *)
Theorem saveReport_duplicate report c st reports r :
  sa_readable st → sa_view st !! REPORTS = Some (DReports reports) → input_valid report = true →
  r ∈ reports → Report.userId r = Report.in_userId report →
  (Report.timestamp r <js window_start c)%srd = false →
  (distance (Report.location r) (Report.in_location report) <? 10)%float = true →
  saveReport report c st =
    (st, Err (createError "DUPLICATE_REPORT" "You recently submitted a report for this location")).
Proof.
  intros Hr Hv Hin Hmem Huser Htime Hnear. rewrite (saveReport_readable _ _ _ reports) by done.
  replace (existsb _ reports) with true; [done|]. symmetry.
  apply existsb_exists_iff. exists r. split; [done|].
  unfold is_duplicate. rewrite bool_decide_eq_true_2, Htime by done. done.
Qed.

(** C2. The five-minute window in time: for a stored report stamped by
    [toISOString] at instant [tr], the callback of [reports.some] holds
    exactly when the report is the same user's, was made at or after
    [Date.now() - 5 * 60 * 1000], and lies less than ten metres away.  The
    string comparison of the source is the comparison of the instants (for
    years 0 to 9999), and the window includes its start. *)
Theorem is_duplicate_window report c r tr :
  Report.timestamp r = toISOString tr →
  (iso_min <= tr <= iso_max)%Z → (iso_min <= now_ms c - 5 * 60 * 1000 <= iso_max)%Z →
  is_duplicate report (window_start c) r =
    bool_decide (Report.userId r = Report.in_userId report) && (now_ms c - 5 * 60 * 1000 <=? tr)%Z &&
    (distance (Report.location r) (Report.in_location report) <? 10)%float.
Proof.
  intros Hts Htr Hw. unfold is_duplicate, window_start, js_lt.
  rewrite Hts, toISOString_compare by done.
  destruct (bool_decide _); simpl; [|done].
  destruct (Z.compare_spec tr (now_ms c - 5 * 60 * 1000)), (Z.leb_spec (now_ms c - 5 * 60 * 1000) tr);
    simpl; done || lia.
Qed.

Lemma USERS_REPORTS_ne : USERS ≠ REPORTS.
Proof. done. Qed.

(** The users entry after the award: either the award was written, or
    the users entry did not change (no owner, no users array, or a
    refused write). *)
Definition award_effect (report : Report.Input) (c : Ctx) (before after : option Doc) : Prop :=
  after = before ∨
  ∃ users i su, before = Some (DUsers users) ∧
    list_find (id_is (Report.in_userId report)) users = Some (i, su) ∧
    after = Some (DUsers (<[i := award_points (now_iso c) su]> users)).

Lemma award_owner_Ok report c nr st st' r :
  sa_readable st → award_owner report c nr st = (st', Ok r) →
  r = nr ∧ sa_readable st' ∧
  (∀ k, k ≠ USERS → sa_view st' !! k = sa_view st !! k) ∧
  award_effect report c (sa_view st !! USERS) (sa_view st' !! USERS).
Proof.
  intros Hr. unfold award_owner. rewrite sa_get_readable by done.
  destruct (falsy (sa_view st !! USERS)) eqn:Hf.
  { intros [= <- <-]. split_and!; [done..|by left]. }
  destruct (sa_view st !! USERS) as [d|] eqn:Hu; [|done]. simpl.
  destruct (as_users d) as [users|] eqn:Hd; [|done].
  destruct d; simplify_eq/=.
  destruct (list_find _ users) as [[i su]|] eqn:Hfind.
  - set (d := DUsers (<[i:=award_points (now_iso c) su]> users)).
    pose proof (sa_set_view USERS d st) as Hs.
    pose proof (sa_set_readable USERS d st Hr) as Hr'.
    destruct (sa_set USERS d st) as [st2 b]; simpl in *. intros [= <- <-].
    split_and!; [done|done| |].
    + intros k Hk. rewrite Hs. destruct b; [|done]. by rewrite lookup_insert_ne.
    + rewrite Hs. destruct b; [|by left]. right. rewrite lookup_insert_eq. eauto 10.
  - intros [= <- <-]. split_and!; [done..|by left].
Qed.

(** What a successful submission did to the store. *)
Lemma saveReport_Ok report c st reports st' nr :
  sa_readable st → sa_view st !! REPORTS = Some (DReports reports) →
  saveReport report c st = (st', Ok nr) →
  input_valid report = true ∧ nr = new_report c report ∧
  existsb (is_duplicate report (window_start c)) reports = false ∧ sa_readable st' ∧
  sa_view st' !! REPORTS = Some (DReports (reports ++ [nr])) ∧
  award_effect report c (sa_view st !! USERS) (sa_view st' !! USERS).
Proof.
  intros Hr Hv. destruct (input_valid report) eqn:Hin.
  2:{ destruct (saveReport_invalid report c st Hin) as [e ->]. done. }
  rewrite (saveReport_readable _ _ _ reports) by done.
  destruct (existsb _ reports) eqn:Hdup; [done|].
  set (d := DReports (reports ++ [new_report c report])).
  pose proof (sa_set_view REPORTS d st) as Hs.
  pose proof (sa_set_readable REPORTS d st Hr) as Hr1.
  destruct (sa_set REPORTS d st) as [st1 []]; simpl in *; [|done].
  intros Haw. destruct (award_owner_Ok _ _ _ _ _ _ Hr1 Haw) as (-> & Hr' & Hother & Heff).
  split_and!; try done.
  - rewrite Hother by done. by rewrite Hs, lookup_insert_eq.
  - rewrite Hs, lookup_insert_ne in Heff by done. done.
Qed.

(** C5. Round trip: after a successful submission, [getReports] lists
    the stored reports followed by the returned one, and looking its id
    up finds exactly the returned report when the id was fresh. *)
Theorem saveReport_getReports report c st reports st' nr :
  sa_readable st → sa_view st !! REPORTS = Some (DReports reports) →
  saveReport report c st = (st', Ok nr) →
  (∀ r, r ∈ reports → Report.id r ≠ Report.id nr) →
  getReports st' = (st', Return (reports ++ [nr])) ∧
  list_find (report_id_is (Report.id nr)) (reports ++ [nr]) = Some (length reports, nr).
Proof.
  intros Hr Hv Hsave Hfresh.
  destruct (saveReport_Ok _ _ _ _ _ _ Hr Hv Hsave) as (_ & _ & _ & Hr' & Hv' & _).
  split.
  - unfold getReports. by rewrite sa_get_readable, Hv' by done.
  - apply list_find_Some. split_and!.
    + apply lookup_push.
    + done.
    + intros j y Hj Hlt. rewrite lookup_app_l in Hj by done.
      apply Hfresh. by eapply list_elem_of_lookup_2.
Qed.
End LedgerProofs.

(** ** The ledger on the browser's store *)

Section BrowserLedger.
Implicit Types (st : Store Doc) (reports : list Report.t) (users : list StoredUser.t).

(** C3. Point award: on a store that is not denied and refuses no
    write, a successful submission adds exactly ten eco-points to the
    first account with the report's user id, recomputes its credits, and
    leaves every other account as it was. *)
Theorem saveReport_awards_points report c st reports users i su st' nr :
  denied st = false → quota st = [] →
  items st !! REPORTS = Some (DReports reports) → items st !! USERS = Some (DUsers users) →
  list_find (id_is (Report.in_userId report)) users = Some (i, su) →
  saveReport report c st = (st', Ok nr) →
  ∃ su', items st' !! USERS = Some (DUsers (<[i := su']> users)) ∧
    User.ecoPoints (StoredUser.user su') = (User.ecoPoints (StoredUser.user su) + 10)%Z ∧
    User.credits (StoredUser.user su') = credits_of (User.ecoPoints (StoredUser.user su')).
Proof.
  intros Hd Hq Hr Hu Hf Hsave.
  destruct (input_valid report) eqn:Hin.
  2:{ destruct (saveReport_invalid report c st Hin) as [e He]. congruence. }
  rewrite (saveReport_readable (S:=Store Doc) _ _ _ reports) in Hsave by done.
  destruct (existsb _ reports); [done|]. cbn [sa_set Store_adapter] in Hsave.
  rewrite safeSetItem_ok in Hsave by (rewrite ?Hq; done). rewrite Hq in Hsave. simpl in Hsave.
  rewrite (award_owner_readable (S:=Store Doc) _ _ _ _ users) in Hsave
    by (simpl; rewrite ?lookup_insert_ne; done).
  rewrite Hf in Hsave. cbn [sa_set Store_adapter] in Hsave. rewrite safeSetItem_ok in Hsave by done. simpl in Hsave. injection Hsave as <- _.
  exists (award_points (now_iso c) su). simpl. split; [by rewrite lookup_insert_eq|done].
Qed.
(** C24. When the browser accepts the report and refuses the next write,
    a valid submission that is no duplicate and whose owner has an account
    succeeds with the new report, the report is stored, the users entry is
    left as it was (the ten eco-points are not awarded), and only a
    [QUOTA_EXCEEDED] entry in the log records it. *)
Theorem saveReport_award_lost_on_quota report c st reports users i su q :
  denied st = false → quota st = false :: true :: q →
  items st !! REPORTS = Some (DReports reports) → items st !! USERS = Some (DUsers users) →
  input_valid report = true → existsb (is_duplicate report (window_start c)) reports = false →
  list_find (id_is (Report.in_userId report)) users = Some (i, su) →
  saveReport report c st =
    (mkStore (<[REPORTS := DReports (reports ++ [new_report c report])]> (items st)) false q
       (log st ++ [createError "QUOTA_EXCEEDED" "Storage quota exceeded"]), Ok (new_report c report)).
Proof.
  intros Hd Hq Hr Hu Hin Hdup Hf.
  rewrite (saveReport_readable (S:=Store Doc) _ _ _ reports), Hdup by done.
  cbn [sa_set Store_adapter]. rewrite safeSetItem_ok by (rewrite ?Hq; done). rewrite Hq. simpl.
  rewrite (award_owner_readable (S:=Store Doc) _ _ _ _ users) by (simpl; rewrite ?lookup_insert_ne; done).
  rewrite Hf. done.
Qed.
End BrowserLedger.

(** ** Concrete runs on the browser's store *)

Definition loc_rocks : Report.Location :=
  Report.mkLocation (-0x1.0ee113404ea4bp+5)%float (0x1.2e6c154c985fp+7)%float "The Rocks, Sydney NSW 2000".

Definition ctx_report : Ctx := mkCtx 1762682460000 "r5t6y7u8i".
Definition ctx_report_2min : Ctx := mkCtx 1762682580000 "a1s2d3f4g".

Definition input_rocks : Report.Input :=
  Report.mkInput (fresh_id "user" ctx_register) "Plastic Bottles" "Bottles left on the steps" None loc_rocks.

(** The store after one report of that user. *)
Definition store_one_report : Store Doc := (saveReport input_rocks ctx_report store_one_user).1.

Lemma saveReport_duplicate_witness :
  saveReport input_rocks ctx_report_2min store_one_report =
    (store_one_report,
     Err (createError "DUPLICATE_REPORT" "You recently submitted a report for this location")).
Proof.
  apply (saveReport_duplicate _ _ _ [new_report ctx_report input_rocks] (new_report ctx_report input_rocks));
    try (vm_compute; reflexivity).
  by left.
Defined.

(** A report made exactly five minutes after another, at the same place,
    falls in the window. *)
Lemma is_duplicate_window_witness :
  is_duplicate input_rocks (window_start (mkCtx 1762682760000 "q")) (new_report ctx_report input_rocks) = true.
Proof.
  rewrite (is_duplicate_window input_rocks (mkCtx 1762682760000 "q") (new_report ctx_report input_rocks)
             1762682460000) by (reflexivity || (unfold iso_min, iso_max; simpl; lia)).
  vm_compute. reflexivity.
Defined.

Lemma saveReport_awards_points_witness :
  ∃ su', items (saveReport input_rocks ctx_report store_one_user).1 !! USERS =
           Some (DUsers (<[0%nat := su']> [new_user ctx_register "a@b.com" "secret1" "Jo Lee"])) ∧
         User.ecoPoints (StoredUser.user su') = 10%Z ∧
         User.credits (StoredUser.user su') = credits_of (User.ecoPoints (StoredUser.user su')).
Proof.
  destruct (saveReport_awards_points input_rocks ctx_report store_one_user []
              [new_user ctx_register "a@b.com" "secret1" "Jo Lee"] 0
              (new_user ctx_register "a@b.com" "secret1" "Jo Lee") (saveReport input_rocks ctx_report store_one_user).1
              (new_report ctx_report input_rocks))
    as (su' & H1 & H2 & H3); try (vm_compute; reflexivity).
  exists su'. split_and!; [exact H1 | rewrite H2; reflexivity | exact H3].
Defined.

Lemma saveReport_getReports_witness :
  getReports store_one_report = (store_one_report, Return [new_report ctx_report input_rocks]) ∧
  list_find (report_id_is (Report.id (new_report ctx_report input_rocks))) [new_report ctx_report input_rocks] =
    Some (0%nat, new_report ctx_report input_rocks).
Proof.
  apply (saveReport_getReports input_rocks ctx_report store_one_user []);
    try (vm_compute; reflexivity).
  intros r Hr. by apply elem_of_nil in Hr.
Defined.

(** [saveReport] checks the length of the raw description and stores the
    sanitised one: a description made of markup passes the check of ten
    characters and is stored empty, and so is its type. *)
Theorem saveReport_stores_empty_description :
  ∃ r, (saveReport (Report.mkInput "user_1" "<b></b>" "<p></p><p></p>" None loc_rocks) ctx_report
          store_one_user).2 = Ok r ∧
       Report.description r = "" ∧ Report.type r = "".
Proof. eexists. vm_compute. split_and!; reflexivity. Qed.

(** A browser store that accepts the next write and refuses the one after. *)
Definition store_quota_after_one : Store Doc :=
  mkStore (items store_one_user) false [false; true] [].

Lemma saveReport_award_lost_on_quota_witness :
  saveReport input_rocks ctx_report store_quota_after_one =
    (mkStore (<[REPORTS := DReports ([] ++ [new_report ctx_report input_rocks])]> (items store_quota_after_one))
       false [] (log store_quota_after_one ++ [createError "QUOTA_EXCEEDED" "Storage quota exceeded"]),
     Ok (new_report ctx_report input_rocks)).
Proof.
  apply (saveReport_award_lost_on_quota input_rocks ctx_report store_quota_after_one []
           [new_user ctx_register "a@b.com" "secret1" "Jo Lee"] 0 (new_user ctx_register "a@b.com" "secret1" "Jo Lee") []);
    vm_compute; reflexivity.
Defined.

(** A store whose users entry is text that does not parse. *)
Definition store_corrupt_users : Store Doc :=
  mkStore (<[USERS := DText "{"]> (<[REPORTS := DReports []]> ∅)) false [] [].

