(* ===== verification/Notifications.v ===== *)
(** * The notification outbox ([storage.ts], lines 501-641)

    The outbox is the array under [NOTIFICATIONS].  [createNotification]
    renders the template of its kind and appends; [getUserNotifications]
    filters one user's notifications and sorts them newest first by
    [new Date(createdAt).getTime()]; [getUnreadNotificationCount] counts the
    unread ones of that list; [markNotificationAsRead] and
    [markAllNotificationsAsRead] set read flags.  Every operation but the
    count has a [catch] that logs and answers [null], [[]] or [false]. *)

From S2P Require Import Prelude JsString KVStore Clock DateParse Model.
From Stdlib Require Import Ascii.

(** The quotation mark, code unit 34. *)
Definition dq : string := String "034"%char EmptyString.

(** [reportDetails: { type: string; address: string }] *)
Record ReportDetails := mkDetails { rd_type : string; rd_address : string }.

(** [titles[type]]; the emoji of the source are kept as the bytes of their
    UTF-8 encoding. *)
Definition title_of (k : Notification.Kind) : string :=
  match k with
  | Notification.report_reviewed => "✅ Report Reviewed"
  | Notification.report_resolved => "🎉 Report Resolved"
  end.

(** [messages[type]] *)
Definition message_of (k : Notification.Kind) (rd : ReportDetails) : string :=
  match k with
  | Notification.report_reviewed =>
      "Your report about " +:+ dq +:+ rd_type rd +:+ dq +:+ " at " +:+ rd_address rd +:+
      " has been reviewed by our team."
  | Notification.report_resolved =>
      "Great news! Your report about " +:+ dq +:+ rd_type rd +:+ dq +:+ " at " +:+ rd_address rd +:+
      " has been resolved. Thank you for helping keep Sydney clean!"
  end.

(** [sendEmailNotification(userEmail, subject, body)]: the lines it
    writes to the console, in UTF-8; no e-mail is sent. *)
Definition sendEmailNotification (userEmail subject body : string) : list string :=
  ["📧 Email Notification Sent:"; "To: " +:+ userEmail; "Subject: " +:+ subject; "Body: " +:+ body; "---"].

(** The notification [createNotification] appends. *)
Definition new_notification (c : Ctx) (userId reportId : string) (k : Notification.Kind)
    (rd : ReportDetails) : Notification.t :=
  Notification.mk (fresh_id "notification" c) userId k (title_of k) (message_of k rd) reportId false (now_iso c).

(** [{ ...n, read: true }] and [n.read = true] *)
Definition set_read (n : Notification.t) : Notification.t :=
  Notification.mk (Notification.id n) (Notification.userId n) (Notification.type n) (Notification.title n)
    (Notification.message n) (Notification.reportId n) true (Notification.createdAt n).

(** [new Date(n.createdAt).getTime()]: [None] is [NaN]. *)
Definition created_time (n : Notification.t) : option Z := parse_iso (Notification.createdAt n).

(** The comparator of [getUserNotifications],
    [new Date(b.createdAt).getTime() - new Date(a.createdAt).getTime()];
    a [NaN] result counts as [+0]. *)
Definition newest_first (a b : Notification.t) : Z :=
  match created_time a, created_time b with
  | Some ta, Some tb => tb - ta
  | _, _ => 0
  end%Z.

(** The instant of a notification whose [createdAt] parses. *)
Definition created_ms (n : Notification.t) : Z := default 0%Z (created_time n).

Definition for_user (userId : string) (n : Notification.t) : Prop := Notification.userId n = userId.
#[global] Instance for_user_dec u n : Decision (for_user u n).
Proof. unfold for_user. apply _. Defined.

Definition notification_id_is (nid : string) (n : Notification.t) : Prop := Notification.id n = nid.
#[global] Instance notification_id_is_dec nid n : Decision (notification_id_is nid n).
Proof. unfold notification_id_is. apply _. Defined.

(** [n.userId === userId ? { ...n, read: true } : n] *)
Definition read_if_for (userId : string) (n : Notification.t) : Notification.t :=
  if decide (for_user userId n) then set_read n else n.

Section Outbox.
Context {S : Type} `{!StoreAdapter Doc S}.

Definition initializeNotifications (st : S) : S :=
  let '(st, d) := sa_get NOTIFICATIONS st in
  if falsy d then (sa_set NOTIFICATIONS (DNotifications []) st).1 else st.

Definition createNotification (userId reportId : string) (k : Notification.Kind) (rd : ReportDetails)
    (c : Ctx) (st : S) : S * option Notification.t :=
  let st := initializeNotifications st in
  let '(st, notificationsData) := sa_get NOTIFICATIONS st in
  if falsy notificationsData then (st, None) else
  match notificationsData ≫= as_notifications with
  | None => (sa_log (createError "NOTIFICATION_ERROR" "Failed to create notification") st, None)
  | Some notifications =>
      let notification := new_notification c userId reportId k rd in
      let '(st, _) := sa_set NOTIFICATIONS (DNotifications (notifications ++ [notification])) st in
      (st, Some notification)
  end.

Definition getUserNotifications (userId : string) (st : S) : S * list Notification.t :=
  let st := initializeNotifications st in
  let '(st, notificationsData) := sa_get NOTIFICATIONS st in
  if falsy notificationsData then (st, []) else
  match notificationsData ≫= as_notifications with
  | None => (sa_log (createError "NOTIFICATION_READ_ERROR" "Failed to read notifications") st, [])
  | Some notifications => (st, sort_by newest_first (filter (for_user userId) notifications))
  end.

Definition getUnreadNotificationCount (userId : string) (st : S) : S * nat :=
  let '(st, notifications) := getUserNotifications userId st in
  (st, length (filter (λ n, Notification.read n = false) notifications)).

Definition markNotificationAsRead (notificationId : string) (st : S) : S * bool :=
  let '(st, notificationsData) := sa_get NOTIFICATIONS st in
  if falsy notificationsData then (st, false) else
  match notificationsData ≫= as_notifications with
  | None => (sa_log (createError "NOTIFICATION_UPDATE_ERROR" "Failed to update notification") st, false)
  | Some notifications =>
      match list_find (notification_id_is notificationId) notifications with
      | None => (st, false)
      | Some (notificationIndex, n) =>
          sa_set NOTIFICATIONS (DNotifications (<[notificationIndex := set_read n]> notifications)) st
      end
  end.

Definition markAllNotificationsAsRead (userId : string) (st : S) : S * bool :=
  let '(st, notificationsData) := sa_get NOTIFICATIONS st in
  if falsy notificationsData then (st, false) else
  match notificationsData ≫= as_notifications with
  | None => (sa_log (createError "NOTIFICATION_UPDATE_ERROR" "Failed to update notifications") st, false)
  | Some notifications =>
      sa_set NOTIFICATIONS (DNotifications (map (read_if_for userId) notifications)) st
  end.
End Outbox.

(** ** Properties, against the laws of the adapter *)

(** A notification already read is unchanged by being read again. *)
Lemma set_read_id n : Notification.read n = true → set_read n = n.
Proof. destruct n; simpl. by intros ->. Qed.

Lemma read_if_for_read u n : Notification.read n = true → read_if_for u n = n.
Proof. intros H. unfold read_if_for. case_decide; [by apply set_read_id|done]. Qed.

Lemma set_read_read n : Notification.read (set_read n) = true.
Proof. done. Qed.

(** Every notification the stored list holds keeps its read flag set. *)
Definition reads_kept (v v' : gmap string Doc) : Prop :=
  ∀ ns, v !! NOTIFICATIONS = Some (DNotifications ns) →
    ∃ ns', v' !! NOTIFICATIONS = Some (DNotifications ns') ∧
      ∀ n, n ∈ ns → Notification.read n = true → n ∈ ns'.

Lemma reads_kept_refl v : reads_kept v v.
Proof. intros ns H. eauto. Qed.

Lemma reads_kept_trans v1 v2 v3 : reads_kept v1 v2 → reads_kept v2 v3 → reads_kept v1 v3.
Proof.
  intros H12 H23 ns H1. destruct (H12 ns H1) as (ns2 & H2 & Hin2).
  destruct (H23 ns2 H2) as (ns3 & H3 & Hin3). exists ns3. split; [done|]. auto.
Qed.

(** Replacing the stored list by one that contains its read notifications. *)
Lemma reads_kept_set v ns ns' :
  v !! NOTIFICATIONS = Some (DNotifications ns) →
  (∀ n, n ∈ ns → Notification.read n = true → n ∈ ns') →
  reads_kept v (<[NOTIFICATIONS := DNotifications ns']> v).
Proof. intros Hv Hin ns0 Hv0. rewrite Hv in Hv0. simplify_eq. rewrite lookup_insert_eq. eauto. Qed.

Lemma reads_kept_insert_read (ns : list Notification.t) (i : nat) (n : Notification.t) :
  ns !! i = Some n → ∀ m, m ∈ ns → Notification.read m = true → m ∈ <[i := set_read n]> ns.
Proof.
  intros Hi m Hm Hr. apply list_elem_of_lookup in Hm as [j Hj].
  destruct (decide (i = j)) as [->|Hne].
  - rewrite Hi in Hj. simplify_eq. rewrite set_read_id by done.
    rewrite list_insert_id by done. apply list_elem_of_lookup. eauto.
  - apply list_elem_of_lookup. exists j. by rewrite list_lookup_insert_ne.
Qed.

Lemma reads_kept_map_read u (ns : list Notification.t) :
  ∀ m, m ∈ ns → Notification.read m = true → m ∈ map (read_if_for u) ns.
Proof.
  intros m Hm Hr. rewrite <- (read_if_for_read u m Hr). apply list_elem_of_fmap_2. done.
Qed.

Section OutboxProofs.
Context {S : Type} `{!StoreAdapter Doc S} `{!StoreAdapterLaws Doc S}.
Implicit Types (st : S) (ns : list Notification.t).

Lemma initializeNotifications_present st ns :
  sa_readable st → sa_view st !! NOTIFICATIONS = Some (DNotifications ns) →
  initializeNotifications st = st.
Proof. intros Hr Hv. unfold initializeNotifications. by rewrite sa_get_readable, Hv. Qed.

(** The list [getUserNotifications] answers on a readable store that holds
    an outbox. *)
Lemma getUserNotifications_readable u st ns :
  sa_readable st → sa_view st !! NOTIFICATIONS = Some (DNotifications ns) →
  getUserNotifications u st = (st, sort_by newest_first (filter (for_user u) ns)).
Proof.
  intros Hr Hv. unfold getUserNotifications.
  rewrite (initializeNotifications_present st ns), sa_get_readable, Hv by done. done.
Qed.

Lemma getUnreadNotificationCount_readable u st ns :
  sa_readable st → sa_view st !! NOTIFICATIONS = Some (DNotifications ns) →
  getUnreadNotificationCount u st =
    (st, length (filter (λ n, Notification.read n = false) (filter (for_user u) ns))).
Proof.
  intros Hr Hv. unfold getUnreadNotificationCount. rewrite (getUserNotifications_readable u st ns) by done.
  f_equal. apply Permutation_length. by rewrite sort_by_perm.
Qed.
Lemma newest_first_key a b :
  is_Some (created_time a) → is_Some (created_time b) → newest_first a b = (created_ms b - created_ms a)%Z.
Proof. unfold newest_first, created_ms. intros [ta ->] [tb ->]. done. Qed.

(** After [markAllNotificationsAsRead u], no notification of [u] is unread. *)
Lemma unread_after_read_all u ns :
  filter (λ n, Notification.read n = false) (filter (for_user u) (map (read_if_for u) ns)) = [].
Proof.
  apply filter_nil_intro. intros n Hn. apply list_elem_of_filter in Hn as [Hu Hn].
  apply list_elem_of_fmap in Hn as (m & -> & _). unfold read_if_for in *.
  case_decide; [done|]. unfold for_user in Hu. simpl in Hu. done.
Qed.

(** C11. [listFor]: on a store that holds the outbox, [getUserNotifications u]
    writes nothing and answers exactly the notifications of [u], ordered by
    their [createdAt] instants newest first, notifications of the same
    instant in their stored order (when every [createdAt] of [u] parses). *)
Theorem getUserNotifications_newest_first u st ns :
  sa_readable st → sa_view st !! NOTIFICATIONS = Some (DNotifications ns) →
  (∀ n, n ∈ ns → for_user u n → is_Some (created_time n)) →
  ∃ l, getUserNotifications u st = (st, l) ∧
    l ≡ₚ filter (for_user u) ns ∧
    Sorted (λ a b, created_ms b <= created_ms a)%Z l ∧
    ∀ t, filter (λ n, created_ms n = t) l = filter (λ n, created_ms n = t) (filter (for_user u) ns).
Proof.
  intros Hr Hv Hp. rewrite (getUserNotifications_readable u st ns) by done. eexists. split; [done|].
  assert (Forall (λ n, is_Some (created_time n)) (filter (for_user u) ns)) as Hall.
  { apply Forall_forall. intros n Hn. apply list_elem_of_filter in Hn as [??]. auto. }
  split_and!.
  - apply sort_by_perm.
  - apply (sort_by_sorted newest_first _ created_ms newest_first_key _ Hall).
  - intros t. apply (sort_by_stable newest_first _ created_ms newest_first_key _ t Hall).
Qed.

(** C6. Notification generation: when the outbox write succeeds,
    [createNotification] appends exactly the rendered notification (unread,
    for the owner, with the template of its kind) and the owner's unread
    count grows by exactly one. *)
Theorem createNotification_notify u rid k rd c st ns :
  sa_readable st → sa_view st !! NOTIFICATIONS = Some (DNotifications ns) →
  (sa_set NOTIFICATIONS (DNotifications (ns ++ [new_notification c u rid k rd])) st).2 = true →
  ∃ st', createNotification u rid k rd c st = (st', Some (new_notification c u rid k rd)) ∧
    sa_view st' = <[NOTIFICATIONS := DNotifications (ns ++ [new_notification c u rid k rd])]> (sa_view st) ∧
    (getUnreadNotificationCount u st').2 = Nat.succ (getUnreadNotificationCount u st).2.
Proof.
  intros Hr Hv Hset. unfold createNotification.
  rewrite (initializeNotifications_present st ns), sa_get_readable, Hv by done. simpl.
  pose proof (sa_set_view NOTIFICATIONS (DNotifications (ns ++ [new_notification c u rid k rd])) st) as Hview.
  pose proof (sa_set_readable NOTIFICATIONS (DNotifications (ns ++ [new_notification c u rid k rd])) st Hr) as Hr'.
  destruct (sa_set _ _ st) as [st' b] eqn:E. simpl in *. subst b.
  exists st'. split_and!; [done|done|].
  rewrite (getUnreadNotificationCount_readable u st' (ns ++ [new_notification c u rid k rd])),
    (getUnreadNotificationCount_readable u st ns) by (rewrite ?Hview, ?lookup_insert_eq; done).
  simpl. rewrite !filter_app, length_app. simpl.
  rewrite filter_cons_True by done. rewrite filter_nil. simpl.
  rewrite Nat.add_1_r. reflexivity.
Qed.

(** C26. [createNotification] ignores the answer of its write: when the
    outbox write is refused, the rendered notification is still returned,
    but the stored data is unchanged and the owner's unread count stays
    what it was, so the notification is lost. *)
Theorem createNotification_returns_unsaved u rid k rd c st ns :
  sa_readable st → sa_view st !! NOTIFICATIONS = Some (DNotifications ns) →
  (sa_set NOTIFICATIONS (DNotifications (ns ++ [new_notification c u rid k rd])) st).2 = false →
  ∃ st', createNotification u rid k rd c st = (st', Some (new_notification c u rid k rd)) ∧
    sa_view st' = sa_view st ∧
    (getUnreadNotificationCount u st').2 = (getUnreadNotificationCount u st).2.
Proof.
  intros Hr Hv Hset. unfold createNotification.
  rewrite (initializeNotifications_present st ns), sa_get_readable, Hv by done. simpl.
  pose proof (sa_set_view NOTIFICATIONS (DNotifications (ns ++ [new_notification c u rid k rd])) st) as Hview.
  pose proof (sa_set_readable NOTIFICATIONS (DNotifications (ns ++ [new_notification c u rid k rd])) st Hr) as Hr'.
  destruct (sa_set _ _ st) as [st' b] eqn:E. simpl in *. subst b.
  exists st'. split_and!; [done|done|].
  by rewrite (getUnreadNotificationCount_readable u st' ns), (getUnreadNotificationCount_readable u st ns)
    by (rewrite ?Hview; done).
Qed.

(** C7. Notification generation, second half: after a successful
    [markAllNotificationsAsRead u], the unread count of [u] is zero. *)
Theorem markAllNotificationsAsRead_count u st st' :
  sa_readable st → markAllNotificationsAsRead u st = (st', true) →
  (getUnreadNotificationCount u st').2 = 0%nat.
Proof.
  intros Hr. unfold markAllNotificationsAsRead. rewrite sa_get_readable by done.
  destruct (sa_view st !! NOTIFICATIONS) as [d|] eqn:Hv; cbv iota beta; [|simpl; intros; congruence].
  destruct (falsy (Some d)); [intros; congruence|].
  cbn [mbind option_bind]. destruct (as_notifications d) as [ns|]; [|intros; congruence].
  intros E. pose proof (sa_set_view NOTIFICATIONS (DNotifications (map (read_if_for u) ns)) st) as Hview.
  pose proof (sa_set_readable NOTIFICATIONS (DNotifications (map (read_if_for u) ns)) st Hr) as Hr'.
  rewrite E in Hview, Hr'. simpl in *.
  rewrite (getUnreadNotificationCount_readable u st' (map (read_if_for u) ns))
    by (rewrite ?Hview, ?lookup_insert_eq; done).
  by rewrite unread_after_read_all.
Qed.

(** C19. [markRead]: the answer is [false] and the stored data unchanged, or
    [true] and the first notification with the id, and only it, is now
    read. *)
Theorem markNotificationAsRead_marks nid st st' ns b :
  sa_readable st → sa_view st !! NOTIFICATIONS = Some (DNotifications ns) →
  markNotificationAsRead nid st = (st', b) →
  (b = false → sa_view st' = sa_view st) ∧
  (b = true → ∃ i n, list_find (notification_id_is nid) ns = Some (i, n) ∧
     sa_view st' = <[NOTIFICATIONS := DNotifications (<[i := set_read n]> ns)]> (sa_view st)).
Proof.
  intros Hr Hv. unfold markNotificationAsRead. rewrite sa_get_readable, Hv by done. simpl.
  destruct (list_find _ ns) as [[i n]|] eqn:Hf.
  - intros E. pose proof (sa_set_view NOTIFICATIONS (DNotifications (<[i := set_read n]> ns)) st) as Hview.
    rewrite E in Hview. simpl in Hview. split; intros ->; [done|]. eauto.
  - intros [= <- <-]. split; [done|]. discriminate.
Qed.
End OutboxProofs.

(** ** The outbox as a transition system *)

(** The operations a client can run on the outbox, with their inputs. *)
Inductive OutboxOp :=
| OpCreate (userId reportId : string) (k : Notification.Kind) (rd : ReportDetails) (c : Ctx)
| OpList (userId : string)
| OpCount (userId : string)
| OpMarkRead (notificationId : string)
| OpMarkAll (userId : string).

Section OutboxSystem.
Context {S : Type} `{!StoreAdapter Doc S} `{!StoreAdapterLaws Doc S}.
Implicit Types (st : S) (ns : list Notification.t).

Definition run_outbox (op : OutboxOp) (st : S) : S :=
  match op with
  | OpCreate u rid k rd c => (createNotification u rid k rd c st).1
  | OpList u => (getUserNotifications u st).1
  | OpCount u => (getUnreadNotificationCount u st).1
  | OpMarkRead nid => (markNotificationAsRead nid st).1
  | OpMarkAll u => (markAllNotificationsAsRead u st).1
  end.

(** The stores reachable from [st0] by any sequence of outbox operations. *)
Inductive outbox_reach (st0 : S) : S → Prop :=
| outbox_reach_refl : outbox_reach st0 st0
| outbox_reach_step st op : outbox_reach st0 st → outbox_reach st0 (run_outbox op st).

(** One step keeps the store readable and the read notifications stored. *)
Definition kept (st st' : S) : Prop := sa_readable st' ∧ reads_kept (sa_view st) (sa_view st').

Lemma kept_trans st1 st2 st3 : kept st1 st2 → kept st2 st3 → kept st1 st3.
Proof. intros [_ H12] [H3 H23]. split; [done|]. by eapply reads_kept_trans. Qed.

Lemma kept_log e st : sa_readable st → kept st (sa_log e st).
Proof. intros Hr. split; [by apply sa_log_readable|]. rewrite sa_log_view. apply reads_kept_refl. Qed.

(** A write of the outbox that keeps its read notifications. *)
Lemma kept_set st ns ns' :
  sa_readable st → sa_view st !! NOTIFICATIONS = Some (DNotifications ns) →
  (∀ n, n ∈ ns → Notification.read n = true → n ∈ ns') →
  kept st (sa_set NOTIFICATIONS (DNotifications ns') st).1.
Proof.
  intros Hr Hv Hin. split; [by apply sa_set_readable|]. rewrite sa_set_view.
  destruct (sa_set _ _ st).2; [by eapply reads_kept_set | apply reads_kept_refl].
Qed.

(** A write that creates the outbox where there was none. *)
Lemma kept_set_fresh st d :
  sa_readable st → (∀ ns, sa_view st !! NOTIFICATIONS ≠ Some (DNotifications ns)) →
  kept st (sa_set NOTIFICATIONS d st).1.
Proof.
  intros Hr Hnone. split; [by apply sa_set_readable|]. intros ns Hv. by destruct (Hnone ns).
Qed.

Lemma kept_refl st : sa_readable st → kept st st.
Proof. split; [done | apply reads_kept_refl]. Qed.

Lemma falsy_not_outbox st : falsy (sa_view st !! NOTIFICATIONS) = true →
  ∀ ns, sa_view st !! NOTIFICATIONS ≠ Some (DNotifications ns).
Proof. intros Hf ns Hv. by rewrite Hv in Hf. Qed.

Lemma initializeNotifications_kept st : sa_readable st → kept st (initializeNotifications st).
Proof.
  intros Hr. unfold initializeNotifications. rewrite sa_get_readable by done.
  destruct (falsy _) eqn:Hf; [apply kept_set_fresh; [done|by apply falsy_not_outbox] | by apply kept_refl].
Qed.
(** The cases of a read of the outbox on a readable store: absent or empty
    text (nothing happens), a document that is not an outbox (the [catch]
    logs), or an outbox [ns] (the goal that is left). *)
Ltac outbox_cases Hr :=
  rewrite sa_get_readable by exact Hr;
  let Hv := fresh "Hv" in
  destruct (sa_view _ !! NOTIFICATIONS) as [[]|] eqn:Hv; cbn [fst snd mbind option_bind falsy as_notifications];
  try case_bool_decide; try (by apply kept_refl); try (by apply kept_log).

Lemma run_outbox_kept op st : sa_readable st → kept st (run_outbox op st).
Proof.
  intros Hr. destruct op as [u rid k rd c|u|u|nid|u]; simpl.
  - unfold createNotification. pose proof (initializeNotifications_kept st Hr) as Hi.
    eapply kept_trans; [exact Hi|]. destruct Hi as [Hr1 _]. outbox_cases Hr1.
    destruct (sa_set _ _ _) as [st' b] eqn:E. simpl.
    replace st' with (sa_set NOTIFICATIONS (DNotifications (ns ++ [new_notification c u rid k rd]))
                       (initializeNotifications st)).1 by (by rewrite E).
    eapply kept_set; [done|eassumption|]. intros n Hn _. apply elem_of_app. by left.
  - unfold getUserNotifications. pose proof (initializeNotifications_kept st Hr) as Hi.
    eapply kept_trans; [exact Hi|]. destruct Hi as [Hr1 _]. by outbox_cases Hr1.
  - unfold getUnreadNotificationCount, getUserNotifications. pose proof (initializeNotifications_kept st Hr) as Hi.
    eapply kept_trans; [exact Hi|]. destruct Hi as [Hr1 _]. by outbox_cases Hr1.
  - unfold markNotificationAsRead. outbox_cases Hr.
    destruct (list_find _ ns) as [[i n]|] eqn:Hf; simpl; [|by apply kept_refl].
    apply list_find_Some in Hf as (Hi & _). eapply kept_set; [done|eassumption|]. by apply reads_kept_insert_read.
  - unfold markAllNotificationsAsRead. outbox_cases Hr.
    eapply kept_set; [done|eassumption|]. apply reads_kept_map_read.
Qed.

(** C12. Read flags are monotone: along any sequence of outbox operations
    from a readable store, every notification that was read is still in
    the stored outbox, still read. *)
Theorem outbox_reads_monotone st0 st :
  sa_readable st0 → outbox_reach st0 st →
  sa_readable st ∧ reads_kept (sa_view st0) (sa_view st).
Proof.
  intros Hr0 Hreach. induction Hreach as [|st op _ IH].
  - split; [done | apply reads_kept_refl].
  - apply (kept_trans st0 st); [exact IH|]. apply run_outbox_kept, IH.
Qed.
End OutboxSystem.

(** ** Concrete runs on the browser's store *)

Definition details_rocks : ReportDetails := mkDetails "Plastic Bottles" "The Rocks, Sydney NSW 2000".
Definition ctx_notify : Ctx := mkCtx 1762682520000 "n1o2t3i4f".
Definition ctx_notify_later : Ctx := mkCtx 1762686120000 "z9y8x7w6v".

(** A store whose outbox is empty. *)
Definition store_outbox : Store Doc := mkStore (<[NOTIFICATIONS := DNotifications []]> ∅) false [] [].

(** The outbox after a review and, an hour later, a resolution of
    [user_1]'s report, and a review for [user_2]. *)
Definition store_three : Store Doc :=
  let st := (createNotification "user_1" "report_1" Notification.report_reviewed details_rocks ctx_notify
               store_outbox).1 in
  let st := (createNotification "user_2" "report_2" Notification.report_reviewed details_rocks ctx_notify st).1 in
  (createNotification "user_1" "report_1" Notification.report_resolved details_rocks ctx_notify_later st).1.

Definition outbox_three : list Notification.t :=
  [new_notification ctx_notify "user_1" "report_1" Notification.report_reviewed details_rocks;
   new_notification ctx_notify "user_2" "report_2" Notification.report_reviewed details_rocks;
   new_notification ctx_notify_later "user_1" "report_1" Notification.report_resolved details_rocks].

Lemma getUserNotifications_newest_first_witness :
  ∃ l, getUserNotifications "user_1" store_three = (store_three, l) ∧
    l ≡ₚ filter (for_user "user_1") outbox_three ∧
    Sorted (λ a b, created_ms b <= created_ms a)%Z l ∧
    ∀ t, filter (λ n, created_ms n = t) l = filter (λ n, created_ms n = t) (filter (for_user "user_1") outbox_three).
Proof.
  apply (getUserNotifications_newest_first "user_1" store_three outbox_three); [reflexivity | vm_compute; reflexivity |].
  intros n Hn _. apply list_elem_of_In in Hn. destruct Hn as [<-|[<-|[<-|[]]]]; vm_compute; eauto.
Defined.

Lemma createNotification_notify_witness :
  ∃ st', createNotification "user_1" "report_1" Notification.report_reviewed details_rocks ctx_notify store_outbox =
           (st', Some (new_notification ctx_notify "user_1" "report_1" Notification.report_reviewed details_rocks)) ∧
    sa_view st' = <[NOTIFICATIONS := DNotifications ([] ++ [new_notification ctx_notify "user_1" "report_1"
                    Notification.report_reviewed details_rocks])]> (sa_view store_outbox) ∧
    (getUnreadNotificationCount "user_1" st').2 = Nat.succ (getUnreadNotificationCount "user_1" store_outbox).2.
Proof.
  apply (createNotification_notify "user_1" "report_1" Notification.report_reviewed details_rocks ctx_notify
           store_outbox []); vm_compute; reflexivity.
Defined.

Lemma markAllNotificationsAsRead_count_witness :
  (getUnreadNotificationCount "user_1" (markAllNotificationsAsRead "user_1" store_three).1).2 = 0%nat.
Proof.
  apply (markAllNotificationsAsRead_count "user_1" store_three); [reflexivity|].
  vm_compute. reflexivity.
Defined.

Lemma markNotificationAsRead_marks_witness :
  ((markNotificationAsRead (fresh_id "notification" ctx_notify_later) store_three).2 = false →
     sa_view (markNotificationAsRead (fresh_id "notification" ctx_notify_later) store_three).1 = sa_view store_three) ∧
  ((markNotificationAsRead (fresh_id "notification" ctx_notify_later) store_three).2 = true →
     ∃ i n, list_find (notification_id_is (fresh_id "notification" ctx_notify_later)) outbox_three = Some (i, n) ∧
       sa_view (markNotificationAsRead (fresh_id "notification" ctx_notify_later) store_three).1 =
         <[NOTIFICATIONS := DNotifications (<[i := set_read n]> outbox_three)]> (sa_view store_three)).
Proof.
  apply (markNotificationAsRead_marks _ store_three _ outbox_three); [reflexivity | vm_compute; reflexivity |].
  by destruct (markNotificationAsRead _ _).
Defined.

(** The outbox with the first notification of [user_1] read. *)
Definition store_one_read : Store Doc := (markNotificationAsRead (fresh_id "notification" ctx_notify) store_three).1.

Lemma outbox_reads_monotone_witness :
  sa_readable (run_outbox (OpMarkAll "user_2")
                 (run_outbox (OpCreate "user_1" "report_9" Notification.report_resolved details_rocks ctx_notify_later)
                    store_one_read)) ∧
  reads_kept (sa_view store_one_read)
    (sa_view (run_outbox (OpMarkAll "user_2")
              (run_outbox (OpCreate "user_1" "report_9" Notification.report_resolved details_rocks ctx_notify_later)
                 store_one_read))).
Proof.
  apply (outbox_reads_monotone store_one_read); [reflexivity|].
  apply outbox_reach_step, outbox_reach_step, outbox_reach_refl.
Defined.

(** A browser store whose next write is refused. *)
Definition store_outbox_full : Store Doc := mkStore (<[NOTIFICATIONS := DNotifications []]> ∅) false [true] [].

Lemma createNotification_returns_unsaved_witness :
  ∃ st', createNotification "user_1" "report_1" Notification.report_resolved details_rocks ctx_notify store_outbox_full =
      (st', Some (new_notification ctx_notify "user_1" "report_1" Notification.report_resolved details_rocks)) ∧
    sa_view st' = sa_view store_outbox_full ∧
    (getUnreadNotificationCount "user_1" st').2 = (getUnreadNotificationCount "user_1" store_outbox_full).2.
Proof. apply (createNotification_returns_unsaved _ _ _ _ _ _ []); vm_compute; reflexivity. Defined.

(** On the browser's store the loss is logged: one [QUOTA_EXCEEDED] entry. *)
Example createNotification_unsaved_log :
  map code (log (createNotification "user_1" "report_1" Notification.report_resolved details_rocks ctx_notify
                   store_outbox_full).1) = ["QUOTA_EXCEEDED"].
Proof. vm_compute. reflexivity. Qed.
