(* ===== verification/Migration.v ===== *)
(** * Initialisation and migration of the store ([storage.ts], lines 121-175)

    [initializeStorage] reads the version marker; when it is not
    [STORAGE_VERSION] it calls [migrateStorage] with it and stamps
    [STORAGE_VERSION]; then it creates the users and reports arrays when
    they are absent or empty text.  [migrateStorage] rewrites, inside its
    own [try], first the reports and then the users, filling an empty
    [createdAt] or [updatedAt] with the current instant; an exception in the
    middle (text that does not parse, a document that is not an array)
    leaves the writes made before it and logs [MIGRATION_ERROR].

    The stored documents are typed, so a report's [timestamp] is a string:
    [typeof report.timestamp === 'string'] holds and the timestamp is kept.
    (Dates of older data were written by [JSON.stringify], which turns a
    [Date] into its ISO string, so the other branch only meets data edited
    by hand.)  An absent field is the empty string, which [||] replaces. *)

From S2P Require Import Prelude JsString KVStore Clock Model.

(** [{ ...report, timestamp, createdAt: report.createdAt || now,
    updatedAt: report.updatedAt || now }] *)
Definition migrate_report (now : string) (r : Report.t) : Report.t :=
  Report.mk (Report.id r) (Report.userId r) (Report.type r) (Report.description r) (Report.photo r)
    (Report.location r) (Report.timestamp r) (Report.status r)
    (Report.createdAt r ||js now)%srd (Report.updatedAt r ||js now)%srd.

(** [{ ...user, createdAt: user.createdAt || now, updatedAt: user.updatedAt || now }] *)
Definition migrate_user (now : string) (su : StoredUser.t) : StoredUser.t :=
  let u := StoredUser.user su in
  StoredUser.mk
    (User.mk (User.id u) (User.email u) (User.name u) (User.role u) (User.ecoPoints u) (User.credits u)
       (User.createdAt u ||js now)%srd (User.updatedAt u ||js now)%srd)
    (StoredUser.password su).

Definition migration_error : StorageError := createError "MIGRATION_ERROR" "Failed to migrate data".

Section Migration.
Context {S : Type} `{!StoreAdapter Doc S}.

(** The reports half of the [try] block: [false] when [JSON.parse] or
    [reports.map] throws. *)
Definition migrate_reports (now : string) (st : S) : S * bool :=
  let '(st, reportsData) := sa_get REPORTS st in
  if falsy reportsData then (st, true) else
  match reportsData ≫= as_reports with
  | None => (st, false)
  | Some reports => ((sa_set REPORTS (DReports (map (migrate_report now) reports)) st).1, true)
  end.

Definition migrate_users (now : string) (st : S) : S * bool :=
  let '(st, usersData) := sa_get USERS st in
  if falsy usersData then (st, true) else
  match usersData ≫= as_users with
  | None => (st, false)
  | Some users => ((sa_set USERS (DUsers (map (migrate_user now) users)) st).1, true)
  end.

(** [fromVersion === '1.0.0'] on the text of the version marker. *)
Definition version_is (v : option Doc) (s : string) : bool :=
  match v with Some (DText t) => String.eqb t s | _ => false end.

Definition migrateStorage (fromVersion : option Doc) (c : Ctx) (st : S) : S :=
  if falsy fromVersion || version_is fromVersion "1.0.0" then
    let '(st, ok) := migrate_reports (now_iso c) st in
    if negb ok then sa_log migration_error st else
    let '(st, ok) := migrate_users (now_iso c) st in
    if negb ok then sa_log migration_error st else st
  else st.

Definition initializeStorage (c : Ctx) (st : S) : S :=
  let '(st, currentVersion) := sa_get VERSION st in
  let st := if version_is currentVersion STORAGE_VERSION then st
            else (sa_set VERSION (DText STORAGE_VERSION) (migrateStorage currentVersion c st)).1 in
  let '(st, usersData) := sa_get USERS st in
  let st := if falsy usersData then (sa_set USERS (DUsers []) st).1 else st in
  let '(st, reportsData) := sa_get REPORTS st in
  if falsy reportsData then (sa_set REPORTS (DReports []) st).1 else st.
End Migration.

(** ** The browser's store when nothing fails *)

(** A store that answers every read and accepts every write. *)
Definition healthy (st : Store Doc) : Prop := denied st = false ∧ quota st = [].

Lemma healthy_get k st : healthy st → safeGetItem k st = (st, items st !! k).
Proof. intros [Hd _]. unfold safeGetItem. by rewrite Hd. Qed.

Lemma healthy_set k v st : healthy st →
  safeSetItem k v st = (mkStore (<[k:=v]> (items st)) false [] (log st), true).
Proof. intros [Hd Hq]. rewrite safeSetItem_ok by (rewrite ?Hq; done). by rewrite Hq. Qed.

Lemma healthy_set_healthy k v st : healthy st → healthy (safeSetItem k v st).1.
Proof. intros H. rewrite healthy_set by done. done. Qed.

Lemma healthy_log e st : healthy st → healthy (logError e st) ∧ items (logError e st) = items st.
Proof. intros [Hd Hq]. unfold logError. done. Qed.

#[export] Hint Resolve healthy_set_healthy : srd.

Lemma VERSION_ne_data : VERSION ≠ USERS ∧ VERSION ≠ REPORTS ∧ USERS ≠ REPORTS.
Proof. done. Qed.

(** A write of [key] leaves the other keys alone. *)
Definition others_kept (key : string) (st st' : Store Doc) : Prop :=
  healthy st' ∧ ∀ k, k ≠ key → items st' !! k = items st !! k.

Lemma others_kept_refl key st : healthy st → others_kept key st st.
Proof. done. Qed.

Lemma others_kept_set key v st : healthy st → others_kept key st (safeSetItem key v st).1.
Proof.
  intros H. rewrite healthy_set by done. split; [done|]. intros k Hk. simpl. by rewrite lookup_insert_ne.
Qed.

Lemma migrate_reports_kept now st : healthy st → others_kept REPORTS st (migrate_reports now st).1.
Proof.
  intros H. unfold migrate_reports. cbn [sa_get sa_set Store_adapter]. rewrite healthy_get by done.
  destruct (falsy _); [done|]. destruct (_ ≫= as_reports); [by apply others_kept_set | done].
Qed.

Lemma migrate_users_kept now st : healthy st → others_kept USERS st (migrate_users now st).1.
Proof.
  intros H. unfold migrate_users. cbn [sa_get sa_set Store_adapter]. rewrite healthy_get by done.
  destruct (falsy _); [done|]. destruct (_ ≫= as_users); [by apply others_kept_set | done].
Qed.

Lemma migrate_reports_ok now st rs : healthy st → items st !! REPORTS = Some (DReports rs) →
  migrate_reports now st =
    (mkStore (<[REPORTS := DReports (map (migrate_report now) rs)]> (items st)) false [] (log st), true).
Proof.
  intros H Hr. unfold migrate_reports. cbn [sa_get sa_set Store_adapter]. rewrite healthy_get, Hr by done.
  simpl. by rewrite healthy_set.
Qed.

Lemma migrate_users_ok now st us : healthy st → items st !! USERS = Some (DUsers us) →
  migrate_users now st =
    (mkStore (<[USERS := DUsers (map (migrate_user now) us)]> (items st)) false [] (log st), true).
Proof.
  intros H Hu. unfold migrate_users. cbn [sa_get sa_set Store_adapter]. rewrite healthy_get, Hu by done.
  simpl. by rewrite healthy_set.
Qed.

(** The migration keeps the store healthy and does not touch the version
    marker. *)
Lemma migrateStorage_healthy v c st : healthy st →
  healthy (migrateStorage v c st) ∧ items (migrateStorage v c st) !! VERSION = items st !! VERSION.
Proof.
  intros H. unfold migrateStorage. destruct (_ || _); [|done].
  destruct (migrate_reports_kept (now_iso c) st H) as [H1 E1].
  destruct (migrate_reports (now_iso c) st) as [st1 ok1]. simpl in *.
  destruct (migrate_users_kept (now_iso c) st1 H1) as [H2 E2].
  destruct (migrate_users (now_iso c) st1) as [st2 ok2]. simpl in *.
  destruct ok1; simpl; [destruct ok2; simpl|]; cbn [sa_log Store_adapter].
  - rewrite E2, E1 by done. done.
  - split; [by apply healthy_log|]. rewrite E2, E1 by done. done.
  - split; [by apply healthy_log|]. rewrite E1 by done. done.
Qed.

Lemma version_is_true v s : version_is v s = true → v = Some (DText s).
Proof. destruct v as [[]|]; simpl; try done. intros ->%String.eqb_eq. done. Qed.

(** The two [if (!safeGetItem(key)) safeSetItem(key, '[]')] steps. *)
Lemma ensure_key k d st : healthy st → falsy (Some d) = false →
  let st' := if falsy (items st !! k) then (safeSetItem k d st).1 else st in
  healthy st' ∧ falsy (items st' !! k) = false ∧ (∀ k', k' ≠ k → items st' !! k' = items st !! k') ∧
  (falsy (items st !! k) = false → st' = st).
Proof.
  intros H Hd st'. subst st'. destruct (falsy (items st !! k)) eqn:Hf.
  - rewrite healthy_set by done. simpl. rewrite lookup_insert_eq. split_and!; try done.
    intros k' Hk'. by rewrite lookup_insert_ne.
  - done.
Qed.

(** The version step: after it the marker is [STORAGE_VERSION]. *)
Lemma version_step c st : healthy st →
  let st1 := if version_is (items st !! VERSION) STORAGE_VERSION then st
             else (safeSetItem VERSION (DText STORAGE_VERSION) (migrateStorage (items st !! VERSION) c st)).1 in
  healthy st1 ∧ items st1 !! VERSION = Some (DText STORAGE_VERSION).
Proof.
  intros H st1. subst st1. destruct (version_is _ _) eqn:Hv.
  - split; [done|]. by apply version_is_true.
  - destruct (migrateStorage_healthy (items st !! VERSION) c st H) as [H1 _].
    rewrite healthy_set by done. simpl. by rewrite lookup_insert_eq.
Qed.

Lemma initializeStorage_unfold c st : healthy st →
  initializeStorage c st =
    let st1 := if version_is (items st !! VERSION) STORAGE_VERSION then st
               else (safeSetItem VERSION (DText STORAGE_VERSION) (migrateStorage (items st !! VERSION) c st)).1 in
    let st2 := if falsy (items st1 !! USERS) then (safeSetItem USERS (DUsers []) st1).1 else st1 in
    if falsy (items st2 !! REPORTS) then (safeSetItem REPORTS (DReports []) st2).1 else st2.
Proof.
  intros H. unfold initializeStorage. cbn [sa_get sa_set Store_adapter]. rewrite healthy_get by done.
  destruct (version_step c st H) as [H1 _]. cbv zeta.
  set (st1 := if version_is _ _ then _ else _) in *. rewrite healthy_get by done.
  destruct (ensure_key USERS (DUsers []) st1 H1 eq_refl) as [H2 _].
  set (st2 := if falsy (items st1 !! USERS) then _ else _) in *. by rewrite healthy_get.
Qed.

(** What [initializeStorage] leaves on a store that answers reads and
    accepts writes. *)
Lemma initializeStorage_post c st : healthy st →
  healthy (initializeStorage c st) ∧
  items (initializeStorage c st) !! VERSION = Some (DText STORAGE_VERSION) ∧
  falsy (items (initializeStorage c st) !! USERS) = false ∧
  falsy (items (initializeStorage c st) !! REPORTS) = false.
Proof.
  intros H. rewrite initializeStorage_unfold by done. cbv zeta.
  destruct (version_step c st H) as [H1 V1].
  set (st1 := if version_is _ _ then _ else _) in *.
  destruct (ensure_key USERS (DUsers []) st1 H1 eq_refl) as (H2 & U2 & K2 & _).
  set (st2 := if falsy (items st1 !! USERS) then _ else _) in *.
  destruct (ensure_key REPORTS (DReports []) st2 H2 eq_refl) as (H3 & R3 & K3 & _).
  split_and!; [done| |rewrite K3 by done; done|done].
  rewrite K3, K2 by done. done.
Qed.

(** Once initialised, [initializeStorage] reads and writes nothing. *)
Lemma initializeStorage_noop c st : healthy st →
  items st !! VERSION = Some (DText STORAGE_VERSION) →
  falsy (items st !! USERS) = false → falsy (items st !! REPORTS) = false →
  initializeStorage c st = st.
Proof.
  intros H Hv Hu Hr. rewrite initializeStorage_unfold by done. cbv zeta.
  rewrite Hv. simpl. rewrite Hu, Hr. done.
Qed.

(** C15. The guarded, idempotent startup routine: on a store that answers
    reads and accepts writes, [initializeStorage] leaves the version marker
    at [STORAGE_VERSION] and non-empty users and reports documents, and a
    second run, at any later instant, changes nothing. *)
Theorem initializeStorage_ready c c' st : healthy st →
  items (initializeStorage c st) !! VERSION = Some (DText STORAGE_VERSION) ∧
  falsy (items (initializeStorage c st) !! USERS) = false ∧
  falsy (items (initializeStorage c st) !! REPORTS) = false ∧
  initializeStorage c' (initializeStorage c st) = initializeStorage c st.
Proof.
  intros H. destruct (initializeStorage_post c st H) as (H1 & V & U & R).
  split_and!; [done..|]. by apply initializeStorage_noop.
Qed.

(** C16. Migration of an unversioned store: when there is no version marker
    and both arrays parse, the reports and the users are rewritten with
    every empty [createdAt] and [updatedAt] set to the current instant, and
    nothing else of them changes. *)
Theorem initializeStorage_migrates c st rs us : healthy st →
  items st !! VERSION = None → items st !! REPORTS = Some (DReports rs) → items st !! USERS = Some (DUsers us) →
  items (initializeStorage c st) !! REPORTS = Some (DReports (map (migrate_report (now_iso c)) rs)) ∧
  items (initializeStorage c st) !! USERS = Some (DUsers (map (migrate_user (now_iso c)) us)) ∧
  items (initializeStorage c st) !! VERSION = Some (DText STORAGE_VERSION).
Proof.
  intros H Hv Hr Hu.
  assert (migrateStorage (items st !! VERSION) c st =
          mkStore (<[USERS := DUsers (map (migrate_user (now_iso c)) us)]>
                   (<[REPORTS := DReports (map (migrate_report (now_iso c)) rs)]> (items st))) false [] (log st))
    as Hm.
  { rewrite Hv. unfold migrateStorage. simpl falsy. cbv iota.
    rewrite (migrate_reports_ok _ _ rs) by done. simpl.
    rewrite (migrate_users_ok _ _ us) by (done || (simpl; rewrite lookup_insert_ne; done)). done. }
  rewrite initializeStorage_unfold by done. cbv zeta. rewrite Hm, Hv. simpl version_is. cbv iota.
  rewrite healthy_set by done. simpl.
  rewrite !lookup_insert_ne by done. rewrite lookup_insert_eq. simpl.
  repeat (progress (rewrite ?lookup_insert_eq; try rewrite lookup_insert_ne by done; simpl)).
  done.
Qed.


(** ** Concrete runs *)

(** A report of older data, without [createdAt] and [updatedAt]. *)
Definition legacy_report : Report.t :=
  Report.mk "report_1700000000000_abc123def" "user_1" "Plastic Bottles" "Bottles left on the steps" None
    (Report.mkLocation (-0x1.0ee113404ea4bp+5)%float (0x1.2e6c154c985fp+7)%float "The Rocks, Sydney NSW 2000")
    "2023-11-14T22:13:20.000Z" Report.pending "" "".

Definition ctx_boot : Ctx := mkCtx 1762682400000 "b0o1t2x3y".

(** An unversioned store with one legacy report and no users. *)
Definition store_legacy : Store Doc :=
  mkStore (<[REPORTS := DReports [legacy_report]]> (<[USERS := DUsers []]> ∅)) false [] [].

Lemma initializeStorage_ready_witness :
  items (initializeStorage ctx_boot store_legacy) !! VERSION = Some (DText STORAGE_VERSION) ∧
  falsy (items (initializeStorage ctx_boot store_legacy) !! USERS) = false ∧
  falsy (items (initializeStorage ctx_boot store_legacy) !! REPORTS) = false ∧
  initializeStorage ctx_boot (initializeStorage ctx_boot store_legacy) = initializeStorage ctx_boot store_legacy.
Proof. apply initializeStorage_ready. split; reflexivity. Defined.

Lemma initializeStorage_migrates_witness :
  items (initializeStorage ctx_boot store_legacy) !! REPORTS =
    Some (DReports (map (migrate_report (now_iso ctx_boot)) [legacy_report])) ∧
  items (initializeStorage ctx_boot store_legacy) !! USERS = Some (DUsers (map (migrate_user (now_iso ctx_boot)) [])) ∧
  items (initializeStorage ctx_boot store_legacy) !! VERSION = Some (DText STORAGE_VERSION).
Proof. apply initializeStorage_migrates; [split|..]; reflexivity. Defined.

(** A store stamped with another version than [1.0.0] is not migrated:
    [migrateStorage] only runs for an absent marker (its test
    [fromVersion === '1.0.0'] can never hold where it is called), yet the
    marker is overwritten with [1.0.0], so the legacy report keeps its empty
    [createdAt] for good. *)
Theorem initializeStorage_skips_unknown_version :
  let st := mkStore (<[VERSION := DText "0.9.0"]> (items store_legacy)) false [] [] in
  items (initializeStorage ctx_boot st) !! VERSION = Some (DText STORAGE_VERSION) ∧
  items (initializeStorage ctx_boot st) !! REPORTS = Some (DReports [legacy_report]) ∧
  Report.createdAt legacy_report = "".
Proof. vm_compute. split_and!; reflexivity. Qed.

(** The legacy store with a users entry that does not parse. *)
Definition store_legacy_bad_users : Store Doc := mkStore (<[USERS := DText "{"]> (items store_legacy)) false [] [].

