(* ===== verification/Weekly.v ===== *)
(** * The weekly report ([reportGenerator.ts])

    [generateWeeklyReport] reads the ledger, the statistics and the
    directory, keeps the reports whose [timestamp] lies in the Monday-based
    week of [now] ([startOfWeek]/[endOfWeek] of date-fns, local time), and
    aggregates them: counts by status, counts by type, the ten areas and
    the ten contributors with most reports.  The aggregations use plain
    JavaScript objects as dictionaries, so the model has their semantics:
    own properties in insertion order, a lookup of a missing key that falls
    through to [Object.prototype], the [__proto__] accessor, and the order
    of [Object.entries] (array-index keys first, ascending).
    [downloadWeeklyReportAsCSV] renders the report as text (the two
    downloads are in [Export]).  Local time is UTC shifted by a fixed offset
    [tz] (milliseconds east of UTC); daylight-saving transitions are not
    modelled. *)

From S2P Require Import Prelude JsString KVStore Clock DateParse NumberFormat Model Accounts Reports.
From Stdlib Require Import Ascii.

Local Open Scope Z_scope.

(** ** The week of an instant, in local time *)

(** The local day number (days since 1970-01-01) of an instant. *)
Definition local_days (tz t : Z) : Z := (t + tz) `div` ms_per_day.

(** [getDay()]: 0 for Sunday; 1970-01-01 was a Thursday. *)
Definition day_of_week (d : Z) : Z := (d + 4) `mod` 7.

(** [startOfWeek(now, { weekStartsOn: 1 })]: local midnight of the Monday
    on or before [now]. *)
Definition startOfWeek (tz t : Z) : Z :=
  let d := local_days tz t in
  let diff := (day_of_week d + 7 - 1) `mod` 7 in
  (d - diff) * ms_per_day - tz.

(** [endOfWeek(now, { weekStartsOn: 1 })]: the last millisecond of the
    following Sunday. *)
Definition endOfWeek (tz t : Z) : Z := startOfWeek tz t + 7 * ms_per_day - 1.

(** [isWithinInterval(new Date(ts), { start, end })]: an invalid date is in
    no interval. *)
Definition in_week (tz now : Z) (ts : string) : bool :=
  match parse_iso ts with
  | Some t => (startOfWeek tz now <=? t) && (t <=? endOfWeek tz now)
  | None => false
  end.

(** ** Plain objects used as dictionaries *)

(** The own properties of an object, in insertion order. *)
Definition obj (V : Type) : Type := list (string * V).

Definition obj_get {V} (o : obj V) (k : string) : option V :=
  snd <$> List.find (λ kv, String.eqb kv.1 k) o.

(** [o[k] = v]: replaces an own property in place, or adds it at the end. *)
Fixpoint obj_set {V} (o : obj V) (k : string) (v : V) : obj V :=
  match o with
  | [] => [(k, v)]
  | (k', v') :: o' => if String.eqb k' k then (k, v) :: o' else (k', v') :: obj_set o' k v
  end.

(** The properties every plain object inherits from [Object.prototype]. *)
Definition proto_props : list string :=
  ["constructor"; "hasOwnProperty"; "isPrototypeOf"; "propertyIsEnumerable"; "toLocaleString";
   "toString"; "valueOf"; "__defineGetter__"; "__defineSetter__"; "__lookupGetter__";
   "__lookupSetter__"; "__proto__"].

Definition inherited (k : string) : bool := bool_decide (k ∈ proto_props).

(** [String(Object.prototype[k])]: the source text of a native function, or
    [[object Object]] for the prototype itself. *)
Definition proto_text (k : string) : string :=
  if String.eqb k "__proto__" then "[object Object]"
  else if String.eqb k "constructor" then "function Object() { [native code] }"
  else "function " +:+ k +:+ "() { [native code] }".

(** A number or a string: what [(o[k] || 0) + 1] can produce. *)
Inductive JsVal := JNum (n : Z) | JStr (s : string).

(** [o[k] = (o[k] || 0) + 1]; the [__proto__] setter ignores a value that
    is not an object. *)
Definition count_key (o : obj JsVal) (k : string) : obj JsVal :=
  let next :=
    match obj_get o k with
    | Some (JNum n) => JNum (n + 1)
    | Some (JStr s) => if String.eqb s "" then JNum 1 else JStr (s +:+ "1")
    | None => if inherited k then JStr (proto_text k +:+ "1") else JNum 1
    end in
  if String.eqb k "__proto__" then o else obj_set o k next.

(** The value of a decimal numeral. *)
Fixpoint digits_acc (acc : Z) (s : string) : option Z :=
  match s with
  | EmptyString => Some acc
  | String c s' => d ← digit_value c; digits_acc (acc * 10 + d) s'
  end.

(** An array index: the canonical numeral of an integer below [2^32 - 1]. *)
Definition is_index_key (k : string) : bool :=
  match (if String.eqb k "" then None else digits_acc 0 k) with
  | Some n => bool_decide (pretty n = k) && (n <? 4294967295)
  | None => false
  end.

Definition index_of (k : string) : Z := default 0 (digits_acc 0 k).

(** [Object.entries(o)]: the array-index keys in ascending order, then the
    other keys in insertion order. *)
Definition object_entries {V} (o : obj V) : list (string * V) :=
  sort_by (λ a b, index_of a.1 - index_of b.1) (filter (λ kv, is_index_key kv.1 = true) o) ++
  filter (λ kv, is_index_key kv.1 = false) o.

(** ** Areas, names and dates *)

(** [s.split(',')] on code units. *)
Fixpoint split_on (c : ascii) (l : list ascii) : list (list ascii) :=
  match l with
  | [] => [[]]
  | d :: l' =>
      if Ascii.eqb d c then [] :: split_on c l'
      else match split_on c l' with
           | [] => [[d]]
           | p :: ps => (d :: p) :: ps
           end
  end.

(** [parts.length > 1 ? parts[1].trim() : parts[0].trim()] *)
Definition area_of (address : string) : string :=
  match split_on ","%char (String.list_ascii_of_string address) with
  | _ :: p1 :: _ => String.string_of_list_ascii (trim_list p1)
  | [p0] => String.string_of_list_ascii (trim_list p0)
  | [] => ""
  end.

(** [allUsers.find(u => u.id === userId)?.name || 'Unknown User'] *)
Definition user_name (users : list User.t) (userId : string) : string :=
  match List.find (λ u, String.eqb (User.id u) userId) users with
  | Some u => (User.name u ||js "Unknown User")%srd
  | None => "Unknown User"
  end.

(** [if (!counts[id]) counts[id] = { count: 0, name }; counts[id].count++]:
    an inherited property is truthy, so nothing is created and the
    increment lands on the inherited object. *)
Definition count_user (users : list User.t) (o : obj (Z * string)) (k : string) : obj (Z * string) :=
  match obj_get o k with
  | Some (n, name) => obj_set o k (n + 1, name)
  | None => if inherited k then o else obj_set o k (1, user_name users k)
  end.

Definition month_names : list string :=
  ["January"; "February"; "March"; "April"; "May"; "June"; "July"; "August"; "September";
   "October"; "November"; "December"].

Definition weekday_names : list string :=
  ["Sunday"; "Monday"; "Tuesday"; "Wednesday"; "Thursday"; "Friday"; "Saturday"].

(** [format(date, 'MMMM d, yyyy')] of a local day number (years 0-9999). *)
Definition format_long (d : Z) : string :=
  let '(y, m, dd) := civil_from_days d in
  default "" (month_names !! Z.to_nat (m - 1)) +:+ " " +:+ pretty dd +:+ ", " +:+ pad 4 y.

(** [format(date, 'yyyy-MM-dd')] of a local day number. *)
Definition format_iso_date (d : Z) : string :=
  let '(y, m, dd) := civil_from_days d in pad 4 y +:+ "-" +:+ pad 2 m +:+ "-" +:+ pad 2 dd.

(** ** The report *)

Record Summary := mkSummary {
  totalReports : Z; pendingReports : Z; reviewedReports : Z; resolvedReports : Z;
  newMembers : Z; totalMembers : Z;
}.

Record WeeklyReport := mkWeekly {
  reportDate : string;
  weekStart : string;
  weekEnd : string;
  summary : Summary;
  reportsByType : obj JsVal;
  reportsByLocation : list (string * JsVal);
  topContributors : list (string * string * Z);
}.

Definition with_status (s : Report.Status) (r : Report.t) : Prop := Report.status r = s.
#[global] Instance with_status_dec s r : Decision (with_status s r).
Proof. unfold with_status. destruct (Report.status r), s; (left; done) || (right; done). Defined.

Definition count_status (s : Report.Status) (rs : list Report.t) : Z :=
  Z.of_nat (length (filter (with_status s) rs)).

(** [b.count - b.count] between two counts; a count that is not a number
    gives [NaN], which the sort takes as [+0]. *)
Definition count_cmp {A} (a b : A * JsVal) : Z :=
  match a.2, b.2 with JNum x, JNum y => y - x | _, _ => 0 end.

Definition by_type (weekly : list Report.t) : obj JsVal :=
  fold_left (λ o r, count_key o (Report.type r)) weekly [].

Definition by_location (weekly : list Report.t) : obj JsVal :=
  fold_left (λ o r, count_key o (area_of (Report.address (Report.location r)))) weekly [].

Definition by_user (users : list User.t) (weekly : list Report.t) : obj (Z * string) :=
  fold_left (λ o r, count_user users o (Report.userId r)) weekly [].

(** The aggregation of [generateWeeklyReport] once its inputs are read. *)
Definition weekly_of (tz now : Z) (allReports : list Report.t) (stats : UserStats) (allUsers : list User.t)
    : WeeklyReport :=
  let weekly := filter (λ r, in_week tz now (Report.timestamp r) = true) allReports in
  let locationArray := take 10 (sort_by count_cmp (object_entries (by_location weekly))) in
  let topContributors :=
    take 10 (sort_by (λ a b, b.2 - a.2)
               (map (λ kv, (kv.1, kv.2.2, kv.2.1)) (object_entries (by_user allUsers weekly)))) in
  mkWeekly (format_long (local_days tz now)) (format_long (local_days tz (startOfWeek tz now)))
    (format_long (local_days tz (endOfWeek tz now)))
    (mkSummary (Z.of_nat (length weekly)) (count_status Report.pending weekly)
       (count_status Report.reviewed weekly) (count_status Report.resolved weekly) 0 (Reports.totalMembers stats))
    (by_type weekly) locationArray topContributors.

Section Weekly.
Context {S : Type} `{!StoreAdapter Doc S}.

(** [generateWeeklyReport]: [getReports], [getUserStats] and [getAllUsers]
    have no [try], so text that does not parse escapes. *)
Definition generateWeeklyReport (tz : Z) (c : Ctx) (st : S) : S * outcome WeeklyReport :=
  let '(st, reports) := getReports st in
  match reports with Throw => (st, Throw) | Return allReports =>
  let '(st, stats) := getUserStats st in
  match stats with Throw => (st, Throw) | Return stats =>
  let '(st, users) := getAllUsers st in
  match users with Throw => (st, Throw) | Return allUsers =>
  (st, Return (weekly_of tz (now_ms c) allReports stats allUsers))
  end end end.
End Weekly.

(** ** The exports *)

(** The two code units of the source's ['\\n']: a backslash and [n]. *)
Definition NL : string := "\n".

(** [`${v}`] of a count. *)
Definition js_val_string (v : JsVal) : string :=
  match v with JNum n => pretty n | JStr s => s end.

Definition csv_rows {A} (row : A → string) (l : list A) : string := foldr (λ a acc, row a +:+ acc) "" l.

(** The text [downloadWeeklyReportAsCSV] puts in its blob. *)
Definition weekly_csv (r : WeeklyReport) : string :=
  let s := summary r in
  "Sydney City Council - Weekly Rubbish Report" +:+ NL +:+ NL +:+
  "Report Date," +:+ reportDate r +:+ NL +:+
  "Week Period," +:+ weekStart r +:+ " to " +:+ weekEnd r +:+ NL +:+ NL +:+
  "SUMMARY STATISTICS" +:+ NL +:+
  "Metric,Count" +:+ NL +:+
  "Total Reports," +:+ pretty (totalReports s) +:+ NL +:+
  "Pending Reports," +:+ pretty (pendingReports s) +:+ NL +:+
  "Reviewed Reports," +:+ pretty (reviewedReports s) +:+ NL +:+
  "Resolved Reports," +:+ pretty (resolvedReports s) +:+ NL +:+
  "Total Community Members," +:+ pretty (totalMembers s) +:+ NL +:+ NL +:+
  "REPORTS BY TYPE" +:+ NL +:+
  "Type,Count" +:+ NL +:+
  csv_rows (λ kv, kv.1 +:+ "," +:+ js_val_string kv.2 +:+ NL) (object_entries (reportsByType r)) +:+
  NL +:+
  "TOP AFFECTED AREAS" +:+ NL +:+
  "Location,Reports" +:+ NL +:+
  csv_rows (λ kv, kv.1 +:+ "," +:+ js_val_string kv.2 +:+ NL) (reportsByLocation r) +:+
  NL +:+
  "TOP CONTRIBUTORS" +:+ NL +:+
  "User Name,Reports Submitted" +:+ NL +:+
  csv_rows (λ c, c.1.2 +:+ "," +:+ pretty c.2 +:+ NL) (topContributors r).

(** [`Sydney_Weekly_Rubbish_Report_${format(new Date(), 'yyyy-MM-dd')}.${ext}`] *)
Definition export_file_name (tz : Z) (c : Ctx) (ext : string) : string :=
  "Sydney_Weekly_Rubbish_Report_" +:+ format_iso_date (local_days tz (now_ms c)) +:+ "." +:+ ext.

(** The local day [getNextSundayDate] names: the next Sunday strictly after
    today. *)
Definition next_sunday (tz t : Z) : Z :=
  let d := local_days tz t in
  let currentDay := day_of_week d in
  d + (if currentDay =? 0 then 7 else 7 - currentDay).

(** [format(nextSunday, 'EEEE, MMMM d, yyyy')] *)
Definition getNextSundayDate (tz : Z) (c : Ctx) : string :=
  let d := next_sunday tz (now_ms c) in
  default "" (weekday_names !! Z.to_nat (day_of_week d)) +:+ ", " +:+ format_long d.

(** ** Properties *)

(** The Monday of a week is a multiple of seven days from a Monday. *)
Lemma startOfWeek_eq tz t :
  startOfWeek tz t = (7 * ((local_days tz t + 3) `div` 7) - 3) * ms_per_day - tz.
Proof.
  unfold startOfWeek, day_of_week. set (d := local_days tz t).
  replace ((d + 4) `mod` 7 + 7 - 1) with ((d + 4) `mod` 7 + 6) by lia. rewrite Z.add_mod_idemp_l by lia.
  replace (d + 4 + 6) with ((d + 3) + 1 * 7) by lia. rewrite Z.mod_add, Z.mod_eq by lia. lia.
Qed.

(** An instant is in the week of [now] exactly when both have the same
    Monday. *)
Lemma within_week_iff tz now t :
  (startOfWeek tz now <= t <= endOfWeek tz now) ↔ startOfWeek tz t = startOfWeek tz now.
Proof.
  unfold endOfWeek. rewrite !startOfWeek_eq. unfold local_days, ms_per_day.
  Z.to_euclidean_division_equations. split; intros; nia.
Qed.

(** C8. The week filter (spec: a report at exactly Monday 00:00 is in the
    week, one at the Sunday 23:59:59 before is not): a report stamped by
    [toISOString] at [t] passes [isWithinInterval] exactly when [t] and
    [now] have the same local Monday. *)
Theorem in_week_toISOString tz now t :
  Z.abs t <= max_time →
  in_week tz now (toISOString t) = bool_decide (startOfWeek tz t = startOfWeek tz now).
Proof.
  intros Ht. unfold in_week. rewrite parse_iso_toISOString by done.
  pose proof (within_week_iff tz now t) as Hiff.
  case_bool_decide as H.
  - apply andb_true_iff. rewrite !Z.leb_le. apply Hiff in H. lia.
  - apply not_true_iff_false. rewrite andb_true_iff, !Z.leb_le. intros Hb. apply H, Hiff. lia.
Qed.

Lemma obj_get_set_eq {V} (o : obj V) k v : obj_get (obj_set o k v) k = Some v.
Proof.
  induction o as [|[k' v'] o IH]; simpl; unfold obj_get; simpl; [by rewrite String.eqb_refl|].
  destruct (String.eqb k' k) eqn:E; simpl; [by rewrite String.eqb_refl|]. rewrite E. apply IH.
Qed.

Lemma obj_get_set_ne {V} (o : obj V) k k' v : k' ≠ k → obj_get (obj_set o k' v) k = obj_get o k.
Proof.
  intros Hne. induction o as [|[k0 v0] o IH]; unfold obj_get in *; simpl.
  - by rewrite (proj2 (String.eqb_neq k' k) Hne).
  - destruct (String.eqb k0 k') eqn:E; simpl.
    + apply String.eqb_eq in E as ->. by rewrite (proj2 (String.eqb_neq k' k) Hne).
    + destruct (String.eqb k0 k); [done|]. apply IH.
Qed.

(** The number of reports with a given type. *)
Definition count_of (k : string) (rs : list Report.t) : Z :=
  Z.of_nat (length (filter (λ r, Report.type r = k) rs)).

(** A count [n] as it sits in the object: absent when zero. *)
Definition count_entry (n : Z) : option JsVal := if n =? 0 then None else Some (JNum n).

Lemma not_inherited_proto k : inherited k = false → k ≠ "__proto__".
Proof. intros H ->. discriminate. Qed.

Lemma count_key_same o k n : inherited k = false → 0 <= n → obj_get o k = count_entry n →
  obj_get (count_key o k) k = count_entry (n + 1).
Proof.
  intros Hk Hn Ho. pose proof (not_inherited_proto k Hk) as Hp. unfold count_key.
  rewrite (proj2 (String.eqb_neq k "__proto__") Hp), obj_get_set_eq, Ho, Hk.
  unfold count_entry. destruct (Z.eqb_spec n 0) as [->|]; simpl; [done|].
  rewrite (proj2 (Z.eqb_neq (n + 1) 0)) by lia. done.
Qed.

Lemma count_key_other o k k' : k' ≠ k → obj_get (count_key o k') k = obj_get o k.
Proof.
  intros Hne. unfold count_key. destruct (String.eqb k' "__proto__"); [done|]. by apply obj_get_set_ne.
Qed.

Lemma by_type_acc k rs o n : inherited k = false → 0 <= n → obj_get o k = count_entry n →
  obj_get (fold_left (λ o r, count_key o (Report.type r)) rs o) k = count_entry (n + count_of k rs).
Proof.
  intros Hk. revert o n. induction rs as [|r rs IH]; intros o n Hn Ho; simpl.
  - unfold count_of. simpl. by rewrite Z.add_0_r.
  - unfold count_of. rewrite filter_cons.
    destruct (decide (Report.type r = k)) as [E|E].
    + simpl length. rewrite (IH _ (n + 1)); [|lia|by rewrite E; apply count_key_same].
      unfold count_of. f_equal. lia.
    + rewrite (IH _ n); [done|lia|]. by rewrite count_key_other.
Qed.

(** [weekly.filter(...)] of [generateWeeklyReport] *)
Definition week_reports (tz now : Z) (rs : list Report.t) : list Report.t :=
  filter (λ r, in_week tz now (Report.timestamp r) = true) rs.

(** C17. [reportsByType] counts the reports of the week by type: for every
    type that is not a property of [Object.prototype], its entry is the
    number of the week's reports with that type, absent when there is
    none. *)
Theorem weekly_by_type tz now rs stats users k :
  inherited k = false →
  obj_get (reportsByType (weekly_of tz now rs stats users)) k = count_entry (count_of k (week_reports tz now rs)).
Proof. intros Hk. simpl. unfold by_type. by rewrite (by_type_acc k _ [] 0). Qed.

Lemma count_status_partition rs :
  Z.of_nat (length rs) =
    count_status Report.pending rs + count_status Report.reviewed rs + count_status Report.resolved rs.
Proof.
  unfold count_status. induction rs as [|r rs IH]; simpl; [done|].
  rewrite !filter_cons. destruct (Report.status r) eqn:E;
    repeat first [ rewrite decide_True by (unfold with_status; congruence)
                 | rewrite decide_False by (unfold with_status; congruence) ];
    simpl length; lia.
Qed.

(** The summary is consistent: every report of the week is pending,
    reviewed or resolved, so the three status counts add up to the total. *)
Theorem weekly_summary_partition tz now rs stats users :
  let s := summary (weekly_of tz now rs stats users) in
  totalReports s = pendingReports s + reviewedReports s + resolvedReports s.
Proof. simpl. apply count_status_partition. Qed.

(** The number of reports of a user. *)
Definition count_by (userId : string) (rs : list Report.t) : Z :=
  Z.of_nat (length (filter (λ r, Report.userId r = userId) rs)).

Lemma count_user_same users o k n : inherited k = false → 0 <= n →
  obj_get o k = (if n =? 0 then None else Some (n, user_name users k)) →
  obj_get (count_user users o k) k = Some (n + 1, user_name users k).
Proof.
  intros Hk Hn Ho. unfold count_user. rewrite Ho.
  destruct (Z.eqb_spec n 0) as [->|]; [rewrite Hk|]; by rewrite obj_get_set_eq.
Qed.

Lemma count_user_other users o k k' : k' ≠ k → obj_get (count_user users o k') k = obj_get o k.
Proof.
  intros Hne. unfold count_user. destruct (obj_get o k') as [[]|]; [|destruct (inherited k')];
    try by apply obj_get_set_ne. done.
Qed.

Lemma by_user_acc users k rs o n : inherited k = false → 0 <= n →
  obj_get o k = (if n =? 0 then None else Some (n, user_name users k)) →
  obj_get (fold_left (λ o r, count_user users o (Report.userId r)) rs o) k =
    let m := n + count_by k rs in if m =? 0 then None else Some (m, user_name users k).
Proof.
  intros Hk. revert o n. induction rs as [|r rs IH]; intros o n Hn Ho; simpl.
  - unfold count_by. simpl. by rewrite Z.add_0_r.
  - unfold count_by. rewrite filter_cons.
    destruct (decide (Report.userId r = k)) as [E|E].
    + simpl length. rewrite (IH _ (n + 1)); [|lia|].
      * unfold count_by. simpl. replace (n + Z.of_nat (S _)) with (n + 1 + Z.of_nat (length (filter (λ r, Report.userId r = k) rs))) by lia.
        done.
      * rewrite E, (count_user_same users o k n) by done. rewrite (proj2 (Z.eqb_neq (n + 1) 0)) by lia. done.
    + rewrite (IH _ n); [done|lia|]. by rewrite count_user_other.
Qed.


Lemma filter_bool_split {A} (f : A → bool) (l : list A) :
  filter (λ x, f x = true) l ++ filter (λ x, f x = false) l ≡ₚ l.
Proof.
  induction l as [|x l IH]; [done|]. rewrite !filter_cons.
  destruct (f x) eqn:E; repeat case_decide; try congruence; simpl.
  - by rewrite IH.
  - by rewrite <-Permutation_middle, IH.
Qed.

Lemma object_entries_perm {V} (o : obj V) : object_entries o ≡ₚ o.
Proof. unfold object_entries. by rewrite sort_by_perm, filter_bool_split. Qed.

Lemma obj_set_keys {V} (o : obj V) k v x : x ∈ (obj_set o k v).*1 → x = k ∨ x ∈ o.*1.
Proof.
  induction o as [|[k' v'] o IH]; simpl; [set_solver|].
  destruct (String.eqb k' k) eqn:E; simpl; [apply String.eqb_eq in E; set_solver|].
  rewrite !elem_of_cons. intros [->|Hx]; [by right; left|]. destruct (IH Hx); [by left|by right; right].
Qed.

Lemma obj_set_nodup {V} (o : obj V) k v : NoDup o.*1 → NoDup (obj_set o k v).*1.
Proof.
  induction o as [|[k' v'] o IH]; simpl; [intros; repeat constructor; set_solver|].
  intros Hnd. apply NoDup_cons in Hnd as [Hk Hnd].
  destruct (String.eqb k' k) eqn:E; simpl.
  - apply String.eqb_eq in E as ->. by constructor.
  - constructor; [|by apply IH]. intros [->|Hx]%obj_set_keys; [|done].
    by rewrite String.eqb_refl in E.
Qed.

Lemma obj_get_elem {V} (o : obj V) k v : obj_get o k = Some v → (k, v) ∈ o.
Proof.
  unfold obj_get. intros ([k' v'] & Hf & ->)%fmap_Some. simpl.
  pose proof (find_some _ _ Hf) as [Hin Heq]. apply String.eqb_eq in Heq. simpl in Heq. subst.
  by apply list_elem_of_In.
Qed.

Lemma elem_obj_get {V} (o : obj V) kv : NoDup o.*1 → kv ∈ o → obj_get o kv.1 = Some kv.2.
Proof.
  unfold obj_get. induction o as [|[k v] o IH]; simpl; [set_solver|].
  intros Hnd Hin. apply NoDup_cons in Hnd as [Hk Hnd]. apply elem_of_cons in Hin as [->|Hin].
  - simpl. by rewrite String.eqb_refl.
  - destruct (String.eqb_spec k kv.1) as [->|]; simpl.
    + exfalso. apply Hk. by apply (list_elem_of_fmap_2 fst) in Hin.
    + by apply IH.
Qed.

(** The directory of [by_user]: one entry per key, and no key inherited
    from [Object.prototype]. *)
Definition user_counts_ok (o : obj (Z * string)) : Prop :=
  NoDup o.*1 ∧ ∀ kv, kv ∈ o → inherited kv.1 = false.

Lemma count_user_ok users o k : user_counts_ok o → user_counts_ok (count_user users o k).
Proof.
  intros [Hnd Hinh]. unfold count_user.
  destruct (obj_get o k) as [[n name]|] eqn:E; [|destruct (inherited k) eqn:Ek; [done|]].
  - split; [by apply obj_set_nodup|]. intros kv Hkv.
    assert (kv.1 = k ∨ kv.1 ∈ o.*1) as [->|Hx].
    { apply obj_set_keys with (v := (n + 1, name)). by apply (list_elem_of_fmap_2 fst). }
    + apply obj_get_elem in E. apply (Hinh _ E).
    + apply list_elem_of_fmap in Hx as (kv' & -> & Hkv'). by apply Hinh.
  - split; [by apply obj_set_nodup|]. intros kv Hkv.
    assert (kv.1 = k ∨ kv.1 ∈ o.*1) as [->|Hx].
    { apply obj_set_keys with (v := (1, user_name users k)). by apply (list_elem_of_fmap_2 fst). }
    + done.
    + apply list_elem_of_fmap in Hx as (kv' & -> & Hkv'). by apply Hinh.
Qed.

Lemma by_user_ok users rs : user_counts_ok (by_user users rs).
Proof.
  unfold by_user.
  assert (∀ o, user_counts_ok o → user_counts_ok (fold_left (λ o r, count_user users o (Report.userId r)) rs o)) as H.
  { induction rs as [|r rs IH]; intros o Ho; [done|]. simpl. apply IH. by apply count_user_ok. }
  apply H. split; [constructor | set_solver].
Qed.

Lemma by_user_get users rs k : inherited k = false →
  obj_get (by_user users rs) k = if count_by k rs =? 0 then None else Some (count_by k rs, user_name users k).
Proof. intros Hk. unfold by_user. by rewrite (by_user_acc users k _ [] 0). Qed.

Lemma count_by_nonneg k rs : 0 <= count_by k rs.
Proof. unfold count_by. lia. Qed.

(** An entry of [by_user] is a user with reports, its count and name. *)
Lemma by_user_entry users rs kv : kv ∈ by_user users rs →
  inherited kv.1 = false ∧ kv.2 = (count_by kv.1 rs, user_name users kv.1) ∧ 0 < count_by kv.1 rs.
Proof.
  intros Hin. destruct (by_user_ok users rs) as [Hnd Hinh]. pose proof (Hinh kv Hin) as Hk.
  pose proof (elem_obj_get _ kv Hnd Hin) as Hg. rewrite by_user_get in Hg by done.
  pose proof (count_by_nonneg kv.1 rs). destruct (Z.eqb_spec (count_by kv.1 rs) 0); [done|].
  injection Hg as <-. split_and!; [done | done | lia].
Qed.

Lemma by_user_complete users rs k : inherited k = false → 0 < count_by k rs →
  (k, (count_by k rs, user_name users k)) ∈ by_user users rs.
Proof.
  intros Hk Hn. apply obj_get_elem. rewrite by_user_get by done.
  by rewrite (proj2 (Z.eqb_neq _ 0)) by lia.
Qed.

Lemma StronglySorted_app_elem {A} (R : A → A → Prop) l1 l2 x y :
  StronglySorted R (l1 ++ l2) → x ∈ l1 → y ∈ l2 → R x y.
Proof.
  induction l1 as [|a l1 IH]; simpl; [set_solver|]. intros Hs Hx Hy.
  inversion Hs as [|? ? Hs' Hall]; subst. apply elem_of_cons in Hx as [->|Hx]; [|by apply IH].
  rewrite Forall_forall in Hall. apply Hall, list_elem_of_In, in_or_app. right. by apply list_elem_of_In.
Qed.

(** C18. [topContributors] lists the week's most active users: at most
    ten entries, in decreasing order of reports, each user once; every
    entry is a user id that is not a property of [Object.prototype], with
    its number of reports in the week (at least one) and the name the
    directory gives it; and a user with reports in the week who is not
    listed is outranked by all ten listed entries. *)
Theorem weekly_top_contributors tz now rs stats users :
  let weekly := week_reports tz now rs in
  let top := topContributors (weekly_of tz now rs stats users) in
  (length top <= 10)%nat ∧ Sorted (λ a b, b.2 <= a.2) top ∧ NoDup (map (λ e, e.1.1) top) ∧
  (∀ e, e ∈ top → inherited e.1.1 = false ∧ 0 < e.2 ∧ e.2 = count_by e.1.1 weekly ∧
                  e.1.2 = user_name users e.1.1) ∧
  (∀ k, inherited k = false → 0 < count_by k weekly →
     (∃ e, e ∈ top ∧ e.1.1 = k) ∨ (length top = 10%nat ∧ ∀ e, e ∈ top → count_by k weekly <= e.2)).
Proof.
  cbn zeta. cbn [topContributors weekly_of]. fold (week_reports tz now rs).
  set (W := week_reports tz now rs).
  set (L := map (λ kv, (kv.1, kv.2.2, kv.2.1)) (object_entries (by_user users W))).
  set (S := sort_by (λ a b, b.2 - a.2) L).
  assert (Sorted (λ a b, b.2 <= a.2) S) as HS.
  { apply (sort_by_sorted _ (λ _, True) snd); [intros; lia|]. by apply Forall_true. }
  assert (S ≡ₚ L) as Hperm by apply sort_by_perm.
  assert (∀ e, e ∈ S → ∃ kv, kv ∈ by_user users W ∧ e = (kv.1, kv.2.2, kv.2.1)) as Hent.
  { intros e He. rewrite Hperm in He. apply list_elem_of_fmap in He as (kv & -> & Hkv).
    rewrite object_entries_perm in Hkv. by exists kv. }
  split_and!.
  - rewrite length_take. lia.
  - by apply Sorted_take.
  - rewrite <-firstn_map. apply (sublist_NoDup _ (map (λ e, e.1.1) S)); [|apply sublist_take].
    rewrite Hperm. subst L. rewrite map_map. simpl. rewrite object_entries_perm.
    apply (by_user_ok users W).
  - intros e He. apply subseteq_take in He. destruct (Hent e He) as (kv & Hkv & ->). simpl.
    destruct (by_user_entry users W kv Hkv) as (Hk & -> & Hn). simpl. done.
  - intros k Hk Hn. set (x := (k, user_name users k, count_by k W)).
    assert (x ∈ S) as Hx.
    { rewrite Hperm. apply list_elem_of_fmap. exists (k, (count_by k W, user_name users k)).
      split; [done|]. rewrite object_entries_perm. by apply by_user_complete. }
    rewrite <-(firstn_skipn 10 S) in Hx. apply elem_of_app in Hx as [Hx|Hx]; [left; by exists x|].
    right. split.
    + rewrite length_take. assert (length (drop 10 S) ≠ 0)%nat as Hd by (intros Hl; apply length_zero_iff_nil in Hl; rewrite Hl in Hx; set_solver).
      rewrite length_drop in Hd. lia.
    + intros e He. change (count_by k W) with x.2.
      apply (StronglySorted_app_elem (λ a b, b.2 <= a.2) (take 10 S) (drop 10 S)); [|done|done].
      rewrite firstn_skipn. apply Sorted_StronglySorted; [intros ???; lia|done].
Qed.

(** C22. [getNextSundayDate] names a Sunday, the first one strictly after
    the current local day, at most a week ahead. *)
Theorem next_sunday_spec tz t :
  day_of_week (next_sunday tz t) = 0 ∧
  local_days tz t < next_sunday tz t <= local_days tz t + 7.
Proof.
  unfold next_sunday, day_of_week. set (d := local_days tz t).
  destruct (Z.eqb_spec ((d + 4) `mod` 7) 0) as [E|E]; Z.to_euclidean_division_equations; split; lia.
Qed.

(** ** Concrete runs *)

(** Sydney in summer: UTC+11. *)
Definition tz_sydney : Z := 39600000.

(** Witness: at 2025-11-09T10:01Z (a Sunday evening in Sydney) the week
    starts at 2025-11-02T13:00Z, Monday 00:00 local; that instant is in the
    week and the second before it is not. *)
Lemma in_week_toISOString_witness :
  in_week tz_sydney 1762682460000 (toISOString 1762088400000) = true ∧
  in_week tz_sydney 1762682460000 (toISOString (1762088400000 - 1000)) = false.
Proof.
  split; rewrite in_week_toISOString by (unfold max_time; simpl; lia); vm_compute; reflexivity.
Defined.

Definition week_report (id type : string) (t : Z) : Report.t :=
  Report.mk id "user_1" type "Bottles left on the steps" None loc_rocks (toISOString t) Report.pending
    (toISOString t) (toISOString t).

(** A store whose ledger has, this week, two reports of the type
    [constructor] and one of the type [__proto__], and one report of last
    week. *)
Definition store_week : Store Doc :=
  mkStore (<[REPORTS := DReports [week_report "r1" "constructor" 1762600000000;
                                  week_report "r2" "constructor" 1762610000000;
                                  week_report "r3" "__proto__" 1762620000000;
                                  week_report "r4" "Plastic Bottles" 1762000000000]]>
           (<[USERS := DUsers []]> ∅)) false [] [].

Lemma weekly_by_type_witness :
  obj_get (reportsByType (weekly_of tz_sydney 1762682460000 (default [] ((store_week.(items)) !! REPORTS ≫= as_reports))
                            (mkStats 5000 25000 90) [])) "Plastic Bottles" =
    count_entry (count_of "Plastic Bottles" (week_reports tz_sydney 1762682460000
                   (default [] ((store_week.(items)) !! REPORTS ≫= as_reports)))).
Proof. apply weekly_by_type. reflexivity. Defined.

(** [n] characters [1]. *)
Fixpoint ones (n : nat) : string := match n with O => "" | S n => String "1"%char (ones n) end.

(** What [reportsByType] holds for a key inherited from [Object.prototype]
    after [n] reports of that type: the text of the inherited property with
    one [1] appended per report. *)
Definition inherited_entry (k : string) (n : Z) : option JsVal :=
  if n =? 0 then None else Some (JStr (proto_text k +:+ ones (Z.to_nat n))).

Lemma ones_snoc n : ones n +:+ "1" = ones (S n).
Proof.
  induction n as [|n IH]; [done|]. change (ones (S n) +:+ "1") with (String "1"%char (ones n +:+ "1")).
  by rewrite IH.
Qed.

Lemma proto_text_ne k : proto_text k ≠ "".
Proof.
  unfold proto_text. destruct (String.eqb k "__proto__"); [done|]. destruct (String.eqb k "constructor"); done.
Qed.

Lemma count_key_inherited o k n : inherited k = true → k ≠ "__proto__" → 0 <= n →
  obj_get o k = inherited_entry k n → obj_get (count_key o k) k = inherited_entry k (n + 1).
Proof.
  intros Hk Hp Hn Ho. unfold count_key. rewrite (proj2 (String.eqb_neq k "__proto__") Hp), obj_get_set_eq, Ho.
  unfold inherited_entry. destruct (Z.eqb_spec n 0) as [->|Hn0]; simpl.
  - by rewrite Hk.
  - rewrite (proj2 (Z.eqb_neq (n + 1) 0)) by lia.
    destruct (String.eqb_spec (proto_text k +:+ ones (Z.to_nat n)) "") as [E|].
    { exfalso. apply (proto_text_ne k). destruct (proto_text k); [done|discriminate]. }
    rewrite string_app_assoc', ones_snoc, Z2Nat.inj_add by lia. simpl. by rewrite Nat.add_1_r.
Qed.

Lemma by_type_inherited_acc k rs o n : inherited k = true → k ≠ "__proto__" → 0 <= n →
  obj_get o k = inherited_entry k n →
  obj_get (fold_left (λ o r, count_key o (Report.type r)) rs o) k = inherited_entry k (n + count_of k rs).
Proof.
  intros Hk Hp. revert o n. induction rs as [|r rs IH]; intros o n Hn Ho; simpl.
  - unfold count_of. simpl. by rewrite Z.add_0_r.
  - unfold count_of. rewrite filter_cons.
    destruct (decide (Report.type r = k)) as [E|E].
    + simpl length. rewrite (IH _ (n + 1)); [|lia|by rewrite E; apply count_key_inherited].
      unfold count_of. f_equal. lia.
    + rewrite (IH _ n); [done|lia|]. by rewrite count_key_other.
Qed.

Lemma by_type_proto rs o : obj_get o "__proto__" = None →
  obj_get (fold_left (λ o r, count_key o (Report.type r)) rs o) "__proto__" = None.
Proof.
  revert o. induction rs as [|r rs IH]; intros o Ho; simpl; [done|]. apply IH.
  destruct (String.eqb_spec (Report.type r) "__proto__") as [->|Hne]; [done|]. by rewrite count_key_other.
Qed.

(** C28. A report type named like a property of [Object.prototype]
    corrupts [reportsByType]: for [__proto__] no entry is ever made (the
    assignment sets the prototype), and for any other inherited name [k]
    the entry after [n] reports of the week is the text of the inherited
    property followed by [n] characters [1], since [(counts[k] || 0) + 1]
    concatenates instead of adding. *)
Theorem weekly_type_inherited tz now rs stats users k :
  inherited k = true →
  obj_get (reportsByType (weekly_of tz now rs stats users)) k =
    if String.eqb k "__proto__" then None else inherited_entry k (count_of k (week_reports tz now rs)).
Proof.
  intros Hk. simpl. unfold by_type. destruct (String.eqb_spec k "__proto__") as [->|Hp].
  - by apply by_type_proto.
  - by rewrite (by_type_inherited_acc k _ [] 0).
Qed.

Lemma weekly_type_inherited_witness :
  obj_get (reportsByType (weekly_of tz_sydney 1762682460000 (default [] ((store_week.(items)) !! REPORTS ≫= as_reports))
                            (mkStats 5000 25000 90) [])) "constructor" =
    if String.eqb "constructor" "__proto__" then None
    else inherited_entry "constructor" (count_of "constructor" (week_reports tz_sydney 1762682460000
                   (default [] ((store_week.(items)) !! REPORTS ≫= as_reports)))).
Proof. apply weekly_type_inherited. reflexivity. Defined.

(** The ledger [store_week] of the week: [constructor] gets the text of
    the [Object] function followed by [11], the [__proto__] report is not
    counted, and the three reports of the week are still in the total. *)
Example weekly_type_inherited_demo :
  ∃ w, generateWeeklyReport tz_sydney (mkCtx 1762682460000 "w") store_week = (store_week, Return w) ∧
    reportsByType w = [("constructor", JStr "function Object() { [native code] }11")] ∧
    totalReports (summary w) = 3.
Proof. eexists. split; [vm_compute; reflexivity|]. vm_compute. split; reflexivity. Qed.

(** The CSV export has no line break: the source writes ['\\n'], a
    backslash and an [n], so the whole export is one line of text with
    literal [\n] sequences where the rows should end. *)
Theorem weekly_csv_one_line :
  ∃ w, generateWeeklyReport tz_sydney (mkCtx 1762682460000 "w") store_week = (store_week, Return w) ∧
    forallb (λ c, negb (Ascii.eqb c "010"%char)) (String.list_ascii_of_string (weekly_csv w)) = true ∧
    String.substring 0 45 (weekly_csv w) = "Sydney City Council - Weekly Rubbish Report" +:+ NL.
Proof. eexists. split; [vm_compute; reflexivity|]. vm_compute. split; reflexivity. Qed.
