(* ===== verification/Export.v ===== *)
(** * The downloads of the weekly report ([utils/reportGenerator.ts])

    [downloadWeeklyReportAsJSON] and [downloadWeeklyReportAsCSV] put a text
    in a [Blob] of a MIME type and click a link that downloads it under a
    dated file name.  A download is modelled as the triple the browser
    gets: the file name, the type and the text.  The JSON text is
    [JSON.stringify(report, null, 2)] of the report object: its members in
    the order of the [WeeklyReport] literal of [generateWeeklyReport], the
    [summary] object, [reportsByType] with its own properties in the order
    of [Object.entries], and the arrays of [{ area, count }] and
    [{ userId, userName, reportCount }] objects.

    [read_weekly] is what a consumer of the file does: it looks the fields
    up by name in the parsed text.  The theorem [weekly_json_roundtrip]:
    the downloaded text parses, and reading it gives back the report, with
    the entries of [reportsByType] in the order [Object.entries] gives
    them. *)

From S2P Require Import Prelude JsString KVStore Clock DateParse NumberFormat Json Model Accounts Reports Weekly.

Local Open Scope Z_scope.

(** A download: [link.download], the [type] of the [Blob] and its text. *)
Record Download := mkDownload {
  download_name : string;
  download_type : string;
  download_text : string;
}.

(** A count of a dictionary as [JSON.stringify] sees it. *)
Definition js_val_json (v : JsVal) : json :=
  match v with JNum n => JSNum n | JStr s => JSStr s end.

Definition summary_json (s : Summary) : json :=
  JSObj [("totalReports", JSNum (totalReports s)); ("pendingReports", JSNum (pendingReports s));
         ("reviewedReports", JSNum (reviewedReports s)); ("resolvedReports", JSNum (resolvedReports s));
         ("newMembers", JSNum (newMembers s)); ("totalMembers", JSNum (totalMembers s))].

(** [{ area, count }] *)
Definition location_json (kv : string * JsVal) : json :=
  JSObj [("area", JSStr kv.1); ("count", js_val_json kv.2)].

(** [{ userId, userName: data.name, reportCount: data.count }] *)
Definition contributor_json (c : string * string * Z) : json :=
  JSObj [("userId", JSStr c.1.1); ("userName", JSStr c.1.2); ("reportCount", JSNum c.2)].

(** The report object as [JSON.stringify] walks it. *)
Definition json_of_weekly (r : WeeklyReport) : json :=
  JSObj [("reportDate", JSStr (reportDate r)); ("weekStart", JSStr (weekStart r));
         ("weekEnd", JSStr (weekEnd r)); ("summary", summary_json (summary r));
         ("reportsByType", JSObj (map (λ kv, (kv.1, js_val_json kv.2)) (object_entries (reportsByType r))));
         ("reportsByLocation", JSArr (map location_json (reportsByLocation r)));
         ("topContributors", JSArr (map contributor_json (topContributors r)))].

(** [downloadWeeklyReportAsJSON(report)] *)
Definition downloadWeeklyReportAsJSON (tz : Z) (c : Ctx) (r : WeeklyReport) : Download :=
  mkDownload (export_file_name tz c "json") "application/json" (stringify (json_of_weekly r)).

(** [downloadWeeklyReportAsCSV(report)] *)
Definition downloadWeeklyReportAsCSV (tz : Z) (c : Ctx) (r : WeeklyReport) : Download :=
  mkDownload (export_file_name tz c "csv") "text/csv" (weekly_csv r).

(** ** Reading the file back *)

(** The first member named [k]. *)
Fixpoint field (k : string) (l : list (string * json)) : option json :=
  match l with
  | [] => None
  | (k', v) :: l => if String.eqb k k' then Some v else field k l
  end.

Definition read_str (j : json) : option string := match j with JSStr s => Some s | _ => None end.
Definition read_num (j : json) : option Z := match j with JSNum n => Some n | _ => None end.
Definition read_js_val (j : json) : option JsVal :=
  match j with JSNum n => Some (JNum n) | JSStr s => Some (JStr s) | _ => None end.

Definition read_summary (j : json) : option Summary :=
  match j with
  | JSObj l =>
      a ← field "totalReports" l ≫= read_num; b ← field "pendingReports" l ≫= read_num;
      c ← field "reviewedReports" l ≫= read_num; d ← field "resolvedReports" l ≫= read_num;
      e ← field "newMembers" l ≫= read_num; f ← field "totalMembers" l ≫= read_num;
      Some (mkSummary a b c d e f)
  | _ => None
  end.

Definition read_location (j : json) : option (string * JsVal) :=
  match j with
  | JSObj l => a ← field "area" l ≫= read_str; n ← field "count" l ≫= read_js_val; Some (a, n)
  | _ => None
  end.

Definition read_contributor (j : json) : option (string * string * Z) :=
  match j with
  | JSObj l =>
      u ← field "userId" l ≫= read_str; n ← field "userName" l ≫= read_str;
      k ← field "reportCount" l ≫= read_num; Some (u, n, k)
  | _ => None
  end.

Definition read_array {A} (rd : json → option A) (j : json) : option (list A) :=
  match j with JSArr l => mapM rd l | _ => None end.

Definition read_entries (j : json) : option (list (string * JsVal)) :=
  match j with JSObj l => mapM (λ kv, v ← read_js_val kv.2; Some (kv.1, v)) l | _ => None end.

Definition read_weekly (j : json) : option WeeklyReport :=
  match j with
  | JSObj l =>
      d ← field "reportDate" l ≫= read_str; ws ← field "weekStart" l ≫= read_str;
      we ← field "weekEnd" l ≫= read_str; s ← field "summary" l ≫= read_summary;
      t ← field "reportsByType" l ≫= read_entries;
      loc ← field "reportsByLocation" l ≫= read_array read_location;
      top ← field "topContributors" l ≫= read_array read_contributor;
      Some (mkWeekly d ws we s t loc top)
  | _ => None
  end.

(** The report as the file holds it: [reportsByType] in the order of
    [Object.entries]. *)
Definition as_exported (r : WeeklyReport) : WeeklyReport :=
  mkWeekly (reportDate r) (weekStart r) (weekEnd r) (summary r) (object_entries (reportsByType r))
    (reportsByLocation r) (topContributors r).

(** ** The JSON download reads back *)

Lemma mapM_map_retract {A B} (g : B → option A) (h : A → B) l :
  (∀ x, g (h x) = Some x) → mapM g (map h l) = Some l.
Proof. intros H. induction l as [|x l IH]; [done|]. cbn [map mapM]. rewrite H, IH. done. Qed.

Lemma read_entry_json (kv : string * JsVal) :
  (read_js_val (js_val_json kv.2) ≫= λ v, Some (kv.1, v)) = Some kv.
Proof. by destruct kv as [? []]. Qed.

Lemma read_location_json kv : read_location (location_json kv) = Some kv.
Proof. by destruct kv as [? []]. Qed.

Lemma read_contributor_json c : read_contributor (contributor_json c) = Some c.
Proof. by destruct c as [[? ?] ?]. Qed.

(** C39. The file [downloadWeeklyReportAsJSON] offers parses as JSON, and
    reading its fields by name gives back every field of the report: the
    dates, the six counts of the summary, the counts by type (in the order
    of [Object.entries]), the areas and the contributors. *)
Theorem weekly_json_roundtrip tz c r :
  JSON_parse (download_text (downloadWeeklyReportAsJSON tz c r)) ≫= read_weekly = Some (as_exported r).
Proof.
  cbn [download_text downloadWeeklyReportAsJSON]. rewrite JSON_parse_stringify.
  unfold json_of_weekly, read_weekly. simpl.
  rewrite !mapM_map_retract by (intros; apply read_entry_json || apply read_location_json || apply read_contributor_json).
  by destruct r as [? ? ? [] ? ? ?].
Qed.

(** ** Examples *)

(** One area of the report, as the file prints it: a member per line,
    indented by two spaces. *)
Example location_json_text :
  stringify (location_json ("Sydney", JNum 2)) =
    "{" +:+ String LF ("  " +:+ String dq ("area" +:+ String dq (": " +:+ String dq ("Sydney" +:+ String dq
      ("," +:+ String LF ("  " +:+ String dq ("count" +:+ String dq (": 2" +:+ String LF "}")))))))).
Proof. reflexivity. Qed.

(** The week of the ledger [store_week], downloaded at 2025-11-09 10:01
    Sydney time: the JSON file's name and its contents read back. *)
Example weekly_json_demo :
  ∃ w, generateWeeklyReport tz_sydney (mkCtx 1762682460000 "w") store_week = (store_week, Return w) ∧
    download_name (downloadWeeklyReportAsJSON tz_sydney (mkCtx 1762682460000 "w") w) =
      "Sydney_Weekly_Rubbish_Report_2025-11-09.json" ∧
    JSON_parse (download_text (downloadWeeklyReportAsJSON tz_sydney (mkCtx 1762682460000 "w") w)) ≫= read_weekly =
      Some (as_exported w).
Proof. eexists. split; [reflexivity|]. split; [reflexivity|]. vm_compute. reflexivity. Qed.
