(* ===== verification/MockData.v ===== *)
(** * The demo data ([utils/mockData.ts])

    [LocationPoint], the twelve [SYDNEY_LOCATIONS] the heat map draws, and
    the [RUBBISH_TYPES] the report form offers.  Coordinates and
    intensities are IEEE doubles, parsed from the source's decimal
    literals; report counts are the integers of the source, also doubles.
    The theorems check the data against what its declaration and its
    clients expect: intensities in [0, 1] ("0-1 for heat map coloring"),
    distinct ids, intensities ordered as the report counts, and no rubbish
    type that the weekly report's plain-object counters would confuse with
    a property of [Object.prototype]. *)

From S2P Require Import Prelude JsString Weekly.

Open Scope float_scope.
(** The decimal literals of the source denote the nearest double, as they do
    in JavaScript. *)
#[local] Set Warnings "-inexact-float".

(** [interface LocationPoint] *)
Record LocationPoint := mkLocationPoint {
  lp_id : string;
  lp_lat : float;
  lp_lng : float;
  lp_address : string;
  lp_reports : float;
  lp_intensity : float;
}.

Definition SYDNEY_LOCATIONS : list LocationPoint := [
  mkLocationPoint "1" (-33.8599) 151.2111 "The Rocks, Sydney NSW 2000" 45 0.9;
  mkLocationPoint "2" (-33.8616) 151.2104 "Circular Quay, Sydney NSW 2000" 38 0.75;
  mkLocationPoint "3" (-33.8688) 151.2093 "Sydney CBD, George St" 52 1.0;
  mkLocationPoint "4" (-33.8738) 151.2062 "Darling Harbour, Sydney NSW 2000" 41 0.8;
  mkLocationPoint "5" (-33.8571) 151.2152 "Sydney Opera House, Bennelong Point" 28 0.55;
  mkLocationPoint "6" (-33.8523) 151.2108 "Milsons Point, Sydney NSW 2061" 22 0.45;
  mkLocationPoint "7" (-33.8816) 151.2008 "Pyrmont, Sydney NSW 2009" 35 0.7;
  mkLocationPoint "8" (-33.8830) 151.2167 "Surry Hills, Sydney NSW 2010" 31 0.62;
  mkLocationPoint "9" (-33.8650) 151.2094 "Wynyard, Sydney NSW 2000" 26 0.52;
  mkLocationPoint "10" (-33.8848) 151.2055 "Haymarket, Sydney NSW 2000" 33 0.65;
  mkLocationPoint "11" (-33.8704) 151.2244 "Potts Point, Sydney NSW 2011" 19 0.38;
  mkLocationPoint "12" (-33.8915) 151.2767 "Bondi Junction, Sydney NSW 2022" 24 0.48
].

Close Scope float_scope.

Definition RUBBISH_TYPES : list string := [
  "Plastic Bottles"; "Food Waste"; "Cigarette Butts"; "Paper & Cardboard"; "Glass Bottles";
  "Metal Cans"; "E-Waste"; "Furniture"; "Construction Debris"; "General Litter";
  "Organic Waste"; "Other"
].

(** The declared range of an intensity, [0 <= intensity <= 1], and of a
    point on the globe. *)
Definition point_wf (l : LocationPoint) : bool :=
  (0 <=? lp_intensity l)%float && (lp_intensity l <=? 1)%float &&
  (-90 <=? lp_lat l)%float && (lp_lat l <=? 90)%float &&
  (-180 <=? lp_lng l)%float && (lp_lng l <=? 180)%float &&
  (0 <=? lp_reports l)%float.

(** Two points are in the same order by report count and by intensity. *)
Definition same_order (a b : LocationPoint) : bool :=
  implb (lp_reports a <? lp_reports b)%float (lp_intensity a <? lp_intensity b)%float.

(** ** Properties of the data *)

(** Every demo point is well formed, the ids are distinct, and a point
    with more reports is never drawn with a lower intensity. *)
Theorem SYDNEY_LOCATIONS_wf :
  forallb point_wf SYDNEY_LOCATIONS = true ∧
  NoDup (map lp_id SYDNEY_LOCATIONS) ∧
  forallb (λ a, forallb (same_order a) SYDNEY_LOCATIONS) SYDNEY_LOCATIONS = true.
Proof. split_and!; [vm_compute; reflexivity | apply (bool_decide_unpack _); vm_compute; reflexivity | vm_compute; reflexivity]. Qed.

(** No rubbish type offered by the form is a property of
    [Object.prototype], so the weekly report counts each of them as a
    number. *)
Theorem RUBBISH_TYPES_not_inherited : forallb (λ t, negb (inherited t)) RUBBISH_TYPES = true.
Proof. vm_compute. reflexivity. Qed.
