(* ===== verification/HeatMap.v ===== *)
(** * The heat map ([components/HeatMap.tsx])

    The component draws one circle per [LocationPoint]: its radius is
    [getRadius(location.reports)], [Math.min(Math.max(reports / 2, 10), 30)],
    and its colour is [getColor(location.intensity)], one of five bands
    whose colours the legend lists.  Before the first effect has run
    ([isClient] false) it draws a placeholder instead of the map.

    [Math.max] and [Math.min] are written out as ECMAScript defines them
    on doubles: [NaN] if either argument is [NaN], and [+0] above [-0].
    Once mounted, the component owns a Leaflet map: [MapContainer]
    creates it at the first [center] and [zoom] and ignores later values
    of both; [RecenterMap] moves the view to [center] (keeping the zoom)
    whenever its effect's dependency [center] changes, and
    [MapClickHandler] forwards clicks to [onMapClick].  [map_step] runs
    renders, the user's pans and clicks in any order from [unmounted].

    The theorems bound the radius to [10, 30] whenever [reports / 2] is a
    number, place every colour in the legend, and evaluate the component
    on the demo data; on the mounted map, a parent that omits [center]
    loses the user's pan at each of its re-renders (the default array is
    new at every render), while a parent passing the same array keeps it. *)

From S2P Require Import Prelude JsString NumberFormat MockData.

#[local] Set Warnings "-inexact-float".

Open Scope float_scope.

(** [Math.max(x, y)] *)
Definition js_max (x y : float) : float :=
  if is_nan x || is_nan y then nan
  else if x <? y then y
  else if y <? x then x
  else if get_sign x then y else x.

(** [Math.min(x, y)] *)
Definition js_min (x y : float) : float :=
  if is_nan x || is_nan y then nan
  else if x <? y then x
  else if y <? x then y
  else if get_sign x then x else y.

(** [getColor]: [intensity >= t] is [t <= intensity], false on [NaN]. *)
Definition getColor (intensity : float) : string :=
  if 0.8 <=? intensity then "#ef4444"
  else if 0.6 <=? intensity then "#f97316"
  else if 0.4 <=? intensity then "#f59e0b"
  else if 0.2 <=? intensity then "#eab308"
  else "#22c55e".

Definition getRadius (reports : float) : float := js_min (js_max (reports / 2) 10) 30.

Close Scope float_scope.

(** The legend, from the densest band down. *)
Definition legend : list (string * string) := [
  ("Very High", "#ef4444"); ("High", "#f97316"); ("Medium", "#f59e0b");
  ("Low", "#eab308"); ("Very Low", "#22c55e")
].

(** The defaults of the props: Sydney CBD at zoom 13. *)
Definition default_center : float * float := ((-33.8688)%float, 151.2093%float).
Definition default_zoom : Z := 13.

(** The [Popup] of a circle: the address, the report count, a swatch of
    the circle's colour and [(intensity * 100).toFixed(0)]; the count is
    rendered by React from the number and is kept as the number. *)
Record Popup := mkPopup {
  popup_address : string;
  popup_reports : float;
  popup_swatch : string;
  popup_intensity : option string;
}.

Definition popup_of (l : LocationPoint) : Popup :=
  mkPopup (lp_address l) (lp_reports l) (getColor (lp_intensity l))
    ((λ p, p +:+ "% intensity") <$> toFixed 0 (lp_intensity l * 100)%float).

(** A [CircleMarker] as the component configures it. *)
Record CircleMarker := mkCircleMarker {
  cm_key : string;
  cm_center : float * float;
  cm_radius : float;
  cm_fillColor : string;
  cm_popup : Popup;
}.

Definition marker_of (l : LocationPoint) : CircleMarker :=
  mkCircleMarker (lp_id l) (lp_lat l, lp_lng l) (getRadius (lp_reports l)) (getColor (lp_intensity l))
    (popup_of l).

(** What the component renders. *)
Inductive View :=
| Placeholder
| MapView (center : float * float) (zoom : Z) (markers : list CircleMarker)
    (selected : option (float * float)) (legendItems : list (string * string)).

Definition HeatMap (isClient : bool) (locations : list LocationPoint) (center : float * float)
    (zoom : Z) (selectedLocation : option (float * float)) : View :=
  if negb isClient then Placeholder
  else MapView center zoom (map marker_of locations) selectedLocation legend.

(** ** The Leaflet map of a mounted component *)

(** The [L.Icon.Default] options the module merges at load time, after
    deleting [_getIconUrl]. *)
Record IconOptions := mkIconOptions { iconRetinaUrl : string; iconUrl : string; shadowUrl : string }.

Definition default_icon : IconOptions :=
  mkIconOptions "https://cdnjs.cloudflare.com/ajax/libs/leaflet/1.9.4/images/marker-icon-2x.png"
    "https://cdnjs.cloudflare.com/ajax/libs/leaflet/1.9.4/images/marker-icon.png"
    "https://cdnjs.cloudflare.com/ajax/libs/leaflet/1.9.4/images/marker-shadow.png".

(** The map [MapContainer] creates: loaded, with its view centre and zoom. *)
Record LeafletMap := mkLeafletMap { map_loaded : bool; map_view : float * float; map_zoom : Z }.

(** The [center] prop as React's dependency check sees it: omitted, the
    default [[-33.8688, 151.2093]] is a new array at every render; passed,
    it is an array of the parent with an identity [ref]. *)
Inductive CenterProp := CenterOmitted | CenterPassed (ref : nat) (c : float * float).

Definition center_value (p : CenterProp) : float * float :=
  match p with CenterOmitted => default_center | CenterPassed _ c => c end.

(** [useEffect(..., [center, map])] runs again when [center] is not the
    array of the previous render ([Object.is]). *)
Definition center_changed (prev : option CenterProp) (next : CenterProp) : bool :=
  match prev, next with Some (CenterPassed i _), CenterPassed j _ => negb (i =? j)%nat | _, _ => true end.

(** The effect of [RecenterMap]: [map.setView(center, map.getZoom())]
    once the map is loaded. *)
Definition RecenterMap (center : float * float) (m : LeafletMap) : LeafletMap :=
  if map_loaded m then mkLeafletMap true center (map_zoom m) else m.

(** A mounted [HeatMap]: its map once [isClient] holds, the [center] of
    its last render, and whether that render had an [onMapClick]. *)
Record Mounted := mkMounted { mt_map : option LeafletMap; mt_center : option CenterProp; mt_onClick : bool }.

Definition unmounted : Mounted := mkMounted None None false.

(** A render with these props followed by its effects.  The first one
    is the mount: the placeholder, [setIsClient(true)], and the render
    that creates the map at [center] and [zoom]; later ones keep the map
    ([MapContainer] reads [center] and [zoom] only when it creates it) and
    run [RecenterMap]'s effect when [center] changed. *)
Definition heatmap_render (center : CenterProp) (zoom : Z) (onMapClick : bool) (m : Mounted) : Mounted :=
  match mt_map m with
  | None => mkMounted (Some (RecenterMap (center_value center) (mkLeafletMap true (center_value center) zoom)))
              (Some center) onMapClick
  | Some lm =>
      mkMounted (Some (if center_changed (mt_center m) center then RecenterMap (center_value center) lm else lm))
        (Some center) onMapClick
  end.

Inductive MapEvent :=
| Render (center : CenterProp) (zoom : Z) (onMapClick : bool)
| UserMoved (view : float * float) (zoom : Z)
| MapClicked (lat lng : float).

(** One event, and the call [onMapClick(lat, lng)] that [MapClickHandler]
    makes, if any. *)
Definition map_step (e : MapEvent) (m : Mounted) : Mounted * option (float * float) :=
  match e with
  | Render c z h => (heatmap_render c z h m, None)
  | UserMoved v z =>
      (mkMounted ((λ lm, mkLeafletMap (map_loaded lm) v z) <$> mt_map m) (mt_center m) (mt_onClick m), None)
  | MapClicked lat lng => (m, if mt_onClick m && bool_decide (is_Some (mt_map m)) then Some (lat, lng) else None)
  end.

(** ** The clamp of [getRadius] *)

Section Clamp.
Local Open Scope float_scope.
Implicit Types x y : float.

Lemma js_max_choice x y : is_nan x = false → is_nan y = false → js_max x y = x ∨ js_max x y = y.
Proof. intros Hx Hy. unfold js_max. rewrite Hx, Hy. simpl. repeat case_match; auto. Qed.

Lemma js_min_choice x y : is_nan x = false → is_nan y = false → js_min x y = x ∨ js_min x y = y.
Proof. intros Hx Hy. unfold js_min. rewrite Hx, Hy. simpl. repeat case_match; auto. Qed.

Lemma js_max_not_nan x y : is_nan x = false → is_nan y = false → is_nan (js_max x y) = false.
Proof. intros Hx Hy. by destruct (js_max_choice x y Hx Hy) as [-> | ->]. Qed.

(** [Math.max(x, y) >= y] *)
Lemma js_max_ge_r x y : is_nan x = false → is_nan y = false → (y <=? js_max x y) = true.
Proof.
  intros Hx Hy. unfold js_max. rewrite Hx, Hy. simpl.
  destruct (x <? y) eqn:E1; [by apply float_leb_refl|].
  destruct (y <? x) eqn:E2; [by apply float_ltb_leb|].
  destruct (float_cmp_total x y Hx Hy) as [?|[?|Heq]]; [congruence|congruence|].
  destruct (get_sign x); [by apply float_leb_refl | by apply float_eqb_leb_r].
Qed.

(** [Math.min(x, y) <= y] *)
Lemma js_min_le_r x y : is_nan x = false → is_nan y = false → (js_min x y <=? y) = true.
Proof.
  intros Hx Hy. unfold js_min. rewrite Hx, Hy. simpl.
  destruct (x <? y) eqn:E1; [by apply float_ltb_leb|].
  destruct (y <? x) eqn:E2; [by apply float_leb_refl|].
  destruct (float_cmp_total x y Hx Hy) as [?|[?|Heq]]; [congruence|congruence|].
  destruct (get_sign x); [by apply float_eqb_leb | by apply float_leb_refl].
Qed.

End Clamp.

(** Every colour [getColor] answers is the colour of a legend entry. *)
Lemma getColor_in_legend intensity : ∃ label, (label, getColor intensity) ∈ legend.
Proof.
  unfold getColor. repeat case_match;
    [exists "Very High" | exists "High" | exists "Medium" | exists "Low" | exists "Very Low"];
    apply (bool_decide_unpack _); vm_compute; reflexivity.
Qed.

(** C33. The radius of a circle is clamped: [getRadius] is [NaN] exactly
    when [reports / 2] is, and otherwise lies between 10 and 30. *)
Theorem getRadius_bounds reports :
  is_nan (getRadius reports) = is_nan (reports / 2)%float ∧
  (is_nan (reports / 2)%float = false →
     (10 <=? getRadius reports)%float = true ∧ (getRadius reports <=? 30)%float = true).
Proof.
  split.
  - unfold getRadius. destruct (is_nan (reports / 2)%float) eqn:H.
    + unfold js_min, js_max. rewrite H. reflexivity.
    + assert (is_nan (js_max (reports / 2) 10) = false) as Hm by (apply js_max_not_nan; [done | reflexivity]).
      destruct (js_min_choice _ 30%float Hm eq_refl) as [-> | ->]; [done | reflexivity].
  - intros H. unfold getRadius.
    assert (is_nan (js_max (reports / 2) 10) = false) as Hm by (apply js_max_not_nan; [done | reflexivity]).
    assert ((10 <=? js_max (reports / 2) 10)%float = true) by (apply js_max_ge_r; [done | reflexivity]).
    split; [|apply js_min_le_r; [done | reflexivity]].
    destruct (js_min_choice _ 30%float Hm eq_refl) as [-> | ->]; [done | reflexivity].
Qed.

Lemma getRadius_bounds_witness :
  is_nan (getRadius 45%float) = false ∧
  (10 <=? getRadius 45%float)%float = true ∧ (getRadius 45%float <=? 30)%float = true.
Proof.
  destruct (getRadius_bounds 45%float) as [E B].
  rewrite E. split; [reflexivity|]. apply B. reflexivity.
Defined.

(** ** The component on the demo data *)

(** The map of the demo: one circle per location, with the radii and
    colours of the source's formulas; the location with 19 reports is
    clamped up to radius 10. *)
Example HeatMap_demo :
  match HeatMap true SYDNEY_LOCATIONS default_center default_zoom None with
  | MapView _ _ ms None _ =>
      map cm_fillColor ms =
        ["#ef4444"; "#f97316"; "#ef4444"; "#ef4444"; "#f59e0b"; "#f59e0b"; "#f97316"; "#f97316";
         "#f59e0b"; "#f97316"; "#eab308"; "#f59e0b"] ∧
      map cm_radius ms =
        [22.5; 19; 26; 20.5; 14; 11; 17.5; 15.5; 13; 16.5; 10; 12]%float
  | _ => False
  end.
Proof. vm_compute. split; reflexivity. Qed.

(** The popups of the demo: each swatch is its circle's colour, and the
    intensities print as whole percentages although [0.55 * 100] is
    [55.000000000000007] as a double. *)
Example HeatMap_demo_popups :
  match HeatMap true SYDNEY_LOCATIONS default_center default_zoom None with
  | MapView _ _ ms _ _ =>
      map (λ m, popup_swatch (cm_popup m)) ms = map cm_fillColor ms ∧
      map (λ m, popup_intensity (cm_popup m)) ms =
        map (λ p, Some (p +:+ "% intensity"))
          ["90"; "75"; "100"; "80"; "55"; "45"; "70"; "62"; "52"; "65"; "38"; "48"]
  | _ => False
  end.
Proof. vm_compute. split; reflexivity. Qed.

(** Before its first effect the component draws the placeholder. *)
Lemma HeatMap_placeholder locations center zoom sel :
  HeatMap false locations center zoom sel = Placeholder.
Proof. done. Qed.

(** ** The view of a mounted map *)

Inductive map_reach : Mounted → Prop :=
| map_reach_start : map_reach unmounted
| map_reach_step m e : map_reach m → map_reach (map_step e m).1.

Lemma RecenterMap_loaded c lm : map_loaded (RecenterMap c lm) = map_loaded lm.
Proof. unfold RecenterMap. by destruct (map_loaded lm) eqn:E. Qed.

(** The map is loaded from its creation on. *)
Lemma map_reach_loaded m lm : map_reach m → mt_map m = Some lm → map_loaded lm = true.
Proof.
  intros Hr. revert lm. induction Hr as [|m e Hr IH]; intros lm; [done|].
  destruct e as [c z h | v z | lat lng]; simpl; [| | by apply IH].
  - unfold heatmap_render. destruct (mt_map m) as [lm0|] eqn:E; simpl; intros [= <-].
    + destruct (center_changed _ _); [rewrite RecenterMap_loaded|]; by apply IH.
    + done.
  - destruct (mt_map m) as [lm0|] eqn:E; simpl; [intros [= <-]; simpl; by apply IH | done].
Qed.

(** When the parent omits [center], every re-render moves the view back
    to the default centre: the default array is new at each render, so
    [RecenterMap]'s effect runs again and undoes the user's pan (the zoom
    is kept). *)
Theorem HeatMap_rerender_recenters m v z zoom h :
  map_reach m → is_Some (mt_map m) →
  mt_map (map_step (Render CenterOmitted zoom h) (map_step (UserMoved v z) m).1).1 =
    Some (mkLeafletMap true default_center z).
Proof.
  intros Hr [lm E]. pose proof (map_reach_loaded m lm Hr E) as Hl.
  simpl. rewrite E. simpl. destruct (mt_center m) as [[]|]; unfold RecenterMap; simpl; by rewrite Hl.
Qed.

(** A parent that passes the same [center] array again keeps the user's
    view. *)
Theorem HeatMap_stable_center_keeps_view m i c v z zoom h :
  map_reach m → is_Some (mt_map m) → mt_center m = Some (CenterPassed i c) →
  mt_map (map_step (Render (CenterPassed i c) zoom h) (map_step (UserMoved v z) m).1).1 =
    Some (mkLeafletMap true v z).
Proof.
  intros Hr [lm E] Hc. pose proof (map_reach_loaded m lm Hr E) as Hl.
  simpl. rewrite E, Hc. simpl. by rewrite Nat.eqb_refl, Hl.
Qed.

(** A click reaches [onMapClick] with its coordinates exactly when the
    last render passed one, and changes nothing. *)
Lemma map_click m lat lng : map_reach m → is_Some (mt_map m) →
  map_step (MapClicked lat lng) m = (m, if mt_onClick m then Some (lat, lng) else None).
Proof. intros _ Hm. simpl. rewrite bool_decide_true by done. by destruct (mt_onClick m). Qed.

(** The map of a page that omits [center]: mounted at Sydney CBD, panned
    by the user to Circular Quay, and back at the CBD after the parent
    re-renders for the click that selected a location. *)
Example HeatMap_pan_lost :
  let m0 := (map_step (Render CenterOmitted 13 true) unmounted).1 in
  let m1 := (map_step (UserMoved ((-33.8611)%float, 151.2108%float) 15) m0).1 in
  let '(m2, call) := map_step (MapClicked (-33.8611) 151.2108) m1 in
  call = Some ((-33.8611)%float, 151.2108%float) ∧
  mt_map (map_step (Render CenterOmitted 13 true) m2).1 = Some (mkLeafletMap true default_center 15).
Proof. split; reflexivity. Qed.
