(* ===== verification/Session.v ===== *)
(** * The session: [context/AuthContext.tsx], [components/ProtectedRoute.tsx]
    and the decisions of [components/Header.tsx]

    [AuthProvider] keeps [user] and [isLoading] and exposes
    [isAuthenticated = !!user] and [isAdmin = user?.role === 'admin'].  Its
    operations are asynchronous: [initAuth], the [SIGNED_IN] handler,
    [logout] and [refreshUser] each await a promise of the [cloudStorage]
    module (not in the repository) and change the state when it settles.
    The model makes that explicit: the state records the continuations
    still pending ([tasks]), an event either starts one or settles one,
    and the settled value (a user, no user, or a rejection) is the
    environment's input.  Any interleaving of the events is a run of
    [auth_reach], from the state just after the mount effect started
    [initAuth] (the effect has no dependencies and runs once).

    The provider's [value] exposes the state and the three functions
    (as the events they start); [useAuth] reads it and throws outside a
    provider.  [ProtectedRoute] is a function of the context and of [adminOnly];
    [Header] contributes its home link, its point and credit counters and
    [handleLogout], which starts [logout] without awaiting it. *)

From S2P Require Import Prelude JsString Model.

(** The continuations an [AuthProvider] may have pending. *)
Inductive Task := TInit | TSignedIn | TLogout | TRefresh.

#[global] Instance Task_eq_dec : EqDecision Task.
Proof. solve_decision. Defined.

Record Auth := mkAuth {
  user : option User.t;
  isLoading : bool;
  tasks : list Task;
}.

(** The value a [getCurrentAuthUser()] promise settles with: [None] when
    it rejects. *)
Definition Fetched := option (option User.t).

Inductive AuthEvent :=
| InitSettled (r : Fetched)
| AuthStateChange (event : string) (session : bool)
| SignedInSettled (r : Fetched)
| Login (u : User.t)
| LogoutCalled
| LogoutSettled (ok : bool)
| RefreshCalled
| RefreshSettled (r : Fetched).

Definition isAuthenticated (a : Auth) : bool := bool_decide (is_Some (user a)).

Definition isAdmin (a : Auth) : bool :=
  match user a with
  | Some u => match User.role u with User.role_admin => true | User.role_user => false end
  | None => false
  end.

Definition setUser (u : option User.t) (a : Auth) : Auth := mkAuth u (isLoading a) (tasks a).

Definition start (t : Task) (a : Auth) : Auth := mkAuth (user a) (isLoading a) (tasks a ++ [t]).

(** The continuation [t] runs: it leaves the pending list. *)
Fixpoint take_task (t : Task) (ts : list Task) : option (list Task) :=
  match ts with
  | [] => None
  | t' :: ts => if decide (t = t') then Some ts else (t' ::.) <$> take_task t ts
  end.

Definition settle (t : Task) (a : Auth) : option Auth :=
  (λ ts, mkAuth (user a) (isLoading a) ts) <$> take_task t (tasks a).

(** Just after mount: [user] null, [isLoading] true, [initAuth] pending. *)
Definition auth_start : Auth := mkAuth None true [TInit].

(** One event; [None] when it settles a continuation that is not pending. *)
Definition auth_step (e : AuthEvent) (a : Auth) : option Auth :=
  match e with
  | InitSettled r =>
      a ← settle TInit a;
      let a := match r with Some (Some cu) => setUser (Some cu) a | _ => a end in
      Some (mkAuth (user a) false (tasks a))
  | AuthStateChange event session =>
      if String.eqb event "SIGNED_IN" && session then Some (start TSignedIn a)
      else if String.eqb event "SIGNED_OUT" then Some (setUser None a)
      else Some a
  | SignedInSettled r =>
      a ← settle TSignedIn a;
      Some (match r with Some cu => setUser cu a | None => a end)
  | Login u => Some (setUser (Some u) a)
  | LogoutCalled => Some (start TLogout a)
  | LogoutSettled ok =>
      a ← settle TLogout a;
      Some (if ok then setUser None a else a)
  | RefreshCalled => if isAuthenticated a then Some (start TRefresh a) else Some a
  | RefreshSettled r =>
      a ← settle TRefresh a;
      Some (match r with Some (Some cu) => setUser (Some cu) a | _ => a end)
  end.

Inductive auth_reach : Auth → Prop :=
| auth_reach_start : auth_reach auth_start
| auth_reach_step a e a' : auth_reach a → auth_step e a = Some a' → auth_reach a'.

(** ** [ProtectedRoute] *)

Inductive Route := Spinner | Navigate (to : string) | Children.

Definition ProtectedRoute (a : Auth) (adminOnly : bool) : Route :=
  if isLoading a then Spinner
  else if negb (isAuthenticated a) then Navigate "/auth"
  else if adminOnly && negb (isAdmin a) then Navigate "/dashboard"
  else Children.

(** ** [Header] *)

(** [<Link to={isAdmin ? '/admin' : '/dashboard'}>] *)
Definition home_link (a : Auth) : string := if isAdmin a then "/admin" else "/dashboard".

(** [user?.ecoPoints || 0] and [user?.credits || 0] *)
Definition points_shown (a : Auth) : Z := match user a with Some u => User.ecoPoints u | None => 0 end.
Definition credits_shown (a : Auth) : Z := match user a with Some u => User.credits u | None => 0 end.

(** [handleLogout]: [logout()] is not awaited; the header navigates to
    [/] and closes its menu at once. *)
Definition handleLogout (a : Auth) : Auth * string * bool := (start TLogout a, "/", false).

(** ** The context value and [useAuth] *)

(** [AuthContextType]: the state the provider exposes, and its three
    functions as the events they start. *)
Record AuthContextType := mkAuthContext {
  ctx_user : option User.t;
  ctx_login : User.t → AuthEvent;
  ctx_logout : AuthEvent;
  ctx_isAuthenticated : bool;
  ctx_isAdmin : bool;
  ctx_isLoading : bool;
  ctx_refreshUser : AuthEvent;
}.

(** The [value] of [AuthContext.Provider] in the provider's state. *)
Definition provider_value (a : Auth) : AuthContextType :=
  mkAuthContext (user a) Login LogoutCalled (isAuthenticated a) (isAdmin a) (isLoading a) RefreshCalled.

(** [useAuth()] given the nearest provider's value, [None] outside any
    provider, where the context holds its default [undefined]; [Err] is the
    error it throws. *)
Definition useAuth (ctx : option AuthContextType) : result string AuthContextType :=
  match ctx with None => Err "useAuth must be used within an AuthProvider" | Some c => Ok c end.

(** ** The loading flag *)

(** The number of pending [initAuth] continuations. *)
Definition inits (ts : list Task) : nat := length (filter (λ t, t = TInit) ts).

Lemma take_task_perm t ts ts' : take_task t ts = Some ts' → ts ≡ₚ t :: ts'.
Proof.
  revert ts'. induction ts as [|t' ts IH]; intros ts'; simpl; [done|].
  case_decide; [intros [= <-]; by subst|].
  destruct (take_task t ts) as [ts1|] eqn:E; simpl; [|done]. intros [= <-].
  rewrite (IH ts1 eq_refl). apply Permutation_swap.
Qed.

Lemma take_task_Some t ts : t ∈ ts → ∃ ts', take_task t ts = Some ts'.
Proof.
  induction ts as [|t' ts IH]; simpl; [by intros ?%elem_of_nil|].
  case_decide; [eauto|]. intros [->|Hin]%elem_of_cons; [done|].
  destruct (IH Hin) as [ts' ->]. eauto.
Qed.

Lemma inits_perm ts ts' : ts ≡ₚ ts' → inits ts = inits ts'.
Proof. intros H. unfold inits. by rewrite H. Qed.

Lemma inits_start ts t : t ≠ TInit → inits (ts ++ [t]) = inits ts.
Proof. intros Ht. unfold inits. rewrite filter_app, length_app, filter_cons_False by done. simpl. lia. Qed.

Lemma inits_cons_other t ts : t ≠ TInit → inits (t :: ts) = inits ts.
Proof. intros Ht. unfold inits. by rewrite filter_cons_False. Qed.

Lemma inits_cons_init ts : inits (TInit :: ts) = S (inits ts).
Proof. unfold inits. by rewrite filter_cons_True. Qed.

Lemma inits_zero ts : inits ts = 0 ↔ TInit ∉ ts.
Proof.
  unfold inits. rewrite length_zero_iff_nil. split.
  - intros H Hin. assert (TInit ∈ filter (λ t, t = TInit) ts) as Hf by (by apply list_elem_of_filter).
    rewrite H in Hf. by apply elem_of_nil in Hf.
  - intros Hn. apply filter_nil_intro. intros x Hx ->. done.
Qed.

(** [isLoading] is true exactly while [initAuth] is pending, and it is
    pending once at most. *)
Definition loading_inv (a : Auth) : Prop := inits (tasks a) = if isLoading a then 1 else 0.

Lemma loading_inv_settle t a a' : t ≠ TInit → loading_inv a → settle t a = Some a' →
  loading_inv a' ∧ isLoading a' = isLoading a ∧ user a' = user a.
Proof.
  intros Ht Hinv. unfold settle. destruct (take_task t (tasks a)) as [ts|] eqn:E; simpl; [|done].
  intros [= <-]. apply take_task_perm, inits_perm in E. rewrite inits_cons_other in E by done.
  unfold loading_inv in *. simpl. split_and!; [congruence | done | done].
Qed.

Lemma loading_inv_setUser u a : loading_inv a → loading_inv (setUser u a).
Proof. done. Qed.

Lemma loading_inv_start t a : t ≠ TInit → loading_inv a → loading_inv (start t a).
Proof. unfold loading_inv. simpl. intros. by rewrite inits_start. Qed.

#[local] Hint Resolve loading_inv_setUser loading_inv_start : core.

Lemma loading_inv_step e a a' : loading_inv a → auth_step e a = Some a' → loading_inv a'.
Proof.
  intros Hinv. destruct e as [r|ev s|r|u| |ok| |r]; simpl.
  - unfold settle. destruct (take_task TInit (tasks a)) as [ts|] eqn:E; simpl; [|done]. intros [= <-].
    apply take_task_perm, inits_perm in E. rewrite inits_cons_init in E.
    unfold loading_inv in *. destruct r as [[]|]; simpl; destruct (isLoading a); simpl in *; lia.
  - repeat case_match; intros [= <-]; auto.
  - destruct (settle TSignedIn a) as [a1|] eqn:E; simpl; [|done].
    apply loading_inv_settle in E as (? & _ & _); [|done|done]. intros [= <-]. case_match; auto.
  - intros [= <-]. auto.
  - intros [= <-]. auto.
  - destruct (settle TLogout a) as [a1|] eqn:E; simpl; [|done].
    apply loading_inv_settle in E as (? & _ & _); [|done|done]. intros [= <-]. case_match; auto.
  - case_match; intros [= <-]; auto.
  - destruct (settle TRefresh a) as [a1|] eqn:E; simpl; [|done].
    apply loading_inv_settle in E as (? & _ & _); [|done|done]. intros [= <-]. repeat case_match; auto.
Qed.

Lemma auth_reach_loading_inv a : auth_reach a → loading_inv a.
Proof. induction 1; [done | by eapply loading_inv_step]. Qed.

(** Only [initAuth] settling changes [isLoading], and it clears it. *)
Lemma isLoading_step e a a' : auth_step e a = Some a' →
  isLoading a' = match e with InitSettled _ => false | _ => isLoading a end.
Proof.
  intros H. destruct e; simpl in H; unfold settle in H; try destruct (take_task _ (tasks a)); simpl in H;
    repeat case_match; simplify_eq; done.
Qed.

(** A sequence of events, in order. *)
Fixpoint auth_run (es : list AuthEvent) (a : Auth) : option Auth :=
  match es with
  | [] => Some a
  | e :: es => a' ← auth_step e a; auth_run es a'
  end.

Lemma auth_run_reach es a a' : auth_reach a → auth_run es a = Some a' → auth_reach a'.
Proof.
  revert a. induction es as [|e es IH]; intros a Ha; simpl; [by intros [= <-]|].
  destruct (auth_step e a) as [a1|] eqn:E; simpl; [|done]. apply IH. by econstructor.
Qed.

(** [ProtectedRoute] renders its children exactly on a loaded, signed-in
    context, and, for an administrators' route, an administrator's. *)
Lemma ProtectedRoute_Children a adminOnly :
  ProtectedRoute a adminOnly = Children ↔
    isLoading a = false ∧ isAuthenticated a = true ∧ (adminOnly = true → isAdmin a = true).
Proof.
  unfold ProtectedRoute.
  destruct (isLoading a), (isAuthenticated a), adminOnly, (isAdmin a); simpl; naive_solver.
Qed.

(** C37. The loading screen always ends: in every reachable state of the
    provider, while [isLoading] holds the [initAuth] continuation is
    pending, so its settling (with a user, without one, or by a rejection)
    is enabled and clears [isLoading]; and once clear, no event sets it
    again. *)
Theorem loading_ends a : auth_reach a →
  (isLoading a = true → ∀ r, ∃ a', auth_step (InitSettled r) a = Some a' ∧ isLoading a' = false) ∧
  (isLoading a = false → ∀ e a', auth_step e a = Some a' → isLoading a' = false).
Proof.
  intros Hreach. pose proof (auth_reach_loading_inv a Hreach) as Hinv. split.
  - intros Hl r. unfold loading_inv in Hinv. rewrite Hl in Hinv.
    assert (TInit ∈ tasks a) as Hin by (destruct (decide (TInit ∈ tasks a)) as [|Hn]; [done|];
      apply inits_zero in Hn; lia).
    destruct (take_task_Some _ _ Hin) as [ts Hts].
    eexists. split; [simpl; unfold settle; rewrite Hts; reflexivity | done].
  - intros Hl e a' Hs. rewrite (isLoading_step e a a' Hs). by destruct e.
Qed.

(** ** A run: a refresh that outlives a logout *)

Definition jo : User.t := User.mk "user_1" "jo@b.com" "Jo Lee" User.role_user 10 0 "" "".

Definition logged_out_events : list AuthEvent :=
  [InitSettled (Some (Some jo)); RefreshCalled; LogoutCalled; LogoutSettled true].

Lemma loading_ends_witness :
  ∃ a', auth_step (InitSettled (Some (Some jo))) auth_start = Some a' ∧ isLoading a' = false.
Proof. apply (loading_ends auth_start auth_reach_start). reflexivity. Defined.

(** [refreshUser] captures [user] when it is called and sets the user
    its promise settles with, whatever happened meanwhile: a refresh
    started before a logout and settling after it signs the user back in,
    and the protected pages render again. *)
Theorem refresh_after_logout :
  (λ a, ProtectedRoute a false) <$> auth_run logged_out_events auth_start = Some (Navigate "/auth") ∧
  (λ a, (user a, ProtectedRoute a false)) <$>
    auth_run (logged_out_events ++ [RefreshSettled (Some (Some jo))]) auth_start = Some (Some jo, Children).
Proof. split; reflexivity. Qed.

(** A component under the provider that calls [login(u)] from [useAuth()]
    reads, at the next render, [u] as the user, authenticated, with the
    same loading flag; outside any provider [useAuth] throws. *)
Lemma useAuth_login a u :
  (∃ c, useAuth (Some (provider_value a)) = Ok c ∧
     ∃ a', auth_step (ctx_login c u) a = Some a' ∧ ctx_user (provider_value a') = Some u ∧
       ctx_isAuthenticated (provider_value a') = true ∧ ctx_isLoading (provider_value a') = isLoading a) ∧
  useAuth None = Err "useAuth must be used within an AuthProvider".
Proof. split; [|done]. eexists. split; [reflexivity|]. by eexists. Qed.
