(* ===== verification/Header.v ===== *)
(** * The header ([components/Header.tsx])

    The header has one piece of state, [isMobileMenuOpen], and reads the
    session of [AuthProvider] ([Session.Auth]).  Its [landing] variant is
    a fixed bar of three links.  Its [authenticated] variant shows, for a
    signed-in user, a desktop bar and a mobile bar, and below them the
    mobile dropdown when the menu is open; a member (not an administrator)
    also gets the points box and the links to the member pages.  The
    [NotificationBell] it renders in both bars is a component of its own
    ([Bell]); here it is a slot of the view.

    The theorems: an administrator is never offered the member pages nor
    shown points, on any bar and whatever the menu state; and after the
    logout button, whichever bar it is clicked on, the menu is closed and
    the header navigates to [/] while the logout is still pending. *)

From S2P Require Import Prelude JsString Model Session.

Local Open Scope Z_scope.

(** [variant?: 'landing' | 'authenticated'], [authenticated] by default. *)
Inductive Variant := VLanding | VAuthenticated.

(** A [Link]: its text and its [to]. *)
Definition link : Type := string * string.

(** The points box of the desktop bar: eco-points and credits. *)
Record DesktopBar := mkDesktopBar {
  db_points : option (Z * Z);
  db_bell : bool;
  db_name : option string;
  db_links : list link;
  db_logout : bool;
}.

Record MobileBar := mkMobileBar {
  mb_points : option Z;
  mb_bell : bool;
  mb_menu_icon_close : bool;
}.

Record Dropdown := mkDropdown {
  dd_name : option string;
  dd_email : option string;
  dd_links : list link;
  dd_credits : option (Z * Z);
  dd_logout : bool;
}.

Inductive HeaderView :=
| LandingBar (links : list link)
| AppBar (home : string) (desktop : option DesktopBar) (mobile : option MobileBar)
    (dropdown : option Dropdown).

Definition landing_links : list link :=
  [("About", "/about-us"); ("Login", "/auth"); ("Register", "/auth?tab=register")].

Definition member_links : list link :=
  [("Dashboard", "/dashboard"); ("Report", "/report"); ("Awareness", "/awareness")].

Definition member_menu_links : list link :=
  [("Dashboard", "/dashboard"); ("Report Rubbish", "/report"); ("Awareness", "/awareness")].

(** [{!isAdmin && (...)}] *)
Definition unless_admin {A} (a : Auth) (x : A) : option A := if isAdmin a then None else Some x.

Definition unless_admin_list {A} (a : Auth) (l : list A) : list A := if isAdmin a then [] else l.

(** The render of [Header]. *)
Definition Header (variant : Variant) (a : Auth) (isMobileMenuOpen : bool) : HeaderView :=
  match variant with
  | VLanding => LandingBar landing_links
  | VAuthenticated =>
      let name := User.name <$> user a in
      AppBar (home_link a)
        (if isAuthenticated a then
           Some (mkDesktopBar (unless_admin a (points_shown a, credits_shown a)) true name
                   (unless_admin_list a member_links) true)
         else None)
        (if isAuthenticated a then
           Some (mkMobileBar (unless_admin a (points_shown a)) true isMobileMenuOpen)
         else None)
        (if isAuthenticated a && isMobileMenuOpen then
           Some (mkDropdown name (User.email <$> user a) (unless_admin_list a member_menu_links)
                   (unless_admin a (points_shown a, credits_shown a)) true)
         else None)
  end.

(** The header's handlers: the hamburger button, a link of the dropdown
    (which closes the menu before the router follows it), and the two
    logout buttons. *)
Inductive HeaderEvent :=
| ToggleMenu
| MenuLinkClicked (to : string)
| LogoutClicked.

(** One handler: the session, the menu flag, and where the router goes. *)
Definition header_step (e : HeaderEvent) (a : Auth) (isMobileMenuOpen : bool) : Auth * bool * option string :=
  match e with
  | ToggleMenu => (a, negb isMobileMenuOpen, None)
  | MenuLinkClicked to => (a, false, Some to)
  | LogoutClicked => let '(a', to, menu) := handleLogout a in (a', menu, Some to)
  end.

(** ** What the header offers *)

(** The links and points a view shows anywhere. *)
Definition view_links (v : HeaderView) : list link :=
  match v with
  | LandingBar ls => ls
  | AppBar _ d _ dd =>
      default [] (db_links <$> d) ++ default [] (dd_links <$> dd)
  end.

Definition view_shows_points (v : HeaderView) : bool :=
  match v with
  | LandingBar _ => false
  | AppBar _ d m dd =>
      bool_decide (is_Some (d ≫= db_points)) || bool_decide (is_Some (m ≫= mb_points)) ||
      bool_decide (is_Some (dd ≫= dd_credits))
  end.

Lemma unless_admin_admin {A} a (x : A) : isAdmin a = true → unless_admin a x = None.
Proof. unfold unless_admin. by intros ->. Qed.

Lemma unless_admin_list_admin {A} a (l : list A) : isAdmin a = true → unless_admin_list a l = [].
Proof. unfold unless_admin_list. by intros ->. Qed.

(** The member pages of the application. *)
Definition member_page (to : string) : bool :=
  bool_decide (to ∈ ["/dashboard"; "/report"; "/awareness"]).

(** An administrator of the authenticated header is offered no member page
    and no points, in every menu state, and its logo leads to [/admin]. *)
Theorem Header_admin_view a menu :
  isAdmin a = true →
  forallb (λ l, negb (member_page l.2)) (view_links (Header VAuthenticated a menu)) = true ∧
  view_shows_points (Header VAuthenticated a menu) = false ∧
  (∃ d m dd, Header VAuthenticated a menu = AppBar "/admin" d m dd).
Proof.
  intros Ha. unfold Header, home_link. rewrite Ha, !unless_admin_admin, !unless_admin_list_admin by done.
  split_and!; [| | by do 3 eexists].
  - by destruct (isAuthenticated a), menu.
  - by destruct (isAuthenticated a), menu.
Qed.

(** Either logout button closes the menu, so the dropdown is gone, sends
    the router to [/], and leaves the session with its [logout] pending:
    the user is still set until the logout settles. *)
Theorem Header_logout a menu :
  header_step LogoutClicked a menu = (start TLogout a, false, Some "/") ∧
  (∃ h d m, Header VAuthenticated (start TLogout a) false = AppBar h d m None) ∧
  user (start TLogout a) = user a.
Proof.
  split_and!; [reflexivity | | reflexivity].
  unfold Header. rewrite andb_false_r. by do 3 eexists.
Qed.

(** ** The header of two sessions *)

Definition admin_session : Auth :=
  mkAuth (Some (User.mk "admin_admin@srd.com" "admin@srd.com" "Admin" User.role_admin 0 0 "" "")) false [].

Definition member_session : Auth :=
  mkAuth (Some (User.mk "user_1" "jo@b.com" "Jo Lee" User.role_user 120 1 "" "")) false [].

Lemma Header_admin_view_witness :
  forallb (λ l, negb (member_page l.2)) (view_links (Header VAuthenticated admin_session true)) = true ∧
  view_shows_points (Header VAuthenticated admin_session true) = false ∧
  (∃ d m dd, Header VAuthenticated admin_session true = AppBar "/admin" d m dd).
Proof. apply Header_admin_view. reflexivity. Defined.

(** A member with the menu open sees the member links twice (bar and
    dropdown) and the points on all three parts. *)
Example Header_member_demo :
  view_links (Header VAuthenticated member_session true) = member_links ++ member_menu_links ∧
  view_shows_points (Header VAuthenticated member_session true) = true ∧
  Header VAuthenticated member_session false =
    AppBar "/dashboard" (Some (mkDesktopBar (Some (120, 1)) true (Some "Jo Lee") member_links true))
      (Some (mkMobileBar (Some 120) true false)) None.
Proof. split_and!; reflexivity. Qed.
