(* ===== verification/System.v ===== *)
(** * The whole store as a transition system (all of [storage.ts])

    Every exported operation of [storage.ts] that reads or writes the
    store is one step [run_op] of it; [sys_reach st0 st] holds when some
    sequence of them, with any inputs and any environment (the clock, the
    random digits, the writes the store refuses), leads from [st0] to [st].
    [loginAdmin] never touches the store and [sendEmailNotification] only
    writes to the console, so neither is a step.  By induction on
    [sys_reach] this file proves what the program as a whole keeps:

    - the users array changes only in three ways ([users_update]): it is
      created empty, one account is appended, or it is rewritten account by
      account keeping ids and never lowering eco-points.  From this write
      discipline follow the derivation of credits from eco-points
      (section 3 and property 8.1 of the spec) and the monotonicity of
      eco-points;
    - the reports array refines the abstract ledger [LedgerSpec]: a list of
      entries (id, owner, type, description, status) whose only actions are
      appending a pending entry and setting the status of the first entry
      with a given id; every run of the program is a run of this ledger. *)

From S2P Require Import Prelude JsString Validation KVStore Clock Model Accounts Reports Notifications Migration.

(** ** The operations *)

Inductive Op :=
| OpInitializeStorage (c : Ctx)
| OpRegisterUser (email password name : string) (c : Ctx)
| OpLoginUser (email password : string)
| OpGetAllUsers
| OpGetCurrentUser (userId : string)
| OpUpdateCurrentUser (userId : string) (c : Ctx)
| OpSaveReport (report : Report.Input) (c : Ctx)
| OpGetReports
| OpUpdateReportStatus (reportId : string) (status : Report.Status) (c : Ctx)
| OpGetUserStats
| OpInitializeNotifications
| OpOutbox (op : OutboxOp).

(** ** The abstract report ledger *)

Module LedgerSpec.

Record entry := mkEntry {
  e_id : string;
  e_user : string;
  e_type : string;
  e_description : string;
  e_status : Report.Status;
}.

Inductive action :=
| Submit (e : entry)
| SetStatus (rid : string) (s : Report.Status).

Definition with_status (s : Report.Status) (e : entry) : entry :=
  mkEntry (e_id e) (e_user e) (e_type e) (e_description e) s.

Definition entry_id_is (rid : string) (e : entry) : Prop := e_id e = rid.
#[global] Instance entry_id_is_dec rid e : Decision (entry_id_is rid e).
Proof. unfold entry_id_is. apply _. Defined.

(** A submission appends; a status change rewrites the first entry with
    the id, and does nothing when there is none. *)
Definition apply (a : action) (l : list entry) : list entry :=
  match a with
  | Submit e => l ++ [e]
  | SetStatus rid s =>
      match list_find (entry_id_is rid) l with
      | Some (i, e) => <[i := with_status s e]> l
      | None => l
      end
  end.

(** New entries are pending; any status may be set. *)
Definition allowed (a : action) : Prop :=
  match a with
  | Submit e => e_status e = Report.pending
  | SetStatus _ _ => True
  end.

Inductive step : list entry → list entry → Prop :=
| step_apply a l : allowed a → step l (apply a l).

Definition reach : list entry → list entry → Prop := rtc step.

(** No entry is ever removed or reordered: the ids of a ledger are a prefix
    of the ids of every ledger it reaches. *)
Lemma apply_ids a l : map e_id l `prefix_of` map e_id (apply a l).
Proof.
  destruct a as [e|rid s]; simpl.
  - rewrite map_app. by eexists.
  - destruct (list_find _ l) as [[i e]|] eqn:Hf; [|done].
    apply list_find_Some in Hf as [Hi _]. revert i Hi.
    induction l as [|x l IH]; intros [|i] Hi; simpl in *; simplify_eq; [done|].
    by apply prefix_cons, IH.
Qed.

Lemma reach_ids_prefix l l' : reach l l' → map e_id l `prefix_of` map e_id l'.
Proof.
  induction 1 as [|l1 l2 l3 [a l] _ IH]; [done|].
  etrans; [apply apply_ids | exact IH].
Qed.

End LedgerSpec.

(** The abstraction of a stored report, and of the reports array. *)
Definition entry_of (r : Report.t) : LedgerSpec.entry :=
  LedgerSpec.mkEntry (Report.id r) (Report.userId r) (Report.type r) (Report.description r) (Report.status r).

Definition ledger (d : option Doc) : list LedgerSpec.entry :=
  match d with
  | Some (DReports rs) => map entry_of rs
  | _ => []
  end.
Arguments ledger : simpl never.

(** ** The accounts: their invariant and write discipline *)

(** Eco-points are a natural number and credits are derived from them. *)
Definition user_ok (su : StoredUser.t) : Prop :=
  let u := StoredUser.user su in
  (0 <= User.ecoPoints u)%Z ∧ User.credits u = credits_of (User.ecoPoints u).

Definition users_ok (d : option Doc) : Prop :=
  ∀ us, d = Some (DUsers us) → Forall user_ok us.

(** An account rewritten in place: same id, no fewer eco-points, and still
    well formed if it was. *)
Definition user_step (su su' : StoredUser.t) : Prop :=
  User.id (StoredUser.user su') = User.id (StoredUser.user su) ∧
  (User.ecoPoints (StoredUser.user su) <= User.ecoPoints (StoredUser.user su'))%Z ∧
  (user_ok su → user_ok su').

(** The three ways the users array is written. *)
Inductive users_update : option Doc → list StoredUser.t → Prop :=
| users_create d : falsy d = true → users_update d []
| users_push us su : user_ok su → users_update (Some (DUsers us)) (us ++ [su])
| users_pointwise us us' : Forall2 user_step us us' → users_update (Some (DUsers us)) us'.

Definition users_write (d d' : option Doc) : Prop :=
  ∃ us', d' = Some (DUsers us') ∧ users_update d us'.

Definition users_evolves : option Doc → option Doc → Prop := rtc users_write.

(** [users.find(u => u.id === userId).ecoPoints] *)
Definition points_of (d : option Doc) (uid : string) : option Z :=
  match d with
  | Some (DUsers us) =>
      (λ su, User.ecoPoints (StoredUser.user su)) <$> List.find (λ su, bool_decide (id_is uid su)) us
  | _ => None
  end.

(** The type of the document under each key: the four JSON keys of
    [STORAGE_KEYS] hold [JSON.stringify] of their declared types
    ([User & { password }][], [Report][], [Notification][], [User]), and
    text that is not one of them sits under another key ([VERSION]). *)
Definition doc_at (k : string) (d : Doc) : bool :=
  match d with
  | DUsers _ => bool_decide (k = USERS)
  | DReports _ => bool_decide (k = REPORTS)
  | DNotifications _ => bool_decide (k = NOTIFICATIONS)
  | DUser _ => bool_decide (k = CURRENT_USER)
  | DText _ => bool_decide (k ∉ [USERS; REPORTS; NOTIFICATIONS; CURRENT_USER])
  end.

Definition store_typed (m : gmap string Doc) : Prop := map_Forall (λ k d, doc_at k d = true) m.

(** ** The system *)

Section System.
Context {S : Type} `{!StoreAdapter Doc S}.

Definition run_op (op : Op) (st : S) : S :=
  match op with
  | OpInitializeStorage c => initializeStorage c st
  | OpRegisterUser e p n c => (registerUser e p n c st).1
  | OpLoginUser e p => (loginUser e p st).1
  | OpGetAllUsers => (getAllUsers st).1
  | OpGetCurrentUser u => (getCurrentUser u st).1
  | OpUpdateCurrentUser u c => (updateCurrentUser u c st).1
  | OpSaveReport r c => (saveReport r c st).1
  | OpGetReports => (getReports st).1
  | OpUpdateReportStatus rid s c => (updateReportStatus rid s c st).1
  | OpGetUserStats => (getUserStats st).1
  | OpInitializeNotifications => initializeNotifications st
  | OpOutbox o => run_outbox o st
  end.

(** The stores reachable from [st0] by any sequence of operations. *)
Inductive sys_reach (st0 : S) : S → Prop :=
| sys_reach_refl : sys_reach st0 st0
| sys_reach_step st op : sys_reach st0 st → sys_reach st0 (run_op op st).

End System.

(** ** Reading the operations as writes on the contents *)

Section StoreFacts.
Context {S : Type} `{!StoreAdapter Doc S} `{!StoreAdapterLaws Doc S}.

Lemma sa_set_eq_view k v s s' b :
  sa_set k v s = (s', b) → sa_view s' = if b then <[k:=v]> (sa_view s) else sa_view s.
Proof. intros E. pose proof (sa_set_view k v s) as H. by rewrite E in H. Qed.

Lemma sa_set_eq_readable k v s s' b : sa_readable s → sa_set k v s = (s', b) → sa_readable s'.
Proof. intros Hr E. pose proof (sa_set_readable k v s Hr) as H. by rewrite E in H. Qed.

End StoreFacts.

Lemma bind_as_users d us : d ≫= as_users = Some us → d = Some (DUsers us).
Proof. destruct d as [[]|]; simpl; congruence. Qed.
Lemma bind_as_reports d rs : d ≫= as_reports = Some rs → d = Some (DReports rs).
Proof. destruct d as [[]|]; simpl; congruence. Qed.
Lemma bind_as_notifications d ns : d ≫= as_notifications = Some ns → d = Some (DNotifications ns).
Proof. destruct d as [[]|]; simpl; congruence. Qed.

Section ReadableSteps.
Context {S : Type} `{!StoreAdapter Doc S} `{!StoreAdapterLaws Doc S}.

Lemma migrate_reports_readable now st : sa_readable st → sa_readable (migrate_reports now st).1.
Proof.
  intros Hr. unfold migrate_reports. rewrite sa_get_readable by done.
  repeat case_match; simpl; auto using sa_set_readable.
Qed.

Lemma migrate_users_readable now st : sa_readable st → sa_readable (migrate_users now st).1.
Proof.
  intros Hr. unfold migrate_users. rewrite sa_get_readable by done.
  repeat case_match; simpl; auto using sa_set_readable.
Qed.

Lemma migrateStorage_readable v c st : sa_readable st → sa_readable (migrateStorage v c st).
Proof.
  intros Hr. unfold migrateStorage. pose proof (migrate_reports_readable (now_iso c) st Hr).
  destruct (migrate_reports _ st) as [s1 ok1]. simpl in *.
  pose proof (migrate_users_readable (now_iso c) s1 ltac:(done)).
  destruct (migrate_users _ s1) as [s2 ok2]. simpl in *.
  repeat case_match; auto using sa_log_readable.
Qed.

End ReadableSteps.

Ltac readable_solve :=
  repeat first [ assumption | apply sa_set_readable | apply sa_log_readable
               | apply migrateStorage_readable ].

(** Split on the innermost branch point whose scrutinee reads nothing. *)
Ltac split_inner :=
  match goal with
  | |- context [match ?x with _ => _ end] =>
      lazymatch x with
      | context [sa_get _ _] => fail
      | context [match _ with _ => _ end] => fail
      | _ => destruct x eqn:?
      end
  end.

(** One step of reading an unfolded operation on a readable store: a read
    answers with the contents, a write is a possible insertion, a log
    changes nothing, and the branches split on the answers. *)
Ltac store_step :=
  first
  [ match goal with |- context [sa_get ?k ?s] => rewrite (sa_get_readable k s) by readable_solve end
  | progress rewrite ?sa_log_view, ?sa_set_view
  | match goal with
    | E : ?d ≫= as_users = Some _ |- _ => apply bind_as_users in E
    | E : ?d ≫= as_reports = Some _ |- _ => apply bind_as_reports in E
    | E : ?d ≫= as_notifications = Some _ |- _ => apply bind_as_notifications in E
    | E : sa_set ?k ?v ?s = (?s', ?b) |- _ =>
        let Hr := fresh "Hr" in
        assert (sa_readable s') as Hr by (apply (sa_set_eq_readable k v s s' b); [readable_solve | exact E]);
        apply sa_set_eq_view in E
    | E : sa_view ?s = _ |- context [sa_view ?s] => rewrite E
    end
  | progress cbv zeta
  | split_inner
  | progress simpl ].

Ltac key_ne := unfold USERS, REPORTS, NOTIFICATIONS, VERSION, CURRENT_USER; discriminate.

(** Look a key up through the writes of an operation. *)
Ltac lookup_writes :=
  repeat first [ rewrite lookup_insert_eq | rewrite lookup_insert_ne by key_ne ].

(** ** The write discipline of the users array *)

Lemma user_step_refl su : user_step su su.
Proof. split_and!; [done | lia | done]. Qed.

Lemma users_rewrite_at us i su su' :
  us !! i = Some su → user_step su su' → Forall2 user_step us (<[i:=su']> us).
Proof.
  intros Hi Hs. rewrite <-(list_insert_id us i su) at 1 by done.
  apply Forall2_insert; [|done]. apply Forall_Forall2_diag, Forall_forall. intros. apply user_step_refl.
Qed.

Lemma users_rewrite_map f us : (∀ su, user_step su (f su)) → Forall2 user_step us (map f us).
Proof. intros Hf. induction us; simpl; constructor; auto. Qed.

Lemma new_user_ok c email password name : user_ok (new_user c email password name).
Proof. done. Qed.

Lemma award_points_step now su : user_step su (award_points now su).
Proof. unfold user_step, user_ok. simpl. split_and!; [done | lia | intros [? _]; split; [lia | done]]. Qed.

Lemma sync_credits_step now su : user_step su (sync_credits now su).
Proof. unfold user_step, user_ok. simpl. split_and!; [done | lia | intros [? _]; split; [lia | done]]. Qed.

Lemma migrate_user_step now su : user_step su (migrate_user now su).
Proof. unfold user_step, user_ok. simpl. split_and!; [done | lia | done]. Qed.

#[export] Hint Resolve user_step_refl users_rewrite_at users_rewrite_map new_user_ok
  award_points_step sync_credits_step migrate_user_step : srd.

Lemma users_evolves_write d us : users_update d us → users_evolves d (Some (DUsers us)).
Proof. intros H. apply rtc_once. by exists us. Qed.

Lemma users_evolves_other d : users_evolves d d.
Proof. apply rtc_refl. Qed.

#[export] Hint Resolve users_evolves_write users_evolves_other : srd.
#[export] Hint Constructors users_update : srd.

(** Unfold an operation into its branches, each a fact on the contents. *)
Ltac op_branches :=
  repeat store_step; lookup_writes;
  repeat match goal with H : _ |- _ => progress (rewrite ?lookup_insert_eq in H) end;
  repeat match goal with H : _ |- _ => rewrite lookup_insert_ne in H by key_ne end;
  try discriminate;
  repeat match goal with H : sa_view ?s !! ?k = _ |- _ => rewrite H in * end.

Ltac users_solve :=
  op_branches;
  repeat match goal with
  | H : list_find _ _ = Some (_, _) |- _ => apply list_find_Some in H as [? [? _]]
  end;
  eauto 6 with srd.

Section UsersDiscipline.
Context {S : Type} `{!StoreAdapter Doc S} `{!StoreAdapterLaws Doc S}.

Lemma migrate_reports_users now st : sa_readable st →
  sa_view (migrate_reports now st).1 !! USERS = sa_view st !! USERS.
Proof. intros Hr0. unfold migrate_reports. op_branches; done. Qed.

Lemma migrate_users_users now st : sa_readable st →
  users_evolves (sa_view st !! USERS) (sa_view (migrate_users now st).1 !! USERS).
Proof. intros Hr0. unfold migrate_users. users_solve. Qed.

Lemma migrateStorage_users v c st : sa_readable st →
  users_evolves (sa_view st !! USERS) (sa_view (migrateStorage v c st) !! USERS).
Proof.
  intros Hr0. unfold migrateStorage.
  pose proof (migrate_reports_readable (now_iso c) st Hr0) as Hr1.
  pose proof (migrate_reports_users (now_iso c) st Hr0) as U1.
  destruct (migrate_reports _ st) as [s1 ok1]. simpl in *.
  pose proof (migrate_users_readable (now_iso c) s1 Hr1).
  pose proof (migrate_users_users (now_iso c) s1 Hr1) as U2.
  destruct (migrate_users _ s1) as [s2 ok2]. simpl in *.
  repeat case_match; rewrite ?sa_log_view, <-?U1; eauto with srd.
Qed.

Lemma run_op_users op st : sa_readable st →
  users_evolves (sa_view st !! USERS) (sa_view (run_op op st) !! USERS).
Proof.
  intros Hr0. destruct op as [c|e p n c|e p| |u|u c|r c| |rid s c| | |[]]; simpl.
  - pose proof (migrateStorage_users (sa_view st !! VERSION) c st Hr0).
    unfold initializeStorage. users_solve;
      (eapply rtc_trans; [eassumption|]; apply users_evolves_write, users_create; assumption).
  - unfold registerUser. users_solve.
  - unfold loginUser. users_solve.
  - unfold getAllUsers. users_solve.
  - unfold getCurrentUser. users_solve.
  - unfold updateCurrentUser. users_solve.
  - unfold saveReport, award_owner. users_solve.
  - unfold getReports. users_solve.
  - unfold updateReportStatus. users_solve.
  - unfold getUserStats. users_solve.
  - unfold initializeNotifications. users_solve.
  - unfold createNotification, initializeNotifications. users_solve.
  - unfold getUserNotifications, initializeNotifications. users_solve.
  - unfold getUnreadNotificationCount, getUserNotifications, initializeNotifications. users_solve.
  - unfold markNotificationAsRead. users_solve.
  - unfold markAllNotificationsAsRead. users_solve.
Qed.

End UsersDiscipline.

(** ** What the write discipline keeps *)

Lemma users_ok_write d d' : users_write d d' → users_ok d → users_ok d'.
Proof.
  intros (us' & -> & Hu) Hok us [= <-]. destruct Hu as [d Hf|us su Hsu|us us' H2].
  - constructor.
  - apply Forall_app; split; [by apply Hok | by constructor].
  - specialize (Hok us eq_refl). induction H2 as [|x y l l' [_ [_ Hxy]] _ IH]; [constructor|].
    inversion Hok; subst. constructor; auto.
Qed.

Lemma users_ok_evolves d d' : users_evolves d d' → users_ok d → users_ok d'.
Proof. induction 1; eauto using users_ok_write. Qed.

(** The account an id finds after a pointwise rewrite is the rewrite of the
    account it found before. *)
Lemma find_user_step uid us us' su :
  Forall2 user_step us us' → List.find (λ su, bool_decide (id_is uid su)) us = Some su →
  ∃ su', List.find (λ su, bool_decide (id_is uid su)) us' = Some su' ∧ user_step su su'.
Proof.
  induction 1 as [|x y l l' Hxy _ IH]; simpl; [done|]. destruct Hxy as (Hid & Hle & Hok).
  assert (bool_decide (id_is uid y) = bool_decide (id_is uid x)) as ->
    by (apply bool_decide_ext; unfold id_is; by rewrite Hid).
  case_bool_decide; [intros [= <-]; eexists; split; [done | by split] | done].
Qed.

Definition points_grow (d d' : option Doc) : Prop :=
  ∀ uid p, points_of d uid = Some p → ∃ p', points_of d' uid = Some p' ∧ (p <= p')%Z.

Lemma points_grow_write d d' : users_write d d' → points_grow d d'.
Proof.
  intros (us' & -> & Hu) uid p. destruct Hu as [d Hf|us su Hsu|us us' H2].
  - destruct d as [[]|]; simpl in *; done.
  - simpl. rewrite find_app. destruct (List.find _ us); simpl; [|done]. intros [= <-]. eauto with lia.
  - simpl. destruct (List.find _ us) as [su|] eqn:Hf; simpl; [|done]. intros [= <-].
    destruct (find_user_step uid us us' su H2 Hf) as (su' & -> & _ & Hle & _). eauto.
Qed.

Lemma points_grow_evolves d d' : users_evolves d d' → points_grow d d'.
Proof.
  induction 1 as [d|d1 d2 d3 H12 _ IH]; [intros uid p Hp; exists p; split; [done | lia]|].
  intros uid p Hp. destruct (points_grow_write _ _ H12 uid p Hp) as (p2 & H2 & Hle2).
  destruct (IH uid p2 H2) as (p3 & H3 & Hle3). exists p3. split; [done | lia].
Qed.

Section SystemProofs.
Context {S : Type} `{!StoreAdapter Doc S} `{!StoreAdapterLaws Doc S}.

Lemma run_op_readable op st : sa_readable st → sa_readable (run_op op st).
Proof.
  intros Hr0. destruct op as [c|e p n c|e p| |u|u c|r c| |rid s c| | |[]]; simpl;
  unfold initializeStorage, registerUser, loginUser, getAllUsers, getCurrentUser, updateCurrentUser,
    saveReport, award_owner, getReports, updateReportStatus, getUserStats, run_outbox,
    createNotification, getUnreadNotificationCount, getUserNotifications, initializeNotifications,
    markNotificationAsRead, markAllNotificationsAsRead;
  repeat store_step; readable_solve.
Qed.

Lemma sys_reach_readable st0 st : sa_readable st0 → sys_reach st0 st → sa_readable st.
Proof. intros Hr0. induction 1; [done | by apply run_op_readable]. Qed.

(** Every state a run reaches is readable, and the users array of the
    last one is an evolution of the first one's. *)
Lemma sys_reach_users st0 st : sa_readable st0 → sys_reach st0 st →
  sa_readable st ∧ users_evolves (sa_view st0 !! USERS) (sa_view st !! USERS).
Proof.
  intros Hr0 Hreach. split; [by eapply sys_reach_readable|].
  induction Hreach as [|st op Hreach IH]; [apply rtc_refl|].
  eapply rtc_trans; [exact IH | apply run_op_users; by eapply sys_reach_readable].
Qed.

End SystemProofs.

(** ** The reports array refines the abstract ledger *)

Lemma ledger_reach_refl d : LedgerSpec.reach (ledger d) (ledger d).
Proof. apply rtc_refl. Qed.

Lemma ledger_reach_submit rs r : Report.status r = Report.pending →
  LedgerSpec.reach (ledger (Some (DReports rs))) (ledger (Some (DReports (rs ++ [r])))).
Proof.
  intros Hp. apply rtc_once. unfold ledger. rewrite map_app.
  apply (LedgerSpec.step_apply (LedgerSpec.Submit (entry_of r))). done.
Qed.

Lemma list_find_entries rid rs :
  list_find (LedgerSpec.entry_id_is rid) (map entry_of rs) =
    prod_map id entry_of <$> list_find (report_id_is rid) rs.
Proof.
  induction rs as [|r rs IH]; [done|]. simpl.
  case_decide as H1; case_decide as H2; unfold LedgerSpec.entry_id_is, report_id_is in *; simpl in *;
    try done.
  rewrite IH. by destruct (list_find _ rs) as [[]|].
Qed.

Lemma ledger_reach_set rs i r rid s now : list_find (report_id_is rid) rs = Some (i, r) →
  LedgerSpec.reach (ledger (Some (DReports rs)))
    (ledger (Some (DReports (<[i := set_status s now r]> rs)))).
Proof.
  intros Hf. apply rtc_once. unfold ledger.
  assert (list_find (LedgerSpec.entry_id_is rid) (map entry_of rs) = Some (i, entry_of r)) as Hf'.
  { by rewrite list_find_entries, Hf. }
  change (map entry_of (<[i:=set_status s now r]> rs)) with (entry_of <$> <[i:=set_status s now r]> rs).
  rewrite list_fmap_insert. change (entry_of <$> rs) with (map entry_of rs).
  assert (entry_of (set_status s now r) = LedgerSpec.with_status s (entry_of r)) as -> by done.
  match goal with |- LedgerSpec.step _ ?l' =>
    replace l' with (LedgerSpec.apply (LedgerSpec.SetStatus rid s) (map entry_of rs)) by (simpl; by rewrite Hf')
  end.
  by apply (LedgerSpec.step_apply (LedgerSpec.SetStatus rid s)).
Qed.

Lemma ledger_reach_create d : falsy d = true →
  LedgerSpec.reach (ledger d) (ledger (Some (DReports []))).
Proof. destruct d as [[]|]; simpl; try done; intros _; apply ledger_reach_refl. Qed.

Lemma ledger_reach_migrate now rs :
  LedgerSpec.reach (ledger (Some (DReports rs))) (ledger (Some (DReports (map (migrate_report now) rs)))).
Proof. unfold ledger. rewrite map_map. apply rtc_refl. Qed.

#[export] Hint Resolve ledger_reach_refl ledger_reach_submit ledger_reach_set ledger_reach_create
  ledger_reach_migrate : srd.

Ltac ledger_solve := op_branches; eauto with srd.

Section LedgerRefinement.
Context {S : Type} `{!StoreAdapter Doc S} `{!StoreAdapterLaws Doc S}.

Lemma migrate_reports_ledger now st : sa_readable st →
  LedgerSpec.reach (ledger (sa_view st !! REPORTS)) (ledger (sa_view (migrate_reports now st).1 !! REPORTS)).
Proof. intros Hr0. unfold migrate_reports. ledger_solve. Qed.

Lemma migrate_users_reports now st : sa_readable st →
  sa_view (migrate_users now st).1 !! REPORTS = sa_view st !! REPORTS.
Proof. intros Hr0. unfold migrate_users. op_branches; done. Qed.

Lemma migrateStorage_ledger v c st : sa_readable st →
  LedgerSpec.reach (ledger (sa_view st !! REPORTS)) (ledger (sa_view (migrateStorage v c st) !! REPORTS)).
Proof.
  intros Hr0. unfold migrateStorage.
  pose proof (migrate_reports_readable (now_iso c) st Hr0) as Hr1.
  pose proof (migrate_reports_ledger (now_iso c) st Hr0) as L1.
  destruct (migrate_reports _ st) as [s1 ok1]. simpl in *.
  pose proof (migrate_users_reports (now_iso c) s1 Hr1) as L2.
  destruct (migrate_users _ s1) as [s2 ok2]. simpl in *.
  repeat case_match; rewrite ?sa_log_view, ?L2; eauto with srd.
Qed.

Lemma run_op_ledger op st : sa_readable st →
  LedgerSpec.reach (ledger (sa_view st !! REPORTS)) (ledger (sa_view (run_op op st) !! REPORTS)).
Proof.
  intros Hr0. destruct op as [c|e p n c|e p| |u|u c|r c| |rid s c| | |[]]; simpl.
  - pose proof (migrateStorage_ledger (sa_view st !! VERSION) c st Hr0).
    unfold initializeStorage. ledger_solve;
      (eapply rtc_trans; [eassumption|]; apply ledger_reach_create; assumption).
  - unfold registerUser. ledger_solve.
  - unfold loginUser. ledger_solve.
  - unfold getAllUsers. ledger_solve.
  - unfold getCurrentUser. ledger_solve.
  - unfold updateCurrentUser. ledger_solve.
  - unfold saveReport, award_owner. ledger_solve.
  - unfold getReports. ledger_solve.
  - unfold updateReportStatus. ledger_solve.
  - unfold getUserStats. ledger_solve.
  - unfold initializeNotifications. ledger_solve.
  - unfold createNotification, initializeNotifications. ledger_solve.
  - unfold getUserNotifications, initializeNotifications. ledger_solve.
  - unfold getUnreadNotificationCount, getUserNotifications, initializeNotifications. ledger_solve.
  - unfold markNotificationAsRead. ledger_solve.
  - unfold markAllNotificationsAsRead. ledger_solve.
Qed.

End LedgerRefinement.

(** ** Every write has the type of its key *)

Lemma store_typed_insert k d m : doc_at k d = true → store_typed m → store_typed (<[k:=d]> m).
Proof. intros. by apply map_Forall_insert_2. Qed.

Ltac typed_solve :=
  op_branches;
  repeat first [ assumption | apply store_typed_insert; [reflexivity|] ].

Section StoreTyping.
Context {S : Type} `{!StoreAdapter Doc S} `{!StoreAdapterLaws Doc S}.

Lemma migrate_reports_typed now st : sa_readable st → store_typed (sa_view st) →
  store_typed (sa_view (migrate_reports now st).1).
Proof. intros Hr0 Ht. unfold migrate_reports. typed_solve. Qed.

Lemma migrate_users_typed now st : sa_readable st → store_typed (sa_view st) →
  store_typed (sa_view (migrate_users now st).1).
Proof. intros Hr0 Ht. unfold migrate_users. typed_solve. Qed.

Lemma migrateStorage_typed v c st : sa_readable st → store_typed (sa_view st) →
  store_typed (sa_view (migrateStorage v c st)).
Proof.
  intros Hr0 Ht. unfold migrateStorage.
  pose proof (migrate_reports_readable (now_iso c) st Hr0) as Hr1.
  pose proof (migrate_reports_typed (now_iso c) st Hr0 Ht) as T1.
  destruct (migrate_reports _ st) as [s1 ok1]. simpl in *.
  pose proof (migrate_users_typed (now_iso c) s1 Hr1 T1) as T2.
  destruct (migrate_users _ s1) as [s2 ok2]. simpl in *.
  repeat case_match; rewrite ?sa_log_view; assumption.
Qed.

Lemma run_op_typed op st : sa_readable st → store_typed (sa_view st) → store_typed (sa_view (run_op op st)).
Proof.
  intros Hr0 Ht. destruct op as [c|e p n c|e p| |u|u c|r c| |rid s c| | |[]]; simpl.
  - pose proof (migrateStorage_typed (sa_view st !! VERSION) c st Hr0 Ht).
    unfold initializeStorage. typed_solve.
  - unfold registerUser. typed_solve.
  - unfold loginUser. typed_solve.
  - unfold getAllUsers. typed_solve.
  - unfold getCurrentUser. typed_solve.
  - unfold updateCurrentUser. typed_solve.
  - unfold saveReport, award_owner. typed_solve.
  - unfold getReports. typed_solve.
  - unfold updateReportStatus. typed_solve.
  - unfold getUserStats. typed_solve.
  - unfold initializeNotifications. typed_solve.
  - unfold createNotification, initializeNotifications. typed_solve.
  - unfold getUserNotifications, initializeNotifications. typed_solve.
  - unfold getUnreadNotificationCount, getUserNotifications, initializeNotifications. typed_solve.
  - unfold markNotificationAsRead. typed_solve.
  - unfold markAllNotificationsAsRead. typed_solve.
Qed.

End StoreTyping.

(** ** The properties of the whole program *)

Section SystemTheorems.
Context {S : Type} `{!StoreAdapter Doc S} `{!StoreAdapterLaws Doc S}.

(** C29. Credits stay derived from eco-points: if every stored account of
    a readable store has non-negative eco-points and credits equal to
    [Math.floor(ecoPoints / 100)], so does every stored account after any
    sequence of operations of [storage.ts]. *)
Theorem credits_derived st0 st :
  sa_readable st0 → users_ok (sa_view st0 !! USERS) → sys_reach st0 st →
  users_ok (sa_view st !! USERS).
Proof.
  intros Hr0 Hok Hreach. destruct (sys_reach_users st0 st Hr0 Hreach) as [_ Hev].
  by eapply users_ok_evolves.
Qed.

(** C30. Eco-points never decrease and accounts are never lost: the
    account an id finds in the users array is still found after any
    sequence of operations, with at least as many eco-points. *)
Theorem ecoPoints_monotone st0 st uid p :
  sa_readable st0 → sys_reach st0 st → points_of (sa_view st0 !! USERS) uid = Some p →
  ∃ p', points_of (sa_view st !! USERS) uid = Some p' ∧ (p <= p')%Z.
Proof.
  intros Hr0 Hreach. destruct (sys_reach_users st0 st Hr0 Hreach) as [_ Hev].
  by apply points_grow_evolves.
Qed.

(** C31. Refinement of the abstract ledger: the reports array of every
    store a run reaches is, read as a list of (id, owner, type,
    description, status) entries, reached from the initial one by the
    abstract ledger's actions only (appending a pending entry, setting the
    status of the first entry with an id). *)
Theorem ledger_refinement st0 st :
  sa_readable st0 → sys_reach st0 st →
  LedgerSpec.reach (ledger (sa_view st0 !! REPORTS)) (ledger (sa_view st !! REPORTS)).
Proof.
  intros Hr0 Hreach. induction Hreach as [|st op Hreach IH]; [apply rtc_refl|].
  eapply rtc_trans; [exact IH | apply run_op_ledger; by eapply sys_reach_readable].
Qed.

(** C32. Every key keeps the type of its document: if each of the four JSON
    keys of a readable store holds a document of its declared type, it
    does so after any sequence of operations of [storage.ts], so every
    [JSON.parse] of those keys gives a value of the type the code casts it
    to. *)
Theorem store_typed_invariant st0 st :
  sa_readable st0 → store_typed (sa_view st0) → sys_reach st0 st → store_typed (sa_view st).
Proof.
  intros Hr0 Ht Hreach. induction Hreach as [|st op Hreach IH]; [done|].
  apply run_op_typed; [by eapply sys_reach_readable | done].
Qed.

End SystemTheorems.

(** ** A concrete run on the browser's store *)

Definition op_register : Op := OpRegisterUser "a@b.com" "secret1" "Jo Lee" ctx_register.
Definition op_report : Op := OpSaveReport input_rocks ctx_report.
Definition report_rocks_id : string := fresh_id "report" ctx_report.
Definition ctx_review : Ctx := mkCtx 1762686060000 "z9y8x7w6v".
Definition ctx_reopen : Ctx := mkCtx 1762689660000 "m1n2b3v4c".

(** Register, report, resolve the report. *)
Definition store_resolved : Store Doc :=
  run_op (OpUpdateReportStatus report_rocks_id Report.resolved ctx_review)
    (run_op op_report (run_op op_register store_fresh)).

Lemma store_resolved_reach : sys_reach store_fresh store_resolved.
Proof. unfold store_resolved. do 3 apply sys_reach_step. apply sys_reach_refl. Qed.

Lemma credits_derived_witness :
  users_ok (sa_view store_resolved !! USERS).
Proof.
  apply (credits_derived store_fresh store_resolved); [reflexivity | | apply store_resolved_reach].
  intros us Hus. vm_compute in Hus. simplify_eq. constructor.
Defined.

Lemma ecoPoints_monotone_witness :
  ∃ p', points_of (sa_view (run_op op_report store_one_user) !! USERS) (fresh_id "user" ctx_register) = Some p'
    ∧ (0 <= p')%Z.
Proof.
  apply (ecoPoints_monotone store_one_user (run_op op_report store_one_user) _ 0);
    [reflexivity | apply sys_reach_step, sys_reach_refl | vm_compute; reflexivity].
Defined.

Lemma ledger_refinement_witness :
  LedgerSpec.reach (ledger (sa_view store_fresh !! REPORTS)) (ledger (sa_view store_resolved !! REPORTS)).
Proof. apply ledger_refinement; [reflexivity | apply store_resolved_reach]. Defined.

Lemma store_typed_invariant_witness : store_typed (sa_view store_resolved).
Proof.
  apply (store_typed_invariant store_fresh store_resolved);
    [reflexivity | apply (bool_decide_unpack _); vm_compute; reflexivity | apply store_resolved_reach].
Defined.

(** Status transitions are not forward-only: [updateReportStatus]
    moves a resolved report back to pending, although section 3 of the
    spec describes the status as advancing pending, reviewed, resolved. *)
Theorem updateReportStatus_backward :
  ledger (sa_view store_resolved !! REPORTS) =
    [LedgerSpec.mkEntry report_rocks_id (fresh_id "user" ctx_register) "Plastic Bottles"
       "Bottles left on the steps" Report.resolved] ∧
  ledger (sa_view (updateReportStatus report_rocks_id Report.pending ctx_reopen store_resolved).1 !! REPORTS) =
    [LedgerSpec.mkEntry report_rocks_id (fresh_id "user" ctx_register) "Plastic Bottles"
       "Bottles left on the steps" Report.pending].
Proof. split; vm_compute; reflexivity. Qed.
