(* ===== verification/Bell.v ===== *)
(** * The notification bell ([components/NotificationBell.tsx])

    The bell keeps three pieces of React state, [isOpen], [notifications]
    and [unreadCount], and reloads the last two from the outbox
    ([loadNotifications]: [getUserNotifications] then
    [getUnreadNotificationCount], two separate reads) when the user
    changes, every five seconds, and after each of its two write handlers.
    An event of [bell_step] is one of those callbacks; the store is
    threaded through the calls of [storage.ts] it makes.  [bell_view] is
    what it renders: nothing for no user or an administrator, otherwise the
    badge ([9+] above nine), the "Mark all read" button, and one item per
    notification with a mark-as-read button on the unread ones.  The
    relative time of an item ([formatDistanceToNow]) is text only and is
    not modelled.

    The theorems: on a readable store the badge always counts exactly the
    unread items the panel lists, although the two are read separately;
    and after "Mark all read" whose write succeeds the badge and the button
    are gone. *)

From S2P Require Import Prelude JsString KVStore Model Notifications System.

Record Bell := mkBell {
  isOpen : bool;
  notifications : list Notification.t;
  unreadCount : nat;
}.

(** [useState(false)], [useState([])], [useState(0)] *)
Definition bell_init : Bell := mkBell false [] 0.

Inductive BellEvent :=
| Refresh                               (* the effect on [user] and the 5 s poll *)
| ToggleOpen                            (* the bell button *)
| CloseCalled                           (* the backdrop and the close button *)
| MarkAsRead (notificationId : string)
| MarkAllAsRead.

Section Bell.
Context {S : Type} `{!StoreAdapter Doc S}.

(** [loadNotifications] *)
Definition loadNotifications (user : option User.t) (b : Bell) (st : S) : Bell * S :=
  match user with
  | None => (b, st)
  | Some u =>
      let '(st, userNotifications) := getUserNotifications (User.id u) st in
      let '(st, count) := getUnreadNotificationCount (User.id u) st in
      (mkBell (isOpen b) userNotifications count, st)
  end.

Definition bell_step (user : option User.t) (e : BellEvent) (b : Bell) (st : S) : Bell * S :=
  match e with
  | Refresh => loadNotifications user b st
  | ToggleOpen => (mkBell (negb (isOpen b)) (notifications b) (unreadCount b), st)
  | CloseCalled => (mkBell false (notifications b) (unreadCount b), st)
  | MarkAsRead nid =>
      let '(st, _) := markNotificationAsRead nid st in loadNotifications user b st
  | MarkAllAsRead =>
      match user with
      | Some u => let '(st, _) := markAllNotificationsAsRead (User.id u) st in loadNotifications user b st
      | None => (b, st)
      end
  end.

(** The bells and stores reachable from a freshly mounted bell. *)
Inductive bell_reach (user : option User.t) (st0 : S) : Bell → S → Prop :=
| bell_reach_init : bell_reach user st0 bell_init st0
| bell_reach_step b st e : bell_reach user st0 b st →
    bell_reach user st0 (bell_step user e b st).1 (bell_step user e b st).2.

(** A sequence of callbacks, in order. *)
Fixpoint bell_run (user : option User.t) (es : list BellEvent) (b : Bell) (st : S) : Bell * S :=
  match es with
  | [] => (b, st)
  | e :: es => bell_run user es (bell_step user e b st).1 (bell_step user e b st).2
  end.

Lemma bell_run_reach user st0 es b st : bell_reach user st0 b st →
  bell_reach user st0 (bell_run user es b st).1 (bell_run user es b st).2.
Proof. revert b st. induction es; intros b st H; simpl; [done|]. apply IHes. by constructor. Qed.

End Bell.

(** [{unreadCount > 9 ? '9+' : unreadCount}] *)
Definition badge_text (n : nat) : string := if (9 <? n)%nat then "9+" else pretty n.

Record BellItem := mkBellItem { item_id : string; item_title : string; item_message : string;
                                item_unread : bool; item_markButton : bool }.

Record BellView := mkBellView {
  badge : option string;
  markAllButton : bool;
  panel : option (list BellItem);
}.

Definition item_of (n : Notification.t) : BellItem :=
  mkBellItem (Notification.id n) (Notification.title n) (Notification.message n)
    (negb (Notification.read n)) (negb (Notification.read n)).

(** What the component renders: [null] for no user and for an
    administrator. *)
Definition bell_view (user : option User.t) (b : Bell) : option BellView :=
  match user with
  | None => None
  | Some u =>
      match User.role u with
      | User.role_admin => None
      | User.role_user =>
          Some (mkBellView
                  (if (0 <? unreadCount b)%nat then Some (badge_text (unreadCount b)) else None)
                  (bool_decide (0 < unreadCount b)%nat)
                  (if isOpen b then Some (map item_of (notifications b)) else None))
      end
  end.

(** The badge agrees with the list: it counts its unread items. *)
Definition bell_consistent (b : Bell) : Prop :=
  unreadCount b = length (filter (λ n, Notification.read n = false) (notifications b)).

(** ** The badge and the list *)

Section BellProofs.
Context {S : Type} `{!StoreAdapter Doc S} `{!StoreAdapterLaws Doc S}.

(** Reading a user's notifications twice in a row answers the same list
    on a readable store: the first read creates the outbox when it is
    missing, and otherwise writes nothing. *)
Lemma getUserNotifications_twice u (st : S) : sa_readable st →
  (getUserNotifications u (getUserNotifications u st).1).2 = (getUserNotifications u st).2.
Proof.
  intros Hr0. unfold getUserNotifications, initializeNotifications.
  op_branches; cbn [fst snd] in *;
    repeat match goal with H : context [sa_view (sa_set ?k ?v ?s).1] |- _ =>
      rewrite (sa_set_view k v s) in H end;
    repeat match goal with H : (sa_set _ _ _).2 = _ |- _ => rewrite H in *; clear H end;
    rewrite ?lookup_insert_eq, ?sa_log_view in *; simplify_eq/=;
    repeat match goal with H : sa_view ?s !! ?k = _ |- _ => rewrite H in *; clear H end;
    simplify_eq/=; done.
Qed.

Lemma loadNotifications_consistent user b (st : S) : sa_readable st → bell_consistent b →
  bell_consistent (loadNotifications user b st).1 ∧ sa_readable (loadNotifications user b st).2.
Proof.
  intros Hr Hb. destruct user as [u|]; simpl; [|by split].
  pose proof (getUserNotifications_twice (User.id u) st Hr) as Htwice.
  pose proof (run_op_readable (OpOutbox (OpList (User.id u))) st Hr) as Hr1. simpl in Hr1.
  destruct (getUserNotifications (User.id u) st) as [st1 l1] eqn:E1. simpl in *.
  pose proof (run_op_readable (OpOutbox (OpCount (User.id u))) st1 Hr1) as Hr2. simpl in Hr2.
  unfold getUnreadNotificationCount in *. destruct (getUserNotifications (User.id u) st1) as [st2 l2].
  simpl in *. subst l2. split; [done | exact Hr2].
Qed.

Lemma bell_step_consistent user e b (st : S) : sa_readable st → bell_consistent b →
  bell_consistent (bell_step user e b st).1 ∧ sa_readable (bell_step user e b st).2.
Proof.
  intros Hr Hb. destruct e as [| | |nid|]; simpl; [by apply loadNotifications_consistent | by split | by split | |].
  - pose proof (run_op_readable (OpOutbox (OpMarkRead nid)) st Hr) as Hr1. simpl in Hr1.
    destruct (markNotificationAsRead nid st) as [st1 ?]. by apply loadNotifications_consistent.
  - destruct user as [u|]; [|by split].
    pose proof (run_op_readable (OpOutbox (OpMarkAll (User.id u))) st Hr) as Hr1. simpl in Hr1.
    destruct (markAllNotificationsAsRead _ st) as [st1 ?]. by apply loadNotifications_consistent.
Qed.

(** C38. The badge agrees with the panel: in every state a mounted bell
    reaches on a readable store, through any interleaving of polls,
    toggles and mark-as-read clicks, [unreadCount] is the number of unread
    notifications in [notifications], although the two are loaded by two
    separate reads of the outbox. *)
Theorem bell_badge_consistent user (st0 : S) b st :
  sa_readable st0 → bell_reach user st0 b st → bell_consistent b.
Proof.
  intros Hr0 Hreach. cut (bell_consistent b ∧ sa_readable st); [by intros []|].
  induction Hreach as [|b st e _ [Hb Hr]]; [done|]. by apply bell_step_consistent.
Qed.

(** "Mark all read" clears the badge: when the outbox holds [ns] and
    the write of [markAllNotificationsAsRead] succeeds, the reloaded bell
    of a member has [unreadCount] 0, so it shows neither the badge nor
    the "Mark all read" button. *)
Theorem bell_markAll_clears u b (st : S) ns :
  sa_readable st → sa_view st !! NOTIFICATIONS = Some (DNotifications ns) →
  (sa_set NOTIFICATIONS (DNotifications (map (read_if_for (User.id u)) ns)) st).2 = true →
  User.role u = User.role_user →
  unreadCount (bell_step (Some u) MarkAllAsRead b st).1 = 0 ∧
  option_map (λ v, (badge v, markAllButton v)) (bell_view (Some u) (bell_step (Some u) MarkAllAsRead b st).1) =
    Some (None, false).
Proof.
  intros Hr Hv Hok Hrole. simpl. unfold markAllNotificationsAsRead. rewrite sa_get_readable, Hv by done. simpl.
  destruct (sa_set _ _ st) as [st1 ok] eqn:E. simpl in Hok. subst ok.
  pose proof (sa_set_eq_readable _ _ _ _ _ Hr E) as Hr1. apply sa_set_eq_view in E.
  assert (sa_view st1 !! NOTIFICATIONS = Some (DNotifications (map (read_if_for (User.id u)) ns))) as Hv1
    by (rewrite E; apply lookup_insert_eq).
  rewrite (getUserNotifications_readable _ st1 _ Hr1 Hv1), (getUnreadNotificationCount_readable _ st1 _ Hr1 Hv1).
  simpl. rewrite unread_after_read_all, Hrole. done.
Qed.

End BellProofs.

(** ** A bell on the browser's store *)

Definition member_1 : User.t := User.mk "user_1" "jo@b.com" "Jo Lee" User.role_user 10 0 "" "".

(** Mounted, polled, opened, one notification marked read. *)
Definition bell_demo : Bell * Store Doc :=
  bell_run (Some member_1) [Refresh; ToggleOpen; MarkAsRead (fresh_id "notification" ctx_notify)]
    bell_init store_three.

Lemma bell_demo_reach : bell_reach (Some member_1) store_three bell_demo.1 bell_demo.2.
Proof. apply bell_run_reach, bell_reach_init. Qed.

Lemma bell_badge_consistent_witness :
  bell_consistent bell_demo.1 ∧ unreadCount bell_demo.1 = 1%nat.
Proof.
  split; [apply (bell_badge_consistent (Some member_1) store_three _ bell_demo.2);
          [reflexivity | apply bell_demo_reach] | vm_compute; reflexivity].
Defined.

Lemma bell_markAll_clears_witness :
  unreadCount (bell_step (Some member_1) MarkAllAsRead bell_init store_three).1 = 0%nat ∧
  option_map (λ v, (badge v, markAllButton v))
    (bell_view (Some member_1) (bell_step (Some member_1) MarkAllAsRead bell_init store_three).1) =
    Some (None, false).
Proof.
  apply (bell_markAll_clears member_1 bell_init store_three outbox_three);
    [reflexivity | vm_compute; reflexivity | vm_compute; reflexivity | reflexivity].
Defined.

(** The badge of the demo before its click shows the two unread
    notifications of [user_1]. *)
Example bell_demo_badge :
  option_map badge (bell_view (Some member_1) (bell_step (Some member_1) Refresh bell_init store_three).1) =
    Some (Some "2").
Proof. vm_compute. reflexivity. Qed.
