(* ===== verification/Pages.v ===== *)
(** * The static pages ([pages/Landing.tsx], [pages/AboutUs.tsx])

    Both pages are presentation apart from two computations.  [Landing]
    calls [getUserStats()] while it renders and prints its counts with
    [Number.prototype.toLocaleString()]: the browser's locale decides the
    separators, and the model takes the English locales of the
    application's users (en-AU, en-US: a comma every three digits).
    [getUserStats] has no [try] block, so when the users or reports entry
    does not parse the exception escapes the render of the page.
    [AboutUs] draws one card per member of [teamMembers], keyed by e-mail,
    with the initials [member.name.split(' ').map(n => n[0]).join('')]:
    [n[0]] of an empty piece is [undefined], which [join] prints as the
    empty string.

    Both pages render the landing variant of [Header] ([Header.v]) above
    their content; the content (texts, figures and links, in document
    order) is modelled, the class names, icons, images and animation
    props are presentation and are not.  The lemmas on the content: every
    link of the landing page leads to one of five paths and three of them
    open the registration form; the contact button of [AboutUs] writes to
    the project leader, the first card. *)

From S2P Require Import Prelude JsString KVStore Clock DateParse Model Reports NumberFormat Session Header System.
From Stdlib Require Import Ascii.

Local Open Scope Z_scope.

(** ** [toLocaleString] on an integer *)

(** A comma after every third digit, counting from the units: the digits
    are given least significant first. *)
Fixpoint group_rev (l : list ascii) : list ascii :=
  match l with
  | a :: b :: c :: (_ :: _) as rest => a :: b :: c :: ","%char :: group_rev rest
  | _ => l
  end.

Definition group_thousands (s : string) : string :=
  String.string_of_list_ascii (rev (group_rev (rev (String.list_ascii_of_string s)))).

(** [n.toLocaleString()] for an integer [n]; [None] where [decimal_digits]
    is, never for an integer. *)
Definition toLocaleString (n : Z) : option string :=
  ds ← decimal_digits (Z.abs n);
  Some ((if n <? 0 then "-" else "") +:+ group_thousands ds).

(** ** [Landing] *)

(** The three figures of the statistics section. *)
Record LandingStats := mkLandingStats {
  members_text : string;
  reports_text : string;
  satisfaction_text : string;
}.

Definition stats_view (s : UserStats) : option LandingStats :=
  m ← toLocaleString (totalMembers s); r ← toLocaleString (totalReports s);
  Some (mkLandingStats (m +:+ "+") (r +:+ "+") (pretty (Z.to_N (satisfaction s)) +:+ "%")).

Section Landing.
Context {S : Type} `{!StoreAdapter Doc S}.

(** [const stats = getUserStats()] during the render: [Throw] is the
    exception escaping the render. *)
Definition Landing (st : S) : S * outcome (option LandingStats) :=
  match getUserStats st with
  | (st, Return s) => (st, Return (stats_view s))
  | (st, Throw) => (st, Throw)
  end.

End Landing.

(** ** The landing page's content *)

(** The hero: the badge, the title, the introduction and its two links
    (the first one reads [Join Community] on narrow screens). *)
Definition landing_hero_text : list string := [
  "Sydney's #1 Community Cleanup Platform"; "Together We Keep Sydney Beautiful";
  "Join thousands of community members reporting rubbish, earning rewards, and making a real difference in our city's cleanliness."].

Definition landing_hero_links : list link :=
  [("Join as Community Member", "/auth?tab=register"); ("Sign In", "/auth")].

(** The statistics section: each figure and its label. *)
Definition landing_stats_items (s : LandingStats) : list (string * string) :=
  [(members_text s, "Community Members"); (reports_text s, "Rubbish Reports"); (satisfaction_text s, "Satisfaction Rate")].

Definition landing_features : string * string * list (string * string) :=
  ("Powerful Features", "Everything you need to make a real impact in your community", [
    ("GPS Tracking", "Automatically detect your location or manually pin exact coordinates for precise reporting.");
    ("Eco-Points Rewards", "Earn points for every report and convert them to real AUD credits! Every 100 eco-points = $1 AUD.");
    ("Real-Time Analytics", "View heat maps and insights showing rubbish hotspots across Sydney in real-time.")]).

Definition landing_steps : string * string * list (string * string * string) :=
  ("How It Works", "Get started in three simple steps", [
    ("1", "Sign Up", "Create your free account in seconds and join our growing community of eco-warriors.");
    ("2", "Report Rubbish", "Spot rubbish? Take a photo, add location details, and submit your report instantly.");
    ("3", "Earn Rewards", "Collect eco-points, track your impact, and help make Sydney cleaner every day.")]).

Definition landing_cta : list string * link :=
  (["Ready to Make a Difference?"; "Join thousands of Sydney residents working together for a cleaner, greener future."],
   ("Get Started Today", "/auth?tab=register")).

(** The footer: the brand, its three columns of links, the copyright. *)
Definition landing_footer : list string * list (string * list link) * string :=
  (["Smart Rubbish"; "Making Sydney cleaner, one report at a time."], [
    ("Product", [("Features", "/auth"); ("Pricing", "/auth"); ("FAQ", "/auth")]);
    ("Company", [("About Us", "/about-us"); ("Contact", "/about-us"); ("Awareness", "/awareness")]);
    ("Legal", [("Privacy Policy", "/"); ("Terms of Service", "/"); ("Cookie Policy", "/")])],
   "© 2026 Smart Rubbish Detection System. All rights reserved.").

Record LandingPage := mkLandingPage {
  lp_header : HeaderView;
  lp_stats : list (string * string);
  lp_links : list link;
}.

(** The page under an [AuthProvider] in state [a], given the statistics:
    the landing header and the figures, and every link of the page in
    the order of the document. *)
Definition landing_view (a : Auth) (s : LandingStats) : LandingPage :=
  let h := Header VLanding a false in
  mkLandingPage h (landing_stats_items s)
    (view_links h ++ landing_hero_links ++ [landing_cta.2] ++ concat (map snd landing_footer.1.2)).

(** The render of [Landing] with its content. *)
Definition Landing_page (a : Auth) (st : Store Doc) : Store Doc * outcome (option LandingPage) :=
  match Landing st with
  | (st, Return s) => (st, Return (landing_view a <$> s))
  | (st, Throw) => (st, Throw)
  end.

(** ** [AboutUs] *)

Record TeamMember := mkTeamMember { member_name : string; member_email : string; member_role : string }.

Definition teamMembers : list TeamMember := [
  mkTeamMember "Nazmus Sakib" "s8116515@live.vu.edu.au" "Project Leader";
  mkTeamMember "Md Abudozana Niloy" "s8138202@live.vu.edu.au" "Full Stack Developer";
  mkTeamMember "Suvekshya Shrestha" "s8103527@live.vu.edu.au" "UI/UX Designer & Developer";
  mkTeamMember "Bisesta Shah" "s8103504@live.vu.edu.au" "Backend Developer"
].

(** [s.split(' ')]: the pieces between the spaces, empty ones included. *)
Fixpoint split_space (s : string) : list string :=
  match s with
  | EmptyString => [""]
  | String c s' =>
      if Ascii.eqb c " "%char then "" :: split_space s'
      else match split_space s' with
           | p :: ps => String c p :: ps
           | [] => [String c ""]
           end
  end.

(** [n[0]], printed by [join]: [undefined] prints as the empty string. *)
Definition first_char (s : string) : string :=
  match s with EmptyString => "" | String c _ => String c "" end.

Definition initials (name : string) : string := String.concat "" (map first_char (split_space name)).

(** A member's card: its React key, the avatar text, the name, the role
    and the [mailto:] link. *)
Record TeamCard := mkTeamCard {
  card_key : string;
  card_avatar : string;
  card_name : string;
  card_role : string;
  card_href : string;
}.

Definition card_of (m : TeamMember) : TeamCard :=
  mkTeamCard (member_email m) (initials (member_name m)) (member_name m) (member_role m)
    ("mailto:" +:+ member_email m).

Definition AboutUs_cards : list TeamCard := map card_of teamMembers.

(** The sections of [AboutUs] around the team grid. *)
Definition about_hero : list string :=
  ["About Our Team"; "Meet the passionate team behind Sydney's Smart Rubbish Detection System"].

Definition about_mission : list (string * string) := [
  ("Our Mission", "To create a cleaner, more sustainable Sydney through community engagement and innovative technology");
  ("Our Values", "Community-first approach, transparency, and environmental stewardship guide everything we do");
  ("Our Impact", "Empowering citizens to make a real difference in keeping Sydney beautiful for future generations")].

Definition about_team_intro : list string :=
  ["Meet Our Team"; "Dedicated developers working together to build innovative solutions for a cleaner Sydney"].

Definition about_project : string * list string * string :=
  ("About This Project", [
    "The Smart Rubbish Detection System is a comprehensive web application designed to empower Sydney residents to actively participate in keeping our city clean. Through innovative technology and community engagement, we're building a transparent and efficient platform for reporting and managing rubbish issues.";
    "Our system features real-time GPS detection, interactive heat maps showcasing rubbish hotspots across iconic Sydney locations, and a rewarding eco-points system that converts community efforts into real-world credits. With dual authentication for both community members and administrators, we ensure accountability and transparency at every step.";
    "Built with modern web technologies including React, TypeScript, and Leaflet maps, this platform demonstrates our commitment to creating sustainable, user-friendly solutions that make a real difference in our community. Every report submitted helps create a cleaner, greener Sydney for everyone."],
   "Technologies Used: React, TypeScript, Tailwind CSS, Leaflet Maps, React Router, Motion (Framer Motion), LocalStorage API").

(** The contact section: [mailto:${teamMembers[0].email}], which throws
    ([None]) when the list is empty. *)
Definition about_contact : list string * option link :=
  (["Get In Touch"; "Have questions or feedback about our platform? We'd love to hear from you!"],
   (λ m, ("Contact Team", "mailto:" +:+ member_email m)) <$> teamMembers !! 0%nat).

Record AboutPage := mkAboutPage {
  ap_header : HeaderView;
  ap_cards : list TeamCard;
  ap_contact : option link;
}.

Definition AboutUs (a : Auth) : AboutPage :=
  mkAboutPage (Header VLanding a false) AboutUs_cards about_contact.2.

Definition no_comma (c : ascii) : bool := negb (Ascii.eqb c ",").

(** A numeral with its group separators removed. *)
Definition ungroup (s : string) : string :=
  String.string_of_list_ascii (List.filter no_comma (String.list_ascii_of_string s)).

(** ** The separators *)

Lemma group_rev_step a b c d t :
  group_rev (a :: b :: c :: d :: t) = a :: b :: c :: ","%char :: group_rev (d :: t).
Proof. reflexivity. Qed.

Lemma group_rev_filter l : List.filter no_comma (group_rev l) = List.filter no_comma l.
Proof.
  remember (length l) as n eqn:En. revert l En.
  induction n as [n IH] using lt_wf_ind; intros l ->.
  destruct l as [|a [|b [|c [|d t]]]]; try reflexivity. rewrite group_rev_step.
  cbn [List.filter]. replace (no_comma ","%char) with false by reflexivity.
  rewrite (IH (length (d :: t))) by (simpl; lia). done.
Qed.

Lemma pad_no_comma k n : 0 <= n < 10 ^ Z.of_nat k →
  List.filter no_comma (String.list_ascii_of_string (pad k n)) = String.list_ascii_of_string (pad k n).
Proof.
  revert n. induction k as [|k IH]; intros n Hn; [done|].
  rewrite Nat2Z.inj_succ, Z.pow_succ_r in Hn by lia. pose proof (pow10_pos k).
  cbn [pad String.list_ascii_of_string List.filter].
  assert (0 <= n `div` 10 ^ Z.of_nat k <= 9) as Hd
    by (split; [apply Z.div_pos | apply Z.lt_succ_r, Z.div_lt_upper_bound]; lia).
  assert (no_comma (digit (n `div` 10 ^ Z.of_nat k)) = true) as ->.
  { unfold no_comma. destruct (Ascii.eqb_spec (digit (n `div` 10 ^ Z.of_nat k)) ","%char) as [E|]; [|done].
    pose proof (digit_value_digit _ Hd) as Hv. rewrite E in Hv. discriminate. }
  rewrite IH by (apply Z.mod_pos_bound; lia). done.
Qed.

(** Removing the separators of a grouped numeral gives the numeral. *)
Lemma ungroup_sign_group (neg : bool) k n : 0 <= n < 10 ^ Z.of_nat k →
  ungroup ((if neg then "-" else "") +:+ group_thousands (pad k n)) = (if neg then "-" else "") +:+ pad k n.
Proof.
  intros Hn. unfold ungroup, group_thousands.
  rewrite list_ascii_of_string_app, List.filter_app, String.list_ascii_of_string_of_list_ascii.
  rewrite List.filter_rev, group_rev_filter, List.filter_rev, rev_involutive, pad_no_comma by done.
  destruct neg; simpl; by rewrite String.string_of_list_ascii_of_string.
Qed.

(** ** Properties of the pages *)

(** [toLocaleString] on an integer answers, and its text with the
    separators removed reads back as the sign and the magnitude of the
    integer. *)
Theorem toLocaleString_roundtrip n :
  ∃ s, toLocaleString n = Some s ∧ parse_fixed 0 (ungroup s) = Some (n <? 0, Z.abs n).
Proof.
  destruct (decimal_digits_pad (Z.abs n)) as (k & Hd & Hk & Hlt & _); [lia|].
  unfold toLocaleString. rewrite Hd. eexists; split; [reflexivity|].
  rewrite ungroup_sign_group by lia.
  exact (parse_fixed_layout 0 (n <? 0) k (Z.abs n) Hk ltac:(lia)).
Qed.

Section LandingProofs.
Context {S : Type} `{!StoreAdapter Doc S} `{!StoreAdapterLaws Doc S}.

(** On a store holding both arrays the page shows the two lengths plus
    the demo base counts, grouped by thousands. *)
Lemma Landing_stats (st : S) users reports :
  sa_readable st → sa_view st !! USERS = Some (DUsers users) → sa_view st !! REPORTS = Some (DReports reports) →
  Landing st = (st, Return (stats_view (mkStats (Z.of_nat (length users) + 5000)
                                                (Z.of_nat (length reports) + 25000) 90))).
Proof.
  intros Hr Hu Hrep. unfold Landing, getUserStats.
  rewrite !sa_get_readable, Hu, Hrep by done. reflexivity.
Qed.

(** C36. The landing page does not render when the users entry holds text that
    is not JSON: [getUserStats] has no [try] block, and [JSON.parse] throws
    out of the render of [Landing]. *)
Theorem Landing_throws (st : S) t :
  sa_readable st → sa_view st !! USERS = Some (DText t) → t ≠ "" →
  falsy (sa_view st !! REPORTS) = false → (Landing st).2 = Throw.
Proof.
  intros Hr Hu Ht Hrep. unfold Landing, getUserStats.
  rewrite !sa_get_readable, Hu, Hrep by done. simpl.
  rewrite bool_decide_false by done. simpl.
  by destruct (sa_view st !! REPORTS) as [[]|].
Qed.

End LandingProofs.

(** ** The pages on the browser's store *)

Lemma Landing_throws_witness : (Landing store_corrupt_users).2 = Throw.
Proof. apply (Landing_throws store_corrupt_users "{"); [reflexivity | reflexivity | done | reflexivity]. Defined.

(** The page on the store with one account and one report: 5,001 members
    and 25,001 reports. *)
Example Landing_demo :
  Landing store_one_report =
    (store_one_report, Return (Some (mkLandingStats "5,001+" "25,001+" "90%"))).
Proof. vm_compute. reflexivity. Qed.

(** The cards of the team: one key per member, and the initials of the
    four names. *)
Example AboutUs_demo :
  NoDup (map card_key AboutUs_cards) ∧
  map card_avatar AboutUs_cards = ["NS"; "MAN"; "SS"; "BS"] ∧
  initials "a  b" = "ab" ∧ initials "" = "".
Proof. split_and!; [apply (bool_decide_unpack _); vm_compute | vm_compute..]; reflexivity. Qed.

(** ** The links of the two pages *)

Definition public_paths : list string := ["/"; "/auth"; "/auth?tab=register"; "/about-us"; "/awareness"].

(** Whatever the session and the figures, every link of the landing page
    leads to one of five paths, and the registration form is offered
    three times: by the header, the hero and the closing call to action. *)
Lemma Landing_page_links a s :
  Forall (λ l, l.2 ∈ public_paths) (lp_links (landing_view a s)) ∧
  length (List.filter (λ l, String.eqb l.2 "/auth?tab=register") (lp_links (landing_view a s))) = 3%nat.
Proof. split; [apply (bool_decide_unpack _)|]; vm_compute; reflexivity. Qed.

(** The contact button of [AboutUs] writes to the first member of the
    team, the project leader, at the address of that member's card. *)
Lemma AboutUs_contact a :
  ∃ c, head (ap_cards (AboutUs a)) = Some c ∧ ap_contact (AboutUs a) = Some ("Contact Team", card_href c) ∧
    card_role c = "Project Leader".
Proof. eexists. split_and!; reflexivity. Qed.

(** The landing page on the store with one account and one report, for a
    visitor. *)
Example Landing_page_demo :
  Landing_page (mkAuth None false []) store_one_report =
    (store_one_report, Return (Some (mkLandingPage (LandingBar landing_links)
      [("5,001+", "Community Members"); ("25,001+", "Rubbish Reports"); ("90%", "Satisfaction Rate")]
      (landing_links ++ landing_hero_links ++ [("Get Started Today", "/auth?tab=register")] ++
       [("Features", "/auth"); ("Pricing", "/auth"); ("FAQ", "/auth"); ("About Us", "/about-us");
        ("Contact", "/about-us"); ("Awareness", "/awareness"); ("Privacy Policy", "/");
        ("Terms of Service", "/"); ("Cookie Policy", "/")])))).
Proof. vm_compute. reflexivity. Qed.
